(** * Vine editor: text buffer, syntax highlighter, tab mapping and search.

    A shallow embedding of the core of [vine.c] (a fork of the Kilo editor)
    with the properties its specification states about it.

    Conventions of the embedding.
    - A C [char] is an [ascii]; a C string or a byte buffer is a [list ascii]
      that leaves the terminating NUL implicit (reading one past the end of
      the list yields NUL, exactly as reading [s[strlen s]] does in C).
    - The [int] fields of the C structs are [Z]; loop counters that the code
      keeps non-negative are [nat].  Row counts and line lengths are bounded
      by the size of the allocations that hold them, so no [int] arithmetic
      of the code overflows and the integers are left unbounded.
    - A pointer [erow *row] into the array [E.row] is the position of the row
      in the list [row E].
    - The global [struct editorConfig E] is passed and returned explicitly.
    - Functions whose C body can index the array of rows out of range, or
      whose recursion or loop is not structural, return a [result]:
      [OutOfBounds] for such an access, [OutOfFuel] when the fuel of the
      model runs out.  The properties show that neither happens on a
      well-formed buffer. *)

From Stdlib Require Import ZArith Ascii String Bool Arith Lia List.
Import ListNotations.

Local Open Scope Z_scope.

(** ** Results of partial computations *)

Inductive result (A : Type) : Type :=
| Ok (a : A)
| OutOfFuel
| OutOfBounds.

Arguments Ok {A} a.
Arguments OutOfFuel {A}.
Arguments OutOfBounds {A}.

Definition bind {A B : Type} (m : result A) (k : A -> result B) : result B :=
  match m with
  | Ok a => k a
  | OutOfFuel => OutOfFuel
  | OutOfBounds => OutOfBounds
  end.

Notation "x <- m ;; k" := (bind m (fun x => k))
  (at level 61, m at next level, right associativity).

(** ** Characters and C strings *)

Definition NUL : ascii := "000"%char.

Definition s2l (s : string) : list ascii := list_ascii_of_string s.

(** [char_of_int c] is the conversion of an [int] to a [char] done by the
    assignment [row->chars[at] = c]. *)
Definition char_of_int (c : Z) : ascii := ascii_of_N (Z.to_N (c mod 256)).

Definition code (c : ascii) : nat := nat_of_ascii c.

(** [strlen]: the number of characters before the first NUL. *)
Fixpoint strlen (s : list ascii) : nat :=
  match s with
  | [] => 0
  | c :: t => if Ascii.eqb c NUL then 0%nat else S (strlen t)
  end.

(** [strncmp_eq s1 s2 n] is [strncmp(s1, s2, n) == 0]: the first [n]
    characters agree, the comparison stopping early at a NUL common to both
    strings.  An exhausted list stands for the terminating NUL. *)
Fixpoint strncmp_eq (s1 s2 : list ascii) (n : nat) {struct n} : bool :=
  match n with
  | O => true
  | S n' =>
      match s1, s2 with
      | [], [] => true
      | [], c2 :: _ => Ascii.eqb NUL c2
      | c1 :: _, [] => Ascii.eqb c1 NUL
      | c1 :: t1, c2 :: t2 =>
          if Ascii.eqb c1 c2
          then (if Ascii.eqb c1 NUL then true else strncmp_eq t1 t2 n')
          else false
      end
  end.

(** [isspace] and [isdigit] in the "C" locale. *)
Definition isspace (c : ascii) : bool :=
  let n := code c in
  (n =? 32)%nat || ((9 <=? n)%nat && (n <=? 13)%nat).

Definition isdigit (c : ascii) : bool :=
  let n := code c in (48 <=? n)%nat && (n <=? 57)%nat.

(** The literal given to [strchr] in [is_separator].  The acute accent of
    the source is the two bytes 194 and 180. *)
Definition separator_chars : list ascii :=
  s2l ",.()+-/*^=@#~&%$`" ++ [ascii_of_nat 194; ascii_of_nat 180]
  ++ s2l "<>[]{}!\:|;?".

Definition is_separator (c : ascii) : bool :=
  isspace c || Ascii.eqb c NUL
  || existsb (Ascii.eqb c) separator_chars.

(** ** Data *)

Inductive editorHighlight : Type :=
| HL_NORMAL
| HL_COMMENT
| HL_MLCOMMENT
| HL_KEYWORD1
| HL_KEYWORD2
| HL_STRING
| HL_NUMBER
| HL_MATCH.

Definition editorHighlight_eqb (a b : editorHighlight) : bool :=
  match a, b with
  | HL_NORMAL, HL_NORMAL | HL_COMMENT, HL_COMMENT
  | HL_MLCOMMENT, HL_MLCOMMENT | HL_KEYWORD1, HL_KEYWORD1
  | HL_KEYWORD2, HL_KEYWORD2 | HL_STRING, HL_STRING
  | HL_NUMBER, HL_NUMBER | HL_MATCH, HL_MATCH => true
  | _, _ => false
  end.

Definition HL_HIGHLIGHT_NUMBERS : Z := Z.shiftl 1 0.
Definition HL_HIGHLIGHT_STRINGS : Z := Z.shiftl 1 1.

(** [struct editorSyntax].  The three comment markers are pointers that the
    code tests against NULL, hence options. *)
Record editorSyntax : Type := mkSyntax {
  filetype : list ascii;
  filematch : list (list ascii);
  keywords : list (list ascii);
  singleline_comment_start : option (list ascii);
  multiline_comment_start : option (list ascii);
  multiline_comment_end : option (list ascii);
  flags : Z
}.

(** [struct erow]. *)
Record erow : Type := mkRow {
  idx : Z;
  size : Z;
  rsize : Z;
  chars : list ascii;
  render : list ascii;
  hl : list editorHighlight;
  hl_open_comment : bool
}.

(** The fields of [struct editorConfig] that the buffer, the highlighter and
    the search use. *)
Record editorConfig : Type := mkConfig {
  cx : Z;
  cy : Z;
  rx : Z;
  rowoff : Z;
  coloff : Z;
  numrows : Z;
  row : list erow;
  dirty : Z;
  filename : option (list ascii);
  syntax : option editorSyntax;
  tab_stop : Z
}.

Definition set_rows (E : editorConfig) (rs : list erow) : editorConfig :=
  mkConfig (cx E) (cy E) (rx E) (rowoff E) (coloff E) (numrows E) rs
           (dirty E) (filename E) (syntax E) (tab_stop E).

Definition set_numrows (E : editorConfig) (n : Z) : editorConfig :=
  mkConfig (cx E) (cy E) (rx E) (rowoff E) (coloff E) n (row E)
           (dirty E) (filename E) (syntax E) (tab_stop E).

Definition set_dirty (E : editorConfig) (d : Z) : editorConfig :=
  mkConfig (cx E) (cy E) (rx E) (rowoff E) (coloff E) (numrows E) (row E)
           d (filename E) (syntax E) (tab_stop E).

Definition set_syntax (E : editorConfig) (s : option editorSyntax)
  : editorConfig :=
  mkConfig (cx E) (cy E) (rx E) (rowoff E) (coloff E) (numrows E) (row E)
           (dirty E) (filename E) s (tab_stop E).

Definition set_filename (E : editorConfig) (f : option (list ascii))
  : editorConfig :=
  mkConfig (cx E) (cy E) (rx E) (rowoff E) (coloff E) (numrows E) (row E)
           (dirty E) f (syntax E) (tab_stop E).

Definition set_cursor (E : editorConfig) (x y : Z) : editorConfig :=
  mkConfig x y (rx E) (rowoff E) (coloff E) (numrows E) (row E)
           (dirty E) (filename E) (syntax E) (tab_stop E).

Definition set_rowoff (E : editorConfig) (o : Z) : editorConfig :=
  mkConfig (cx E) (cy E) (rx E) o (coloff E) (numrows E) (row E)
           (dirty E) (filename E) (syntax E) (tab_stop E).

(** ** Array primitives *)

(** [memset(&l[i], v, n)] on an array held as a list.  A write past the end
    of the array shows as a change of length. *)
Definition memset {A : Type} (l : list A) (i n : nat) (v : A) : list A :=
  firstn i l ++ repeat v n ++ skipn (i + n) l.

(** [l[i] = v]. *)
Definition store {A : Type} (l : list A) (i : nat) (v : A) : list A :=
  memset l i 1 v.

(** [memcpy(dst, src, n)]. *)
Definition memcpy {A : Type} (dst src : list A) (n : nat) : list A :=
  firstn n src ++ skipn n dst.

(** [for (j = lo; j < lo + n; j++) l[j] = f(l[j])]. *)
Definition update_range {A : Type} (f : A -> A) (l : list A) (lo n : nat)
  : list A :=
  firstn lo l ++ map f (firstn n (skipn lo l)) ++ skipn (lo + n) l.

(** [E.row[p] = r]. *)
Definition put_row (E : editorConfig) (p : nat) (r : erow) : editorConfig :=
  set_rows E (store (row E) p r).

Definition get_row (E : editorConfig) (p : nat) : result erow :=
  match nth_error (row E) p with
  | Some r => Ok r
  | None => OutOfBounds
  end.

(** ** The highlighter: [editorUpdateSyntax] *)

(** The local variables of the scan loop of [editorUpdateSyntax], with the
    highlight array of the row. *)
Record scan_state : Type := mkScan {
  sc_i : nat;
  sc_prev_sep : bool;
  sc_in_string : ascii;
  sc_in_comment : bool;
  sc_hl : list editorHighlight
}.

(** The outcome of one run of the loop body: [continue] (or falling off the
    end of the body) or [break]. *)
Inductive loop_exit : Type :=
| Continue (s : scan_state)
| Break (s : scan_state).

Definition opt_strlen (s : option (list ascii)) : nat :=
  match s with
  | Some p => strlen p
  | None => 0%nat
  end.

Definition opt_str (s : option (list ascii)) : list ascii :=
  match s with
  | Some p => p
  | None => []
  end.

Definition in_str (st : scan_state) : bool :=
  negb (Ascii.eqb (sc_in_string st) NUL).

(** [if (scs_len && !in_string && !in_comment) if (!strncmp(...)) { memset; break; }] *)
Definition scan_scs (syn : editorSyntax) (rd : list ascii) (rsz : nat)
  (st : scan_state) : option loop_exit :=
  let scs := singleline_comment_start syn in
  if negb (opt_strlen scs =? 0)%nat && negb (in_str st)
     && negb (sc_in_comment st)
     && strncmp_eq (skipn (sc_i st) rd) (opt_str scs) (opt_strlen scs)
  then Some (Break (mkScan (sc_i st) (sc_prev_sep st) (sc_in_string st)
                      (sc_in_comment st)
                      (memset (sc_hl st) (sc_i st) (rsz - sc_i st) HL_COMMENT)))
  else None.

(** [if (mcs_len && mce_len && !in_string) { ... }] *)
Definition scan_mlcomment (syn : editorSyntax) (rd : list ascii)
  (st : scan_state) : option loop_exit :=
  let mcs := multiline_comment_start syn in
  let mce := multiline_comment_end syn in
  let i := sc_i st in
  if negb (opt_strlen mcs =? 0)%nat && negb (opt_strlen mce =? 0)%nat
     && negb (in_str st)
  then
    if sc_in_comment st then
      let hl1 := store (sc_hl st) i HL_MLCOMMENT in
      if strncmp_eq (skipn i rd) (opt_str mce) (opt_strlen mce)
      then Some (Continue (mkScan (i + opt_strlen mce) true (sc_in_string st)
                             false
                             (memset hl1 i (opt_strlen mce) HL_MLCOMMENT)))
      else Some (Continue (mkScan (i + 1) (sc_prev_sep st) (sc_in_string st)
                             (sc_in_comment st) hl1))
    else if strncmp_eq (skipn i rd) (opt_str mcs) (opt_strlen mcs)
    then Some (Continue (mkScan (i + opt_strlen mcs) (sc_prev_sep st)
                           (sc_in_string st) true
                           (memset (sc_hl st) i (opt_strlen mcs) HL_MLCOMMENT)))
    else None
  else None.

Definition quote : ascii := ascii_of_nat 34.
Definition apostrophe : ascii := "'"%char.
Definition backslash : ascii := "\"%char.

(** [if (E.syntax->flags & HL_HIGHLIGHT_STRINGS) { ... }] *)
Definition scan_string (syn : editorSyntax) (rd : list ascii) (rsz : nat)
  (st : scan_state) : option loop_exit :=
  let i := sc_i st in
  let c := nth i rd NUL in
  if negb (Z.land (flags syn) HL_HIGHLIGHT_STRINGS =? 0) then
    if in_str st then
      let hl1 := store (sc_hl st) i HL_STRING in
      if Ascii.eqb c backslash && (i + 1 <? rsz)%nat
      then Some (Continue (mkScan (i + 2) (sc_prev_sep st) (sc_in_string st)
                             (sc_in_comment st)
                             (store hl1 (i + 1) HL_STRING)))
      else Some (Continue (mkScan (i + 1) true
                             (if Ascii.eqb c (sc_in_string st) then NUL
                              else sc_in_string st)
                             (sc_in_comment st) hl1))
    else if Ascii.eqb c quote || Ascii.eqb c apostrophe
    then Some (Continue (mkScan (i + 1) (sc_prev_sep st) c (sc_in_comment st)
                           (store (sc_hl st) i HL_STRING)))
    else None
  else None.

Definition is_hex_cont (c : ascii) : bool :=
  existsb (Ascii.eqb c) (s2l ".xabcdef").

(** [if (E.syntax->flags & HL_HIGHLIGHT_NUMBERS) { ... }] *)
Definition scan_number (syn : editorSyntax) (rd : list ascii)
  (st : scan_state) : option loop_exit :=
  let i := sc_i st in
  let c := nth i rd NUL in
  let prev_hl := if (0 <? i)%nat then nth (i - 1) (sc_hl st) HL_NORMAL
                 else HL_NORMAL in
  if negb (Z.land (flags syn) HL_HIGHLIGHT_NUMBERS =? 0)
     && ((isdigit c
          && (sc_prev_sep st || editorHighlight_eqb prev_hl HL_NUMBER))
         || (is_hex_cont c && editorHighlight_eqb prev_hl HL_NUMBER))
  then Some (Continue (mkScan (i + 1) false (sc_in_string st)
                         (sc_in_comment st) (store (sc_hl st) i HL_NUMBER)))
  else None.

(** The length and class of a keyword: [klen] without the trailing ['|'],
    and [kw2] telling whether the ['|'] was there.  (For an empty keyword the
    code reads [keywords[j][-1]]; here [kw2] is then false.) *)
Definition kw_is_secondary (kw : list ascii) : bool :=
  (0 <? strlen kw)%nat && Ascii.eqb (nth (strlen kw - 1) kw NUL) "|"%char.

Definition kw_len (kw : list ascii) : nat :=
  if kw_is_secondary kw then (strlen kw - 1)%nat else strlen kw.

Definition kw_class (kw : list ascii) : editorHighlight :=
  if kw_is_secondary kw then HL_KEYWORD2 else HL_KEYWORD1.

(** The test of the [for (j = 0; keywords[j]; j++)] loop on one keyword. *)
Definition kw_matches (rd : list ascii) (i : nat) (kw : list ascii) : bool :=
  strncmp_eq (skipn i rd) kw (kw_len kw)
  && is_separator (nth (i + kw_len kw) rd NUL).

(** The keyword loop: the keyword at which it breaks, if any. *)
Fixpoint find_keyword (rd : list ascii) (i : nat) (kws : list (list ascii))
  : option (list ascii) :=
  match kws with
  | [] => None
  | kw :: rest =>
      if kw_matches rd i kw then Some kw else find_keyword rd i rest
  end.

(** [if (prev_sep) { for ... ; if (keywords[j] != NULL) { prev_sep = 0; continue; } }] *)
Definition scan_keyword (syn : editorSyntax) (rd : list ascii)
  (st : scan_state) : option loop_exit :=
  let i := sc_i st in
  if sc_prev_sep st then
    match find_keyword rd i (keywords syn) with
    | Some kw =>
        Some (Continue (mkScan (i + kw_len kw) false (sc_in_string st)
                          (sc_in_comment st)
                          (memset (sc_hl st) i (kw_len kw) (kw_class kw))))
    | None => None
    end
  else None.

(** [prev_sep = is_separator(c); i++;] *)
Definition scan_default (rd : list ascii) (st : scan_state) : loop_exit :=
  let i := sc_i st in
  Continue (mkScan (i + 1) (is_separator (nth i rd NUL)) (sc_in_string st)
              (sc_in_comment st) (sc_hl st)).

(** The body of [while (i < row->rsize)], the checks in their order. *)
Definition scan_body (syn : editorSyntax) (rd : list ascii) (rsz : nat)
  (st : scan_state) : loop_exit :=
  match scan_scs syn rd rsz st with
  | Some e => e
  | None =>
  match scan_mlcomment syn rd st with
  | Some e => e
  | None =>
  match scan_string syn rd rsz st with
  | Some e => e
  | None =>
  match scan_number syn rd st with
  | Some e => e
  | None =>
  match scan_keyword syn rd st with
  | Some e => e
  | None => scan_default rd st
  end end end end end.

(** The loop.  [None] when the fuel runs out. *)
Fixpoint scan_loop (fuel : nat) (syn : editorSyntax) (rd : list ascii)
  (rsz : nat) (st : scan_state) : option scan_state :=
  if (sc_i st <? rsz)%nat then
    match fuel with
    | O => None
    | S fuel' =>
        match scan_body syn rd rsz st with
        | Continue st' => scan_loop fuel' syn rd rsz st'
        | Break st' => Some st'
        end
    end
  else Some st.

(** Every run of the body either advances [i] or clears [prev_sep], so
    [2 * rsize + 1] runs are enough (see [scan_loop_terminates]). *)
Definition scan_fuel (rsz : nat) : nat := (2 * rsz + 1)%nat.

(** The scan of one row: from the render string, its size and the carried-in
    comment flag, the highlight array and the carried-out flag. *)
Definition scan_row (syn : editorSyntax) (rd : list ascii) (rsz : nat)
  (in_comment : bool) : option (list editorHighlight * bool) :=
  match scan_loop (scan_fuel rsz) syn rd rsz
          (mkScan 0 true NUL in_comment (repeat HL_NORMAL rsz)) with
  | Some st => Some (sc_hl st, sc_in_comment st)
  | None => None
  end.

Definition set_hl (r : erow) (h : list editorHighlight) (oc : bool) : erow :=
  mkRow (idx r) (size r) (rsize r) (chars r) (render r) h oc.

(** [int in_comment = (row->idx > 0 && E.row[row->idx - 1].hl_open_comment);] *)
Definition carried_in (E : editorConfig) (r : erow) : result bool :=
  if 0 <? idx r then
    prev <- get_row E (Z.to_nat (idx r - 1)) ;;
    Ok (hl_open_comment prev)
  else Ok false.

(** The recompute of the single row at position [p], without the recursive
    call: the new state, and whether the carried-out flag changed. *)
Definition update_one (E : editorConfig) (p : nat)
  : result (editorConfig * bool) :=
  r <- get_row E p ;;
  match syntax E with
  | None =>
      Ok (put_row E p (set_hl r (repeat HL_NORMAL (Z.to_nat (rsize r)))
                         (hl_open_comment r)), false)
  | Some syn =>
      ic <- carried_in E r ;;
      match scan_row syn (render r) (Z.to_nat (rsize r)) ic with
      | None => OutOfFuel
      | Some (h, oc) =>
          Ok (put_row E p (set_hl r h oc),
              negb (Bool.eqb (hl_open_comment r) oc))
      end
  end.

(** [editorUpdateSyntax(&E.row[p])].  The recursive call is on
    [&E.row[row->idx + 1]], guarded by [row->idx + 1 < E.numrows]. *)
Fixpoint editorUpdateSyntax_fuel (fuel : nat) (E : editorConfig) (p : nat)
  : result editorConfig :=
  match fuel with
  | O => OutOfFuel
  | S fuel' =>
      r <- get_row E p ;;
      u <- update_one E p ;;
      if snd u && (idx r + 1 <? numrows E)
      then editorUpdateSyntax_fuel fuel' (fst u) (Z.to_nat (idx r + 1))
      else Ok (fst u)
  end.

(** One call for each row of the array is enough when every row's [idx] is
    its position (see [editorUpdateSyntax_total]). *)
Definition editorUpdateSyntax (E : editorConfig) (p : nat)
  : result editorConfig :=
  editorUpdateSyntax_fuel (S (length (row E))) E p.

(** ** Row operations *)

Definition TAB : ascii := ascii_of_nat 9.
Definition SPACE : ascii := " "%char.
Definition LF : ascii := ascii_of_nat 10.
Definition CR : ascii := ascii_of_nat 13.

(** One run of the body shared by the loops of [editorRowCxToRx] and
    [editorRowRxToCx]: the width after the character [c], from the width
    [w] before it.  The C [%] is [Z.rem]. *)
Definition advance (ts : Z) (c : ascii) (w : Z) : Z :=
  (if Ascii.eqb c TAB then w + ((ts - 1) - Z.rem w ts) else w) + 1.

(** [for (j = 0; j < cx; j++)], with [n] runs left. *)
Fixpoint cx_to_rx_loop (n : nat) (ts : Z) (cs : list ascii) (j : nat) (w : Z)
  : Z :=
  match n with
  | O => w
  | S n' => cx_to_rx_loop n' ts cs (S j) (advance ts (nth j cs NUL) w)
  end.

Definition editorRowCxToRx (E : editorConfig) (r : erow) (cx : Z) : Z :=
  cx_to_rx_loop (Z.to_nat cx) (tab_stop E) (chars r) 0 0.

(** [for (cx = 0; cx < row->size; cx++)], with [n] runs left. *)
Fixpoint rx_to_cx_loop (n : nat) (ts : Z) (cs : list ascii) (rx : Z)
  (cx : nat) (cur_rx : Z) : Z :=
  match n with
  | O => Z.of_nat cx
  | S n' =>
      let cur := advance ts (nth cx cs NUL) cur_rx in
      if cur >? rx then Z.of_nat cx
      else rx_to_cx_loop n' ts cs rx (S cx) cur
  end.

Definition editorRowRxToCx (E : editorConfig) (r : erow) (rx : Z) : Z :=
  rx_to_cx_loop (Z.to_nat (size r)) (tab_stop E) (chars r) rx 0 0.

(** [while (idx % E.tab_stop != 0) row->render[idx++] = ' ';] where [idx]
    is the length of the output so far. *)
Fixpoint pad_tab (fuel : nat) (ts : Z) (out : list ascii)
  : result (list ascii) :=
  if Z.rem (Z.of_nat (length out)) ts =? 0 then Ok out
  else match fuel with
       | O => OutOfFuel
       | S fuel' => pad_tab fuel' ts (out ++ [SPACE])
       end.

(** The second loop of [editorUpdateRow], over the characters still to
    render. *)
Fixpoint render_loop (ts : Z) (cs : list ascii) (out : list ascii)
  : result (list ascii) :=
  match cs with
  | [] => Ok out
  | c :: t =>
      if Ascii.eqb c TAB
      then out1 <- pad_tab (Z.to_nat ts) ts (out ++ [SPACE]) ;;
           render_loop ts t out1
      else render_loop ts t (out ++ [c])
  end.

Definition set_render (r : erow) (rd : list ascii) : erow :=
  mkRow (idx r) (size r) (Z.of_nat (length rd)) (chars r) rd (hl r)
        (hl_open_comment r).

(** [editorUpdateRow(&E.row[p])]. *)
Definition editorUpdateRow (E : editorConfig) (p : nat)
  : result editorConfig :=
  r <- get_row E p ;;
  rd <- render_loop (tab_stop E) (firstn (Z.to_nat (size r)) (chars r)) [] ;;
  editorUpdateSyntax (put_row E p (set_render r rd)) p.

Definition shift_idx (d : Z) (r : erow) : erow :=
  mkRow (idx r + d) (size r) (rsize r) (chars r) (render r) (hl r)
        (hl_open_comment r).

(** [editorInsertRow(at, s, len)].  The slot opened by [memmove] has every
    one of its fields assigned, so it is filled at once; the rows after it
    are renumbered by the loop [for (j = at + 1; j <= E.numrows; j++)].
    [editorUpdateRow] runs before [E.numrows++]. *)
Definition editorInsertRow (at_ : Z) (s : list ascii) (len : Z)
  (E : editorConfig) : result editorConfig :=
  if (at_ <? 0) || (at_ >? numrows E) then Ok E
  else
    let a := Z.to_nat at_ in
    let fresh := mkRow at_ len 0 (firstn (Z.to_nat len) s) [] [] false in
    let moved := firstn a (row E) ++ fresh :: skipn a (row E) in
    let renum := update_range (shift_idx 1) moved (a + 1)
                   (Z.to_nat (numrows E - at_)) in
    E1 <- editorUpdateRow (set_rows E renum) a ;;
    Ok (set_dirty (set_numrows E1 (numrows E1 + 1)) (dirty E1 + 1)).

(** [editorDelRow(at)]. *)
Definition editorDelRow (at_ : Z) (E : editorConfig) : editorConfig :=
  if (at_ <? 0) || (at_ >=? numrows E) then E
  else
    let a := Z.to_nat at_ in
    let moved := firstn a (row E) ++ skipn (a + 1) (row E) in
    let renum := update_range (shift_idx (-1)) moved a
                   (Z.to_nat (numrows E - 1 - at_)) in
    set_dirty (set_numrows (set_rows E renum) (numrows E - 1)) (dirty E + 1).

Definition set_chars (r : erow) (cs : list ascii) (sz : Z) : erow :=
  mkRow (idx r) sz (rsize r) cs (render r) (hl r) (hl_open_comment r).

(** [editorRowInsertChar(&E.row[p], at, c)]. *)
Definition editorRowInsertChar (p : nat) (at_ : Z) (c : Z) (E : editorConfig)
  : result editorConfig :=
  r <- get_row E p ;;
  let at1 := if (at_ <? 0) || (at_ >? size r) then size r else at_ in
  let a := Z.to_nat at1 in
  let cs := firstn a (chars r) ++ char_of_int c :: skipn a (chars r) in
  E1 <- editorUpdateRow (put_row E p (set_chars r cs (size r + 1))) p ;;
  Ok (set_dirty E1 (dirty E1 + 1)).

(** [editorRowAppendString(&E.row[p], s, len)]. *)
Definition editorRowAppendString (p : nat) (s : list ascii) (len : Z)
  (E : editorConfig) : result editorConfig :=
  r <- get_row E p ;;
  let cs := firstn (Z.to_nat (size r)) (chars r) ++ firstn (Z.to_nat len) s in
  E1 <- editorUpdateRow (put_row E p (set_chars r cs (size r + len))) p ;;
  Ok (set_dirty E1 (dirty E1 + 1)).

(** [editorRowDelChar(&E.row[p], at)]. *)
Definition editorRowDelChar (p : nat) (at_ : Z) (E : editorConfig)
  : result editorConfig :=
  r <- get_row E p ;;
  if (at_ <? 0) || (at_ >=? size r) then Ok E
  else
    let a := Z.to_nat at_ in
    let cs := firstn a (chars r) ++ skipn (a + 1) (chars r) in
    E1 <- editorUpdateRow (put_row E p (set_chars r cs (size r - 1))) p ;;
    Ok (set_dirty E1 (dirty E1 + 1)).

(** ** Editor operations *)

(** [editorInsertChar(c)]. *)
Definition editorInsertChar (c : Z) (E : editorConfig)
  : result editorConfig :=
  E1 <- (if cy E =? numrows E then editorInsertRow (numrows E) [] 0 E
         else Ok E) ;;
  E2 <- editorRowInsertChar (Z.to_nat (cy E1)) (cx E1) c E1 ;;
  Ok (set_cursor E2 (cx E2 + 1) (cy E2)).

(** [editorInsertNewline()]. *)
Definition editorInsertNewline (E : editorConfig) : result editorConfig :=
  E2 <- (if cx E =? 0 then editorInsertRow (cy E) [] 0 E
         else
           r <- get_row E (Z.to_nat (cy E)) ;;
           E1 <- editorInsertRow (cy E + 1)
                   (skipn (Z.to_nat (cx E)) (chars r)) (size r - cx E) E ;;
           r1 <- get_row E1 (Z.to_nat (cy E1)) ;;
           editorUpdateRow
             (put_row E1 (Z.to_nat (cy E1))
                (set_chars r1 (firstn (Z.to_nat (cx E1)) (chars r1)) (cx E1)))
             (Z.to_nat (cy E1))) ;;
  Ok (set_cursor E2 0 (cy E2 + 1)).

(** [editorDelChar()]. *)
Definition editorDelChar (E : editorConfig) : result editorConfig :=
  if (cy E =? numrows E) || ((cx E =? 0) && (cy E =? 0)) then Ok E
  else
    r <- get_row E (Z.to_nat (cy E)) ;;
    if cx E >? 0 then
      E1 <- editorRowDelChar (Z.to_nat (cy E)) (cx E - 1) E ;;
      Ok (set_cursor E1 (cx E1 - 1) (cy E1))
    else
      prev <- get_row E (Z.to_nat (cy E - 1)) ;;
      let E0 := set_cursor E (size prev) (cy E) in
      E1 <- editorRowAppendString (Z.to_nat (cy E0 - 1)) (chars r) (size r)
              E0 ;;
      let E2 := editorDelRow (cy E1) E1 in
      Ok (set_cursor E2 (cx E2) (cy E2 - 1)).

(** ** The syntax registry: [HLDB] *)

Definition C_HL_extensions : list (list ascii) :=
  map s2l [".c"; ".h"; ".cpp"; ".hpp"; ".cc"; ".hh"; ".cxx"; ".hxx"]%string.

Definition C_HL_keywords : list (list ascii) :=
  map s2l ["auto"; "break"; "case"; "const"; "continue"; "default"; "do";
    "else"; "enum"; "extern"; "for"; "goto"; "if"; "register"; "return";
    "sizeof"; "static"; "struct"; "switch"; "typedef"; "union"; "volatile";
    "while"; "__asm__"; "NULL"; "alignas"; "alignof"; "and"; "and_eq"; "asm";
    "bitand"; "bitor"; "class"; "compl"; "constexpr"; "const_cast";
    "deltype"; "delete"; "dynamic_cast"; "explicit"; "export"; "false";
    "friend"; "inline"; "mutable"; "using"; "namespace"; "new"; "noexcept";
    "not"; "not_eq"; "nullptr"; "operator"; "or"; "or_eq"; "private";
    "protected"; "public"; "reinterpret_cast"; "static_assert";
    "static_cast"; "template"; "this"; "thread_local"; "throw"; "true";
    "try"; "typeid"; "typename"; "virtual"; "xor"; "xor_eq"; "#define";
    "#include"; "#if"; "ifdef"; "#ifndef"; "#endif"; "#error"; "#warning";
    "#pragma"; "int|"; "long|"; "double|"; "float|"; "char|"; "unsigned|";
    "signed|"; "void|"; "short|"; "auto|"; "bool|"]%string.

Definition GO_HL_extensions : list (list ascii) :=
  map s2l [".go"]%string.

Definition GO_HL_keywords : list (list ascii) :=
  map s2l ["if"; "else"; "switch"; "case"; "func"; "then"; "for"; "var";
    "type"; "interface"; "const"; "range"; "return"; "struct"; "default";
    "iota"; "nil"; "package"; "import"; "map"; "break"; "continue"; "int|";
    "int8|"; "int16|"; "int32|"; "int64|"; "uint|"; "uint8|"; "uint16|";
    "uint32|"; "uint64|"; "float32|"; "float64|"; "byte|"; "rune|"; "bool|";
    "string|"; "complex64|"; "complex128|"; "any|"; "error|"; "comparable|"]%string.

Definition PY_HL_extensions : list (list ascii) :=
  map s2l [".py"; "pyi"; ".xpy"; "pyx"; ".pyw"; ".ipynb"]%string.

Definition PY_HL_keywords : list (list ascii) :=
  map s2l ["and"; "as"; "assert"; "break"; "class"; "continue"; "def"; "del";
    "elif"; "else"; "except"; "exec"; "finally"; "for"; "from"; "global";
    "if"; "import"; "in"; "is"; "lambda"; "not"; "or"; "pass"; "print";
    "raise"; "return"; "try"; "while"; "with"; "yield"; "async"; "await";
    "nonlocal"; "range"; "xrange"; "reduce"; "map"; "filter"; "all"; "any";
    "sum"; "dir"; "abs"; "breakpoint"; "compile"; "delattr"; "divmod";
    "format"; "eval"; "getattr"; "hasattr"; "hash"; "help"; "id"; "input";
    "isinstance"; "issubclass"; "len"; "locals"; "max"; "min"; "next";
    "open"; "pow"; "repr"; "reversed"; "round"; "setattr"; "slice"; "sorted";
    "super"; "vars"; "zip"; "__import__"; "reload"; "raw_input"; "execfile";
    "file"; "cmp"; "basestring"; "buffer|"; "bytearray|"; "bytes|";
    "complex|"; "float|"; "frozenset|"; "int|"; "list|"; "long|"; "None|";
    "set|"; "str|"; "chr|"; "tuple|"; "bool|"; "False|"; "True|"; "type|";
    "unicode|"; "dict|"; "ascii|"; "bin|"; "callable|"; "classmethod|";
    "enumerate|"; "hex|"; "oct|"; "ord|"; "iter|"; "memoryview|"; "object|";
    "property|"; "staticmethod|"; "unichr|"]%string.

Definition RUST_HL_extensions : list (list ascii) :=
  map s2l [".rs"]%string.

Definition RUST_HL_keywords : list (list ascii) :=
  map s2l ["as"; "async"; "await"; "const"; "crate"; "dyn"; "enum"; "extern";
    "fn"; "impl"; "let"; "mod"; "move"; "mut"; "pub"; "ref"; "Self";
    "static"; "struct"; "super"; "trait"; "type"; "union"; "unsafe"; "use";
    "where"; "break"; "continue"; "else"; "for"; "if"; "in"; "loop"; "match";
    "return"; "while"; "i8|"; "i16|"; "i32|"; "i64|"; "i128|"; "isize|";
    "u8|"; "u16|"; "u32|"; "u64|"; "u128|"; "usize|"; "f32|"; "f64|";
    "bool|"; "char|"; "Box|"; "Option|"; "Some|"; "None|"; "Result|"; "Ok|";
    "Err|"; "String|"; "Vec|"; "let|"; "const|"; "mod|"; "struct|"; "enum|";
    "trait|"; "union|"; "self|"; "true|"; "false|"]%string.

Definition triple_quote : list ascii := [quote; quote; quote].

Definition HLDB : list editorSyntax :=
  [ mkSyntax (s2l "C/C++") C_HL_extensions C_HL_keywords
      (Some (s2l "//")) (Some (s2l "/*")) (Some (s2l "*/"))
      (Z.lor HL_HIGHLIGHT_NUMBERS HL_HIGHLIGHT_STRINGS);
    mkSyntax (s2l "Golang") GO_HL_extensions GO_HL_keywords
      (Some (s2l "//")) (Some (s2l "/*")) (Some (s2l "*/"))
      (Z.lor HL_HIGHLIGHT_NUMBERS HL_HIGHLIGHT_STRINGS);
    mkSyntax (s2l "Python") PY_HL_extensions PY_HL_keywords
      (Some (s2l "#")) (Some triple_quote) (Some triple_quote)
      (Z.lor HL_HIGHLIGHT_NUMBERS HL_HIGHLIGHT_STRINGS);
    mkSyntax (s2l "Rust") RUST_HL_extensions RUST_HL_keywords
      (Some (s2l "//")) (Some (s2l "/*")) (Some (s2l "*/"))
      (Z.lor HL_HIGHLIGHT_NUMBERS HL_HIGHLIGHT_STRINGS) ].

(** ** Syntax selection: [editorSelectSyntaxHighlight] *)

(** The characters of a C string: those before its first NUL. *)
Definition c_str (s : list ascii) : list ascii := firstn (strlen s) s.

Fixpoint list_eqb (a b : list ascii) : bool :=
  match a, b with
  | [], [] => true
  | x :: a', y :: b' => Ascii.eqb x y && list_eqb a' b'
  | _, _ => false
  end.

(** [strcmp(a, b) == 0]. *)
Definition strcmp_eq (a b : list ascii) : bool :=
  list_eqb (c_str a) (c_str b).

Fixpoint is_prefix (n h : list ascii) : bool :=
  match n, h with
  | [], _ => true
  | x :: n', y :: h' => Ascii.eqb x y && is_prefix n' h'
  | _ :: _, [] => false
  end.

(** The offset of the first occurrence of [n] in [h]. *)
Fixpoint find_sub (n h : list ascii) : option nat :=
  if is_prefix n h then Some 0%nat
  else match h with
       | [] => None
       | _ :: h' => option_map S (find_sub n h')
       end.

(** [strstr(h, n)], as the offset of the match from [h]. *)
Definition strstr (h n : list ascii) : option nat :=
  find_sub (c_str n) (c_str h).

(** [strrchr(s, c)] for a [c] other than NUL: the part of the string from
    the last [c] on. *)
Fixpoint strrchr_from (s : list ascii) (c : ascii) : option (list ascii) :=
  match s with
  | [] => None
  | x :: t =>
      match strrchr_from t c with
      | Some r => Some r
      | None => if Ascii.eqb x c then Some (x :: t) else None
      end
  end.

Definition strrchr (s : list ascii) (c : ascii) : option (list ascii) :=
  strrchr_from (c_str s) c.

Definition DOT : ascii := "."%char.

(** The test of one [filematch] pattern: [is_ext] when the pattern starts
    with a dot, and then the pattern is compared with [ext]; otherwise it is
    searched in the file name. *)
Definition pattern_matches (fname : list ascii) (ext : option (list ascii))
  (pat : list ascii) : bool :=
  let is_ext := Ascii.eqb (nth 0 pat NUL) DOT in
  (is_ext && match ext with
             | Some e => strcmp_eq e pat
             | None => false
             end)
  || (negb is_ext && match strstr fname pat with
                     | Some _ => true
                     | None => false
                     end).

(** The two nested loops over the registry up to the first match. *)
Fixpoint select_syntax (db : list editorSyntax) (fname : list ascii)
  : option editorSyntax :=
  match db with
  | [] => None
  | s :: rest =>
      if existsb (pattern_matches fname (strrchr fname DOT)) (filematch s)
      then Some s
      else select_syntax rest fname
  end.

(** [for (filerow = 0; filerow < E.numrows; filerow++) editorUpdateSyntax(&E.row[filerow]);]
    with [n] rows still to do. *)
Fixpoint update_all (n : nat) (filerow : nat) (E : editorConfig)
  : result editorConfig :=
  match n with
  | O => Ok E
  | S n' =>
      E1 <- editorUpdateSyntax E filerow ;;
      update_all n' (S filerow) E1
  end.

Definition editorSelectSyntaxHighlight (E : editorConfig)
  : result editorConfig :=
  let E0 := set_syntax E None in
  match filename E0 with
  | None => Ok E0
  | Some fname =>
      match select_syntax HLDB fname with
      | Some s =>
          let E1 := set_syntax E0 (Some s) in
          update_all (Z.to_nat (numrows E1)) 0 E1
      | None => Ok E0
      end
  end.

(** ** File I/O *)

(** [editorRowsToString(&buflen)]: the buffer and its length. *)
Definition editorRowsToString (E : editorConfig) : list ascii * Z :=
  let rs := firstn (Z.to_nat (numrows E)) (row E) in
  (flat_map (fun r => firstn (Z.to_nat (size r)) (chars r) ++ [LF]) rs,
   fold_left (fun tot r => tot + (size r + 1)) rs 0).

(** The lines that successive calls of [getline] return: each ends with its
    newline, the last one perhaps without. *)
Fixpoint getlines (input : list ascii) : list (list ascii) :=
  match input with
  | [] => []
  | c :: t =>
      if Ascii.eqb c LF then [c] :: getlines t
      else match getlines t with
           | [] => [[c]]
           | l :: ls => (c :: l) :: ls
           end
  end.

(** [while (linelen > 0 && (line[linelen - 1] == '\n' || line[linelen - 1] == '\r')) linelen--;] *)
Fixpoint strip_len (line : list ascii) (linelen : nat) : nat :=
  match linelen with
  | O => 0%nat
  | S n =>
      if Ascii.eqb (nth n line NUL) LF || Ascii.eqb (nth n line NUL) CR
      then strip_len line n
      else linelen
  end.

(** The [while ((linelen = getline(...)) != -1)] loop of [editorOpen]. *)
Fixpoint open_loop (ls : list (list ascii)) (E : editorConfig)
  : result editorConfig :=
  match ls with
  | [] => Ok E
  | line :: rest =>
      E1 <- editorInsertRow (numrows E) line
              (Z.of_nat (strip_len line (length line))) E ;;
      open_loop rest E1
  end.

(** [editorOpen(filename)].  [file] is the content of the file, [None] when
    [fopen] fails. *)
Definition editorOpen (fname : list ascii) (file : option (list ascii))
  (E : editorConfig) : result editorConfig :=
  E1 <- editorSelectSyntaxHighlight (set_filename E (Some (c_str fname))) ;;
  match file with
  | None => Ok E1
  | Some content =>
      E2 <- open_loop (getlines content) E1 ;;
      Ok (set_dirty E2 0)
  end.

(** [initEditor()], for the fields kept here. *)
Definition initEditor : editorConfig :=
  mkConfig 0 0 0 0 0 0 [] 0 None None 4.

(** ** Incremental search: [editorFindCallback] *)

Definition KEY_ENTER : Z := 13.
Definition KEY_ESC : Z := 27.
Definition ARROW_LEFT : Z := 1000.
Definition ARROW_RIGHT : Z := 1001.
Definition ARROW_UP : Z := 1002.
Definition ARROW_DOWN : Z := 1003.

(** The [static] variables of [editorFindCallback].  [saved_hl] is [None]
    for the NULL pointer; [saved_hl_line] is not initialised in the code and
    is read only when [saved_hl] is set. *)
Record find_state : Type := mkFind {
  last_match : Z;
  direction : Z;
  saved_hl_line : Z;
  saved_hl : option (list editorHighlight)
}.

Definition find_init : find_state := mkFind (-1) 1 0 None.

Definition set_row_hl (r : erow) (h : list editorHighlight) : erow :=
  mkRow (idx r) (size r) (rsize r) (chars r) (render r) h
        (hl_open_comment r).

(** [if (saved_hl) { memcpy(E.row[saved_hl_line].hl, saved_hl, E.row[saved_hl_line].rsize); ... saved_hl = NULL; }] *)
Definition find_restore (fs : find_state) (E : editorConfig)
  : result (find_state * editorConfig) :=
  match saved_hl fs with
  | None => Ok (fs, E)
  | Some saved =>
      let p := Z.to_nat (saved_hl_line fs) in
      r <- get_row E p ;;
      Ok (mkFind (last_match fs) (direction fs) (saved_hl_line fs) None,
          put_row E p
            (set_row_hl r (memcpy (hl r) saved (Z.to_nat (rsize r)))))
  end.

(** The [for (i = 0; i < E.numrows; i++)] loop, with [n] runs left: the
    row at which it breaks and the offset of the match in its render
    string. *)
Fixpoint find_scan (n : nat) (E : editorConfig) (query : list ascii)
  (dir : Z) (current : Z) : result (option (Z * nat)) :=
  match n with
  | O => Ok None
  | S n' =>
      let c1 := current + dir in
      let c2 := if c1 =? -1 then numrows E - 1
                else if c1 =? numrows E then 0 else c1 in
      if c2 <? 0 then OutOfBounds
      else
        r <- get_row E (Z.to_nat c2) ;;
        match strstr (render r) query with
        | Some off => Ok (Some (c2, off))
        | None => find_scan n' E query dir c2
        end
  end.

(** [editorFindCallback(query, key)]. *)
Definition editorFindCallback (query : list ascii) (key : Z)
  (fs : find_state) (E : editorConfig) : result (find_state * editorConfig) :=
  s <- find_restore fs E ;;
  let fs1 := fst s in
  let E1 := snd s in
  if (key =? KEY_ENTER) || (key =? KEY_ESC)
  then Ok (mkFind (-1) 1 (saved_hl_line fs1) (saved_hl fs1), E1)
  else
    let fs2 :=
      if (key =? ARROW_RIGHT) || (key =? ARROW_DOWN)
      then mkFind (last_match fs1) 1 (saved_hl_line fs1) (saved_hl fs1)
      else if (key =? ARROW_LEFT) || (key =? ARROW_UP)
      then mkFind (last_match fs1) (-1) (saved_hl_line fs1) (saved_hl fs1)
      else mkFind (-1) 1 (saved_hl_line fs1) (saved_hl fs1) in
    let dir := if last_match fs2 =? -1 then 1 else direction fs2 in
    found <- find_scan (Z.to_nat (numrows E1)) E1 query dir (last_match fs2) ;;
    match found with
    | None => Ok (mkFind (last_match fs2) dir (saved_hl_line fs2)
                    (saved_hl fs2), E1)
    | Some (current, off) =>
        r <- get_row E1 (Z.to_nat current) ;;
        let E2 := set_rowoff
                    (set_cursor E1 (editorRowRxToCx E1 r (Z.of_nat off))
                       current)
                    (numrows E1) in
        Ok (mkFind current dir current
              (Some (memcpy [] (hl r) (Z.to_nat (rsize r)))),
            put_row E2 (Z.to_nat current)
              (set_row_hl r
                 (memset (hl r) off (strlen query) HL_MATCH)))
    end.

(** A search session: the callback runs once for each key the prompt
    reads, on the query as it then stands. *)
Fixpoint find_session (steps : list (list ascii * Z)) (fs : find_state)
  (E : editorConfig) : result (find_state * editorConfig) :=
  match steps with
  | [] => Ok (fs, E)
  | (query, key) :: rest =>
      s <- editorFindCallback query key fs E ;;
      find_session rest (fst s) (snd s)
  end.

(** ** Cursor movement: [editorMoveCursor] *)

Definition set_cx (E : editorConfig) (x : Z) : editorConfig :=
  set_cursor E x (cy E).

Definition set_cy (E : editorConfig) (y : Z) : editorConfig :=
  set_cursor E (cx E) y.

(** [E.row[y]], an access out of the array for a negative [y] too. *)
Definition row_ref (E : editorConfig) (y : Z) : result erow :=
  if y <? 0 then OutOfBounds else get_row E (Z.to_nat y).

(** [row ? row->size : 0] for [row = (E.cy >= E.numrows) ? NULL : &E.row[E.cy]]. *)
Definition cursor_rowlen (E : editorConfig) : result Z :=
  if cy E >=? numrows E then Ok 0
  else r <- row_ref E (cy E) ;; Ok (size r).

(** The [switch] of [editorMoveCursor]. *)
Definition move_switch (key : Z) (E : editorConfig) : result editorConfig :=
  if key =? ARROW_LEFT then
    if negb (cx E =? 0) then Ok (set_cx E (cx E - 1))
    else if cy E >? 0 then
      r <- row_ref E (cy E - 1) ;;
      Ok (set_cursor E (size r) (cy E - 1))
    else Ok E
  else if key =? ARROW_RIGHT then
    if cy E >=? numrows E then Ok E
    else
      r <- row_ref E (cy E) ;;
      if cx E <? size r then Ok (set_cx E (cx E + 1))
      else if cx E =? size r then Ok (set_cursor E 0 (cy E + 1))
      else Ok E
  else if key =? ARROW_UP then
    if negb (cy E =? 0) then Ok (set_cy E (cy E - 1)) else Ok E
  else if key =? ARROW_DOWN then
    if cy E <? numrows E then Ok (set_cy E (cy E + 1)) else Ok E
  else Ok E.

(** [editorMoveCursor(key)]: the move, then the clamp of [cx] to the length
    of the row the cursor is on. *)
Definition editorMoveCursor (key : Z) (E : editorConfig)
  : result editorConfig :=
  E1 <- move_switch key E ;;
  rowlen <- cursor_rowlen E1 ;;
  if cx E1 >? rowlen then Ok (set_cx E1 rowlen) else Ok E1.

(** ** Scrolling: [editorScroll] *)

Definition VINE_LINE_NUMBER_PADDING : Z := 4.

Definition set_rx (E : editorConfig) (x : Z) : editorConfig :=
  mkConfig (cx E) (cy E) x (rowoff E) (coloff E) (numrows E) (row E)
           (dirty E) (filename E) (syntax E) (tab_stop E).

Definition set_coloff (E : editorConfig) (o : Z) : editorConfig :=
  mkConfig (cx E) (cy E) (rx E) (rowoff E) o (numrows E) (row E)
           (dirty E) (filename E) (syntax E) (tab_stop E).

(** The two tests of [editorScroll] on [E.rowoff]. *)
Definition scroll_rows (screenrows : Z) (E : editorConfig) : editorConfig :=
  let E1 := if cy E <? rowoff E then set_rowoff E (cy E) else E in
  if cy E1 >=? rowoff E1 + screenrows
  then set_rowoff E1 (cy E1 - screenrows + 1) else E1.

(** The three tests of [editorScroll] on [E.coloff]. *)
Definition scroll_cols (screencols : Z) (E : editorConfig) : editorConfig :=
  let E1 := if rx E <? coloff E then set_coloff E (rx E) else E in
  let E2 := if rx E1 >=? coloff E1 + screencols
            then set_coloff E1 (rx E1 - screencols + 1) else E1 in
  if rx E2 >=? coloff E2 + screencols - VINE_LINE_NUMBER_PADDING - 1
  then set_coloff E2 (rx E2 - screencols + VINE_LINE_NUMBER_PADDING + 2)
  else E2.

(** [editorScroll()].  [E.screenrows] and [E.screencols] are written by
    [initEditor] only; they are parameters here. *)
Definition editorScroll (screenrows screencols : Z) (E : editorConfig)
  : result editorConfig :=
  E1 <- (if cy E <? numrows E
         then r <- row_ref E (cy E) ;;
              Ok (set_rx E (editorRowCxToRx E r (cx E)))
         else Ok (set_rx E 0)) ;;
  Ok (scroll_cols screencols (scroll_rows screenrows E1)).

(** ** The prompt and the search command: [editorPrompt], [editorFind] *)

Definition BACKSPACE : Z := 127.

(** [CTRL_KEY(k)] is [(k) & 0x1f]. *)
Definition CTRL_KEY (k : Z) : Z := Z.land k 31.

Definition KEY_x : Z := 120.

(** [iscntrl] on the character codes 0 to 127 (the "C" locale); from 128
    on, the test [c < 128] that stands beside it in [editorPrompt] decides
    alone. *)
Definition iscntrl (c : Z) : bool :=
  ((0 <=? c) && (c <? 32)) || (c =? 127).

(** [if (callback) callback(buf, c);] on the state [S] of the callback. *)
Definition call_back {S : Type}
  (callback : option (list ascii -> Z -> S -> editorConfig
                      -> result (S * editorConfig)))
  (buf : list ascii) (c : Z) (st : S) (E : editorConfig)
  : result (S * editorConfig) :=
  match callback with
  | Some f => f buf c st E
  | None => Ok (st, E)
  end.

(** [editorPrompt(prompt, callback)].  The keys that [editorReadKey]
    returns are the list [keys]; the prompt runs out of fuel when it still
    waits for a key at the end of the list.  Each run of the loop begins
    with [editorRefreshScreen], of which [editorScroll] is the part that
    writes the editor state.  The result is the text entered, [None] for
    the NULL returned on Escape, with the keys that are left to read. *)
Fixpoint editorPrompt {S : Type} (screenrows screencols : Z)
  (callback : option (list ascii -> Z -> S -> editorConfig
                      -> result (S * editorConfig)))
  (keys : list Z) (buf : list ascii) (st : S) (E : editorConfig)
  : result (option (list ascii) * S * editorConfig * list Z) :=
  match keys with
  | [] => OutOfFuel
  | c :: rest =>
      E1 <- editorScroll screenrows screencols E ;;
      if (c =? CTRL_KEY KEY_x) || (c =? BACKSPACE) then
        let buf1 := if negb (length buf =? 0)%nat then removelast buf
                    else buf in
        s <- call_back callback buf1 c st E1 ;;
        editorPrompt screenrows screencols callback rest buf1 (fst s) (snd s)
      else if c =? KEY_ESC then
        s <- call_back callback buf c st E1 ;;
        Ok (None, fst s, snd s, rest)
      else if c =? KEY_ENTER then
        if negb (length buf =? 0)%nat then
          s <- call_back callback buf c st E1 ;;
          Ok (Some buf, fst s, snd s, rest)
        else
          s <- call_back callback buf c st E1 ;;
          editorPrompt screenrows screencols callback rest buf (fst s) (snd s)
      else
        let buf1 := if negb (iscntrl c) && (c <? 128)
                    then buf ++ [char_of_int c] else buf in
        s <- call_back callback buf1 c st E1 ;;
        editorPrompt screenrows screencols callback rest buf1 (fst s) (snd s)
  end.

(** [editorFind()], from the state [fs] of the static variables of the
    callback. *)
Definition editorFind (screenrows screencols : Z) (keys : list Z)
  (fs : find_state) (E : editorConfig)
  : result (find_state * editorConfig * list Z) :=
  p <- editorPrompt screenrows screencols (Some editorFindCallback) keys []
         fs E ;;
  let '(query, fs1, E1, rest) := p in
  match query with
  | Some _ => Ok (fs1, E1, rest)
  | None =>
      Ok (fs1,
          set_rowoff (set_coloff (set_cursor E1 (cx E) (cy E)) (coloff E))
            (rowoff E),
          rest)
  end.


(** ** Saving and the key handler: [editorSave], [editorProcessKeypress],
    [main] *)

(** The files of the disk, by name. *)
Definition disk : Type := list ascii -> option (list ascii).

Definition disk_put (d : disk) (name content : list ascii) : disk :=
  fun n => if list_eqb n name then Some content else d n.

(** What the system calls of one [editorSave] do: [open] fails,
    [ftruncate] fails, or [write] returns [n]. *)
Inductive io_result : Type :=
| OpenFails
| TruncateFails
| WriteReturns (n : Z).

(** A file cut or padded to [len] bytes, as [ftruncate] leaves it. *)
Definition resize (len : nat) (old : list ascii) : list ascii :=
  firstn len (old ++ repeat NUL len).

(** The disk after [open(name, O_RDWR | O_CREAT)], [ftruncate(fd, len)]
    and [write(fd, buf, len)], as far as they are reached. *)
Definition sys_save (io : io_result) (d : disk) (name buf : list ascii)
  (len : Z) : disk :=
  let old := match d name with Some c => c | None => [] end in
  match io with
  | OpenFails => d
  | TruncateFails => disk_put d name old
  | WriteReturns n =>
      disk_put d name
        (firstn (Z.to_nat n) buf
         ++ skipn (Z.to_nat n) (resize (Z.to_nat len) old))
  end.

(** The state of a run of the editor: [E]; the static [quit_times] of
    [editorProcessKeypress]; the static variables of [editorFindCallback];
    the disk; and what the system calls of the saves to come do (after the
    end of the list they succeed). *)
Record session : Type := mkSession {
  editor : editorConfig;
  quit_times : Z;
  find_vars : find_state;
  files : disk;
  answers : list io_result
}.

Definition set_editor (s : session) (E : editorConfig) : session :=
  mkSession E (quit_times s) (find_vars s) (files s) (answers s).

Definition set_quit_times (s : session) (n : Z) : session :=
  mkSession (editor s) n (find_vars s) (files s) (answers s).

(** [editorSave()].  The fields [screenrows] and [screencols] of [E] are
    parameters, as for [editorScroll]; the status message is not kept. *)
Definition editorSave (screenrows screencols : Z) (keys : list Z)
  (s : session) : result (session * list Z) :=
  let E := editor s in
  p <- match filename E with
       | None =>
           q <- editorPrompt screenrows screencols None keys [] tt E ;;
           let '(name, _, E1, rest) := q in
           match name with
           | None => Ok (None, E1, rest)
           | Some n =>
               E2 <- editorSelectSyntaxHighlight
                       (set_filename E1 (Some (c_str n))) ;;
               Ok (Some (c_str n), E2, rest)
           end
       | Some n => Ok (Some n, E, keys)
       end ;;
  let '(name, E1, rest) := p in
  match name with
  | None => Ok (set_editor s E1, rest)
  | Some n =>
      let buf := fst (editorRowsToString E1) in
      let len := snd (editorRowsToString E1) in
      let io := match answers s with
                | a :: _ => a
                | [] => WriteReturns len
                end in
      let s1 := mkSession E1 (quit_times s) (find_vars s)
                  (sys_save io (files s) n buf len) (tl (answers s)) in
      match io with
      | WriteReturns k =>
          if k =? len then Ok (set_editor s1 (set_dirty E1 0), rest)
          else Ok (s1, rest)
      | _ => Ok (s1, rest)
      end
  end.

Definition VINE_QUIT_TIMES : Z := 3.
Definition PAGE_UP : Z := 1006.
Definition PAGE_DOWN : Z := 1007.
Definition KEY_q : Z := 113.
Definition KEY_s : Z := 115.
Definition KEY_j : Z := 106.
Definition KEY_k : Z := 107.
Definition KEY_d : Z := 100.
Definition KEY_f : Z := 102.
Definition KEY_l : Z := 108.

(** [while (times--) editorMoveCursor(key);] *)
Fixpoint move_times (times : nat) (key : Z) (E : editorConfig)
  : result editorConfig :=
  match times with
  | O => Ok E
  | S n => E1 <- editorMoveCursor key E ;; move_times n key E1
  end.

(** [editorProcessKeypress()] on the keys that [editorReadKey] returns:
    the key read here, and those read by the prompts.  [None] is
    [exit(0)]; otherwise the state and the keys that are left.  The field
    [E.quit_times] is the parameter [E_quit_times].  A negative
    [screenrows] makes the loop of the page keys count down until the
    counter overflows: out of fuel here. *)
Definition editorProcessKeypress (screenrows screencols E_quit_times : Z)
  (keys : list Z) (s : session) : result (option (session * list Z)) :=
  match keys with
  | [] => OutOfFuel
  | c :: rest =>
      let E := editor s in
      let break (E' : editorConfig) : result (option (session * list Z)) :=
        Ok (Some (mkSession E' E_quit_times (find_vars s) (files s)
                    (answers s), rest)) in
      if c =? KEY_ENTER then
        E' <- editorInsertNewline E ;; break E'
      else if c =? CTRL_KEY KEY_q then
        if negb (dirty E =? 0) && (quit_times s >? 0)
        then Ok (Some (set_quit_times s (quit_times s - 1), rest))
        else Ok None
      else if c =? CTRL_KEY KEY_s then
        p <- editorSave screenrows screencols rest s ;;
        Ok (Some (set_quit_times (fst p) E_quit_times, snd p))
      else if c =? CTRL_KEY KEY_j then
        break (set_cx E 0)
      else if c =? CTRL_KEY KEY_k then
        if cy E <? numrows E
        then r <- row_ref E (cy E) ;; break (set_cx E (size r))
        else break E
      else if c =? CTRL_KEY KEY_d then
        break (editorDelRow (cy E) E)
      else if c =? CTRL_KEY KEY_f then
        p <- editorFind screenrows screencols rest (find_vars s) E ;;
        let '(fs, E', rest') := p in
        Ok (Some (mkSession E' E_quit_times fs (files s) (answers s),
                  rest'))
      else if (c =? BACKSPACE) || (c =? CTRL_KEY KEY_x) then
        E1 <- (if c =? CTRL_KEY KEY_x then editorMoveCursor ARROW_RIGHT E
               else Ok E) ;;
        E' <- editorDelChar E1 ;; break E'
      else if (c =? PAGE_UP) || (c =? PAGE_DOWN) then
        let E1 :=
          if c =? PAGE_UP then set_cy E (rowoff E)
          else
            let E0 := set_cy E (rowoff E + screenrows - 1) in
            if cy E0 >? numrows E0 then set_cy E0 (numrows E0) else E0 in
        if screenrows <? 0 then OutOfFuel
        else
          E' <- move_times (Z.to_nat screenrows)
                  (if c =? PAGE_UP then ARROW_UP else ARROW_DOWN) E1 ;;
          break E'
      else if (c =? ARROW_UP) || (c =? ARROW_DOWN) || (c =? ARROW_LEFT)
              || (c =? ARROW_RIGHT) then
        E' <- editorMoveCursor c E ;; break E'
      else if (c =? CTRL_KEY KEY_l) || (c =? KEY_ESC) then
        break E
      else
        E' <- editorInsertChar c E ;; break E'
  end.

(** Where the loop of [main] stops: [exit] is called, or the keys are
    all read and [editorProcessKeypress] waits for the next one. *)
Inductive stop : Type :=
| Exit (s : session)
| Wait (s : session).

Definition state_of (st : stop) : session :=
  match st with
  | Exit s => s
  | Wait s => s
  end.

(** [while (1) { editorRefreshScreen(); editorProcessKeypress(); }].  Of
    [editorRefreshScreen], [editorScroll] is the part that writes the
    editor state.  A run of the loop reads a key at least, so that [fuel]
    above the number of keys is enough; the loop is out of fuel when the
    keys end inside a prompt. *)
Fixpoint main_loop (fuel : nat) (screenrows screencols E_quit_times : Z)
  (keys : list Z) (s : session) : result stop :=
  match fuel with
  | O => OutOfFuel
  | S n =>
      E1 <- editorScroll screenrows screencols (editor s) ;;
      match keys with
      | [] => Ok (Wait (set_editor s E1))
      | _ :: _ =>
          r <- editorProcessKeypress screenrows screencols E_quit_times keys
                 (set_editor s E1) ;;
          match r with
          | None => Ok (Exit (set_editor s E1))
          | Some (s', rest) =>
              main_loop n screenrows screencols E_quit_times rest s'
          end
      end
  end.

(** [main(argc, argv)]: [initEditor], [editorOpen(argv[1])] when there is
    an argument, and the loop.  [screenrows] and [screencols] are what
    [initEditor] computes from the size of the window; [E.quit_times] is
    the 3 that [initEditor] writes, [loadConfig] not being called. *)
Definition main (screenrows screencols : Z) (argv1 : option (list ascii))
  (d : disk) (ans : list io_result) (keys : list Z) : result stop :=
  E <- match argv1 with
       | Some f => editorOpen f (d f) initEditor
       | None => Ok initEditor
       end ;;
  main_loop (S (length keys)) screenrows screencols 3 keys
    (mkSession E VINE_QUIT_TIMES find_init d ans).

(** * Invariants and specification-level notions *)

(** ** Invariants of rows and of the buffer *)

(** The derived arrays of a row agree in length with its [rsize]. *)
Definition render_ok (r : erow) : Prop :=
  rsize r = Z.of_nat (length (render r))
  /\ length (hl r) = length (render r).

(** A row whose [size] is the length of its raw characters, too. *)
Definition row_ok (r : erow) : Prop :=
  size r = Z.of_nat (length (chars r)) /\ render_ok r.

(** [row[i].idx == i] for every row of the array. *)
Definition idx_ok (rs : list erow) : Prop :=
  forall i r, nth_error rs i = Some r -> idx r = Z.of_nat i.

(** Rows numbered from [k] on. *)
Definition idx_from (k : nat) (rs : list erow) : Prop :=
  forall i r, nth_error rs i = Some r -> idx r = Z.of_nat (k + i).

(** The invariant of the document buffer between two operations. *)
Definition buffer_ok (E : editorConfig) : Prop :=
  numrows E = Z.of_nat (length (row E))
  /\ idx_ok (row E)
  /\ Forall row_ok (row E)
  /\ 0 < tab_stop E.

(** The cursor is on a row, at a column of it, or on the line after the
    last row, at column 0: what [editorMoveCursor] maintains. *)
Definition cursor_ok (E : editorConfig) : Prop :=
  0 <= cy E <= numrows E /\ 0 <= cx E
  /\ (cy E = numrows E -> cx E = 0)
  /\ (forall r, nth_error (row E) (Z.to_nat (cy E)) = Some r ->
                cx E <= size r).

(** One highlight entry for each render character, [rsize] of them. *)
Definition highlight_fits (E : editorConfig) : Prop :=
  forall r, In r (row E) ->
            Z.of_nat (length (hl r)) = rsize r
            /\ rsize r = Z.of_nat (length (render r)).

(** Every character of every row has the default class. *)
Definition all_default (E : editorConfig) : Prop :=
  forall r, In r (row E) -> Forall (eq HL_NORMAL) (hl r).

(** Decision procedures for the invariants. *)
Definition row_okb (r : erow) : bool :=
  (size r =? Z.of_nat (length (chars r)))
  && (rsize r =? Z.of_nat (length (render r)))
  && (length (hl r) =? length (render r))%nat.

Fixpoint idx_fromb (k : nat) (rs : list erow) : bool :=
  match rs with
  | [] => true
  | r :: t => (idx r =? Z.of_nat k) && idx_fromb (S k) t
  end.

Definition buffer_okb (E : editorConfig) : bool :=
  (numrows E =? Z.of_nat (length (row E)))
  && idx_fromb 0 (row E)
  && forallb row_okb (row E)
  && (0 <? tab_stop E).

(** ** What an operation leaves alone *)

(** Two rows that differ at most in their highlight and comment flag. *)
Definition same_text (r r' : erow) : Prop :=
  idx r' = idx r /\ size r' = size r /\ rsize r' = rsize r
  /\ chars r' = chars r /\ render r' = render r.

(** Two editor states that differ at most in the highlight and comment flag
    of their rows. *)
Definition same_buffer (E E' : editorConfig) : Prop :=
  cx E' = cx E /\ cy E' = cy E /\ rx E' = rx E /\ rowoff E' = rowoff E
  /\ coloff E' = coloff E /\ numrows E' = numrows E /\ dirty E' = dirty E
  /\ filename E' = filename E /\ syntax E' = syntax E
  /\ tab_stop E' = tab_stop E
  /\ Forall2 same_text (row E) (row E').

(** Two rows with the same number and the same raw characters. *)
Definition same_chars (r r' : erow) : Prop :=
  idx r' = idx r /\ size r' = size r /\ chars r' = chars r.

(** Two editor states that differ at most in what is derived from the raw
    characters of their rows: render strings and highlight. *)
Definition same_content (E E' : editorConfig) : Prop :=
  cx E' = cx E /\ cy E' = cy E /\ rx E' = rx E /\ rowoff E' = rowoff E
  /\ coloff E' = coloff E /\ numrows E' = numrows E /\ dirty E' = dirty E
  /\ filename E' = filename E /\ syntax E' = syntax E
  /\ tab_stop E' = tab_stop E
  /\ Forall2 same_chars (row E) (row E').

(** ** The scan loop *)

Definition exit_state (e : loop_exit) : scan_state :=
  match e with
  | Continue s => s
  | Break s => s
  end.

(** The quantity that every run of the scan body decreases. *)
Definition scan_measure (rsz : nat) (st : scan_state) : nat :=
  (2 * (rsz - sc_i st) + (if sc_prev_sep st then 1 else 0))%nat.

(** ** Sequences of structural operations *)

(** The row that [editorInsertRow] writes into the slot it opens. *)
Definition fresh_row (at_ : Z) (s : list ascii) (len : Z) : erow :=
  mkRow at_ len 0 (firstn (Z.to_nat len) s) [] [] false.

(** The structural operations of the document buffer. *)
Inductive row_op : Type :=
| InsertRow (at_ : Z) (s : list ascii) (len : Z)
| DeleteRow (at_ : Z).

Definition apply_op (op : row_op) (E : editorConfig) : result editorConfig :=
  match op with
  | InsertRow at_ s len => editorInsertRow at_ s len E
  | DeleteRow at_ => Ok (editorDelRow at_ E)
  end.

(** The states after each operation of a sequence. *)
Fixpoint run_ops (ops : list row_op) (E : editorConfig)
  : result (list editorConfig) :=
  match ops with
  | [] => Ok []
  | op :: rest =>
      E1 <- apply_op op E ;;
      tr <- run_ops rest E1 ;;
      Ok (E1 :: tr)
  end.

(** The text handed to [editorInsertRow] has at least [len] characters. *)
Definition op_ok (op : row_op) : Prop :=
  match op with
  | InsertRow _ s len => 0 <= len <= Z.of_nat (length s)
  | DeleteRow _ => True
  end.

(** ** Syntax selection, in the words of the specification *)

(** A C string proper: no NUL among its characters. *)
Definition nul_free (s : list ascii) : Prop := strlen s = length s.

Definition is_suffix (pat name : list ascii) : Prop :=
  exists pre, name = pre ++ pat.

Definition is_substring (pat name : list ascii) : Prop :=
  exists pre post, name = pre ++ pat ++ post.

Definition starts_with_dot (pat : list ascii) : Prop :=
  exists rest, pat = DOT :: rest.

(** A pattern starting with a dot matches as a suffix of the file name,
    any other pattern as a substring of it. *)
Definition pattern_matches_spec (name pat : list ascii) : Prop :=
  (starts_with_dot pat /\ is_suffix pat name)
  \/ (~ starts_with_dot pat /\ is_substring pat name).

Definition entry_matches_spec (name : list ascii) (s : editorSyntax) : Prop :=
  exists pat, In pat (filematch s) /\ pattern_matches_spec name pat.

(** [o] is the first entry of the registry [db], in registry order, with a
    pattern that matches [name]; or nothing, when no pattern of any entry
    matches. *)
Definition first_match (db : list editorSyntax) (name : list ascii)
  (o : option editorSyntax) : Prop :=
  match o with
  | Some s =>
      exists before after,
        db = before ++ s :: after
        /\ entry_matches_spec name s
        /\ forall s', In s' before -> ~ entry_matches_spec name s'
  | None => forall s, In s db -> ~ entry_matches_spec name s
  end.

(** The patterns for which comparing with the part of the name from its
    last dot is a suffix test: those without NUL whose only dot, if they
    start with one, is the leading one. *)
Definition good_patternb (pat : list ascii) : bool :=
  (strlen pat =? length pat)%nat
  && match pat with
     | [] => true
     | c :: rest =>
         negb (Ascii.eqb c DOT) || negb (existsb (Ascii.eqb DOT) rest)
     end.

Definition good_registryb (db : list editorSyntax) : bool :=
  forallb (fun s => forallb good_patternb (filematch s)) db.

(** ** Keywords, in the words of the specification *)

Definition SENTINEL : ascii := "|"%char.

(** A keyword of the list, the text it stands for and its class: a
    trailing ['|'] marks a secondary keyword and is not part of the text. *)
Definition keyword_parts (kw body : list ascii) (cls : editorHighlight)
  : Prop :=
  (kw = body ++ [SENTINEL] /\ cls = HL_KEYWORD2)
  \/ ((forall b, kw <> b ++ [SENTINEL]) /\ body = kw /\ cls = HL_KEYWORD1).

(** The text [body] stands at offset [i] of the render string [rd] and is
    followed by a separator or by the end of the line. *)
Definition keyword_applies (rd : list ascii) (i : nat) (body : list ascii)
  : Prop :=
  firstn (length body) (skipn i rd) = body
  /\ ((i + length body)%nat = length rd
      \/ is_separator (nth (i + length body) rd NUL) = true).

(** ** Line endings, in the words of the specification *)

Definition is_cr (c : ascii) : bool := Ascii.eqb c CR.

Definition is_crlf (c : ascii) : bool := Ascii.eqb c LF || Ascii.eqb c CR.

(** [l] without the characters at its end that satisfy [p]. *)
Fixpoint strip_trailing (p : ascii -> bool) (l : list ascii) : list ascii :=
  match l with
  | [] => []
  | x :: t =>
      match strip_trailing p t with
      | [] => if p x then [] else [x]
      | s => x :: s
      end
  end.

(** [l] without the carriage return that ends it, if one does. *)
Fixpoint chomp_cr (l : list ascii) : list ascii :=
  match l with
  | [] => []
  | x :: t =>
      match t with
      | [] => if is_cr x then [] else [x]
      | _ => x :: chomp_cr t
      end
  end.

(** The lines of a text: the pieces between its newlines, a last piece
    without newline counting if it is not empty. *)
Fixpoint split_lines (input : list ascii) : list (list ascii) :=
  match input with
  | [] => []
  | c :: t =>
      if Ascii.eqb c LF then [] :: split_lines t
      else match split_lines t with
           | [] => [[c]]
           | l :: ls => (c :: l) :: ls
           end
  end.

(** The text with normalized line endings: every line, whether it ended in
    CR LF or in LF, followed by exactly one LF. *)
Definition normalize_line_endings (content : list ascii) : list ascii :=
  flat_map (fun l => chomp_cr l ++ [LF]) (split_lines content).

(** What loading does to line endings: every line loses all the carriage
    returns at its end. *)
Definition strip_line_endings (content : list ascii) : list ascii :=
  flat_map (fun l => strip_trailing is_cr l ++ [LF]) (split_lines content).

(** Loading a file into the freshly initialised editor and serializing at
    once. *)
Definition load_and_serialize (fname content : list ascii)
  : option (list ascii) :=
  match editorOpen fname (Some content) initEditor with
  | Ok E => Some (fst (editorRowsToString E))
  | _ => None
  end.

(** ** The invariant of a search session *)

(** [fs] and [E] are a state of a search session on a buffer that was [E0]
    when the session began: at most one row has its highlight overridden,
    and then [saved_hl] is the highlight that row had in [E0]. *)
Definition find_inv (E0 : editorConfig) (fs : find_state) (E : editorConfig)
  : Prop :=
  numrows E = numrows E0
  /\ -1 <= last_match fs < numrows E0
  /\ (direction fs = 1 \/ direction fs = -1)
  /\ match saved_hl fs with
     | None => row E = row E0
     | Some saved =>
         0 <= saved_hl_line fs
         /\ exists r0 h',
             nth_error (row E0) (Z.to_nat (saved_hl_line fs)) = Some r0
             /\ saved = hl r0
             /\ length h' = length (hl r0)
             /\ row E = store (row E0) (Z.to_nat (saved_hl_line fs))
                          (set_row_hl r0 h')
     end.

(** ** Example documents and sessions *)

(** What is shown of a row: its characters, highlight and comment flag. *)
Definition row_view (r : erow) : list ascii * list editorHighlight * bool :=
  (chars r, hl r, hl_open_comment r).

Definition rows_view (m : result editorConfig)
  : option (list (list ascii * list editorHighlight * bool)) :=
  match m with
  | Ok E => Some (map row_view (row E))
  | _ => None
  end.

(** Three rows, the first two a multi-line comment, loaded as a C file. *)
Definition comment_doc : list ascii :=
  s2l "/* comment" ++ [LF] ++ s2l "still comment */" ++ [LF]
  ++ s2l "code" ++ [LF].

Definition comment_example : result editorConfig :=
  editorOpen (s2l "x.c") (Some comment_doc) initEditor.

Definition loaded_doc : editorConfig :=
  match comment_example with
  | Ok E => E
  | _ => initEditor
  end.

(** The same after the two characters of the close marker of row 1 are
    deleted, the slash first. *)
Definition comment_example_edited : result editorConfig :=
  E <- comment_example ;;
  E1 <- editorRowDelChar 1 15 E ;;
  editorRowDelChar 1 14 E1.

(** A buffer in which the recorded comment flag of row 1 is stale: it is
    the example document with the close marker of row 1 gone, before the
    highlight of that row is recomputed. *)
Definition stale_row : erow :=
  mkRow 1 14 14 (s2l "still comment ") (s2l "still comment ")
        (repeat HL_MLCOMMENT 14) false.

Definition stale_doc : editorConfig :=
  put_row loaded_doc 1 stale_row.

(** A C file whose first row is a line comment that contains an open
    marker, split by a newline typed at column 1. *)
Definition slash_doc : list ascii :=
  s2l "//* x" ++ [LF] ++ s2l "z" ++ [LF].

Definition slash_example : result editorConfig :=
  E <- editorOpen (s2l "x.c") (Some slash_doc) initEditor ;;
  editorInsertNewline (set_cursor E 1 0).

(** A sequence of structural edits. *)
Definition sample_ops : list row_op :=
  [ InsertRow 0 (s2l "int x;") 6;
    InsertRow 0 (s2l "/* head") 7;
    InsertRow 1 (s2l "tail */ y") 7;
    DeleteRow 0;
    InsertRow 2 (s2l "end") 3;
    DeleteRow 1 ].

(** A search session on [loaded_doc]: the query [co] as its second letter
    is typed, then [com], then the next match downwards. *)
Definition sample_search : list (list ascii * Z) :=
  [ (s2l "co", 111); (s2l "com", 109); (s2l "com", ARROW_DOWN) ].

(** A syntax whose only keyword is [for], and the C entry of the
    registry. *)
Definition for_syntax : editorSyntax :=
  mkSyntax (s2l "for") [] [s2l "for"] None None None 0.

Definition C_syntax : editorSyntax :=
  nth 0 HLDB for_syntax.

(** The row [a<TAB>b]. *)
Definition tab_row : erow :=
  mkRow 0 3 3 (s2l "a" ++ [TAB] ++ s2l "b") [] [] false.

(** A file whose only line ends in CR CR LF. *)
Definition double_cr_file : list ascii := s2l "a" ++ [CR; CR; LF].

(** [cursor_ok], decided. *)
Definition cursor_okb (E : editorConfig) : bool :=
  (0 <=? cy E) && (cy E <=? numrows E) && (0 <=? cx E)
  && (if cy E =? numrows E then cx E =? 0 else true)
  && match nth_error (row E) (Z.to_nat (cy E)) with
     | Some r => cx E <=? size r
     | None => true
     end.

(** The row offset that [editorScroll] leaves, from the cursor line [y]
    and the offset [ro] it finds. *)
Definition scroll_rowoff (screenrows y ro : Z) : Z :=
  let ro1 := if y <? ro then y else ro in
  if y >=? ro1 + screenrows then y - screenrows + 1 else ro1.

(** The column offset that [editorScroll] leaves, from the render column
    [x] of the cursor and the offset [co] it finds. *)
Definition scroll_coloff (screencols x co : Z) : Z :=
  let co1 := if x <? co then x else co in
  let co2 := if x >=? co1 + screencols then x - screencols + 1 else co1 in
  if x >=? co2 + screencols - VINE_LINE_NUMBER_PADDING - 1
  then x - screencols + VINE_LINE_NUMBER_PADDING + 2 else co2.


(** What [editorUpdateRow] shows of a character: a tab as a space. *)
Definition shown (c : ascii) : ascii :=
  if Ascii.eqb c TAB then SPACE else c.

(** The render string of a row is the expansion of its characters. *)
Definition rendered (ts : Z) (r : erow) : Prop :=
  render_loop ts (chars r) [] = Ok (render r).

Definition rows_rendered (E : editorConfig) : Prop :=
  Forall (rendered (tab_stop E)) (row E).

(** A file of one line, [a<TAB>b], loaded. *)
Definition tab_doc : editorConfig :=
  match editorOpen (s2l "t.txt") (Some (s2l "a" ++ [TAB] ++ s2l "b" ++ [LF]))
          initEditor with
  | Ok E => E
  | _ => initEditor
  end.

(** [rows_rendered], decided. *)
Definition rows_renderedb (E : editorConfig) : bool :=
  forallb (fun r => match render_loop (tab_stop E) (chars r) [] with
                    | Ok rd => list_eqb rd (render r)
                    | _ => false
                    end) (row E).


(** ** The document *)

(** The lines of text of the buffer. *)
Definition text (E : editorConfig) : list (list ascii) := map chars (row E).

(** The document as the user sees it: lines of text and a cursor. *)
Record document : Type := mkDoc {
  doc_lines : list (list ascii);
  doc_col : Z;
  doc_line : Z
}.

Definition doc_of (E : editorConfig) : document :=
  mkDoc (text E) (cx E) (cy E).

Definition line_at (t : list (list ascii)) (y : Z) : list ascii :=
  nth (Z.to_nat y) t [].

(** The lines [t] with line [y] replaced by the lines [ls]. *)
Definition set_line (t : list (list ascii)) (y : Z) (ls : list (list ascii))
  : list (list ascii) :=
  firstn (Z.to_nat y) t ++ ls ++ skipn (S (Z.to_nat y)) t.

Definition insert_at (l : list ascii) (x : Z) (c : ascii) : list ascii :=
  firstn (Z.to_nat x) l ++ c :: skipn (Z.to_nat x) l.

Definition delete_at (l : list ascii) (x : Z) : list ascii :=
  firstn (Z.to_nat x) l ++ skipn (S (Z.to_nat x)) l.

(** A character typed at the cursor; on the line after the last one it
    begins a new line. *)
Definition type_char (c : ascii) (d : document) : document :=
  mkDoc (set_line (doc_lines d) (doc_line d)
           [insert_at (line_at (doc_lines d) (doc_line d)) (doc_col d) c])
        (doc_col d + 1) (doc_line d).

(** Enter: the line is split at the cursor; after the last line, an empty
    line is added. *)
Definition break_line (d : document) : document :=
  let l := line_at (doc_lines d) (doc_line d) in
  mkDoc (if doc_line d <? Z.of_nat (length (doc_lines d))
         then set_line (doc_lines d) (doc_line d)
                [firstn (Z.to_nat (doc_col d)) l;
                 skipn (Z.to_nat (doc_col d)) l]
         else doc_lines d ++ [[]])
        0 (doc_line d + 1).

(** Backspace: nothing after the last line and at the start of the text;
    in a line, the character before the cursor goes; at the start of a
    line, the line is joined to the one before it. *)
Definition backspace (d : document) : document :=
  let l := line_at (doc_lines d) (doc_line d) in
  if (doc_line d =? Z.of_nat (length (doc_lines d)))
     || ((doc_col d =? 0) && (doc_line d =? 0))
  then d
  else if doc_col d >? 0
  then mkDoc (set_line (doc_lines d) (doc_line d)
                [delete_at l (doc_col d - 1)])
             (doc_col d - 1) (doc_line d)
  else
    let prev := line_at (doc_lines d) (doc_line d - 1) in
    mkDoc (firstn (Z.to_nat (doc_line d - 1)) (doc_lines d)
             ++ (prev ++ l) :: skipn (S (Z.to_nat (doc_line d))) (doc_lines d))
          (Z.of_nat (length prev)) (doc_line d - 1).

(** A cursor of the document: on a line and at a column of it (its end
    included), or after the last line at column 0. *)
Definition doc_cursor_ok (d : document) : Prop :=
  0 <= doc_line d <= Z.of_nat (length (doc_lines d))
  /\ 0 <= doc_col d
  /\ (doc_line d = Z.of_nat (length (doc_lines d)) -> doc_col d = 0)
  /\ (doc_line d < Z.of_nat (length (doc_lines d)) ->
      doc_col d
      <= Z.of_nat (length (line_at (doc_lines d) (doc_line d)))).

(** A line with no line feed in it and no carriage return at its end,
    decided. *)
Definition plain_lineb (l : list ascii) : bool :=
  negb (existsb (Ascii.eqb LF) l) && negb (Ascii.eqb (last l NUL) CR).


(** ** The invariant of the search prompt *)

(** What holds of the state of the callback and of the editor each time
    the prompt of [editorFind] waits for a key, [E0] being the editor state
    in which the search began. *)
Definition prompt_inv (E0 : editorConfig) (fs : find_state)
  (E : editorConfig) : Prop :=
  find_inv E0 fs E /\ 0 <= cy E
  /\ dirty E = dirty E0 /\ filename E = filename E0
  /\ syntax E = syntax E0 /\ tab_stop E = tab_stop E0.

(** A key that does not end the prompt, whatever the text entered. *)
Definition editing_key (k : Z) : Prop := k <> KEY_ESC /\ k <> KEY_ENTER.


(** ** Consistency of the highlight *)

(** The comment flag from which the scan of row [q] starts: that of the
    row before it. *)
Definition seed_of (rs : list erow) (q : nat) : bool :=
  match q with
  | O => false
  | S q' =>
      match nth_error rs q' with
      | Some r => hl_open_comment r
      | None => false
      end
  end.

(** The highlight and the comment flag of the row [r], at position [q] of
    the rows [rs], are what a scan of its render string gives now. *)
Definition row_settled (syn : option editorSyntax) (rs : list erow)
  (q : nat) (r : erow) : Prop :=
  match syn with
  | None => hl r = repeat HL_NORMAL (Z.to_nat (rsize r))
  | Some s =>
      scan_row s (render r) (Z.to_nat (rsize r)) (seed_of rs q)
      = Some (hl r, hl_open_comment r)
  end.

(** Every row is highlighted as a scan of the whole buffer from the top
    would highlight it. *)
Definition highlight_consistent (E : editorConfig) : Prop :=
  forall q r, nth_error (row E) q = Some r ->
              row_settled (syntax E) (row E) q r.

(** Every row but row [p] is. *)
Definition consistent_but (E : editorConfig) (p : nat) : Prop :=
  forall q r, q <> p -> nth_error (row E) q = Some r ->
              row_settled (syntax E) (row E) q r.

(** The same, decided. *)
Fixpoint hl_eqb (a b : list editorHighlight) : bool :=
  match a, b with
  | [], [] => true
  | x :: a', y :: b' => editorHighlight_eqb x y && hl_eqb a' b'
  | _, _ => false
  end.

Definition row_settledb (syn : option editorSyntax) (rs : list erow)
  (q : nat) (r : erow) : bool :=
  match syn with
  | None => hl_eqb (hl r) (repeat HL_NORMAL (Z.to_nat (rsize r)))
  | Some s =>
      match scan_row s (render r) (Z.to_nat (rsize r)) (seed_of rs q) with
      | Some (h, oc) => hl_eqb h (hl r) && Bool.eqb oc (hl_open_comment r)
      | None => false
      end
  end.

Fixpoint settled_rowsb (syn : option editorSyntax) (rs : list erow)
  (skip : nat -> bool) (q : nat) (l : list erow) : bool :=
  match l with
  | [] => true
  | r :: t =>
      (skip q || row_settledb syn rs q r)
      && settled_rowsb syn rs skip (S q) t
  end.

Definition highlight_consistentb (E : editorConfig) : bool :=
  settled_rowsb (syntax E) (row E) (fun _ => false) 0 (row E).

Definition consistent_butb (E : editorConfig) (p : nat) : bool :=
  settled_rowsb (syntax E) (row E) (Nat.eqb p) 0 (row E).


(** A key that is a printable character. *)
Definition printable (c : Z) : Prop := 32 <= c < 127.


(** ** The state of a run of the editor *)

(** What an edit of the text leaves alone: [rx] and the scroll offsets,
    the file name, the syntax and the tab stop. *)
Definition same_setting (E E' : editorConfig) : Prop :=
  rx E' = rx E /\ rowoff E' = rowoff E /\ coloff E' = coloff E
  /\ filename E' = filename E /\ syntax E' = syntax E
  /\ tab_stop E' = tab_stop E.

(** Editor states that differ in [rx] and the scroll offsets at most:
    what a refresh of the screen writes. *)
Definition same_but_view (E E' : editorConfig) : Prop :=
  exists x co ro, E' = set_rowoff (set_coloff (set_rx E x) co) ro.

(** The editor between two keys: a well-formed buffer, render strings
    that follow the characters, a valid cursor, and a row offset that is
    not negative. *)
Definition editor_ok (E : editorConfig) : Prop :=
  buffer_ok E /\ rows_rendered E /\ cursor_ok E /\ 0 <= rowoff E.

Definition editor_okb (E : editorConfig) : bool :=
  buffer_okb E && rows_renderedb E && cursor_okb E && (0 <=? rowoff E).

(** The static variables of [editorFindCallback] between two searches. *)
Definition find_idle (fs : find_state) : Prop :=
  saved_hl fs = None /\ last_match fs = -1 /\ direction fs = 1.

Definition session_ok (s : session) : Prop :=
  editor_ok (editor s) /\ find_idle (find_vars s).

(** The editor in the prompt of a search that began in the state [E0]:
    the invariant of the prompt, a cursor that is valid in [E0], and a row
    offset that is not negative. *)
Definition search_inv (E0 : editorConfig) (fs : find_state)
  (E : editorConfig) : Prop :=
  prompt_inv E0 fs E /\ cursor_ok (set_cursor E0 (cx E) (cy E))
  /\ 0 <= rowoff E.

(** The state in which [editorProcessKeypress] returns to the loop after
    the key [c]: as between two keys, but for the cursor after Ctrl-D,
    which stays where it was when its line is deleted. *)
Definition after_key_ok (c : Z) (s : session) : Prop :=
  buffer_ok (editor s) /\ rows_rendered (editor s)
  /\ 0 <= rowoff (editor s)
  /\ 0 <= cy (editor s) <= numrows (editor s) /\ 0 <= cx (editor s)
  /\ find_idle (find_vars s)
  /\ (c <> CTRL_KEY KEY_d -> cursor_ok (editor s)).

(** A session that starts on the editor state [E], with an empty disk. *)
Definition session_on (E : editorConfig) : session :=
  mkSession E VINE_QUIT_TIMES find_init (fun _ => None) [].

(** Sessions that differ in [rx] and the scroll offsets of the editor at
    most. *)
Definition refreshed (s s' : session) : Prop :=
  same_but_view (editor s) (editor s') /\ find_vars s' = find_vars s
  /\ files s' = files s /\ answers s' = answers s.

(** The cursor of the document one place to the right: in its line, or
    from the end of a line to the start of the next. *)
Definition doc_right (d : document) : document :=
  if doc_line d <? Z.of_nat (length (doc_lines d)) then
    if doc_col d <? Z.of_nat (length (line_at (doc_lines d) (doc_line d)))
    then mkDoc (doc_lines d) (doc_col d + 1) (doc_line d)
    else mkDoc (doc_lines d) 0 (doc_line d + 1)
  else d.

(** The keys that change the text: a printable character, Enter,
    Backspace, Ctrl-X; and what each does to the document. *)
Definition text_key (c : Z) : Prop :=
  printable c \/ c = KEY_ENTER \/ c = BACKSPACE \/ c = CTRL_KEY KEY_x.

Definition doc_key (d : document) (c : Z) : document :=
  if c =? KEY_ENTER then break_line d
  else if c =? BACKSPACE then backspace d
  else if c =? CTRL_KEY KEY_x then backspace (doc_right d)
  else type_char (char_of_int c) d.

(** * Properties *)

#[local] Arguments Ascii.eqb : simpl never.

(** ** Array primitives *)

Lemma memset_length {A : Type} (l : list A) (i n : nat) (v : A) :
  (i + n <= length l)%nat -> length (memset l i n v) = length l.
Proof.
  intros H. unfold memset.
  rewrite !length_app, length_firstn, repeat_length, length_skipn. lia.
Qed.

Lemma store_length {A : Type} (l : list A) (i : nat) (v : A) :
  (i < length l)%nat -> length (store l i v) = length l.
Proof. intros H. apply memset_length. lia. Qed.

Lemma update_range_length {A : Type} (f : A -> A) (l : list A) (lo n : nat) :
  length (update_range f l lo n) = length l.
Proof.
  unfold update_range.
  rewrite !length_app, length_map, !length_firstn, !length_skipn. lia.
Qed.

Lemma memcpy_exact {A : Type} (dst src : list A) :
  length dst = length src -> memcpy dst src (length dst) = src.
Proof.
  intros H. unfold memcpy.
  rewrite skipn_all, app_nil_r. rewrite H. apply firstn_all.
Qed.

Lemma nth_error_store_same {A : Type} (l : list A) (i : nat) (v : A) :
  (i < length l)%nat -> nth_error (store l i v) i = Some v.
Proof.
  intros H. unfold store, memset.
  rewrite nth_error_app2; rewrite length_firstn; [|lia].
  replace (i - Nat.min i (length l))%nat with 0%nat by lia. reflexivity.
Qed.

Lemma nth_error_store_other {A : Type} (l : list A) (i j : nat) (v : A) :
  (i < length l)%nat -> j <> i ->
  nth_error (store l i v) j = nth_error l j.
Proof.
  intros H Hj. unfold store, memset.
  destruct (Nat.lt_ge_cases j i) as [Hlt | Hge].
  - rewrite nth_error_app1 by (rewrite length_firstn; lia).
    rewrite nth_error_firstn.
    destruct (Nat.ltb_spec j i); [reflexivity | lia].
  - rewrite nth_error_app2 by (rewrite length_firstn; lia).
    rewrite length_firstn.
    replace (j - Nat.min i (length l))%nat with (S (j - i - 1)) by lia.
    simpl. rewrite nth_error_skipn. f_equal. lia.
Qed.

(** ** C strings *)

Lemma ascii_eqb_true (a b : ascii) : Ascii.eqb a b = true -> a = b.
Proof. apply Ascii.eqb_eq. Qed.

(** A successful [strncmp] against the first [n] characters of a pattern
    (none of them NUL) stays inside the compared string. *)
Lemma strncmp_eq_length (n : nat) :
  forall s pat, strncmp_eq s pat n = true -> (n <= strlen pat)%nat ->
                (n <= length s)%nat.
Proof.
  induction n as [|n IH]; intros s pat Hm Hn; [lia|].
  destruct s as [|c1 t1], pat as [|c2 t2]; simpl in *; try lia.
  - destruct (Ascii.eqb c2 NUL) eqn:E2; [lia|].
    apply ascii_eqb_true in Hm. subst c2. discriminate.
  - destruct (Ascii.eqb c1 c2) eqn:E12; [|discriminate].
    apply ascii_eqb_true in E12. subst c2.
    destruct (Ascii.eqb c1 NUL); [lia|].
    apply le_n_S. apply (IH t1 t2); [exact Hm | lia].
Qed.

Lemma kw_len_le (kw : list ascii) : (kw_len kw <= strlen kw)%nat.
Proof. unfold kw_len. destruct (kw_is_secondary kw); lia. Qed.

(** ** The scan of one row *)

Section Scan.

Variable syn : editorSyntax.
Variable rd : list ascii.

(** What one run of the body keeps: the length of the highlight array; and
    what it decreases when the loop goes on. *)
Let step_ok (st : scan_state) (e : loop_exit) : Prop :=
  length (sc_hl (exit_state e)) = length rd
  /\ match e with
     | Continue st' =>
         (scan_measure (length rd) st' < scan_measure (length rd) st)%nat
     | Break _ => True
     end.

Ltac split_conds H :=
  repeat match type of H with
         | (_ && _ = true) =>
             let H1 := fresh H in
             apply andb_prop in H; destruct H as [H H1]
         end.

Lemma match_in_range (i : nat) (pat : list ascii) (n : nat) :
  strncmp_eq (skipn i rd) pat n = true -> (n <= strlen pat)%nat ->
  (i < length rd)%nat -> (i + n <= length rd)%nat.
Proof.
  intros Hm Hn Hi. apply strncmp_eq_length in Hm; [|exact Hn].
  rewrite length_skipn in Hm. lia.
Qed.

Lemma opt_strlen_le (o : option (list ascii)) :
  (opt_strlen o <= strlen (opt_str o))%nat.
Proof. destruct o; simpl; lia. Qed.

Lemma scan_scs_ok (st : scan_state) (e : loop_exit) :
  length (sc_hl st) = length rd -> (sc_i st < length rd)%nat ->
  scan_scs syn rd (length rd) st = Some e -> step_ok st e.
Proof.
  intros Hl Hi. unfold scan_scs.
  destruct (_ && _) eqn:Hc; [|discriminate].
  intros [= <-]. split; [|exact I]. simpl.
  rewrite memset_length; lia.
Qed.

Lemma scan_mlcomment_ok (st : scan_state) (e : loop_exit) :
  length (sc_hl st) = length rd -> (sc_i st < length rd)%nat ->
  scan_mlcomment syn rd st = Some e -> step_ok st e.
Proof.
  intros Hl Hi. unfold scan_mlcomment.
  destruct (_ && _) eqn:Hc; [|discriminate].
  split_conds Hc.
  apply negb_true_iff, Nat.eqb_neq in Hc, Hc1.
  destruct (sc_in_comment st).
  - destruct (strncmp_eq _ _ _) eqn:Hm; intros [= <-]; split; simpl;
      unfold scan_measure; simpl.
    + apply match_in_range in Hm; [|apply opt_strlen_le | exact Hi].
      rewrite memset_length; rewrite store_length; lia.
    + lia.
    + rewrite store_length; lia.
    + destruct (sc_prev_sep st); lia.
  - destruct (strncmp_eq _ _ _) eqn:Hm; [|discriminate].
    intros [= <-]. split; simpl; unfold scan_measure; simpl.
    + apply match_in_range in Hm; [|apply opt_strlen_le | exact Hi].
      rewrite memset_length; lia.
    + destruct (sc_prev_sep st); lia.
Qed.

Lemma scan_string_ok (st : scan_state) (e : loop_exit) :
  length (sc_hl st) = length rd -> (sc_i st < length rd)%nat ->
  scan_string syn rd (length rd) st = Some e -> step_ok st e.
Proof.
  intros Hl Hi. unfold scan_string.
  destruct (negb _); [|discriminate].
  destruct (in_str st).
  - destruct (_ && _) eqn:Hc.
    + split_conds Hc. apply Nat.ltb_lt in Hc0.
      intros [= <-]. split; simpl; unfold scan_measure; simpl.
      * rewrite !store_length; rewrite ?store_length; lia.
      * destruct (sc_prev_sep st); lia.
    + intros [= <-]. split; simpl; unfold scan_measure; simpl.
      * rewrite store_length; lia.
      * destruct (sc_prev_sep st); lia.
  - destruct (_ || _); [|discriminate].
    intros [= <-]. split; simpl; unfold scan_measure; simpl.
    + rewrite store_length; lia.
    + destruct (sc_prev_sep st); lia.
Qed.

Lemma scan_number_ok (st : scan_state) (e : loop_exit) :
  length (sc_hl st) = length rd -> (sc_i st < length rd)%nat ->
  scan_number syn rd st = Some e -> step_ok st e.
Proof.
  intros Hl Hi. unfold scan_number.
  destruct (_ && _); [|discriminate].
  intros [= <-]. split; simpl; unfold scan_measure; simpl.
  - rewrite store_length; lia.
  - destruct (sc_prev_sep st); lia.
Qed.

Lemma find_keyword_some (i : nat) (kws : list (list ascii)) (kw : list ascii) :
  find_keyword rd i kws = Some kw ->
  In kw kws /\ kw_matches rd i kw = true.
Proof.
  induction kws as [|k rest IH]; simpl; [discriminate|].
  destruct (kw_matches rd i k) eqn:Hk.
  - intros [= <-]. auto.
  - intros H. destruct (IH H). auto.
Qed.

Lemma scan_keyword_ok (st : scan_state) (e : loop_exit) :
  length (sc_hl st) = length rd -> (sc_i st < length rd)%nat ->
  scan_keyword syn rd st = Some e -> step_ok st e.
Proof.
  intros Hl Hi. unfold scan_keyword.
  destruct (sc_prev_sep st) eqn:Hp; [|discriminate].
  destruct (find_keyword _ _ _) as [kw|] eqn:Hf; [|discriminate].
  apply find_keyword_some in Hf. destruct Hf as [_ Hm].
  unfold kw_matches in Hm. apply andb_prop in Hm. destruct Hm as [Hm _].
  apply match_in_range in Hm; [|apply kw_len_le | exact Hi].
  intros [= <-]. split; simpl; unfold scan_measure; simpl.
  - rewrite memset_length; lia.
  - rewrite Hp. lia.
Qed.

Lemma scan_default_ok (st : scan_state) :
  length (sc_hl st) = length rd -> (sc_i st < length rd)%nat ->
  step_ok st (scan_default rd st).
Proof.
  intros Hl Hi. unfold scan_default. split; simpl; [exact Hl|].
  unfold scan_measure; simpl.
  destruct (sc_prev_sep st), (is_separator _); lia.
Qed.

Lemma scan_body_ok (st : scan_state) :
  length (sc_hl st) = length rd -> (sc_i st < length rd)%nat ->
  step_ok st (scan_body syn rd (length rd) st).
Proof.
  intros Hl Hi. unfold scan_body.
  destruct (scan_scs _ _ _ _) eqn:H1; [eapply scan_scs_ok; eauto|].
  destruct (scan_mlcomment _ _ _) eqn:H2; [eapply scan_mlcomment_ok; eauto|].
  destruct (scan_string _ _ _ _) eqn:H3; [eapply scan_string_ok; eauto|].
  destruct (scan_number _ _ _) eqn:H4; [eapply scan_number_ok; eauto|].
  destruct (scan_keyword _ _ _) eqn:H5; [eapply scan_keyword_ok; eauto|].
  apply scan_default_ok; assumption.
Qed.

(** The loop ends within the fuel that bounds its measure, and the
    highlight array keeps its length. *)
Lemma scan_loop_terminates (fuel : nat) :
  forall st, length (sc_hl st) = length rd ->
             (scan_measure (length rd) st <= fuel)%nat ->
             exists st', scan_loop fuel syn rd (length rd) st = Some st'
                         /\ length (sc_hl st') = length rd.
Proof.
  induction fuel as [|fuel IH]; intros st Hl Hm.
  - simpl. destruct (Nat.ltb_spec (sc_i st) (length rd)) as [Hi|Hi].
    + unfold scan_measure in Hm. lia.
    + eauto.
  - simpl. destruct (Nat.ltb_spec (sc_i st) (length rd)) as [Hi|Hi];
      [|eauto].
    destruct (scan_body_ok st Hl Hi) as [Hl' Hdec].
    destruct (scan_body syn rd (length rd) st) as [st'|st']; simpl in *.
    + apply IH; [exact Hl' | lia].
    + eauto.
Qed.

(** The scan of a row always yields a highlight array, one entry for each
    render character. *)
Lemma scan_row_total (ic : bool) :
  exists h oc, scan_row syn rd (length rd) ic = Some (h, oc)
               /\ length h = length rd.
Proof.
  unfold scan_row.
  destruct (scan_loop_terminates (scan_fuel (length rd))
              (mkScan 0 true NUL ic (repeat HL_NORMAL (length rd))))
    as [st' [Hs Hl]].
  - simpl. apply repeat_length.
  - unfold scan_measure, scan_fuel. simpl. lia.
  - rewrite Hs. eauto.
Qed.

End Scan.

(** ** Rows of the buffer *)

Lemma store_cons_0 {A : Type} (a v : A) (l : list A) :
  store (a :: l) 0 v = v :: l.
Proof. reflexivity. Qed.

Lemma store_cons_S {A : Type} (a v : A) (l : list A) (p : nat) :
  store (a :: l) (S p) v = a :: store l p v.
Proof. reflexivity. Qed.

Lemma store_store {A : Type} (l : list A) (p : nat) (x y : A) :
  (p < length l)%nat -> store (store l p x) p y = store l p y.
Proof.
  intros Hp. unfold store, memset.
  rewrite firstn_app, firstn_firstn, length_firstn.
  replace (Nat.min p p) with p by lia.
  replace (p - Nat.min p (length l))%nat with 0%nat by lia.
  simpl. rewrite app_nil_r. f_equal. f_equal.
  rewrite skipn_app, length_firstn.
  replace (p + 1 - Nat.min p (length l))%nat with 1%nat by lia.
  rewrite skipn_all2 by (rewrite length_firstn; lia). reflexivity.
Qed.

Lemma store_same {A : Type} (l : list A) :
  forall p x, nth_error l p = Some x -> store l p x = l.
Proof.
  induction l as [|a l IH]; intros p x Hn; [destruct p; discriminate|].
  destruct p as [|p]; simpl in Hn.
  - injection Hn as ->. reflexivity.
  - rewrite store_cons_S, (IH p x Hn). reflexivity.
Qed.

Lemma Forall_firstn_keeps {A : Type} (P : A -> Prop) (n : nat) :
  forall l, Forall P l -> Forall P (firstn n l).
Proof.
  induction n as [|n IH]; intros l H; [constructor|].
  destruct H; simpl; constructor; auto.
Qed.

Lemma Forall_skipn_keeps {A : Type} (P : A -> Prop) (n : nat) :
  forall l, Forall P l -> Forall P (skipn n l).
Proof.
  induction n as [|n IH]; intros l H; [exact H|].
  destruct H; simpl; [constructor | auto].
Qed.

Lemma Forall2_nth_error_r {A : Type} (R : A -> A -> Prop) (l l' : list A) :
  Forall2 R l l' ->
  forall i y, nth_error l' i = Some y ->
              exists x, nth_error l i = Some x /\ R x y.
Proof.
  induction 1 as [|a b l l' Hab Hl IH]; intros i y Hn.
  - destruct i; discriminate.
  - destruct i as [|i]; simpl in *.
    + injection Hn as <-. eauto.
    + eauto.
Qed.

Lemma Forall2_nth_error_l {A : Type} (R : A -> A -> Prop) (l l' : list A) :
  Forall2 R l l' ->
  forall i x, nth_error l i = Some x ->
              exists y, nth_error l' i = Some y /\ R x y.
Proof.
  induction 1 as [|a b l l' Hab Hl IH]; intros i x Hn.
  - destruct i; discriminate.
  - destruct i as [|i]; simpl in *.
    + injection Hn as <-. eauto.
    + eauto.
Qed.

Lemma Forall_store {A : Type} (P : A -> Prop) (l : list A) (p : nat) (v : A) :
  Forall P l -> P v -> Forall P (store l p v).
Proof.
  intros Hl Hv. unfold store, memset.
  apply Forall_app. split; [apply Forall_firstn_keeps; exact Hl|].
  apply Forall_app. split; [repeat constructor; exact Hv|].
  apply Forall_skipn_keeps; exact Hl.
Qed.

Lemma Forall2_store {A : Type} (R : A -> A -> Prop) (l : list A) :
  (forall a, R a a) ->
  forall p x y, nth_error l p = Some x -> R x y ->
                Forall2 R l (store l p y).
Proof.
  intros Hrefl. induction l as [|a l IH]; intros p x y Hn Hxy.
  - destruct p; discriminate.
  - destruct p as [|p]; simpl in Hn.
    + injection Hn as ->. rewrite store_cons_0. constructor; [exact Hxy|].
      clear - Hrefl. induction l; constructor; auto.
    + rewrite store_cons_S. constructor; [apply Hrefl|].
      eapply IH; eauto.
Qed.

Lemma same_text_refl (r : erow) : same_text r r.
Proof. repeat split. Qed.

Lemma same_text_trans (a b c : erow) :
  same_text a b -> same_text b c -> same_text a c.
Proof.
  unfold same_text. intros (H1 & H2 & H3 & H4 & H5) (K1 & K2 & K3 & K4 & K5).
  repeat split; congruence.
Qed.

Lemma Forall2_same_text_trans (a b c : list erow) :
  Forall2 same_text a b -> Forall2 same_text b c -> Forall2 same_text a c.
Proof.
  intros H. revert c. induction H; intros c Hc; inversion Hc; subst;
    constructor; eauto using same_text_trans.
Qed.

Lemma same_buffer_refl (E : editorConfig) : same_buffer E E.
Proof.
  unfold same_buffer. repeat split.
  induction (row E); constructor; auto using same_text_refl.
Qed.

Lemma same_buffer_trans (E1 E2 E3 : editorConfig) :
  same_buffer E1 E2 -> same_buffer E2 E3 -> same_buffer E1 E3.
Proof.
  unfold same_buffer.
  intros (A1 & A2 & A3 & A4 & A5 & A6 & A7 & A8 & A9 & A10 & A11)
         (B1 & B2 & B3 & B4 & B5 & B6 & B7 & B8 & B9 & B10 & B11).
  repeat split; try congruence.
  eapply Forall2_same_text_trans; eauto.
Qed.

Lemma same_buffer_put_hl (E : editorConfig) (p : nat) (r : erow)
  (h : list editorHighlight) (oc : bool) :
  nth_error (row E) p = Some r ->
  same_buffer E (put_row E p (set_hl r h oc)).
Proof.
  intros Hr. unfold same_buffer, put_row. simpl. repeat split.
  eapply Forall2_store; eauto using same_text_refl.
  repeat split.
Qed.

Lemma idx_ok_same_text (rs rs' : list erow) :
  Forall2 same_text rs rs' -> idx_ok rs -> idx_ok rs'.
Proof.
  intros H Hok i r Hn.
  destruct (Forall2_nth_error_r _ _ _ H i r Hn) as [x [Hx [Hi _]]].
  rewrite Hi. apply (Hok i x Hx).
Qed.

(** ** The recompute of one row *)

Lemma get_row_some (E : editorConfig) (p : nat) (r : erow) :
  nth_error (row E) p = Some r -> get_row E p = Ok r.
Proof. unfold get_row. intros ->. reflexivity. Qed.

Lemma nth_error_lt {A : Type} (l : list A) (p : nat) (x : A) :
  nth_error l p = Some x -> (p < length l)%nat.
Proof. intros H. apply nth_error_Some. congruence. Qed.

Lemma nth_error_in_range {A : Type} (l : list A) (p : nat) :
  (p < length l)%nat -> exists x, nth_error l p = Some x.
Proof.
  intros H. destruct (nth_error l p) eqn:Hn; [eauto|].
  apply nth_error_None in Hn. lia.
Qed.

(** The comment flag carried into the row at position [p]. *)
Lemma carried_in_ok (E : editorConfig) (p : nat) (r : erow) :
  idx_ok (row E) -> nth_error (row E) p = Some r ->
  exists ic, carried_in E r = Ok ic
             /\ (p = 0%nat -> ic = false)
             /\ (forall prev, nth_error (row E) (p - 1) = Some prev ->
                              (0 < p)%nat -> ic = hl_open_comment prev).
Proof.
  intros Hok Hr. unfold carried_in. rewrite (Hok p r Hr).
  destruct (Z.ltb_spec 0 (Z.of_nat p)) as [Hp|Hp].
  - replace (Z.to_nat (Z.of_nat p - 1)) with (p - 1)%nat by lia.
    destruct (nth_error_in_range (row E) (p - 1)) as [prev Hprev].
    { apply nth_error_lt in Hr. lia. }
    rewrite (get_row_some _ _ _ Hprev). simpl.
    exists (hl_open_comment prev). split; [reflexivity|].
    split; [lia|]. intros prev' Hp' _. congruence.
  - exists false. split; [reflexivity|]. split; [reflexivity|]. lia.
Qed.

(** What [update_one] computes, read off its definition. *)
Lemma update_one_inv (E E1 : editorConfig) (p : nat) (r : erow) (ch : bool) :
  nth_error (row E) p = Some r -> update_one E p = Ok (E1, ch) ->
  match syntax E with
  | None =>
      E1 = put_row E p (set_hl r (repeat HL_NORMAL (Z.to_nat (rsize r)))
                          (hl_open_comment r))
      /\ ch = false
  | Some syn =>
      exists ic h oc,
        carried_in E r = Ok ic
        /\ scan_row syn (render r) (Z.to_nat (rsize r)) ic = Some (h, oc)
        /\ E1 = put_row E p (set_hl r h oc)
        /\ ch = negb (Bool.eqb (hl_open_comment r) oc)
  end.
Proof.
  intros Hr. unfold update_one. rewrite (get_row_some _ _ _ Hr). simpl.
  destruct (syntax E) as [syn|].
  - destruct (carried_in E r) as [ic| |]; simpl; try discriminate.
    destruct (scan_row _ _ _ _) as [[h oc]|] eqn:Hs; [|discriminate].
    intros [= <- <-]. exists ic, h, oc. auto.
  - intros [= <- <-]. auto.
Qed.

(** [update_one] returns whenever the row's [idx] is its position and its
    [rsize] is the length of its render string; the new highlight array has
    that length. *)
Lemma update_one_total (E : editorConfig) (p : nat) (r : erow) :
  idx_ok (row E) -> nth_error (row E) p = Some r ->
  rsize r = Z.of_nat (length (render r)) ->
  exists h oc,
    update_one E p
    = Ok (put_row E p (set_hl r h oc),
          negb (Bool.eqb (hl_open_comment r) oc))
    /\ length h = length (render r).
Proof.
  intros Hok Hr Hsz. unfold update_one.
  rewrite (get_row_some _ _ _ Hr). simpl.
  rewrite Hsz, Nat2Z.id.
  destruct (syntax E) as [syn|].
  - destruct (carried_in_ok E p r Hok Hr) as [ic [-> _]]. simpl.
    destruct (scan_row_total syn (render r) ic) as [h [oc [-> Hl]]].
    exists h, oc. auto.
  - exists (repeat HL_NORMAL (length (render r))), (hl_open_comment r).
    rewrite Bool.eqb_reflx. simpl. split; [reflexivity|].
    apply repeat_length.
Qed.

Lemma render_ok_set_hl (r : erow) (h : list editorHighlight) (oc : bool) :
  rsize r = Z.of_nat (length (render r)) -> length h = length (render r) ->
  render_ok (set_hl r h oc).
Proof. intros H1 H2. split; simpl; assumption. Qed.

Lemma row_ok_set_hl (r : erow) (h : list editorHighlight) (oc : bool) :
  row_ok r -> length h = length (render r) -> row_ok (set_hl r h oc).
Proof.
  intros [H1 [H2 H3]] Hl. split; [exact H1|].
  apply render_ok_set_hl; assumption.
Qed.

(** ** The cascade of [editorUpdateSyntax] *)

(** More fuel does not change a result. *)
Lemma editorUpdateSyntax_fuel_mono (fuel : nat) :
  forall E p E', editorUpdateSyntax_fuel fuel E p = Ok E' ->
                 forall fuel', (fuel <= fuel')%nat ->
                               editorUpdateSyntax_fuel fuel' E p = Ok E'.
Proof.
  induction fuel as [|fuel IH]; intros E p E' H fuel' Hle; [discriminate|].
  destruct fuel' as [|fuel']; [lia|].
  simpl in *.
  destruct (get_row E p) as [r| |]; simpl in *; try discriminate.
  destruct (update_one E p) as [u| |]; simpl in *; try discriminate.
  destruct (snd u && (idx r + 1 <? numrows E)); [|exact H].
  apply (IH _ _ _ H). lia.
Qed.

(** The cascade started at row [p] returns, whatever the highlight arrays
    it finds; it changes only the highlight and the comment flag of rows,
    none of them before [p]; the highlight array of row [p] gets the length
    of the render string, and the other rows keep that property if they
    have it. *)
Lemma editorUpdateSyntax_fuel_gen (k : nat) :
  forall fuel E p,
    idx_ok (row E) ->
    Forall (fun r => rsize r = Z.of_nat (length (render r))) (row E) ->
    numrows E <= Z.of_nat (length (row E)) ->
    (p < length (row E))%nat -> (length (row E) - p <= k)%nat ->
    (k <= fuel)%nat ->
    exists E', editorUpdateSyntax_fuel fuel E p = Ok E'
               /\ same_buffer E E'
               /\ (forall q, (q < p)%nat ->
                             nth_error (row E') q = nth_error (row E) q)
               /\ (forall q r0 r',
                      nth_error (row E) q = Some r0 ->
                      nth_error (row E') q = Some r' ->
                      q = p \/ length (hl r0) = length (render r0) ->
                      length (hl r') = length (render r')).
Proof.
  induction k as [|k IH]; intros fuel E p Hidx Hrows Hnum Hp Hk Hfuel;
    [lia|].
  destruct fuel as [|fuel]; [lia|].
  destruct (nth_error_in_range _ _ Hp) as [r Hr].
  assert (Hrs : rsize r = Z.of_nat (length (render r))).
  { rewrite Forall_forall in Hrows. apply Hrows.
    eapply nth_error_In; eauto. }
  destruct (update_one_total E p r Hidx Hr Hrs) as [h [oc [Hu Hl]]].
  simpl. rewrite (get_row_some _ _ _ Hr). simpl. rewrite Hu. simpl.
  set (E1 := put_row E p (set_hl r h oc)).
  assert (Hsame : same_buffer E E1) by (apply same_buffer_put_hl; exact Hr).
  assert (Hrows1 : Forall (fun r => rsize r = Z.of_nat (length (render r)))
                     (row E1)).
  { apply Forall_store; [exact Hrows | exact Hrs]. }
  assert (Hother : forall q, q <> p ->
                             nth_error (row E1) q = nth_error (row E) q).
  { intros q Hq. apply nth_error_store_other; assumption. }
  assert (Hat : nth_error (row E1) p = Some (set_hl r h oc)).
  { apply nth_error_store_same; exact Hp. }
  assert (Hfit1 : forall q r0 r1,
             nth_error (row E) q = Some r0 ->
             nth_error (row E1) q = Some r1 ->
             q = p \/ length (hl r0) = length (render r0) ->
             length (hl r1) = length (render r1)).
  { intros q r0 r1 H0 H1 Hq. destruct (Nat.eq_dec q p) as [->|Hne].
    - rewrite Hat in H1. injection H1 as <-. exact Hl.
    - rewrite (Hother q Hne), H0 in H1. injection H1 as <-.
      destruct Hq; [contradiction | assumption]. }
  destruct (negb (Bool.eqb (hl_open_comment r) oc)
            && (idx r + 1 <? numrows E)) eqn:Hc.
  - apply andb_prop in Hc. destruct Hc as [_ Hlt].
    apply Z.ltb_lt in Hlt. rewrite (Hidx p r Hr) in *.
    replace (Z.to_nat (Z.of_nat p + 1)) with (S p) by lia.
    assert (Hlen : length (row E1) = length (row E)).
    { apply store_length. exact Hp. }
    destruct (IH fuel E1 (S p)) as [E' [He [Hs [Hb Hfit]]]].
    + eapply idx_ok_same_text; [apply Hsame | exact Hidx].
    + exact Hrows1.
    + rewrite Hlen. destruct Hsame as (_ & _ & _ & _ & _ & -> & _).
      exact Hnum.
    + rewrite Hlen. lia.
    + rewrite Hlen. lia.
    + lia.
    + exists E'. split; [exact He|]. split.
      * eapply same_buffer_trans; eauto.
      * split.
        -- intros q Hq. rewrite Hb by lia. apply Hother. lia.
        -- intros q r0 r' H0 H' Hq.
           destruct (nth_error_in_range (row E1) q) as [r1 H1].
           { rewrite Hlen. eapply nth_error_lt; eauto. }
           apply (Hfit q r1 r' H1 H'). right.
           apply (Hfit1 q r0 r1 H0 H1 Hq).
  - exists E1. split; [reflexivity|]. split; [exact Hsame|].
    split; [intros q Hq; apply Hother; lia | exact Hfit1].
Qed.

Lemma row_ok_sized (rs : list erow) :
  Forall row_ok rs ->
  Forall (fun r => rsize r = Z.of_nat (length (render r))) rs.
Proof.
  intros H. eapply Forall_impl; [|exact H].
  intros r (_ & Hs & _). exact Hs.
Qed.

(** Rows that are well formed stay so when only their highlight changes to
    an array of the right length. *)
Lemma rows_ok_transfer (rs rs' : list erow) :
  Forall2 same_text rs rs' ->
  (forall q r0 r', nth_error rs q = Some r0 -> nth_error rs' q = Some r' ->
                   row_ok r0 -> length (hl r') = length (render r')) ->
  Forall row_ok rs -> Forall row_ok rs'.
Proof.
  intros Hs Hfit Hok. rewrite Forall_forall in *. intros r' Hin.
  apply In_nth_error in Hin. destruct Hin as [q Hq].
  destruct (Forall2_nth_error_r _ _ _ Hs q r' Hq)
    as [r0 [H0 (Hi & Hsz & Hrs & Hch & Hrd)]].
  assert (Hr0 : row_ok r0) by (apply Hok; eapply nth_error_In; eauto).
  pose proof (Hfit q r0 r' H0 Hq Hr0) as Hl.
  destruct Hr0 as (K1 & K2 & K3).
  repeat split; [congruence | congruence | exact Hl].
Qed.

(** The same on a buffer all of whose rows are well formed. *)
Lemma editorUpdateSyntax_fuel_ok (k : nat) :
  forall fuel E p,
    idx_ok (row E) -> Forall row_ok (row E) ->
    numrows E <= Z.of_nat (length (row E)) ->
    (p < length (row E))%nat -> (length (row E) - p <= k)%nat ->
    (k <= fuel)%nat ->
    exists E', editorUpdateSyntax_fuel fuel E p = Ok E'
               /\ same_buffer E E'
               /\ Forall row_ok (row E')
               /\ (forall q, (q < p)%nat ->
                             nth_error (row E') q = nth_error (row E) q).
Proof.
  intros fuel E p Hidx Hrows Hnum Hp Hk Hfuel.
  destruct (editorUpdateSyntax_fuel_gen k fuel E p Hidx
              (row_ok_sized _ Hrows) Hnum Hp Hk Hfuel)
    as [E' [He [Hs [Hb Hfit]]]].
  exists E'. split; [exact He|]. split; [exact Hs|]. split; [|exact Hb].
  apply (rows_ok_transfer (row E) (row E')); [apply Hs | | exact Hrows].
  intros q r0 r' H0 H' (_ & _ & Hl). eapply Hfit; eauto.
Qed.

(** [editorUpdateSyntax] on a buffer whose rows are numbered by position. *)
Lemma editorUpdateSyntax_total (E : editorConfig) (p : nat) :
  idx_ok (row E) -> Forall row_ok (row E) ->
  numrows E <= Z.of_nat (length (row E)) -> (p < length (row E))%nat ->
  exists E', editorUpdateSyntax E p = Ok E'
             /\ same_buffer E E'
             /\ Forall row_ok (row E')
             /\ (forall q, (q < p)%nat ->
                           nth_error (row E') q = nth_error (row E) q).
Proof.
  intros Hidx Hrows Hnum Hp.
  apply (editorUpdateSyntax_fuel_ok (length (row E))); auto; lia.
Qed.

(** Whatever the fuel, a result of the cascade has the properties above. *)
Lemma editorUpdateSyntax_fuel_result (fuel : nat) (E E' : editorConfig)
  (p : nat) :
  idx_ok (row E) -> Forall row_ok (row E) ->
  numrows E <= Z.of_nat (length (row E)) -> (p < length (row E))%nat ->
  editorUpdateSyntax_fuel fuel E p = Ok E' ->
  same_buffer E E'
  /\ Forall row_ok (row E')
  /\ (forall q, (q < p)%nat -> nth_error (row E') q = nth_error (row E) q).
Proof.
  intros Hidx Hrows Hnum Hp He.
  destruct (editorUpdateSyntax_fuel_ok (length (row E))
              (Nat.max fuel (length (row E))) E p)
    as [E2 [He2 Hprops]]; auto; try lia.
  assert (He3 := editorUpdateSyntax_fuel_mono _ _ _ _ He
                   (Nat.max fuel (length (row E))) (Nat.le_max_l _ _)).
  assert (E2 = E') by congruence. subst E2. exact Hprops.
Qed.

(** One call of [editorUpdateSyntax] on a row numbered by its position. *)
Lemma editorUpdateSyntax_fuel_step (fuel : nat) (E : editorConfig) (p : nat)
  (r : erow) :
  idx_ok (row E) -> nth_error (row E) p = Some r ->
  editorUpdateSyntax_fuel (S fuel) E p
  = (u <- update_one E p ;;
     if snd u && (Z.of_nat p + 1 <? numrows E)
     then editorUpdateSyntax_fuel fuel (fst u) (S p)
     else Ok (fst u)).
Proof.
  intros Hidx Hr. simpl. rewrite (get_row_some _ _ _ Hr). simpl.
  rewrite (Hidx p r Hr).
  replace (Z.to_nat (Z.of_nat p + 1)) with (S p) by lia. reflexivity.
Qed.

Lemma put_row_length (E : editorConfig) (p : nat) (r : erow) :
  (p < length (row E))%nat -> length (row (put_row E p r)) = length (row E).
Proof. intros H. apply store_length. exact H. Qed.

Lemma nth_error_put_row_same (E : editorConfig) (p : nat) (r : erow) :
  (p < length (row E))%nat -> nth_error (row (put_row E p r)) p = Some r.
Proof. intros H. apply nth_error_store_same. exact H. Qed.

Lemma nth_error_put_row_other (E : editorConfig) (p q : nat) (r : erow) :
  (p < length (row E))%nat -> q <> p ->
  nth_error (row (put_row E p r)) q = nth_error (row E) q.
Proof. intros H Hq. apply nth_error_store_other; assumption. Qed.

(** The row at which a cascade starts ends as its own recompute left it. *)
Lemma cascade_first_row (fuel : nat) (E E1 E' : editorConfig) (p : nat)
  (ch : bool) :
  idx_ok (row E) -> Forall row_ok (row E) ->
  numrows E <= Z.of_nat (length (row E)) -> (p < length (row E))%nat ->
  update_one E p = Ok (E1, ch) ->
  editorUpdateSyntax_fuel fuel E p = Ok E' ->
  nth_error (row E') p = nth_error (row E1) p.
Proof.
  intros Hidx Hrows Hnum Hp Hu He.
  destruct (nth_error_in_range _ _ Hp) as [r Hr].
  destruct fuel as [|fuel]; [discriminate|].
  rewrite (editorUpdateSyntax_fuel_step _ _ _ _ Hidx Hr), Hu in He.
  simpl in He.
  assert (Hrok : row_ok r).
  { rewrite Forall_forall in Hrows. apply Hrows.
    eapply nth_error_In; eauto. }
  destruct Hrok as [_ [Hrs _]].
  destruct (update_one_total E p r Hidx Hr Hrs) as [h [oc [Hu' Hl]]].
  rewrite Hu in Hu'. injection Hu' as -> ->.
  destruct (_ && _) eqn:Hc.
  - apply andb_prop in Hc. destruct Hc as [_ Hlt]. apply Z.ltb_lt in Hlt.
    apply editorUpdateSyntax_fuel_result in He.
    + destruct He as (_ & _ & Hb). apply Hb. lia.
    + eapply idx_ok_same_text; [|exact Hidx].
      apply (same_buffer_put_hl E p r h oc Hr).
    + apply Forall_store; [exact Hrows|].
      rewrite Forall_forall in Hrows.
      apply row_ok_set_hl; [|exact Hl].
      apply Hrows. eapply nth_error_In; eauto.
    + rewrite put_row_length by exact Hp. exact Hnum.
    + rewrite put_row_length by exact Hp. simpl in Hlt. lia.
  - injection He as <-. reflexivity.
Qed.

(** ** Numbering of rows *)

Lemma idx_ok_from (rs : list erow) : idx_ok rs <-> idx_from 0 rs.
Proof. unfold idx_ok, idx_from. simpl. tauto. Qed.

Lemma idx_from_nil (k : nat) : idx_from k [].
Proof. intros i r H. destruct i; discriminate. Qed.

Lemma idx_from_cons (k : nat) (x : erow) (l : list erow) :
  idx_from k (x :: l) <-> idx x = Z.of_nat k /\ idx_from (S k) l.
Proof.
  split.
  - intros H. split.
    + rewrite (H 0%nat x eq_refl). f_equal. lia.
    + intros i r Hr. rewrite (H (S i) r Hr). f_equal. lia.
  - intros [Hx Hl] i r Hr. destruct i as [|i]; simpl in Hr.
    + injection Hr as <-. rewrite Hx. f_equal. lia.
    + rewrite (Hl i r Hr). f_equal. lia.
Qed.

Lemma idx_from_app (l1 : list erow) :
  forall k l2, idx_from k (l1 ++ l2)
               <-> idx_from k l1 /\ idx_from (k + length l1) l2.
Proof.
  induction l1 as [|x l1 IH]; intros k l2; simpl.
  - rewrite Nat.add_0_r. split; [intros H; split; [apply idx_from_nil|exact H]
                                | intros [_ H]; exact H].
  - rewrite !idx_from_cons, IH.
    replace (S k + length l1)%nat with (k + S (length l1))%nat by lia.
    tauto.
Qed.

Lemma idx_from_shift (d : Z) (l : list erow) :
  forall k k', Z.of_nat k' = Z.of_nat k + d ->
               idx_from k l -> idx_from k' (map (shift_idx d) l).
Proof.
  induction l as [|x l IH]; intros k k' Hk H; simpl.
  - apply idx_from_nil.
  - apply idx_from_cons in H. destruct H as [Hx Hl].
    apply idx_from_cons. split; [simpl; lia|].
    apply (IH (S k)); [lia | exact Hl].
Qed.

Lemma idx_from_split (a : nat) (l : list erow) :
  (a <= length l)%nat -> idx_from 0 l ->
  idx_from 0 (firstn a l) /\ idx_from a (skipn a l).
Proof.
  intros Ha H. rewrite <- (firstn_skipn a l) in H.
  apply idx_from_app in H. rewrite length_firstn in H.
  replace (0 + Nat.min a (length l))%nat with a in H by lia. exact H.
Qed.

Lemma idx_fromb_sound (rs : list erow) :
  forall k, idx_fromb k rs = true -> idx_from k rs.
Proof.
  induction rs as [|r t IH]; intros k H; simpl in H.
  - apply idx_from_nil.
  - apply andb_prop in H. destruct H as [H1 H2].
    apply idx_from_cons. split; [apply Z.eqb_eq; exact H1 | auto].
Qed.

Lemma row_okb_sound (r : erow) : row_okb r = true -> row_ok r.
Proof.
  unfold row_okb. intros H.
  apply andb_prop in H. destruct H as [H H3].
  apply andb_prop in H. destruct H as [H1 H2].
  apply Z.eqb_eq in H1, H2. apply Nat.eqb_eq in H3.
  repeat split; assumption.
Qed.

Lemma buffer_okb_sound (E : editorConfig) :
  buffer_okb E = true -> buffer_ok E.
Proof.
  unfold buffer_okb. intros H.
  apply andb_prop in H. destruct H as [H H4].
  apply andb_prop in H. destruct H as [H H3].
  apply andb_prop in H. destruct H as [H1 H2].
  split; [apply Z.eqb_eq; exact H1|].
  split; [apply idx_ok_from, idx_fromb_sound; exact H2|].
  split; [|apply Z.ltb_lt; exact H4].
  rewrite forallb_forall in H3. apply Forall_forall.
  intros r Hr. apply row_okb_sound. auto.
Qed.

(** ** Content of rows *)

Lemma same_text_chars (r r' : erow) : same_text r r' -> same_chars r r'.
Proof. intros (H1 & H2 & _ & H4 & _). repeat split; assumption. Qed.

Lemma same_chars_refl (r : erow) : same_chars r r.
Proof. repeat split. Qed.

Lemma Forall2_same_chars_refl (l : list erow) : Forall2 same_chars l l.
Proof. induction l; constructor; auto using same_chars_refl. Qed.

Lemma Forall2_same_chars_trans (a b c : list erow) :
  Forall2 same_chars a b -> Forall2 same_chars b c -> Forall2 same_chars a c.
Proof.
  intros H. revert c. induction H as [|x y l l' Hxy Hl IH]; intros c Hc;
    inversion Hc; subst; constructor; [|eauto].
  destruct Hxy as (A1 & A2 & A3).
  match goal with K : same_chars y _ |- _ => destruct K as (B1 & B2 & B3) end.
  repeat split; congruence.
Qed.

Lemma same_content_refl (E : editorConfig) : same_content E E.
Proof. unfold same_content. repeat split. apply Forall2_same_chars_refl. Qed.

Lemma same_content_trans (E1 E2 E3 : editorConfig) :
  same_content E1 E2 -> same_content E2 E3 -> same_content E1 E3.
Proof.
  unfold same_content.
  intros (A1 & A2 & A3 & A4 & A5 & A6 & A7 & A8 & A9 & A10 & A11)
         (B1 & B2 & B3 & B4 & B5 & B6 & B7 & B8 & B9 & B10 & B11).
  repeat split; try congruence.
  eapply Forall2_same_chars_trans; eauto.
Qed.

Lemma same_buffer_content (E E' : editorConfig) :
  same_buffer E E' -> same_content E E'.
Proof.
  unfold same_buffer, same_content.
  intros (A1 & A2 & A3 & A4 & A5 & A6 & A7 & A8 & A9 & A10 & A11).
  repeat split; try assumption.
  eapply Forall2_impl; [|exact A11]. apply same_text_chars.
Qed.

Lemma same_chars_maps (l l' : list erow) :
  Forall2 same_chars l l' ->
  map idx l' = map idx l /\ map size l' = map size l
  /\ map chars l' = map chars l.
Proof.
  induction 1 as [|x y l l' (H1 & H2 & H3) Hl (I1 & I2 & I3)]; simpl.
  - auto.
  - repeat split; congruence.
Qed.

Lemma same_chars_length (l l' : list erow) :
  Forall2 same_chars l l' -> length l' = length l.
Proof. intros H. symmetry. eapply Forall2_length; eauto. Qed.

Lemma idx_ok_same_chars (rs rs' : list erow) :
  Forall2 same_chars rs rs' -> idx_ok rs -> idx_ok rs'.
Proof.
  intros H Hok i r Hn.
  destruct (Forall2_nth_error_r _ _ _ H i r Hn) as [x [Hx [Hi _]]].
  rewrite Hi. apply (Hok i x Hx).
Qed.

(** ** Propagation of the open-comment flag on a well-formed buffer *)

(** The cascade on a well-formed buffer.  On every buffer satisfying
    [buffer_ok] and for every row [p], [editorUpdateSyntax] returns.  It
    first recomputes row [p]
    ([update_one], giving [E1]); [changed] tells whether the carried-out
    comment flag of the row differs from the recorded one.  If it does and a
    row [p + 1] exists, the call goes on as [editorUpdateSyntax] on row
    [p + 1] of [E1], recursively, and in the final state row [p + 1] carries
    the scan of its render string seeded with the new flag of row [p].  If
    the flag did not change (or there is no row [p + 1]) the result is [E1]
    and no other row has been touched.  In particular, in the three-row
    example, deleting the close marker of row 1 leaves row 2 highlighted as
    comment throughout, its characters being unchanged. *)
Theorem comment_flag_propagation :
  (forall E p r,
      buffer_ok E -> nth_error (row E) p = Some r ->
      exists E1 changed E',
        update_one E p = Ok (E1, changed)
        /\ editorUpdateSyntax E p = Ok E'
        /\ (exists r1, nth_error (row E1) p = Some r1
                       /\ changed = negb (Bool.eqb (hl_open_comment r)
                                            (hl_open_comment r1)))
        /\ (changed = true -> (p + 1 < length (row E))%nat ->
            editorUpdateSyntax E1 (p + 1) = Ok E'
            /\ exists syn r1 r2,
                syntax E = Some syn
                /\ nth_error (row E') p = Some r1
                /\ nth_error (row E1) p = Some r1
                /\ nth_error (row E') (p + 1) = Some r2
                /\ scan_row syn (render r2) (Z.to_nat (rsize r2))
                     (hl_open_comment r1)
                   = Some (hl r2, hl_open_comment r2))
        /\ (changed = false \/ (length (row E) <= p + 1)%nat ->
            E' = E1
            /\ forall q, q <> p ->
                         nth_error (row E') q = nth_error (row E) q))
  /\ rows_view comment_example
     = Some [ (s2l "/* comment", repeat HL_MLCOMMENT 10, true);
              (s2l "still comment */", repeat HL_MLCOMMENT 16, false);
              (s2l "code", repeat HL_NORMAL 4, false) ]
  /\ rows_view comment_example_edited
     = Some [ (s2l "/* comment", repeat HL_MLCOMMENT 10, true);
              (s2l "still comment ", repeat HL_MLCOMMENT 14, true);
              (s2l "code", repeat HL_MLCOMMENT 4, true) ].
Proof.
  split; [|split; vm_compute; reflexivity].
  intros E p r (Hnum & Hidx & Hrows & Hts) Hr.
  assert (Hp : (p < length (row E))%nat) by (eapply nth_error_lt; eauto).
  assert (Hrok : row_ok r).
  { rewrite Forall_forall in Hrows. apply Hrows.
    eapply nth_error_In; eauto. }
  destruct (update_one_total E p r Hidx Hr (proj1 (proj2 Hrok)))
    as [h [oc [Hu Hl]]].
  set (E1 := put_row E p (set_hl r h oc)) in *.
  set (changed := negb (Bool.eqb (hl_open_comment r) oc)) in *.
  assert (Hlen1 : length (row E1) = length (row E))
    by (apply put_row_length; exact Hp).
  assert (Hsame1 : same_buffer E E1) by (apply same_buffer_put_hl; exact Hr).
  assert (Hidx1 : idx_ok (row E1))
    by (eapply idx_ok_same_text; [apply Hsame1 | exact Hidx]).
  assert (Hrows1 : Forall row_ok (row E1)).
  { apply Forall_store; [exact Hrows|]. apply row_ok_set_hl; assumption. }
  assert (Hnum1 : numrows E1 = Z.of_nat (length (row E1))).
  { rewrite Hlen1. destruct Hsame1 as (_ & _ & _ & _ & _ & -> & _).
    exact Hnum. }
  assert (Hp1 : nth_error (row E1) p = Some (set_hl r h oc))
    by (apply nth_error_put_row_same; exact Hp).
  assert (Hstep : editorUpdateSyntax E p
                  = if changed && (Z.of_nat p + 1 <? numrows E)
                    then editorUpdateSyntax_fuel (length (row E)) E1 (S p)
                    else Ok E1).
  { unfold editorUpdateSyntax.
    rewrite (editorUpdateSyntax_fuel_step _ _ _ _ Hidx Hr), Hu.
    reflexivity. }
  destruct (changed && (Z.of_nat p + 1 <? numrows E)) eqn:Hc.
  - apply andb_prop in Hc. destruct Hc as [Hch Hlt]. apply Z.ltb_lt in Hlt.
    assert (HSp : (S p < length (row E1))%nat) by lia.
    destruct (editorUpdateSyntax_fuel_ok (length (row E)) (length (row E))
                E1 (S p)) as [E' [He [Hs' [Hr' Hb']]]]; auto; try lia.
    exists E1, changed, E'. split; [exact Hu|].
    split; [rewrite Hstep; exact He|].
    split; [exists (set_hl r h oc); split; [exact Hp1 | reflexivity]|].
    split.
    + intros _ _. replace (p + 1)%nat with (S p) by lia. split.
      * unfold editorUpdateSyntax. rewrite Hlen1.
        apply (editorUpdateSyntax_fuel_mono _ _ _ _ He). lia.
      * destruct (syntax E) as [syn|] eqn:Hsyn.
        2:{ unfold update_one in Hu.
            rewrite (get_row_some _ _ _ Hr), Hsyn in Hu. simpl in Hu.
            injection Hu as _ Hf. unfold changed in Hf, Hch. congruence. }
        destruct (nth_error_in_range _ _ HSp) as [r2 Hr2].
        destruct (update_one (E1) (S p)) as [[E2 ch2]| |] eqn:Hu2.
        2,3: destruct (length (row E)) as [|n]; [lia|];
             rewrite (editorUpdateSyntax_fuel_step _ _ _ _ Hidx1 Hr2), Hu2
               in He; discriminate.
        assert (Hfirst := cascade_first_row _ _ _ _ _ _ Hidx1 Hrows1
                            (Z.eq_le_incl _ _ Hnum1) HSp Hu2 He).
        pose proof (update_one_inv _ _ _ _ _ Hr2 Hu2) as Hinv.
        assert (Hsyn1 : syntax E1 = Some syn).
        { destruct Hsame1 as (_ & _ & _ & _ & _ & _ & _ & _ & -> & _).
          exact Hsyn. }
        rewrite Hsyn1 in Hinv.
        destruct Hinv as (ic & h2 & oc2 & Hci & Hscan & -> & _).
        destruct (carried_in_ok E1 (S p) r2 Hidx1 Hr2)
          as (ic' & Hci' & _ & Hprev).
        assert (ic' = ic) by congruence. subst ic'.
        replace (S p - 1)%nat with p in Hprev by lia.
        specialize (Hprev _ Hp1 ltac:(lia)). simpl in Hprev. subst ic.
        rewrite nth_error_put_row_same in Hfirst by exact HSp.
        exists syn, (set_hl r h oc), (set_hl r2 h2 oc2).
        split; [reflexivity|].
        split; [rewrite Hb' by lia; exact Hp1|].
        split; [exact Hp1|].
        split; [exact Hfirst|]. simpl. exact Hscan.
    + intros [Hf | Hlast].
      * unfold changed in *. congruence.
      * lia.
  - exists E1, changed, E1. split; [exact Hu|].
    split; [exact Hstep|].
    split; [exists (set_hl r h oc); split; [exact Hp1 | reflexivity]|].
    split.
    + intros Hch Hnext. rewrite Hch in Hc. simpl in Hc.
      apply Z.ltb_ge in Hc. lia.
    + intros _. split; [reflexivity|]. intros q Hq.
      apply nth_error_put_row_other; assumption.
Qed.

Lemma comment_flag_propagation_witness :
  buffer_ok stale_doc
  /\ nth_error (row stale_doc) 1 = Some stale_row
  /\ exists E1 E',
      update_one stale_doc 1 = Ok (E1, true)
      /\ editorUpdateSyntax stale_doc 1 = Ok E'
      /\ editorUpdateSyntax E1 (1 + 1) = Ok E'.
Proof.
  assert (Hok : buffer_ok stale_doc)
    by (apply buffer_okb_sound; vm_compute; reflexivity).
  assert (Hr : nth_error (row stale_doc) 1 = Some stale_row)
    by (vm_compute; reflexivity).
  split; [exact Hok|]. split; [exact Hr|].
  destruct (proj1 comment_flag_propagation stale_doc 1%nat stale_row Hok Hr)
    as (E1 & ch & E' & Hu & He & _ & Hcasc & _).
  assert (Hch : ch = true).
  { assert (Hc : snd (match update_one stale_doc 1 with
                      | Ok u => u
                      | _ => (stale_doc, false)
                      end) = true) by (vm_compute; reflexivity).
    rewrite Hu in Hc. exact Hc. }
  subst ch. exists E1, E'. split; [exact Hu|]. split; [exact He|].
  apply Hcasc; [reflexivity|]. vm_compute. lia.
Defined.

(** ** [editorUpdateRow] *)

Lemma rem_succ (n ts : Z) :
  0 <= n -> 0 < ts ->
  Z.rem (n + 1) ts = 0 \/ Z.rem (n + 1) ts = Z.rem n ts + 1.
Proof.
  intros Hn Hts.
  rewrite !Z.rem_mod_nonneg by lia.
  pose proof (Z.mod_pos_bound n ts Hts) as Hb.
  destruct (Z.eq_dec (n mod ts + 1) ts) as [He|Hne].
  - left. rewrite <- Z.add_mod_idemp_l by lia. rewrite He.
    apply Z.mod_same. lia.
  - right. rewrite <- Z.add_mod_idemp_l by lia.
    apply Z.mod_small. lia.
Qed.

(** The padding loop stops within [tab_stop] runs. *)
Lemma pad_tab_total (ts : Z) (fuel : nat) :
  0 < ts ->
  forall out,
    Z.rem (Z.of_nat (length out)) ts = 0
    \/ ts <= Z.of_nat fuel + Z.rem (Z.of_nat (length out)) ts ->
    exists out', pad_tab fuel ts out = Ok out'.
Proof.
  intros Hts. induction fuel as [|fuel IH]; intros out H.
  - simpl. destruct (Z.eqb_spec (Z.rem (Z.of_nat (length out)) ts) 0);
      [eauto|].
    destruct H as [H|H]; [contradiction|].
    pose proof (Z.rem_bound_pos (Z.of_nat (length out)) ts) as Hb. lia.
  - simpl. destruct (Z.eqb_spec (Z.rem (Z.of_nat (length out)) ts) 0);
      [eauto|].
    destruct H as [H|H]; [contradiction|].
    apply IH. rewrite length_app. simpl.
    replace (Z.of_nat (length out + 1)) with (Z.of_nat (length out) + 1)
      by lia.
    destruct (rem_succ (Z.of_nat (length out)) ts) as [Hz|Hs]; try lia.
Qed.

Lemma render_loop_total (ts : Z) (cs : list ascii) :
  0 < ts -> forall out, exists rd, render_loop ts cs out = Ok rd.
Proof.
  intros Hts. induction cs as [|c t IH]; intros out; simpl; [eauto|].
  destruct (Ascii.eqb c TAB); [|apply IH].
  destruct (pad_tab_total ts (Z.to_nat ts) Hts (out ++ [SPACE]))
    as [out1 ->].
  - right.
    pose proof (Z.rem_bound_pos (Z.of_nat (length (out ++ [SPACE]))) ts).
    lia.
  - simpl. apply IH.
Qed.

Lemma same_content_put_render (E : editorConfig) (p : nat) (r : erow)
  (rd : list ascii) :
  nth_error (row E) p = Some r ->
  same_content E (put_row E p (set_render r rd)).
Proof.
  intros Hr. unfold same_content, put_row. simpl. repeat split.
  eapply Forall2_store; eauto using same_chars_refl.
  repeat split.
Qed.

(** [editorUpdateRow] on row [p] returns; it leaves the raw characters and
    the numbering of every row alone, touches no row before [p], and leaves
    every row well formed if the others were and the [size] of row [p] is
    the length of its characters. *)
Lemma editorUpdateRow_ok (E : editorConfig) (p : nat) (r : erow) :
  idx_ok (row E) -> 0 < tab_stop E ->
  numrows E <= Z.of_nat (length (row E)) ->
  nth_error (row E) p = Some r ->
  size r = Z.of_nat (length (chars r)) ->
  (forall q r0, nth_error (row E) q = Some r0 -> q <> p -> row_ok r0) ->
  exists E', editorUpdateRow E p = Ok E'
             /\ same_content E E'
             /\ Forall row_ok (row E')
             /\ (forall q, (q < p)%nat ->
                           nth_error (row E') q = nth_error (row E) q).
Proof.
  intros Hidx Hts Hnum Hr Hsz Hothers.
  assert (Hp : (p < length (row E))%nat) by (eapply nth_error_lt; eauto).
  unfold editorUpdateRow. rewrite (get_row_some _ _ _ Hr). simpl.
  destruct (render_loop_total (tab_stop E)
              (firstn (Z.to_nat (size r)) (chars r)) Hts []) as [rd ->].
  simpl. set (E0 := put_row E p (set_render r rd)).
  assert (Hc0 : same_content E E0) by (apply same_content_put_render; auto).
  assert (Hlen0 : length (row E0) = length (row E))
    by (apply put_row_length; exact Hp).
  assert (Hat0 : nth_error (row E0) p = Some (set_render r rd))
    by (apply nth_error_put_row_same; exact Hp).
  assert (Hoth0 : forall q, q <> p ->
                            nth_error (row E0) q = nth_error (row E) q)
    by (intros q Hq; apply nth_error_put_row_other; assumption).
  destruct (editorUpdateSyntax_fuel_gen (length (row E0))
              (S (length (row E0))) E0 p) as [E' [He [Hs [Hb Hfit]]]].
  - eapply idx_ok_same_chars; [apply Hc0 | exact Hidx].
  - apply Forall_forall. intros x Hx. apply In_nth_error in Hx.
    destruct Hx as [q Hq]. destruct (Nat.eq_dec q p) as [->|Hne].
    + rewrite Hat0 in Hq. injection Hq as <-. reflexivity.
    + rewrite (Hoth0 q Hne) in Hq.
      destruct (Hothers q x Hq Hne) as (_ & Hs & _). exact Hs.
  - rewrite Hlen0. exact Hnum.
  - rewrite Hlen0. exact Hp.
  - lia.
  - lia.
  - exists E'. split; [exact He|].
    split; [eapply same_content_trans;
            [exact Hc0 | apply same_buffer_content; exact Hs]|].
    split.
    + apply Forall_forall. intros x Hx. apply In_nth_error in Hx.
      destruct Hx as [q Hq].
      destruct (Forall2_nth_error_r _ _ _
                  (proj2 (proj2 (proj2 (proj2 (proj2 (proj2 (proj2 (proj2
                     (proj2 (proj2 Hs)))))))))) q x Hq)
        as [x0 [Hx0 (Hi & Hsize & Hrs & Hch & Hrd)]].
      destruct (Nat.eq_dec q p) as [->|Hne].
      * pose proof (Hfit p x0 x Hx0 Hq (or_introl eq_refl)) as Hl.
        rewrite Hat0 in Hx0. injection Hx0 as <-. simpl in *.
        repeat split; [congruence | | exact Hl].
        rewrite Hrs, Hrd. reflexivity.
      * pose proof Hx0 as Hx0'. rewrite (Hoth0 q Hne) in Hx0'.
        destruct (Hothers q x0 Hx0' Hne) as (K1 & K2 & K3).
        pose proof (Hfit q x0 x Hx0 Hq (or_intror K3)) as Hl.
        repeat split; [congruence | congruence | exact Hl].
    + intros q Hq. rewrite Hb by exact Hq. apply Hoth0. lia.
Qed.

(** ** [editorInsertRow] and [editorDelRow] *)

Lemma update_range_suffix {A : Type} (f : A -> A) (l1 l2 : list A) :
  update_range f (l1 ++ l2) (length l1) (length l2) = l1 ++ map f l2.
Proof.
  unfold update_range.
  rewrite firstn_app, firstn_all, Nat.sub_diag, firstn_0, app_nil_r.
  rewrite skipn_app, skipn_all, Nat.sub_diag, skipn_0. simpl.
  rewrite firstn_all.
  rewrite skipn_all2 by (rewrite length_app; lia).
  rewrite app_nil_r. reflexivity.
Qed.

(** The array of rows after the slot is opened, filled and the following
    rows renumbered. *)
Lemma insert_renumbered (rows : list erow) (a : nat) (x : erow) :
  (a <= length rows)%nat ->
  update_range (shift_idx 1) (firstn a rows ++ x :: skipn a rows) (a + 1)
    (length rows - a)
  = firstn a rows ++ x :: map (shift_idx 1) (skipn a rows).
Proof.
  intros Ha.
  replace (firstn a rows ++ x :: skipn a rows)
    with ((firstn a rows ++ [x]) ++ skipn a rows)
    by (rewrite <- app_assoc; reflexivity).
  replace (a + 1)%nat with (length (firstn a rows ++ [x]))
    by (rewrite length_app, length_firstn; simpl; lia).
  replace (length rows - a)%nat with (length (skipn a rows))
    by (rewrite length_skipn; lia).
  rewrite update_range_suffix, <- app_assoc. reflexivity.
Qed.

Lemma delete_renumbered (rows : list erow) (a : nat) :
  (a < length rows)%nat ->
  update_range (shift_idx (-1)) (firstn a rows ++ skipn (a + 1) rows) a
    (length rows - 1 - a)
  = firstn a rows ++ map (shift_idx (-1)) (skipn (a + 1) rows).
Proof.
  intros Ha.
  replace a with (length (firstn a rows)) at 3
    by (rewrite length_firstn; lia).
  replace (length rows - 1 - a)%nat with (length (skipn (a + 1) rows))
    by (rewrite length_skipn; lia).
  apply update_range_suffix.
Qed.

Lemma row_ok_shift (d : Z) (r : erow) : row_ok r -> row_ok (shift_idx d r).
Proof. intros H. exact H. Qed.

Lemma Forall_row_ok_shift (d : Z) (l : list erow) :
  Forall row_ok l -> Forall row_ok (map (shift_idx d) l).
Proof. intros H. apply Forall_map. exact H. Qed.

Lemma nth_error_middle {A : Type} (l1 l2 : list A) (x : A) (a : nat) :
  length l1 = a -> nth_error (l1 ++ x :: l2) a = Some x.
Proof.
  intros <-. rewrite nth_error_app2 by lia. rewrite Nat.sub_diag.
  reflexivity.
Qed.

Lemma Forall_except_middle {A : Type} (P : A -> Prop) (l1 l2 : list A)
  (x : A) :
  Forall P l1 -> Forall P l2 ->
  forall q y, nth_error (l1 ++ x :: l2) q = Some y -> q <> length l1 -> P y.
Proof.
  intros H1 H2 q y Hq Hne.
  destruct (Nat.lt_ge_cases q (length l1)) as [Hlt|Hge].
  - rewrite nth_error_app1 in Hq by exact Hlt.
    rewrite Forall_forall in H1. apply H1. eapply nth_error_In; eauto.
  - rewrite nth_error_app2 in Hq by exact Hge.
    destruct (q - length l1)%nat as [|n] eqn:Hn; [lia|]. simpl in Hq.
    rewrite Forall_forall in H2. apply H2. eapply nth_error_In; eauto.
Qed.

(** An in-range [editorInsertRow] returns a well-formed buffer with one
    more row: the rows before [at] as they were, the new row numbered [at],
    and the rows after it renumbered one up. *)
Lemma editorInsertRow_ok (at_ : Z) (s : list ascii) (len : Z)
  (E : editorConfig) :
  buffer_ok E -> 0 <= at_ <= numrows E -> 0 <= len <= Z.of_nat (length s) ->
  exists E',
    editorInsertRow at_ s len E = Ok E'
    /\ buffer_ok E'
    /\ numrows E' = numrows E + 1 /\ dirty E' = dirty E + 1
    /\ syntax E' = syntax E /\ tab_stop E' = tab_stop E
    /\ filename E' = filename E /\ cx E' = cx E /\ cy E' = cy E
    /\ Forall2 same_chars
         (firstn (Z.to_nat at_) (row E) ++ fresh_row at_ s len
            :: map (shift_idx 1) (skipn (Z.to_nat at_) (row E)))
         (row E')
    /\ (forall q, (q < Z.to_nat at_)%nat ->
                  nth_error (row E') q = nth_error (row E) q).
Proof.
  intros (Hnum & Hidx & Hrows & Hts) Hat Hlen.
  unfold editorInsertRow.
  destruct (Z.ltb_spec at_ 0); [lia|].
  destruct (Z.gtb_spec at_ (numrows E)); [lia|]. simpl.
  set (a := Z.to_nat at_).
  assert (Ha : (a <= length (row E))%nat) by lia.
  replace (Z.to_nat (numrows E - at_)) with (length (row E) - a)%nat by lia.
  fold (fresh_row at_ s len).
  rewrite (insert_renumbered _ _ _ Ha).
  set (rows1 := firstn a (row E) ++ fresh_row at_ s len
                  :: map (shift_idx 1) (skipn a (row E))).
  assert (Hla : length (firstn a (row E)) = a)
    by (rewrite length_firstn; lia).
  assert (Hlen1 : length rows1 = S (length (row E))).
  { unfold rows1. rewrite length_app, Hla. simpl.
    rewrite length_map, length_skipn. lia. }
  destruct (idx_from_split a (row E) Ha (proj1 (idx_ok_from _) Hidx))
    as [Hf Hs].
  assert (Hidx1 : idx_ok rows1).
  { apply idx_ok_from. unfold rows1. apply idx_from_app. split; [exact Hf|].
    rewrite Hla. simpl. apply idx_from_cons. split; [simpl; lia|].
    apply (idx_from_shift 1 _ a); [lia | exact Hs]. }
  destruct (editorUpdateRow_ok (set_rows E rows1) a (fresh_row at_ s len))
    as [E1 [He [Hc [Hok Hb]]]]; simpl.
  - exact Hidx1.
  - exact Hts.
  - rewrite Hlen1. lia.
  - unfold rows1. apply nth_error_middle. exact Hla.
  - rewrite length_firstn. lia.
  - intros q r0 Hq Hne. unfold rows1 in Hq.
    eapply (Forall_except_middle row_ok); [| |exact Hq|rewrite Hla; exact Hne].
    + apply Forall_firstn_keeps. exact Hrows.
    + apply Forall_row_ok_shift, Forall_skipn_keeps. exact Hrows.
  - rewrite He. simpl.
    destruct Hc as (C1 & C2 & C3 & C4 & C5 & C6 & C7 & C8 & C9 & C10 & C11).
    simpl in *.
    exists (set_dirty (set_numrows E1 (numrows E1 + 1)) (dirty E1 + 1)).
    split; [reflexivity|]. simpl.
    split.
    { split; simpl; [rewrite (same_chars_length _ _ C11), Hlen1; lia|].
      split; [eapply idx_ok_same_chars; eauto|].
      split; [exact Hok | lia]. }
    do 7 (split; [congruence|]).
    split; [exact C11|].
    intros q Hq. rewrite Hb by exact Hq. unfold rows1.
    rewrite nth_error_app1 by lia.
    rewrite nth_error_firstn.
    destruct (Nat.ltb_spec q a); [reflexivity | lia].
Qed.

(** [editorDelRow] in range: one row less, the rows after [at] renumbered
    one down, and nothing else changed in any row. *)
Lemma editorDelRow_rows (at_ : Z) (E : editorConfig) :
  numrows E = Z.of_nat (length (row E)) -> 0 <= at_ < numrows E ->
  row (editorDelRow at_ E)
  = firstn (Z.to_nat at_) (row E)
    ++ map (shift_idx (-1)) (skipn (Z.to_nat at_ + 1) (row E))
  /\ numrows (editorDelRow at_ E) = numrows E - 1
  /\ dirty (editorDelRow at_ E) = dirty E + 1.
Proof.
  intros Hnum Hat. unfold editorDelRow.
  destruct (Z.ltb_spec at_ 0); [lia|].
  destruct (Z.geb_spec at_ (numrows E)); [lia|]. simpl.
  replace (Z.to_nat (numrows E - 1 - at_))
    with (length (row E) - 1 - Z.to_nat at_)%nat by lia.
  rewrite delete_renumbered by lia. auto.
Qed.

Lemma editorDelRow_ok (at_ : Z) (E : editorConfig) :
  buffer_ok E -> buffer_ok (editorDelRow at_ E).
Proof.
  intros Hok.
  destruct (Z.ltb_spec at_ 0) as [Hneg|Hnn];
    [unfold editorDelRow; destruct (Z.ltb_spec at_ 0); [exact Hok|lia]|].
  destruct (Z.geb_spec at_ (numrows E)) as [Hge|Hlt];
    [unfold editorDelRow; destruct (Z.ltb_spec at_ 0); [lia|];
     destruct (Z.geb_spec at_ (numrows E)); [exact Hok|lia]|].
  destruct Hok as (Hnum & Hidx & Hrows & Hts).
  destruct (editorDelRow_rows at_ E Hnum (conj Hnn Hlt)) as (Hr & Hn & Hd).
  set (a := Z.to_nat at_) in *.
  assert (Ha : (a < length (row E))%nat) by lia.
  split; [|split; [|split]].
  - rewrite Hn, Hr, length_app, length_firstn, length_map, length_skipn. lia.
  - rewrite Hr. apply idx_ok_from.
    destruct (idx_from_split a (row E) ltac:(lia)
                (proj1 (idx_ok_from _) Hidx)) as [Hf _].
    destruct (idx_from_split (a + 1) (row E) ltac:(lia)
                (proj1 (idx_ok_from _) Hidx)) as [_ Hs].
    apply idx_from_app. split; [exact Hf|].
    rewrite length_firstn. simpl.
    apply (idx_from_shift (-1) _ (a + 1)); [lia | exact Hs].
  - rewrite Hr. apply Forall_app. split.
    + apply Forall_firstn_keeps. exact Hrows.
    + apply Forall_row_ok_shift, Forall_skipn_keeps. exact Hrows.
  - unfold editorDelRow.
    destruct (_ || _); simpl; exact Hts.
Qed.

(** ** C2: every row's [idx] is its position *)

Lemma map_idx_shift (d : Z) (l : list erow) :
  map idx (map (shift_idx d) l) = map (fun r => idx r + d) l.
Proof. rewrite map_map. reflexivity. Qed.

Lemma apply_op_ok (op : row_op) (E : editorConfig) :
  buffer_ok E -> op_ok op ->
  exists E', apply_op op E = Ok E' /\ buffer_ok E'.
Proof.
  intros Hok Hop. destruct op as [at_ s len | at_]; simpl in *.
  - destruct (Z.ltb_spec at_ 0) as [Hneg|Hnn].
    { exists E. split; [|exact Hok]. unfold editorInsertRow.
      destruct (Z.ltb_spec at_ 0); [reflexivity | lia]. }
    destruct (Z.gtb_spec at_ (numrows E)) as [Hgt|Hle].
    { exists E. split; [|exact Hok]. unfold editorInsertRow.
      destruct (Z.ltb_spec at_ 0); [reflexivity|].
      destruct (Z.gtb_spec at_ (numrows E)); [reflexivity | lia]. }
    destruct (editorInsertRow_ok at_ s len E Hok ltac:(lia) Hop)
      as [E' [He [Hok' _]]].
    eauto.
  - eexists. split; [reflexivity|]. apply editorDelRow_ok. exact Hok.
Qed.

(** C2.  On a well-formed buffer, an in-range [editorInsertRow] gives the
    new row the index [at] and adds one to the index of every following
    row; an in-range [editorDelRow] subtracts one from the index of every
    row after the deleted one; and after each operation of any sequence of
    the two (in range or not: out of range they change nothing) every row's
    [idx] is its position. *)
Theorem row_index_invariant :
  (forall E at_ s len,
      buffer_ok E -> 0 <= at_ <= numrows E ->
      0 <= len <= Z.of_nat (length s) ->
      exists E',
        editorInsertRow at_ s len E = Ok E'
        /\ map idx (row E')
           = map idx (firstn (Z.to_nat at_) (row E))
             ++ at_ :: map (fun r => idx r + 1) (skipn (Z.to_nat at_) (row E))
        /\ (forall i r, nth_error (row E') i = Some r -> idx r = Z.of_nat i))
  /\ (forall E at_,
         buffer_ok E -> 0 <= at_ < numrows E ->
         map idx (row (editorDelRow at_ E))
         = map idx (firstn (Z.to_nat at_) (row E))
           ++ map (fun r => idx r - 1) (skipn (Z.to_nat at_ + 1) (row E))
         /\ (forall i r, nth_error (row (editorDelRow at_ E)) i = Some r ->
                         idx r = Z.of_nat i))
  /\ (forall ops E,
         buffer_ok E -> Forall op_ok ops ->
         exists trace,
           run_ops ops E = Ok trace
           /\ length trace = length ops
           /\ Forall (fun E' => forall i r, nth_error (row E') i = Some r ->
                                            idx r = Z.of_nat i) trace).
Proof.
  split; [|split].
  - intros E at_ s len Hok Hat Hlen.
    destruct (editorInsertRow_ok at_ s len E Hok Hat Hlen)
      as (E' & He & Hok' & _ & _ & _ & _ & _ & _ & _ & Hc & _).
    exists E'. split; [exact He|]. split.
    + destruct (same_chars_maps _ _ Hc) as [-> _].
      rewrite map_app. simpl. rewrite map_idx_shift. reflexivity.
    + apply Hok'.
  - intros E at_ Hok Hat. split.
    + destruct (editorDelRow_rows at_ E (proj1 Hok) Hat) as [-> _].
      rewrite map_app, map_idx_shift. reflexivity.
    + apply (editorDelRow_ok at_ E Hok).
  - induction ops as [|op rest IH]; intros E Hok Hops.
    + exists []. simpl. auto.
    + inversion Hops as [|? ? Hop Hrest]; subst.
      destruct (apply_op_ok op E Hok Hop) as [E1 [He Hok1]].
      destruct (IH E1 Hok1 Hrest) as [tr [Htr [Hlen Hall]]].
      exists (E1 :: tr). simpl. rewrite He. simpl. rewrite Htr. simpl.
      split; [reflexivity|]. split; [congruence|].
      constructor; [apply Hok1 | exact Hall].
Qed.

Lemma row_index_invariant_witness :
  buffer_ok initEditor /\ Forall op_ok sample_ops
  /\ exists trace,
      run_ops sample_ops initEditor = Ok trace
      /\ length trace = length sample_ops
      /\ Forall (fun E' => forall i r, nth_error (row E') i = Some r ->
                                       idx r = Z.of_nat i) trace.
Proof.
  assert (Hb : buffer_ok initEditor)
    by (apply buffer_okb_sound; reflexivity).
  assert (Ho : Forall op_ok sample_ops)
    by (repeat constructor; simpl; lia).
  split; [exact Hb|]. split; [exact Ho|].
  exact (proj2 (proj2 row_index_invariant) sample_ops initEditor Hb Ho).
Defined.

(** ** Edits of one row *)

Lemma buffer_ok_row (E : editorConfig) (p : nat) (r : erow) :
  buffer_ok E -> nth_error (row E) p = Some r -> row_ok r.
Proof.
  intros (_ & _ & Hrows & _) Hr. rewrite Forall_forall in Hrows.
  apply Hrows. eapply nth_error_In; eauto.
Qed.

Lemma same_content_put_chars_idx (E : editorConfig) (p : nat) (r : erow)
  (cs : list ascii) (sz : Z) :
  nth_error (row E) p = Some r ->
  idx_ok (row E) -> idx_ok (row (put_row E p (set_chars r cs sz))).
Proof.
  intros Hr Hidx i x Hx.
  assert (Hp : (p < length (row E))%nat) by (eapply nth_error_lt; eauto).
  destruct (Nat.eq_dec i p) as [->|Hne].
  - rewrite nth_error_put_row_same in Hx by exact Hp.
    injection Hx as <-. simpl. apply (Hidx p r Hr).
  - rewrite nth_error_put_row_other in Hx by assumption.
    apply (Hidx i x Hx).
Qed.

(** Replacing the raw characters of row [p] and calling [editorUpdateRow]
    on it gives a well-formed buffer again, in which row [p] holds the new
    characters and every other row its old ones. *)
Lemma edit_row_ok (E : editorConfig) (p : nat) (r : erow) (cs : list ascii)
  (sz : Z) :
  buffer_ok E -> nth_error (row E) p = Some r ->
  sz = Z.of_nat (length cs) ->
  exists E',
    editorUpdateRow (put_row E p (set_chars r cs sz)) p = Ok E'
    /\ buffer_ok E'
    /\ same_content (put_row E p (set_chars r cs sz)) E'
    /\ (forall q, (q < p)%nat -> nth_error (row E') q = nth_error (row E) q).
Proof.
  intros Hok Hr Hsz.
  pose proof Hok as (Hnum & Hidx & Hrows & Hts).
  assert (Hp : (p < length (row E))%nat) by (eapply nth_error_lt; eauto).
  set (E0 := put_row E p (set_chars r cs sz)).
  assert (Hlen0 : length (row E0) = length (row E))
    by (apply put_row_length; exact Hp).
  destruct (editorUpdateRow_ok E0 p (set_chars r cs sz))
    as [E' [He [Hc [Hrok Hb]]]].
  - apply same_content_put_chars_idx; assumption.
  - exact Hts.
  - rewrite Hlen0. simpl. lia.
  - apply nth_error_put_row_same. exact Hp.
  - simpl. exact Hsz.
  - intros q r0 Hq Hne. unfold E0 in Hq.
    rewrite nth_error_put_row_other in Hq by assumption.
    eapply buffer_ok_row; eauto.
  - exists E'. split; [exact He|]. split; [|split; [exact Hc|]].
    + destruct Hc as (C1 & C2 & C3 & C4 & C5 & C6 & C7 & C8 & C9 & C10 & C11).
      split; [rewrite (same_chars_length _ _ C11), Hlen0, C6; exact Hnum|].
      split; [eapply idx_ok_same_chars; [exact C11|];
              apply same_content_put_chars_idx; assumption|].
      split; [exact Hrok | rewrite C10; exact Hts].
    + intros q Hq. rewrite Hb by exact Hq.
      apply nth_error_put_row_other; [exact Hp | lia].
Qed.

Lemma buffer_ok_set_dirty (E : editorConfig) (d : Z) :
  buffer_ok E -> buffer_ok (set_dirty E d).
Proof. intros H. exact H. Qed.

Lemma buffer_ok_set_cursor (E : editorConfig) (x y : Z) :
  buffer_ok E -> buffer_ok (set_cursor E x y).
Proof. intros H. exact H. Qed.

Lemma length_insert_char (cs : list ascii) (a : nat) (c : ascii) :
  length (firstn a cs ++ c :: skipn a cs) = S (length cs).
Proof.
  rewrite length_app, length_firstn. simpl. rewrite length_skipn. lia.
Qed.

(** [editorRowInsertChar] on an existing row. *)
Lemma editorRowInsertChar_ok (p : nat) (at_ c : Z) (E : editorConfig)
  (r : erow) :
  buffer_ok E -> nth_error (row E) p = Some r ->
  exists E', editorRowInsertChar p at_ c E = Ok E' /\ buffer_ok E'.
Proof.
  intros Hok Hr. unfold editorRowInsertChar.
  rewrite (get_row_some _ _ _ Hr). simpl.
  destruct (buffer_ok_row _ _ _ Hok Hr) as [Hsz _].
  edestruct (edit_row_ok E p r) as [E' [-> [Hok' _]]]; [exact Hok|exact Hr| |].
  2:{ simpl. eexists. split; [reflexivity|].
      apply buffer_ok_set_dirty. exact Hok'. }
  rewrite length_insert_char. lia.
Qed.

(** [editorRowDelChar] on an existing row. *)
Lemma editorRowDelChar_ok (p : nat) (at_ : Z) (E : editorConfig) (r : erow) :
  buffer_ok E -> nth_error (row E) p = Some r ->
  exists E', editorRowDelChar p at_ E = Ok E' /\ buffer_ok E'.
Proof.
  intros Hok Hr. unfold editorRowDelChar.
  rewrite (get_row_some _ _ _ Hr). simpl.
  destruct (buffer_ok_row _ _ _ Hok Hr) as [Hsz _].
  destruct (Z.ltb_spec at_ 0); simpl; [eauto|].
  destruct (Z.geb_spec at_ (size r)); simpl; [eauto|].
  edestruct (edit_row_ok E p r) as [E' [-> [Hok' _]]]; [exact Hok|exact Hr| |].
  2:{ simpl. eexists. split; [reflexivity|].
      apply buffer_ok_set_dirty. exact Hok'. }
  rewrite length_app, length_firstn, length_skipn. lia.
Qed.

(** [editorRowAppendString] on an existing row. *)
Lemma editorRowAppendString_ok (p : nat) (s : list ascii) (len : Z)
  (E : editorConfig) (r : erow) :
  buffer_ok E -> nth_error (row E) p = Some r ->
  0 <= len <= Z.of_nat (length s) ->
  exists E', editorRowAppendString p s len E = Ok E'
             /\ buffer_ok E'
             /\ numrows E' = numrows E /\ cx E' = cx E /\ cy E' = cy E.
Proof.
  intros Hok Hr Hlen. unfold editorRowAppendString.
  rewrite (get_row_some _ _ _ Hr). simpl.
  destruct (buffer_ok_row _ _ _ Hok Hr) as [Hsz _].
  edestruct (edit_row_ok E p r) as [E' [-> [Hok' [Hc _]]]];
    [exact Hok|exact Hr| |].
  2:{ simpl. eexists. split; [reflexivity|].
      split; [apply buffer_ok_set_dirty; exact Hok'|].
      destruct Hc as (C1 & C2 & _ & _ & _ & C6 & _). simpl in *. auto. }
  rewrite length_app, !length_firstn. lia.
Qed.

(** ** Editor operations *)

Lemma row_at_cursor (E : editorConfig) (y : Z) :
  buffer_ok E -> 0 <= y < numrows E ->
  exists r, nth_error (row E) (Z.to_nat y) = Some r.
Proof.
  intros (Hnum & _) Hy. apply nth_error_in_range. lia.
Qed.

Lemma editorInsertChar_ok (c : Z) (E : editorConfig) :
  buffer_ok E -> 0 <= cy E <= numrows E ->
  exists E', editorInsertChar c E = Ok E' /\ buffer_ok E'.
Proof.
  intros Hok Hcy. unfold editorInsertChar.
  destruct (Z.eqb_spec (cy E) (numrows E)) as [Heq|Hne].
  - destruct (editorInsertRow_ok (numrows E) [] 0 E Hok ltac:(lia)
                ltac:(simpl; lia))
      as (E1 & -> & Hok1 & Hn1 & _ & _ & _ & _ & _ & Hcy1 & _).
    simpl.
    destruct (row_at_cursor E1 (cy E1) Hok1 ltac:(lia)) as [r Hr].
    destruct (editorRowInsertChar_ok (Z.to_nat (cy E1)) (cx E1) c E1 r Hok1 Hr)
      as [E2 [-> Hok2]].
    simpl. eexists. split; [reflexivity|].
    apply buffer_ok_set_cursor. exact Hok2.
  - simpl.
    destruct (row_at_cursor E (cy E) Hok ltac:(lia)) as [r Hr].
    destruct (editorRowInsertChar_ok (Z.to_nat (cy E)) (cx E) c E r Hok Hr)
      as [E2 [-> Hok2]].
    simpl. eexists. split; [reflexivity|].
    apply buffer_ok_set_cursor. exact Hok2.
Qed.

Lemma editorInsertNewline_ok (E : editorConfig) :
  buffer_ok E -> cursor_ok E ->
  exists E', editorInsertNewline E = Ok E' /\ buffer_ok E'.
Proof.
  intros Hok (Hcy & Hcx & Hend & Hcol). unfold editorInsertNewline.
  destruct (Z.eqb_spec (cx E) 0) as [Hz|Hnz].
  - destruct (editorInsertRow_ok (cy E) [] 0 E Hok Hcy ltac:(simpl; lia))
      as (E1 & -> & Hok1 & _).
    simpl. eexists. split; [reflexivity|].
    apply buffer_ok_set_cursor. exact Hok1.
  - assert (Hin : 0 <= cy E < numrows E) by lia.
    destruct (row_at_cursor E (cy E) Hok Hin) as [r Hr].
    rewrite (get_row_some _ _ _ Hr). simpl.
    destruct (buffer_ok_row _ _ _ Hok Hr) as [Hsz _].
    specialize (Hcol r Hr).
    destruct (editorInsertRow_ok (cy E + 1)
                (skipn (Z.to_nat (cx E)) (chars r)) (size r - cx E) E Hok
                ltac:(lia) ltac:(rewrite length_skipn; lia))
      as (E1 & -> & Hok1 & _ & _ & _ & _ & _ & Hcx1 & Hcy1 & _ & Hb).
    simpl. rewrite Hcy1, Hcx1.
    assert (Hr1 : nth_error (row E1) (Z.to_nat (cy E)) = Some r).
    { rewrite Hb by lia. exact Hr. }
    rewrite (get_row_some _ _ _ Hr1). simpl.
    destruct (edit_row_ok E1 (Z.to_nat (cy E)) r
                (firstn (Z.to_nat (cx E)) (chars r)) (cx E) Hok1 Hr1)
      as [E2 [-> [Hok2 _]]].
    { rewrite length_firstn. lia. }
    simpl. eexists. split; [reflexivity|].
    apply buffer_ok_set_cursor. exact Hok2.
Qed.

Lemma editorDelChar_ok (E : editorConfig) :
  buffer_ok E -> cursor_ok E ->
  exists E', editorDelChar E = Ok E' /\ buffer_ok E'.
Proof.
  intros Hok (Hcy & Hcx & Hend & Hcol). unfold editorDelChar.
  destruct (Z.eqb_spec (cy E) (numrows E)) as [Heq|Hne]; simpl; [eauto|].
  destruct (Z.eqb_spec (cx E) 0) as [Hz|Hnz];
    destruct (Z.eqb_spec (cy E) 0) as [Hy|Hny]; simpl; eauto.
  - (* column 0 of a row other than the first: join with the previous row *)
    destruct (row_at_cursor E (cy E) Hok ltac:(lia)) as [r Hr].
    rewrite (get_row_some _ _ _ Hr). simpl.
    destruct (Z.gtb_spec (cx E) 0); [lia|].
    destruct (row_at_cursor E (cy E - 1) Hok ltac:(lia)) as [prev Hprev].
    rewrite (get_row_some _ _ _ Hprev). simpl.
    destruct (buffer_ok_row _ _ _ Hok Hr) as [Hsz _].
    destruct (editorRowAppendString_ok (Z.to_nat (cy E - 1)) (chars r)
                (size r) (set_cursor E (size prev) (cy E)) prev
                (buffer_ok_set_cursor _ _ _ Hok) Hprev ltac:(lia))
      as (E1 & -> & Hok1 & _).
    simpl. eexists. split; [reflexivity|].
    apply buffer_ok_set_cursor, editorDelRow_ok. exact Hok1.
  - destruct (row_at_cursor E (cy E) Hok ltac:(lia)) as [r Hr].
    rewrite (get_row_some _ _ _ Hr). simpl.
    destruct (Z.gtb_spec (cx E) 0); [|lia].
    destruct (editorRowDelChar_ok (Z.to_nat (cy E)) (cx E - 1) E r Hok Hr)
      as [E1 [-> Hok1]].
    simpl. eexists. split; [reflexivity|].
    apply buffer_ok_set_cursor. exact Hok1.
  - destruct (row_at_cursor E (cy E) Hok ltac:(lia)) as [r Hr].
    rewrite (get_row_some _ _ _ Hr). simpl.
    destruct (Z.gtb_spec (cx E) 0); [|lia].
    destruct (editorRowDelChar_ok (Z.to_nat (cy E)) (cx E - 1) E r Hok Hr)
      as [E1 [-> Hok1]].
    simpl. eexists. split; [reflexivity|].
    apply buffer_ok_set_cursor. exact Hok1.
Qed.

Lemma buffer_ok_fits (E : editorConfig) : buffer_ok E -> highlight_fits E.
Proof.
  intros (_ & _ & Hrows & _) r Hin. rewrite Forall_forall in Hrows.
  destruct (Hrows r Hin) as (_ & Hrs & Hl). split; [|exact Hrs]. lia.
Qed.

(** ** C3: one highlight entry for each render character *)

Lemma buffer_ok_same_content (E E' : editorConfig) :
  buffer_ok E -> same_content E E' -> Forall row_ok (row E') ->
  buffer_ok E'.
Proof.
  intros (Hnum & Hidx & _ & Hts)
         (C1 & C2 & C3 & C4 & C5 & C6 & C7 & C8 & C9 & C10 & C11) Hrows.
  split; [rewrite (same_chars_length _ _ C11), C6; exact Hnum|].
  split; [eapply idx_ok_same_chars; eauto|].
  split; [exact Hrows | rewrite C10; exact Hts].
Qed.

Lemma editorUpdateSyntax_keeps_ok (E : editorConfig) (p : nat) :
  buffer_ok E -> (p < length (row E))%nat ->
  exists E', editorUpdateSyntax E p = Ok E' /\ buffer_ok E'
             /\ same_buffer E E'.
Proof.
  intros Hok Hp. pose proof Hok as (Hnum & Hidx & Hrows & Hts).
  destruct (editorUpdateSyntax_total E p Hidx Hrows ltac:(lia) Hp)
    as (E' & He & Hs & Hr & _).
  exists E'. split; [exact He|]. split; [|exact Hs].
  eapply buffer_ok_same_content; eauto using same_buffer_content.
Qed.

Lemma editorUpdateRow_keeps_ok (E : editorConfig) (p : nat) :
  buffer_ok E -> (p < length (row E))%nat ->
  exists E', editorUpdateRow E p = Ok E' /\ buffer_ok E'.
Proof.
  intros Hok Hp. pose proof Hok as (Hnum & Hidx & Hrows & Hts).
  destruct (nth_error_in_range _ _ Hp) as [r Hr].
  destruct (editorUpdateRow_ok E p r Hidx Hts ltac:(lia) Hr)
    as (E' & He & Hc & Hr' & _).
  - apply (buffer_ok_row _ _ _ Hok Hr).
  - intros q r0 Hq _. apply (buffer_ok_row _ _ _ Hok Hq).
  - exists E'. split; [exact He|].
    eapply buffer_ok_same_content; eauto.
Qed.

(** C3.  The freshly initialised editor satisfies the invariant of the
    buffer, which says of every row that [len(hl) == rsize == len(render)];
    and from every buffer that satisfies it, each update returns a buffer
    that satisfies it again: row creation ([editorInsertRow]), row deletion,
    character insert, delete and append on a row, the insertion of a
    character at the cursor, row split ([editorInsertNewline]), row join
    ([editorDelChar]), [editorUpdateRow] and the syntax recompute
    ([editorUpdateSyntax]). *)
Theorem highlight_length_invariant :
  (buffer_ok initEditor /\ highlight_fits initEditor)
  /\ forall E,
      buffer_ok E ->
      highlight_fits E
      /\ (forall at_ s len,
             0 <= len <= Z.of_nat (length s) ->
             exists E', editorInsertRow at_ s len E = Ok E'
                        /\ buffer_ok E' /\ highlight_fits E')
      /\ (forall at_, buffer_ok (editorDelRow at_ E)
                      /\ highlight_fits (editorDelRow at_ E))
      /\ (forall p at_ c,
             (p < length (row E))%nat ->
             exists E', editorRowInsertChar p at_ c E = Ok E'
                        /\ buffer_ok E' /\ highlight_fits E')
      /\ (forall p at_,
             (p < length (row E))%nat ->
             exists E', editorRowDelChar p at_ E = Ok E'
                        /\ buffer_ok E' /\ highlight_fits E')
      /\ (forall p s len,
             (p < length (row E))%nat -> 0 <= len <= Z.of_nat (length s) ->
             exists E', editorRowAppendString p s len E = Ok E'
                        /\ buffer_ok E' /\ highlight_fits E')
      /\ (forall c,
             0 <= cy E <= numrows E ->
             exists E', editorInsertChar c E = Ok E'
                        /\ buffer_ok E' /\ highlight_fits E')
      /\ (cursor_ok E ->
          exists E', editorInsertNewline E = Ok E'
                     /\ buffer_ok E' /\ highlight_fits E')
      /\ (cursor_ok E ->
          exists E', editorDelChar E = Ok E'
                     /\ buffer_ok E' /\ highlight_fits E')
      /\ (forall p,
             (p < length (row E))%nat ->
             exists E', editorUpdateRow E p = Ok E'
                        /\ buffer_ok E' /\ highlight_fits E')
      /\ (forall p,
             (p < length (row E))%nat ->
             exists E', editorUpdateSyntax E p = Ok E'
                        /\ buffer_ok E' /\ highlight_fits E').
Proof.
  split.
  { assert (H : buffer_ok initEditor)
      by (apply buffer_okb_sound; reflexivity).
    split; [exact H | apply buffer_ok_fits; exact H]. }
  intros E Hok.
  split; [apply buffer_ok_fits; exact Hok|].
  split.
  { intros at_ s len Hlen.
    destruct (apply_op_ok (InsertRow at_ s len) E Hok Hlen) as [E' [He Hok']].
    exists E'. auto using buffer_ok_fits. }
  split.
  { intros at_. pose proof (editorDelRow_ok at_ E Hok).
    auto using buffer_ok_fits. }
  split.
  { intros p at_ c Hp. destruct (nth_error_in_range _ _ Hp) as [r Hr].
    destruct (editorRowInsertChar_ok p at_ c E r Hok Hr) as [E' [He Hok']].
    exists E'. auto using buffer_ok_fits. }
  split.
  { intros p at_ Hp. destruct (nth_error_in_range _ _ Hp) as [r Hr].
    destruct (editorRowDelChar_ok p at_ E r Hok Hr) as [E' [He Hok']].
    exists E'. auto using buffer_ok_fits. }
  split.
  { intros p s len Hp Hlen. destruct (nth_error_in_range _ _ Hp) as [r Hr].
    destruct (editorRowAppendString_ok p s len E r Hok Hr Hlen)
      as [E' [He [Hok' _]]].
    exists E'. auto using buffer_ok_fits. }
  split.
  { intros c Hcy.
    destruct (editorInsertChar_ok c E Hok Hcy) as [E' [He Hok']].
    exists E'. auto using buffer_ok_fits. }
  split.
  { intros Hcur.
    destruct (editorInsertNewline_ok E Hok Hcur) as [E' [He Hok']].
    exists E'. auto using buffer_ok_fits. }
  split.
  { intros Hcur.
    destruct (editorDelChar_ok E Hok Hcur) as [E' [He Hok']].
    exists E'. auto using buffer_ok_fits. }
  split.
  { intros p Hp.
    destruct (editorUpdateRow_keeps_ok E p Hok Hp) as [E' [He Hok']].
    exists E'. auto using buffer_ok_fits. }
  intros p Hp.
  destruct (editorUpdateSyntax_keeps_ok E p Hok Hp) as [E' [He [Hok' _]]].
  exists E'. auto using buffer_ok_fits.
Qed.

Lemma highlight_length_invariant_witness :
  buffer_ok stale_doc
  /\ cursor_ok (set_cursor stale_doc 5 1)
  /\ exists E', editorInsertNewline (set_cursor stale_doc 5 1) = Ok E'
                /\ buffer_ok E' /\ highlight_fits E'.
Proof.
  assert (Hok : buffer_ok (set_cursor stale_doc 5 1))
    by (apply buffer_okb_sound; vm_compute; reflexivity).
  assert (Hcur : cursor_ok (set_cursor stale_doc 5 1)).
  { split; [vm_compute; split; discriminate|].
    split; [vm_compute; discriminate|].
    split; [vm_compute; discriminate|].
    intros r Hr. vm_compute in Hr. injection Hr as <-.
    vm_compute. discriminate. }
  split; [exact Hok|]. split; [exact Hcur|].
  exact (proj1 (proj2 (proj2 (proj2 (proj2 (proj2 (proj2 (proj2
           (proj2 highlight_length_invariant (set_cursor stale_doc 5 1) Hok)
         ))))))) Hcur).
Defined.

(** ** C4: selection of the syntax by file name *)

Lemma nul_free_c_str (s : list ascii) : nul_free s -> c_str s = s.
Proof. unfold nul_free, c_str. intros ->. apply firstn_all. Qed.

Lemma nul_free_cons (c : ascii) (s : list ascii) :
  nul_free (c :: s) -> c <> NUL /\ nul_free s.
Proof.
  unfold nul_free. simpl. destruct (Ascii.eqb_spec c NUL); [discriminate|].
  intros [= H]. auto.
Qed.

Lemma nul_free_app_r (a b : list ascii) : nul_free (a ++ b) -> nul_free b.
Proof.
  induction a as [|x a IH]; simpl; [auto|].
  intros H. apply nul_free_cons in H. apply IH, H.
Qed.

Lemma list_eqb_eq (a : list ascii) :
  forall b, list_eqb a b = true <-> a = b.
Proof.
  induction a as [|x a IH]; intros [|y b]; simpl;
    try (split; [discriminate | discriminate]); [tauto|].
  rewrite andb_true_iff, IH, Ascii.eqb_eq. split.
  - intros [-> ->]. reflexivity.
  - intros [= -> ->]. auto.
Qed.

Lemma is_prefix_spec (n : list ascii) :
  forall h, is_prefix n h = true <-> exists post, h = n ++ post.
Proof.
  induction n as [|x n IH]; intros h; simpl.
  - split; [eauto | auto].
  - destruct h as [|y h].
    + split; [discriminate | intros [post H]; discriminate].
    + rewrite andb_true_iff, IH, Ascii.eqb_eq. split.
      * intros [-> [post ->]]. eauto.
      * intros [post [= -> ->]]. eauto.
Qed.

Lemma find_sub_spec (n h : list ascii) :
  find_sub n h <> None <-> is_substring n h.
Proof.
  unfold is_substring. induction h as [|y h IH]; simpl.
  - destruct (is_prefix n []) eqn:Hp.
    + apply is_prefix_spec in Hp. destruct Hp as [post Hp].
      split; [intros _; exists [], post; exact Hp | discriminate].
    + split; [congruence|]. intros (pre & post & H).
      destruct pre; simpl in H.
      * assert (is_prefix n [] = true) by (apply is_prefix_spec; eauto).
        congruence.
      * discriminate.
  - destruct (is_prefix n (y :: h)) eqn:Hp.
    + apply is_prefix_spec in Hp. destruct Hp as [post Hp].
      split; [intros _; exists [], post; exact Hp | discriminate].
    + split.
      * intros Hf. destruct (find_sub n h) eqn:Hs; [|contradiction].
        destruct (proj1 IH ltac:(discriminate)) as (pre & post & ->).
        exists (y :: pre), post. reflexivity.
      * intros (pre & post & H). destruct pre as [|z pre]; simpl in H.
        -- assert (is_prefix n (y :: h) = true)
             by (apply is_prefix_spec; eauto).
           congruence.
        -- injection H as -> ->.
           destruct (find_sub n (pre ++ n ++ post)) eqn:Hs;
             [discriminate|].
           exfalso. apply IH; eauto.
Qed.

Lemma strrchr_from_none (s : list ascii) (c : ascii) :
  strrchr_from s c = None <-> ~ In c s.
Proof.
  induction s as [|x s IH]; simpl; [tauto|].
  destruct (strrchr_from s c) as [r|].
  - split; [discriminate|]. intros H. exfalso.
    assert (K : ~ In c s) by tauto. apply IH in K. discriminate.
  - destruct (Ascii.eqb_spec x c) as [->|Hne].
    + split; [discriminate | tauto].
    + split; [|reflexivity]. intros _ [H|H]; [congruence|].
      apply (proj1 IH eq_refl H).
Qed.

Lemma strrchr_from_suffix (s : list ascii) (c : ascii) :
  forall e, strrchr_from s c = Some e -> exists pre, s = pre ++ e.
Proof.
  induction s as [|x s IH]; simpl; [discriminate|]. intros e.
  destruct (strrchr_from s c) as [r|].
  - intros [= <-]. destruct (IH r eq_refl) as [pre ->].
    exists (x :: pre). reflexivity.
  - destruct (Ascii.eqb x c); [|discriminate].
    intros [= <-]. exists []. reflexivity.
Qed.

Lemma strrchr_from_last (pre rest : list ascii) (c : ascii) :
  ~ In c rest -> strrchr_from (pre ++ c :: rest) c = Some (c :: rest).
Proof.
  intros Hn. induction pre as [|x pre IH]; simpl.
  - apply strrchr_from_none in Hn. rewrite Hn, Ascii.eqb_refl. reflexivity.
  - rewrite IH. reflexivity.
Qed.

Lemma first_is_dot (pat : list ascii) :
  Ascii.eqb (nth 0 pat NUL) DOT = true <-> starts_with_dot pat.
Proof.
  unfold starts_with_dot. destruct pat as [|c rest]; simpl.
  - split; [discriminate | intros [r H]; discriminate].
  - rewrite Ascii.eqb_eq. split; [intros ->; eauto | intros [r [= -> _]]; auto].
Qed.

Lemma good_patternb_spec (pat : list ascii) :
  good_patternb pat = true ->
  nul_free pat /\ forall rest, pat = DOT :: rest -> ~ In DOT rest.
Proof.
  unfold good_patternb. rewrite andb_true_iff. intros [H1 H2].
  split; [apply Nat.eqb_eq; exact H1|].
  intros rest ->. rewrite Ascii.eqb_refl in H2. simpl in H2.
  intros Hin. apply negb_true_iff in H2.
  assert (existsb (Ascii.eqb DOT) rest = true).
  { apply existsb_exists. exists DOT. split; [exact Hin|].
    apply Ascii.eqb_refl. }
  congruence.
Qed.

(** The test of one pattern by the code is the match of the
    specification, for a pattern whose only dot is the leading one. *)
Lemma pattern_matches_spec_iff (fname pat : list ascii) :
  nul_free fname -> good_patternb pat = true ->
  pattern_matches fname (strrchr fname DOT) pat = true
  <-> pattern_matches_spec fname pat.
Proof.
  intros Hf Hg. apply good_patternb_spec in Hg. destruct Hg as [Hp Hdot].
  unfold pattern_matches, pattern_matches_spec, strrchr, strstr, strcmp_eq.
  rewrite (nul_free_c_str _ Hf), (nul_free_c_str _ Hp).
  destruct (Ascii.eqb (nth 0 pat NUL) DOT) eqn:Hd; simpl.
  - apply first_is_dot in Hd. rewrite orb_false_r.
    destruct (strrchr_from fname DOT) as [e|] eqn:He.
    + destruct (strrchr_from_suffix _ _ _ He) as [pre Hpre].
      assert (Hce : c_str e = e).
      { apply nul_free_c_str. rewrite Hpre in Hf.
        eapply nul_free_app_r; eauto. }
      rewrite Hce, list_eqb_eq. split.
      * intros ->. left. split; [exact Hd|]. exists pre. exact Hpre.
      * intros [[_ [pre' Hs]] | [Hn _]]; [|contradiction].
        destruct Hd as [rest ->].
        rewrite Hs, (strrchr_from_last pre' rest DOT (Hdot rest eq_refl))
          in He.
        congruence.
    + split; [discriminate|].
      intros [[_ [pre' Hs]] | [Hn _]]; [|contradiction].
      destruct Hd as [rest ->]. apply strrchr_from_none in He.
      exfalso. apply He. rewrite Hs. apply in_or_app. right. left.
      reflexivity.
  - assert (Hnd : ~ starts_with_dot pat).
    { intros H. apply first_is_dot in H. congruence. }
    pose proof (find_sub_spec pat fname) as Hs.
    destruct (find_sub pat fname) as [k|].
    + split; [|reflexivity]. intros _. right. split; [exact Hnd|].
      apply Hs. discriminate.
    + split; [discriminate|].
      intros [[H _] | [_ H]]; [contradiction|].
      apply Hs in H. contradiction.
Qed.

Lemma entry_matches_iff (fname : list ascii) (s : editorSyntax) :
  nul_free fname -> forallb good_patternb (filematch s) = true ->
  existsb (pattern_matches fname (strrchr fname DOT)) (filematch s) = true
  <-> entry_matches_spec fname s.
Proof.
  intros Hf Hg. rewrite forallb_forall in Hg.
  unfold entry_matches_spec. rewrite existsb_exists. split.
  - intros [pat [Hin Hm]]. exists pat. split; [exact Hin|].
    apply pattern_matches_spec_iff; auto.
  - intros [pat [Hin Hm]]. exists pat. split; [exact Hin|].
    apply pattern_matches_spec_iff; auto.
Qed.

(** The selection over any registry with such patterns: the first entry, in
    registry order, that has a matching pattern. *)
Lemma select_syntax_first (db : list editorSyntax) (fname : list ascii) :
  nul_free fname -> good_registryb db = true ->
  first_match db fname (select_syntax db fname).
Proof.
  unfold first_match.
  intros Hf. induction db as [|s db IH]; simpl; intros Hg; [tauto|].
  apply andb_prop in Hg. destruct Hg as [Hs Hdb].
  pose proof (entry_matches_iff fname s Hf Hs) as Hiff.
  destruct (existsb _ (filematch s)) eqn:He.
  - exists [], db. split; [reflexivity|]. split; [apply Hiff; reflexivity|].
    intros s' [].
  - specialize (IH Hdb).
    assert (Hno : ~ entry_matches_spec fname s).
    { intros H. apply Hiff in H. discriminate. }
    destruct (select_syntax db fname) as [s1|].
    + destruct IH as (before & after & -> & Hm & Hb).
      exists (s :: before), after. split; [reflexivity|].
      split; [exact Hm|]. intros s' [<-|Hin]; auto.
    + intros s' [<-|Hin]; auto.
Qed.

Lemma update_all_ok (n : nat) :
  forall k E,
    buffer_ok E -> (k + n <= length (row E))%nat ->
    exists E', update_all n k E = Ok E' /\ buffer_ok E' /\ same_buffer E E'.
Proof.
  induction n as [|n IH]; intros k E Hok Hk; simpl.
  - exists E. auto using same_buffer_refl.
  - destruct (editorUpdateSyntax_keeps_ok E k Hok ltac:(lia))
      as (E1 & -> & Hok1 & Hs1).
    simpl.
    assert (Hlen : length (row E1) = length (row E)).
    { destruct Hs1 as (_ & _ & _ & _ & _ & _ & _ & _ & _ & _ & H).
      symmetry. eapply Forall2_length; eauto. }
    destruct (IH (S k) E1 Hok1 ltac:(lia)) as (E' & He & Hok' & Hs').
    exists E'. split; [exact He|]. split; [exact Hok'|].
    eapply same_buffer_trans; eauto.
Qed.

Lemma editorUpdateSyntax_no_syntax (E : editorConfig) (p : nat) (r : erow) :
  syntax E = None -> nth_error (row E) p = Some r ->
  editorUpdateSyntax E p
  = Ok (put_row E p (set_hl r (repeat HL_NORMAL (Z.to_nat (rsize r)))
                       (hl_open_comment r))).
Proof.
  intros Hs Hr. unfold editorUpdateSyntax. simpl.
  rewrite (get_row_some _ _ _ Hr). simpl.
  unfold update_one. rewrite (get_row_some _ _ _ Hr), Hs. reflexivity.
Qed.

(** ** C5: keywords *)

Lemma strlen_le (s : list ascii) : (strlen s <= length s)%nat.
Proof.
  induction s as [|c s IH]; simpl; [lia|].
  destruct (Ascii.eqb c NUL); lia.
Qed.

(** Against the first [n] characters of a pattern, none of them NUL,
    [strncmp] is the comparison of the two prefixes of length [n]. *)
Lemma strncmp_eq_firstn (n : nat) :
  forall s pat, (n <= strlen pat)%nat ->
                strncmp_eq s pat n = true <-> firstn n s = firstn n pat.
Proof.
  induction n as [|n IH]; intros s pat Hn; simpl; [split; reflexivity|].
  destruct pat as [|c2 t2]; simpl in Hn; [lia|].
  destruct (Ascii.eqb_spec c2 NUL) as [->|Hc2]; [lia|].
  destruct s as [|c1 t1].
  - destruct (Ascii.eqb_spec NUL c2); [congruence|].
    split; discriminate.
  - destruct (Ascii.eqb_spec c1 c2) as [->|Hne].
    + destruct (Ascii.eqb_spec c2 NUL); [contradiction|].
      rewrite (IH t1 t2) by lia. split; [intros ->; reflexivity|].
      intros [= H]. exact H.
    + split; [discriminate | intros [= H _]; contradiction].
Qed.

Lemma is_separator_NUL : is_separator NUL = true.
Proof. reflexivity. Qed.

Lemma last_nth (kw : list ascii) :
  last kw NUL = nth (length kw - 1) kw NUL.
Proof.
  induction kw as [|c t IH]; [reflexivity|].
  destruct t as [|d t']; [reflexivity|].
  change (last (c :: d :: t') NUL) with (last (d :: t') NUL).
  rewrite IH. simpl. rewrite Nat.sub_0_r. reflexivity.
Qed.

Lemma kw_is_secondary_spec (kw : list ascii) :
  nul_free kw ->
  kw_is_secondary kw = true <-> exists b, kw = b ++ [SENTINEL].
Proof.
  unfold nul_free, kw_is_secondary. intros ->.
  rewrite andb_true_iff, Nat.ltb_lt, Ascii.eqb_eq. split.
  - intros [Hl Hn]. exists (removelast kw).
    assert (Hne : kw <> []) by (destruct kw; simpl in *; [lia|discriminate]).
    rewrite (app_removelast_last NUL Hne) at 1. do 2 f_equal.
    rewrite last_nth. exact Hn.
  - intros [b ->]. rewrite length_app. simpl. split; [lia|].
    replace (length b + 1 - 1)%nat with (length b) by lia.
    apply nth_middle.
Qed.

(** The length and class that the code computes for a keyword are those of
    its text and its class. *)
Lemma keyword_parts_code (kw : list ascii) :
  nul_free kw ->
  keyword_parts kw (firstn (kw_len kw) kw) (kw_class kw)
  /\ length (firstn (kw_len kw) kw) = kw_len kw.
Proof.
  intros Hf. pose proof (kw_is_secondary_spec kw Hf) as Hs.
  pose proof (kw_len_le kw) as Hle. pose proof (strlen_le kw) as Hle2.
  split; [|rewrite length_firstn; lia].
  unfold keyword_parts, kw_len, kw_class.
  destruct (kw_is_secondary kw).
  - left. destruct (proj1 Hs eq_refl) as [b Hb]. split; [|reflexivity].
    unfold nul_free in Hf. rewrite Hf. clear Hs Hle Hle2 Hf. subst kw.
    rewrite length_app. simpl.
    replace (length b + 1 - 1)%nat with (length b) by lia.
    rewrite firstn_app, Nat.sub_diag, firstn_all. simpl.
    rewrite app_nil_r. reflexivity.
  - right. split.
    + intros b Hb. assert (false = true) by (apply Hs; eauto). discriminate.
    + rewrite Hf, firstn_all. auto.
Qed.

Lemma keyword_parts_unique (kw b1 b2 : list ascii)
  (c1 c2 : editorHighlight) :
  keyword_parts kw b1 c1 -> keyword_parts kw b2 c2 -> b1 = b2 /\ c1 = c2.
Proof.
  intros [[H1 ->] | (N1 & -> & ->)] [[H2 ->] | (N2 & -> & ->)].
  - rewrite H1 in H2. apply app_inj_tail in H2. tauto.
  - exfalso. eapply N2; eauto.
  - exfalso. eapply N1; eauto.
  - auto.
Qed.

(** The test of the code on one keyword is the condition of the
    specification on its text. *)
Lemma kw_matches_spec (rd : list ascii) (i : nat) (kw : list ascii) :
  nul_free kw ->
  kw_matches rd i kw = true
  <-> keyword_applies rd i (firstn (kw_len kw) kw).
Proof.
  intros Hf. destruct (keyword_parts_code kw Hf) as [_ Hl].
  unfold kw_matches, keyword_applies. rewrite Hl.
  rewrite andb_true_iff, (strncmp_eq_firstn _ _ _ (kw_len_le kw)).
  split.
  - intros [Hm Hs]. split; [exact Hm | right; exact Hs].
  - intros [Hm Hs]. split; [exact Hm|].
    + destruct Hs as [He|Hs]; [|exact Hs].
      rewrite nth_overflow by lia. apply is_separator_NUL.
Qed.

Lemma find_keyword_first (rd : list ascii) (i : nat)
  (kws : list (list ascii)) :
  match find_keyword rd i kws with
  | Some kw =>
      exists before after,
        kws = before ++ kw :: after
        /\ kw_matches rd i kw = true
        /\ forall k, In k before -> kw_matches rd i k = false
  | None => forall k, In k kws -> kw_matches rd i k = false
  end.
Proof.
  induction kws as [|k rest IH]; simpl; [tauto|].
  destruct (kw_matches rd i k) eqn:Hk.
  - exists [], rest. split; [reflexivity|]. split; [exact Hk|].
    intros ? [].
  - destruct (find_keyword rd i rest) as [kw|].
    + destruct IH as (before & after & -> & Hm & Hb).
      exists (k :: before), after. split; [reflexivity|].
      split; [exact Hm|]. intros k' [<-|Hin]; auto.
    + intros k' [<-|Hin]; auto.
Qed.

(** C5.  In a scan, the keyword check gives a result only when the
    previous character was a separator ([prev_sep]); it then takes the first
    keyword of the list, in list order, whose text stands at the scan
    position of the render string and is followed by a separator or the end
    of the line, gives the characters of that text the secondary class if
    the keyword carries the trailing ['|'] and the primary class otherwise,
    and moves past the text; if no keyword of the list qualifies the check
    gives nothing.  With the keyword [for], the scan of [forward] highlights
    no keyword, and the scan of [for (x)] highlights [for] as a keyword;
    so do the scans with the keywords of C. *)
Theorem keyword_first_match_at_boundary :
  (forall syn rd st,
      Forall nul_free (keywords syn) ->
      match scan_keyword syn rd st with
      | Some e =>
          sc_prev_sep st = true
          /\ exists before kw after body cls,
              keywords syn = before ++ kw :: after
              /\ keyword_parts kw body cls
              /\ keyword_applies rd (sc_i st) body
              /\ (forall k b c, In k before -> keyword_parts k b c ->
                                ~ keyword_applies rd (sc_i st) b)
              /\ e = Continue
                       (mkScan (sc_i st + length body) false
                          (sc_in_string st) (sc_in_comment st)
                          (memset (sc_hl st) (sc_i st) (length body) cls))
      | None =>
          sc_prev_sep st = false
          \/ forall k b c, In k (keywords syn) -> keyword_parts k b c ->
                           ~ keyword_applies rd (sc_i st) b
      end)
  /\ scan_row for_syntax (s2l "forward") 7 false
     = Some (repeat HL_NORMAL 7, false)
  /\ scan_row for_syntax (s2l "for (x)") 7 false
     = Some ([HL_KEYWORD1; HL_KEYWORD1; HL_KEYWORD1;
              HL_NORMAL; HL_NORMAL; HL_NORMAL; HL_NORMAL], false)
  /\ scan_row C_syntax (s2l "forward") 7 false
     = Some (repeat HL_NORMAL 7, false)
  /\ scan_row C_syntax (s2l "for (x)") 7 false
     = Some ([HL_KEYWORD1; HL_KEYWORD1; HL_KEYWORD1;
              HL_NORMAL; HL_NORMAL; HL_NORMAL; HL_NORMAL], false).
Proof.
  split; [|repeat split; vm_compute; reflexivity].
  intros syn rd st Hnf. unfold scan_keyword.
  destruct (sc_prev_sep st); [|left; reflexivity].
  pose proof (find_keyword_first rd (sc_i st) (keywords syn)) as Hfirst.
  rewrite Forall_forall in Hnf.
  destruct (find_keyword rd (sc_i st) (keywords syn)) as [kw|].
  - destruct Hfirst as (before & after & Hk & Hm & Hb).
    split; [reflexivity|].
    assert (Hkw : nul_free kw).
    { apply Hnf. rewrite Hk. apply in_or_app. right. left. reflexivity. }
    destruct (keyword_parts_code kw Hkw) as [Hparts Hl].
    exists before, kw, after, (firstn (kw_len kw) kw), (kw_class kw).
    split; [exact Hk|]. split; [exact Hparts|].
    split; [apply kw_matches_spec; assumption|].
    split; [|rewrite Hl; reflexivity].
    intros k b c Hin Hp Ha.
    assert (Hkf : nul_free k).
    { apply Hnf. rewrite Hk. apply in_or_app. left. exact Hin. }
    destruct (keyword_parts_code k Hkf) as [Hp' _].
    destruct (keyword_parts_unique _ _ _ _ _ Hp Hp') as [-> _].
    apply kw_matches_spec in Ha; [|exact Hkf].
    rewrite (Hb k Hin) in Ha. discriminate.
  - right. intros k b c Hin Hp Ha.
    assert (Hkf : nul_free k) by (apply Hnf; exact Hin).
    destruct (keyword_parts_code k Hkf) as [Hp' _].
    destruct (keyword_parts_unique _ _ _ _ _ Hp Hp') as [-> _].
    apply kw_matches_spec in Ha; [|exact Hkf].
    rewrite (Hfirst k Hin) in Ha. discriminate.
Qed.

Lemma keyword_first_match_at_boundary_witness :
  Forall nul_free (keywords for_syntax)
  /\ exists before kw after body cls,
      keywords for_syntax = before ++ kw :: after
      /\ keyword_parts kw body cls
      /\ keyword_applies (s2l "for (x)") 0 body.
Proof.
  assert (Hnf : Forall nul_free (keywords for_syntax))
    by (repeat constructor).
  split; [exact Hnf|].
  pose proof (proj1 keyword_first_match_at_boundary for_syntax
                (s2l "for (x)")
                (mkScan 0 true NUL false (repeat HL_NORMAL 7)) Hnf) as H.
  assert (Hk : scan_keyword for_syntax (s2l "for (x)")
                 (mkScan 0 true NUL false (repeat HL_NORMAL 7))
               = Some (Continue
                         (mkScan 3 false NUL false
                            [HL_KEYWORD1; HL_KEYWORD1; HL_KEYWORD1;
                             HL_NORMAL; HL_NORMAL; HL_NORMAL; HL_NORMAL])))
    by (vm_compute; reflexivity).
  rewrite Hk in H.
  destruct H as (_ & before & kw & after & body & cls & H1 & H2 & H3 & _).
  exists before, kw, after, body, cls. auto.
Defined.

(** ** C6: buffer column to render column and back *)

Section TabMapping.

Variable ts : Z.
Hypothesis ts_pos : 0 < ts.
Variable cs : list ascii.

(** The render column of buffer column [k]. *)
Let width (k : nat) : Z := cx_to_rx_loop k ts cs 0 0.

Lemma cx_to_rx_loop_snoc (n : nat) :
  forall j w,
    cx_to_rx_loop (S n) ts cs j w
    = advance ts (nth (j + n) cs NUL) (cx_to_rx_loop n ts cs j w).
Proof.
  induction n as [|n IH]; intros j w.
  - simpl. rewrite Nat.add_0_r. reflexivity.
  - change (cx_to_rx_loop (S (S n)) ts cs j w)
      with (cx_to_rx_loop (S n) ts cs (S j) (advance ts (nth j cs NUL) w)).
    rewrite IH. simpl. replace (S (j + n)) with (j + S n)%nat by lia.
    reflexivity.
Qed.

Lemma width_succ (k : nat) :
  width (S k) = advance ts (nth k cs NUL) (width k).
Proof. unfold width. rewrite cx_to_rx_loop_snoc. reflexivity. Qed.

Lemma advance_grows (c : ascii) (w : Z) : 0 <= w -> w < advance ts c w.
Proof.
  intros Hw. unfold advance. destruct (Ascii.eqb c TAB); [|lia].
  pose proof (Z.rem_bound_pos w ts Hw ts_pos). lia.
Qed.

Lemma width_nonneg (k : nat) : 0 <= width k.
Proof.
  induction k as [|k IH]; [unfold width; simpl; lia|].
  rewrite width_succ. pose proof (advance_grows (nth k cs NUL) _ IH). lia.
Qed.

Lemma width_increasing (j k : nat) : (j < k)%nat -> width j < width k.
Proof.
  induction 1 as [|k Hle IH].
  - rewrite width_succ. apply advance_grows, width_nonneg.
  - rewrite width_succ.
    pose proof (advance_grows (nth k cs NUL) _ (width_nonneg k)). lia.
Qed.

(** The search of [editorRowRxToCx] for the column of width [width cx],
    resumed at column [j <= cx] with [n] columns left, ends at [cx]. *)
Lemma rx_to_cx_loop_finds (cx : nat) (n : nat) :
  forall j, (j <= cx)%nat -> (cx <= j + n)%nat ->
            rx_to_cx_loop n ts cs (width cx) j (width j) = Z.of_nat cx.
Proof.
  induction n as [|n IH]; intros j Hj Hn; simpl.
  - f_equal. lia.
  - rewrite <- width_succ.
    destruct (Z.gtb_spec (width (S j)) (width cx)) as [Hgt|Hle].
    + destruct (Nat.eq_dec j cx) as [->|Hne]; [reflexivity|].
      assert (Hlt : (S j <= cx)%nat) by lia.
      destruct (Nat.eq_dec (S j) cx) as [He|Hne'].
      * rewrite He in Hgt. lia.
      * pose proof (width_increasing (S j) cx ltac:(lia)). lia.
    + destruct (Nat.eq_dec j cx) as [->|Hne].
      * pose proof (width_increasing cx (S cx) ltac:(lia)). lia.
      * apply IH; lia.
Qed.

End TabMapping.

(** C6.  With a positive tab stop (4 by default), for every row and every
    buffer column [cx] with [0 <= cx <= size], [editorRowRxToCx] applied to
    [editorRowCxToRx] of [cx] is [cx]; and with tab stop 4, in the row
    [a<TAB>b] the render column of buffer column 2 is 4. *)
Theorem tab_mapping_round_trip :
  (forall E r cx,
      0 < tab_stop E -> 0 <= cx <= size r ->
      editorRowRxToCx E r (editorRowCxToRx E r cx) = cx)
  /\ tab_stop initEditor = 4
  /\ editorRowCxToRx initEditor tab_row 2 = 4.
Proof.
  split; [|split; reflexivity].
  intros E r cx Hts Hcx. unfold editorRowRxToCx, editorRowCxToRx.
  pose proof (rx_to_cx_loop_finds (tab_stop E) Hts (chars r)
                (Z.to_nat cx) (Z.to_nat (size r)) 0%nat) as H.
  simpl in H. rewrite H; lia.
Qed.

Lemma tab_mapping_round_trip_witness :
  0 < tab_stop initEditor /\ 0 <= 2 <= size tab_row
  /\ editorRowRxToCx initEditor tab_row (editorRowCxToRx initEditor tab_row 2)
     = 2.
Proof.
  split; [reflexivity|]. split; [split; discriminate|].
  apply (proj1 tab_mapping_round_trip initEditor tab_row 2).
  - reflexivity.
  - split; discriminate.
Defined.

(** ** C7: loading and serializing *)

Lemma strip_trailing_snoc (p : ascii -> bool) (l : list ascii) (x : ascii) :
  strip_trailing p (l ++ [x])
  = if p x then strip_trailing p l else l ++ [x].
Proof.
  induction l as [|y l IH]; simpl.
  - destruct (p x); reflexivity.
  - rewrite IH. destruct (p x).
    + reflexivity.
    + destruct (l ++ [x]) eqn:Hl; [|reflexivity].
      destruct l; discriminate.
Qed.

Lemma strip_len_le (line : list ascii) (n : nat) :
  (strip_len line n <= n)%nat.
Proof.
  induction n as [|n IH]; simpl; [lia|].
  destruct (_ || _); lia.
Qed.

Lemma strip_len_app (l : list ascii) (x : ascii) (n : nat) :
  (n <= length l)%nat -> strip_len (l ++ [x]) n = strip_len l n.
Proof.
  induction n as [|n IH]; intros Hn; simpl; [reflexivity|].
  rewrite app_nth1 by lia. rewrite IH by lia. reflexivity.
Qed.

(** The characters that [editorOpen] keeps of a line. *)
Lemma strip_len_spec (line : list ascii) :
  firstn (strip_len line (length line)) line = strip_trailing is_crlf line.
Proof.
  induction line as [|x l IH] using rev_ind; [reflexivity|].
  rewrite strip_trailing_snoc, length_app. simpl.
  replace (length l + 1)%nat with (S (length l)) by lia. simpl.
  rewrite app_nth2, Nat.sub_diag by lia. simpl.
  fold (is_crlf x). destruct (is_crlf x).
  - rewrite strip_len_app by lia.
    rewrite firstn_app.
    pose proof (strip_len_le l (length l)).
    replace (strip_len l (length l) - length l)%nat with 0%nat by lia.
    simpl. rewrite app_nil_r. exact IH.
  - replace (S (length l)) with (length (l ++ [x]))
      by (rewrite length_app; simpl; lia).
    apply firstn_all.
Qed.

Lemma getlines_nil (c : list ascii) : getlines c = [] <-> c = [].
Proof.
  destruct c as [|x t]; simpl; [tauto|].
  split; [|discriminate].
  destruct (Ascii.eqb x LF); [discriminate|].
  destruct (getlines t); discriminate.
Qed.

Lemma split_lines_nil (c : list ascii) : split_lines c = [] <-> c = [].
Proof.
  destruct c as [|x t]; simpl; [tauto|].
  split; [|discriminate].
  destruct (Ascii.eqb x LF); [discriminate|].
  destruct (split_lines t); discriminate.
Qed.

(** What is kept of the lines that [getline] returns is what is left of the
    lines of the text without the carriage returns at their end. *)
Lemma getlines_stripped (c : list ascii) :
  map (strip_trailing is_crlf) (getlines c)
  = map (strip_trailing is_cr) (split_lines c).
Proof.
  induction c as [|x t IH]; [reflexivity|]. simpl.
  destruct (Ascii.eqb_spec x LF) as [->|Hx].
  - simpl. rewrite IH. reflexivity.
  - assert (Hp : is_crlf x = is_cr x).
    { unfold is_crlf, is_cr. destruct (Ascii.eqb_spec x LF); [contradiction|].
      reflexivity. }
    destruct (getlines t) as [|g gs] eqn:Hg;
      destruct (split_lines t) as [|l ls] eqn:Hl.
    + simpl. rewrite Hp. reflexivity.
    + apply getlines_nil in Hg. subst t. discriminate.
    + apply split_lines_nil in Hl. subst t. discriminate.
    + simpl in IH. injection IH as IH1 IH2.
      simpl. rewrite IH1, IH2, Hp. reflexivity.
Qed.

Lemma firstn_numrows (E : editorConfig) :
  buffer_ok E -> firstn (Z.to_nat (numrows E)) (row E) = row E.
Proof.
  intros (Hnum & _). rewrite Hnum, Nat2Z.id. apply firstn_all.
Qed.

(** [editorRowsToString] on a well-formed buffer: the characters of each
    row followed by one newline, in row order. *)
Lemma editorRowsToString_spec (E : editorConfig) :
  buffer_ok E ->
  fst (editorRowsToString E)
  = flat_map (fun cs => cs ++ [LF]) (map chars (row E)).
Proof.
  intros Hok. unfold editorRowsToString. simpl.
  rewrite (firstn_numrows E Hok).
  destruct Hok as (_ & _ & Hrows & _).
  induction Hrows as [|r rs (Hsz & _) _ IH]; simpl; [reflexivity|].
  rewrite IH, Hsz, Nat2Z.id, firstn_all. reflexivity.
Qed.

Lemma editorRowsToString_length (E : editorConfig) :
  buffer_ok E ->
  snd (editorRowsToString E) = Z.of_nat (length (fst (editorRowsToString E))).
Proof.
  intros Hok. unfold editorRowsToString. simpl.
  rewrite (firstn_numrows E Hok).
  destruct Hok as (_ & _ & Hrows & _).
  assert (H : forall acc,
             fold_left (fun tot r => tot + (size r + 1)) (row E) acc
             = acc + Z.of_nat
                       (length (flat_map
                                  (fun r => firstn (Z.to_nat (size r)) (chars r)
                                            ++ [LF]) (row E)))).
  { induction Hrows as [|r rs (Hsz & _) _ IH]; intros acc; simpl; [lia|].
    rewrite IH, !length_app, Hsz, Nat2Z.id, firstn_all. simpl. lia. }
  rewrite H. lia.
Qed.

(** An [editorInsertRow] at the end appends a row with the given text. *)
Lemma editorInsertRow_at_end (s : list ascii) (len : Z) (E : editorConfig) :
  buffer_ok E -> 0 <= len <= Z.of_nat (length s) ->
  exists E',
    editorInsertRow (numrows E) s len E = Ok E'
    /\ buffer_ok E'
    /\ map chars (row E') = map chars (row E) ++ [firstn (Z.to_nat len) s].
Proof.
  intros Hok Hlen. pose proof Hok as (Hnum & _).
  destruct (editorInsertRow_ok (numrows E) s len E Hok ltac:(lia) Hlen)
    as (E' & He & Hok' & _ & _ & _ & _ & _ & _ & _ & Hc & _).
  exists E'. split; [exact He|]. split; [exact Hok'|].
  destruct (same_chars_maps _ _ Hc) as (_ & _ & ->).
  rewrite Hnum, Nat2Z.id, firstn_all, skipn_all.
  rewrite map_app. reflexivity.
Qed.

Lemma open_loop_ok (ls : list (list ascii)) :
  forall E,
    buffer_ok E ->
    exists E',
      open_loop ls E = Ok E'
      /\ buffer_ok E'
      /\ map chars (row E')
         = map chars (row E) ++ map (strip_trailing is_crlf) ls.
Proof.
  induction ls as [|line rest IH]; intros E Hok; simpl.
  - exists E. rewrite app_nil_r. auto.
  - destruct (editorInsertRow_at_end line
                (Z.of_nat (strip_len line (length line))) E Hok)
      as (E1 & -> & Hok1 & Hc1).
    { pose proof (strip_len_le line (length line)). lia. }
    simpl. destruct (IH E1 Hok1) as (E' & He & Hok' & Hc').
    exists E'. split; [exact He|]. split; [exact Hok'|].
    rewrite Hc', Hc1, Nat2Z.id, strip_len_spec, <- app_assoc. reflexivity.
Qed.

Lemma editorSelectSyntaxHighlight_ok (E : editorConfig) :
  buffer_ok E ->
  exists E', editorSelectSyntaxHighlight E = Ok E'
             /\ buffer_ok E' /\ map chars (row E') = map chars (row E).
Proof.
  intros Hok. unfold editorSelectSyntaxHighlight.
  change (filename (set_syntax E None)) with (filename E).
  destruct (filename E) as [fname|]; [|exists (set_syntax E None); auto].
  destruct (select_syntax HLDB fname) as [s|];
    [|exists (set_syntax E None); auto].
  destruct (update_all_ok (Z.to_nat (numrows E)) 0
              (set_syntax (set_syntax E None) (Some s)))
    as (E' & He & Hok' & Hs).
  - exact Hok.
  - destruct Hok as (Hnum & _). simpl. lia.
  - exists E'. split; [exact He|]. split; [exact Hok'|].
    apply same_buffer_content in Hs.
    destruct Hs as (_ & _ & _ & _ & _ & _ & _ & _ & _ & _ & Hc).
    apply (same_chars_maps _ _ Hc).
Qed.

(** Loading a file into the initial editor returns, with one row for each
    line of the file, holding the line without the carriage returns and
    newline at its end. *)
Lemma editorOpen_rows (fname content : list ascii) :
  exists E,
    editorOpen fname (Some content) initEditor = Ok E
    /\ buffer_ok E /\ dirty E = 0
    /\ map chars (row E) = map (strip_trailing is_cr) (split_lines content).
Proof.
  unfold editorOpen.
  destruct (editorSelectSyntaxHighlight_ok
              (set_filename initEditor (Some (c_str fname))))
    as (E1 & -> & Hok1 & Hc1).
  { apply buffer_okb_sound. reflexivity. }
  simpl in Hc1. simpl.
  destruct (open_loop_ok (getlines content) E1 Hok1) as (E2 & -> & Hok2 & Hc2).
  simpl. exists (set_dirty E2 0). split; [reflexivity|].
  split; [exact Hok2|]. split; [reflexivity|].
  simpl. rewrite Hc2, Hc1, getlines_stripped. reflexivity.
Qed.

(** ** Editing with no syntax active *)

Lemma In_store {A : Type} (l : list A) (p : nat) (v x : A) :
  In x (store l p v) -> x = v \/ In x l.
Proof.
  unfold store, memset. intros H.
  apply in_app_or in H. destruct H as [H|H].
  - right. rewrite <- (firstn_skipn p l). apply in_or_app. left. exact H.
  - apply in_app_or in H. destruct H as [H|H].
    + left. destruct H as [<-|[]]. reflexivity.
    + right. rewrite <- (firstn_skipn (p + 1) l). apply in_or_app.
      right. exact H.
Qed.

Lemma Forall_repeat_normal (n : nat) :
  Forall (eq HL_NORMAL) (repeat HL_NORMAL n).
Proof. induction n; simpl; constructor; auto. Qed.

(** With no syntax, [editorUpdateRow] rebuilds the render string of the
    row and gives every character of it the default class. *)
Lemma editorUpdateRow_no_syntax (E : editorConfig) (p : nat) (r : erow) :
  syntax E = None -> 0 < tab_stop E -> nth_error (row E) p = Some r ->
  exists rd,
    editorUpdateRow E p
    = Ok (put_row E p (set_hl (set_render r rd)
                         (repeat HL_NORMAL (length rd))
                         (hl_open_comment r))).
Proof.
  intros Hs Hts Hr.
  assert (Hp : (p < length (row E))%nat) by (eapply nth_error_lt; eauto).
  unfold editorUpdateRow. rewrite (get_row_some _ _ _ Hr). simpl.
  destruct (render_loop_total (tab_stop E)
              (firstn (Z.to_nat (size r)) (chars r)) Hts []) as [rd ->].
  simpl. exists rd.
  rewrite (editorUpdateSyntax_no_syntax _ p (set_render r rd)).
  - simpl. rewrite Nat2Z.id. unfold put_row. simpl.
    rewrite store_store by exact Hp. reflexivity.
  - exact Hs.
  - apply nth_error_put_row_same. exact Hp.
Qed.

Lemma editorInsertRow_no_syntax (at_ : Z) (s : list ascii) (len : Z)
  (E : editorConfig) :
  buffer_ok E -> syntax E = None -> all_default E ->
  0 <= len <= Z.of_nat (length s) ->
  exists E', editorInsertRow at_ s len E = Ok E'
             /\ buffer_ok E' /\ syntax E' = None /\ all_default E'.
Proof.
  intros Hok Hs Hdef Hlen.
  destruct (apply_op_ok (InsertRow at_ s len) E Hok Hlen) as [E' [He Hok']].
  exists E'. split; [exact He|]. split; [exact Hok'|].
  simpl in He. unfold editorInsertRow in He.
  destruct ((at_ <? 0) || (at_ >? numrows E)) eqn:Hr.
  - injection He as <-. auto.
  - apply orb_false_iff in Hr. destruct Hr as [H1 H2].
    apply Z.ltb_ge in H1. rewrite Z.gtb_ltb in H2. apply Z.ltb_ge in H2.
    pose proof Hok as (Hnum & _ & _ & Hts).
    set (a := Z.to_nat at_) in *.
    assert (Ha : (a <= length (row E))%nat) by lia.
    replace (Z.to_nat (numrows E - at_)) with (length (row E) - a)%nat in He
      by lia.
    fold (fresh_row at_ s len) in He.
    rewrite (insert_renumbered _ _ _ Ha) in He.
    set (rows1 := firstn a (row E) ++ fresh_row at_ s len
                    :: map (shift_idx 1) (skipn a (row E))) in *.
    destruct (editorUpdateRow_no_syntax (set_rows E rows1) a
                (fresh_row at_ s len) Hs Hts) as [rd Hu].
    { unfold rows1. apply nth_error_middle. rewrite length_firstn. lia. }
    rewrite Hu in He. simpl in He. injection He as <-. simpl.
    split; [exact Hs|].
    intros r Hin. simpl in Hin. apply In_store in Hin.
    destruct Hin as [->|Hin]; [apply Forall_repeat_normal|].
    unfold rows1 in Hin. apply in_app_or in Hin. destruct Hin as [Hin|Hin].
    + apply Hdef. rewrite <- (firstn_skipn a (row E)).
      apply in_or_app. left. exact Hin.
    + destruct Hin as [<-|Hin]; [constructor|].
      apply in_map_iff in Hin. destruct Hin as (r0 & <- & Hin). simpl.
      apply Hdef. rewrite <- (firstn_skipn a (row E)).
      apply in_or_app. right. exact Hin.
Qed.

Lemma open_loop_no_syntax (ls : list (list ascii)) :
  forall E,
    buffer_ok E -> syntax E = None -> all_default E ->
    exists E', open_loop ls E = Ok E' /\ syntax E' = None /\ all_default E'.
Proof.
  induction ls as [|line rest IH]; intros E Hok Hs Hdef; simpl.
  - eauto.
  - destruct (editorInsertRow_no_syntax (numrows E) line
                (Z.of_nat (strip_len line (length line))) E Hok Hs Hdef)
      as (E1 & -> & Hok1 & Hs1 & Hdef1).
    { pose proof (strip_len_le line (length line)). lia. }
    simpl. apply IH; assumption.
Qed.

(** ** C4: the selected syntax *)

(** C4.  For every file name, [select_syntax] over the registry [HLDB]
    returns the first entry, in registry order, that has a pattern matching
    the name, a pattern that starts with a dot matching as a suffix of the
    name and any other as a substring of it; it returns nothing exactly when
    no pattern of any entry matches.  [editorSelectSyntaxHighlight] makes
    that entry the active syntax; with no match it leaves the editor with
    no syntax and its rows as they are; with no syntax active a highlight
    pass gives every character of a row the default class; and a file whose
    name matches no pattern is loaded with no syntax and with the default
    class on every character of every row. *)
Theorem syntax_selection_first_match :
  forall fname,
    nul_free fname ->
    first_match HLDB fname (select_syntax HLDB fname)
    /\ (forall E,
           buffer_ok E -> filename E = Some fname ->
           exists E', editorSelectSyntaxHighlight E = Ok E'
                      /\ syntax E' = select_syntax HLDB fname)
    /\ (forall E,
           filename E = Some fname -> select_syntax HLDB fname = None ->
           editorSelectSyntaxHighlight E = Ok (set_syntax E None))
    /\ (forall E p r,
           syntax E = None -> nth_error (row E) p = Some r ->
           exists E',
             editorUpdateSyntax E p = Ok E'
             /\ (forall q, q <> p ->
                           nth_error (row E') q = nth_error (row E) q)
             /\ exists r', nth_error (row E') p = Some r'
                           /\ hl r' = repeat HL_NORMAL (Z.to_nat (rsize r')))
    /\ (forall content,
           select_syntax HLDB fname = None ->
           exists E,
             editorOpen fname (Some content) initEditor = Ok E
             /\ syntax E = None
             /\ forall r, In r (row E) -> Forall (eq HL_NORMAL) (hl r)).
Proof.
  intros fname Hf. split; [|split; [|split; [|split]]].
  - apply select_syntax_first; [exact Hf | vm_compute; reflexivity].
  - intros E Hok Hname. unfold editorSelectSyntaxHighlight.
    change (filename (set_syntax E None)) with (filename E).
    rewrite Hname.
    destruct (select_syntax HLDB fname) as [s|]; [|eauto].
    destruct (update_all_ok (Z.to_nat (numrows E)) 0
                (set_syntax (set_syntax E None) (Some s)))
      as (E' & He & _ & Hs).
    + exact Hok.
    + destruct Hok as (Hnum & _). simpl. lia.
    + exists E'. split; [exact He|].
      destruct Hs as (_ & _ & _ & _ & _ & _ & _ & _ & -> & _). reflexivity.
  - intros E Hname Hnone. unfold editorSelectSyntaxHighlight.
    change (filename (set_syntax E None)) with (filename E).
    rewrite Hname, Hnone. reflexivity.
  - intros E p r Hs Hr.
    assert (Hp : (p < length (row E))%nat) by (eapply nth_error_lt; eauto).
    rewrite (editorUpdateSyntax_no_syntax E p r Hs Hr).
    eexists. split; [reflexivity|]. split.
    + intros q Hq. apply nth_error_put_row_other; assumption.
    + eexists. split; [apply nth_error_put_row_same; exact Hp|].
      reflexivity.
  - intros content Hnone. unfold editorOpen.
    rewrite (nul_free_c_str _ Hf).
    unfold editorSelectSyntaxHighlight.
    change (filename (set_syntax (set_filename initEditor (Some fname)) None))
      with (Some fname).
    cbv iota beta. rewrite Hnone. cbn [bind].
    destruct (open_loop_no_syntax (getlines content)
                (set_syntax (set_filename initEditor (Some fname)) None))
      as (E2 & -> & Hs2 & Hd2).
    + apply buffer_okb_sound. reflexivity.
    + reflexivity.
    + intros r [].
    + cbn [bind]. exists (set_dirty E2 0). auto.
Qed.

Lemma syntax_selection_first_match_witness :
  nul_free (s2l "kilo.tar.go")
  /\ first_match HLDB (s2l "kilo.tar.go")
       (select_syntax HLDB (s2l "kilo.tar.go")).
Proof.
  split; [reflexivity|].
  exact (proj1 (syntax_selection_first_match (s2l "kilo.tar.go")
                  eq_refl)).
Defined.

(** ** C7: the round trip *)

Lemma flat_map_map_chars (f : list ascii -> list ascii) (rs : list erow) :
  flat_map f (map chars rs) = flat_map (fun r => f (chars r)) rs.
Proof.
  induction rs as [|r rs IH]; simpl; [reflexivity|]. rewrite IH. reflexivity.
Qed.

Lemma chomp_cr_snoc (l : list ascii) (x : ascii) :
  chomp_cr (l ++ [x]) = if is_cr x then l else l ++ [x].
Proof.
  induction l as [|y l IH]; simpl.
  - destruct (is_cr x); reflexivity.
  - rewrite IH. destruct (l ++ [x]) eqn:Hl; [destruct l; discriminate|].
    rewrite <- Hl. destruct (is_cr x); reflexivity.
Qed.

(** On a line that does not end in two carriage returns, removing them all
    is removing the one of a CR LF line ending. *)
Lemma strip_is_chomp (l : list ascii) :
  (forall pre, l <> pre ++ [CR; CR]) ->
  strip_trailing is_cr l = chomp_cr l.
Proof.
  destruct l as [|x l'] using rev_ind; [reflexivity|]. clear IHl'.
  intros Hno. rewrite strip_trailing_snoc, chomp_cr_snoc.
  destruct (is_cr x) eqn:Hx; [|reflexivity].
  apply Ascii.eqb_eq in Hx. subst x.
  destruct l' as [|y l''] using rev_ind; [reflexivity|]. clear IHl''.
  rewrite strip_trailing_snoc.
  destruct (is_cr y) eqn:Hy; [|reflexivity].
  apply Ascii.eqb_eq in Hy. subst y.
  exfalso. apply (Hno l''). rewrite <- app_assoc. reflexivity.
Qed.

(** C7, as the code has it.  On a well-formed buffer [editorRowsToString]
    is the concatenation, in row order, of the raw characters of each row
    followed by exactly one newline, the last row included, and its
    [buflen] is the length of that; loading any file into the initial
    editor and serializing at once gives the lines of the file, each
    without all the carriage returns at its end and followed by one
    newline; and that is the content with normalized line endings whenever
    no line of the file ends in two carriage returns. *)
Theorem load_serialize_round_trip :
  (forall E,
      buffer_ok E ->
      fst (editorRowsToString E)
      = flat_map (fun r => chars r ++ [LF]) (row E)
      /\ snd (editorRowsToString E)
         = Z.of_nat (length (fst (editorRowsToString E))))
  /\ (forall fname content,
         load_and_serialize fname content
         = Some (strip_line_endings content))
  /\ (forall content,
         (forall l pre, In l (split_lines content) -> l <> pre ++ [CR; CR]) ->
         strip_line_endings content = normalize_line_endings content).
Proof.
  split; [|split].
  - intros E Hok. split.
    + rewrite (editorRowsToString_spec E Hok). apply flat_map_map_chars.
    + apply editorRowsToString_length. exact Hok.
  - intros fname content. unfold load_and_serialize.
    destruct (editorOpen_rows fname content) as (E & -> & Hok & _ & Hc).
    rewrite (editorRowsToString_spec E Hok), Hc.
    unfold strip_line_endings. f_equal. clear.
    induction (split_lines content) as [|l ls IH]; simpl; [reflexivity|].
    rewrite IH. reflexivity.
  - intros content Hno.
    unfold strip_line_endings, normalize_line_endings.
    induction (split_lines content) as [|l ls IH]; simpl; [reflexivity|].
    rewrite IH by (intros l' pre Hin; apply Hno; right; exact Hin).
    rewrite strip_is_chomp by (intros pre; apply Hno; left; reflexivity).
    reflexivity.
Qed.

Lemma load_serialize_round_trip_witness :
  (forall l pre, In l (split_lines comment_doc) -> l <> pre ++ [CR; CR])
  /\ strip_line_endings comment_doc = normalize_line_endings comment_doc.
Proof.
  assert (H : forall l pre, In l (split_lines comment_doc) ->
                            l <> pre ++ [CR; CR]).
  { intros l pre Hin Heq.
    assert (Hlast : last l NUL = CR)
      by (rewrite Heq; change [CR; CR] with ([CR] ++ [CR]);
          rewrite app_assoc; apply last_last).
    vm_compute in Hin.
    destruct Hin as [<-|[<-|[<-|[]]]]; vm_compute in Hlast; discriminate. }
  split; [exact H|].
  exact (proj2 (proj2 load_serialize_round_trip) comment_doc H).
Defined.

(** The claim as stated fails on a line that ends in CR CR LF: the load
    drops both carriage returns, where normalizing the line ending leaves
    the first. *)
Lemma round_trip_drops_carriage_returns :
  load_and_serialize (s2l "a.txt") double_cr_file = Some (s2l "a" ++ [LF])
  /\ normalize_line_endings double_cr_file = s2l "a" ++ [CR; LF]
  /\ load_and_serialize (s2l "a.txt") double_cr_file
     <> Some (normalize_line_endings double_cr_file).
Proof.
  split; [vm_compute; reflexivity|].
  split; [vm_compute; reflexivity|].
  vm_compute. discriminate.
Qed.

(** ** C8: the search restores the highlight it overrides *)

Lemma find_sub_bound (n : list ascii) :
  forall h k, find_sub n h = Some k -> (k + length n <= length h)%nat.
Proof.
  induction h as [|y h IH]; intros k; simpl.
  - destruct (is_prefix n []) eqn:Hp; [|discriminate].
    intros [= <-]. apply is_prefix_spec in Hp. destruct Hp as [post Hp].
    destruct n; [simpl; lia | discriminate].
  - destruct (is_prefix n (y :: h)) eqn:Hp.
    + intros [= <-]. apply is_prefix_spec in Hp. destruct Hp as [post Hp].
      apply (f_equal (@length ascii)) in Hp. rewrite length_app in Hp.
      simpl in *. lia.
    + destruct (find_sub n h) as [j|] eqn:Hf; [|discriminate].
      intros [= <-]. specialize (IH j eq_refl). simpl. lia.
Qed.

Lemma c_str_length (s : list ascii) : length (c_str s) = strlen s.
Proof.
  unfold c_str. rewrite length_firstn. pose proof (strlen_le s). lia.
Qed.

(** A match of [strstr] lies inside the searched string. *)
Lemma strstr_bound (h n : list ascii) (off : nat) :
  strstr h n = Some off -> (off + strlen n <= length h)%nat.
Proof.
  unfold strstr. intros H. apply find_sub_bound in H.
  rewrite !c_str_length in H. pose proof (strlen_le h). lia.
Qed.

Lemma set_row_hl_back (r : erow) (h : list editorHighlight) :
  set_row_hl (set_row_hl r h) (hl r) = r.
Proof. destruct r. reflexivity. Qed.

Section Search.

Variable E0 : editorConfig.
Hypothesis E0_ok : buffer_ok E0.

(** The first thing a call of the callback does: the saved highlight goes
    back, and the rows are those of [E0]. *)
Lemma find_restore_ok (fs : find_state) (E : editorConfig) :
  find_inv E0 fs E ->
  exists fs1 E1,
    find_restore fs E = Ok (fs1, E1)
    /\ row E1 = row E0 /\ saved_hl fs1 = None
    /\ last_match fs1 = last_match fs /\ direction fs1 = direction fs
    /\ find_inv E0 fs1 E1.
Proof.
  intros (Hnum & Hlm & Hdir & Hsaved). unfold find_restore.
  destruct (saved_hl fs) as [saved|] eqn:Hs.
  - destruct Hsaved as (Hline & r0 & h' & Hr0 & -> & Hlen & Hrows).
    set (p := Z.to_nat (saved_hl_line fs)) in *.
    assert (Hp : (p < length (row E0))%nat) by (eapply nth_error_lt; eauto).
    assert (Hget : nth_error (row E) p = Some (set_row_hl r0 h'))
      by (rewrite Hrows; apply nth_error_store_same; exact Hp).
    rewrite (get_row_some _ _ _ Hget). simpl.
    destruct (buffer_ok_row _ _ _ E0_ok Hr0) as (_ & Hrs & Hhl).
    assert (Hcopy : memcpy h' (hl r0) (Z.to_nat (rsize r0)) = hl r0).
    { replace (Z.to_nat (rsize r0)) with (length h') by lia.
      apply memcpy_exact. exact Hlen. }
    rewrite Hcopy.
    replace (set_row_hl (set_row_hl r0 h') (hl r0)) with r0
      by (symmetry; apply set_row_hl_back).
    assert (Hback : row (put_row E p r0) = row E0).
    { unfold put_row. simpl. rewrite Hrows, store_store by exact Hp.
      apply store_same. exact Hr0. }
    eexists. eexists. split; [reflexivity|].
    split; [exact Hback|]. split; [reflexivity|].
    split; [reflexivity|]. split; [reflexivity|].
    split; [exact Hnum|]. split; [exact Hlm|]. split; [exact Hdir|].
    exact Hback.
  - exists fs, E. split; [reflexivity|]. split; [exact Hsaved|].
    split; [exact Hs|]. split; [reflexivity|]. split; [reflexivity|].
    split; [exact Hnum|]. split; [exact Hlm|]. split; [exact Hdir|].
    rewrite Hs. exact Hsaved.
Qed.

(** The scan over the rows returns, with a row of the buffer and a match
    inside its render string if it finds one. *)
Lemma find_scan_ok (E : editorConfig) (query : list ascii) (dir : Z)
  (n : nat) :
  numrows E = Z.of_nat (length (row E)) -> dir = 1 \/ dir = -1 ->
  Z.of_nat n <= numrows E ->
  forall current,
    -1 <= current < numrows E -> (current = -1 -> dir = 1) ->
    exists res,
      find_scan n E query dir current = Ok res
      /\ match res with
         | None => True
         | Some (c, off) =>
             0 <= c < numrows E
             /\ exists r, nth_error (row E) (Z.to_nat c) = Some r
                          /\ strstr (render r) query = Some off
         end.
Proof.
  intros Hnum Hdir.
  induction n as [|n IH]; intros Hn current Hc Hfirst; simpl.
  - exists None. auto.
  - set (c1 := current + dir).
    set (c2 := if c1 =? -1 then numrows E - 1
               else if c1 =? numrows E then 0 else c1).
    assert (Hc2 : 0 <= c2 < numrows E).
    { unfold c2, c1.
      destruct (Z.eqb_spec (current + dir) (-1));
        [|destruct (Z.eqb_spec (current + dir) (numrows E))]; lia. }
    destruct (Z.ltb_spec c2 0); [lia|].
    destruct (nth_error_in_range (row E) (Z.to_nat c2)) as [r Hr]; [lia|].
    rewrite (get_row_some _ _ _ Hr). simpl.
    destruct (strstr (render r) query) as [off|] eqn:Hs.
    + exists (Some (c2, off)). split; [reflexivity|]. eauto.
    + apply IH; lia.
Qed.

Lemma editorFindCallback_ok (query : list ascii) (key : Z)
  (fs : find_state) (E : editorConfig) :
  find_inv E0 fs E ->
  exists fs' E',
    editorFindCallback query key fs E = Ok (fs', E')
    /\ find_inv E0 fs' E'
    /\ (key = KEY_ENTER \/ key = KEY_ESC ->
        row E' = row E0 /\ saved_hl fs' = None).
Proof.
  intros Hinv. unfold editorFindCallback.
  destruct (find_restore_ok fs E Hinv)
    as (fs1 & E1 & -> & Hrows & Hs1 & Hlm1 & Hd1 & Hinv1).
  simpl. destruct Hinv1 as (Hnum1 & Hl1 & Hdir1 & _).
  destruct ((key =? KEY_ENTER) || (key =? KEY_ESC)) eqn:Hend.
  - eexists. eexists. split; [reflexivity|]. split.
    + split; [exact Hnum1|]. split; [simpl; lia|].
      split; [left; reflexivity|]. simpl. rewrite Hs1. exact Hrows.
    + intros _. split; [exact Hrows | exact Hs1].
  - set (fs2 := if (key =? ARROW_RIGHT) || (key =? ARROW_DOWN)
                then mkFind (last_match fs1) 1 (saved_hl_line fs1)
                       (saved_hl fs1)
                else if (key =? ARROW_LEFT) || (key =? ARROW_UP)
                then mkFind (last_match fs1) (-1) (saved_hl_line fs1)
                       (saved_hl fs1)
                else mkFind (-1) 1 (saved_hl_line fs1) (saved_hl fs1)).
    assert (H0 : 0 <= numrows E0) by (destruct E0_ok as (H0 & _); lia).
    assert (Hfs2 : -1 <= last_match fs2 < numrows E0
                   /\ (direction fs2 = 1 \/ direction fs2 = -1)
                   /\ saved_hl fs2 = None).
    { unfold fs2.
      destruct ((key =? ARROW_RIGHT) || (key =? ARROW_DOWN));
        [|destruct ((key =? ARROW_LEFT) || (key =? ARROW_UP))];
        simpl; (split; [lia | split; [auto | exact Hs1]]). }
    destruct Hfs2 as (Hl2 & Hdir2 & Hs2).
    set (dir := if last_match fs2 =? -1 then 1 else direction fs2).
    assert (Hdir : dir = 1 \/ dir = -1)
      by (unfold dir; destruct (last_match fs2 =? -1); auto).
    assert (HnumE1 : numrows E1 = Z.of_nat (length (row E1))).
    { rewrite Hnum1, Hrows. apply E0_ok. }
    destruct (find_scan_ok E1 query dir (Z.to_nat (numrows E1)) HnumE1 Hdir
                ltac:(lia) (last_match fs2)) as (res & -> & Hres).
    { lia. }
    { intros H. unfold dir. rewrite H. reflexivity. }
    simpl. assert (Hkey : key = KEY_ENTER \/ key = KEY_ESC -> False).
    { apply orb_false_iff in Hend. destruct Hend as [H1 H2].
      apply Z.eqb_neq in H1, H2. tauto. }
    destruct res as [[current off]|].
    + destruct Hres as (Hcur & r & Hr & Hm).
      rewrite (get_row_some _ _ _ Hr). simpl.
      eexists. eexists. split; [reflexivity|].
      split; [|intros H; destruct (Hkey H)].
      split; [exact Hnum1|]. split; [simpl; lia|].
      split; [exact Hdir|]. simpl. split; [lia|].
      rewrite Hrows in Hr.
      destruct (buffer_ok_row _ _ _ E0_ok Hr) as (_ & Hrs & Hhl).
      exists r, (memset (hl r) off (strlen query) HL_MATCH).
      split; [exact Hr|]. split.
      * unfold memcpy. rewrite skipn_nil, app_nil_r.
        replace (Z.to_nat (rsize r)) with (length (hl r)) by lia.
        apply firstn_all.
      * split.
        -- apply memset_length. apply strstr_bound in Hm. lia.
        -- rewrite Hrows. reflexivity.
    + eexists. eexists. split; [reflexivity|].
      split; [|intros H; destruct (Hkey H)].
      split; [exact Hnum1|]. split; [simpl; lia|].
      split; [exact Hdir|]. simpl. rewrite Hs2. exact Hrows.
Qed.

Lemma find_inv_init : find_inv E0 find_init E0.
Proof.
  destruct E0_ok as (H0 & _).
  repeat split; simpl; auto; lia.
Qed.

Lemma find_session_ok (steps : list (list ascii * Z)) :
  forall fs E,
    find_inv E0 fs E ->
    exists fs' E', find_session steps fs E = Ok (fs', E')
                   /\ find_inv E0 fs' E'.
Proof.
  induction steps as [|[query key] rest IH]; intros fs E Hinv; simpl.
  - eauto.
  - destruct (editorFindCallback_ok query key fs E Hinv)
      as (fs1 & E1 & -> & Hinv1 & _).
    simpl. apply IH. exact Hinv1.
Qed.

End Search.

(** C8.  Take any well-formed buffer [E0] and any search session on it,
    begun with the static variables of the callback in their initial state.
    The session returns some state; in it the highlight that the search
    holds saved, if any, is the highlight which that row had in [E0]; the
    restore with which the next call of the callback begins makes the rows
    those of [E0] again, highlight arrays included; and a call with Enter
    or Escape, which ends the session, returns with the rows of [E0] and
    nothing saved. *)
Theorem search_restores_highlight :
  forall E0 steps,
    buffer_ok E0 ->
    exists fs E,
      find_session steps find_init E0 = Ok (fs, E)
      /\ (forall saved,
             saved_hl fs = Some saved ->
             exists r0,
               nth_error (row E0) (Z.to_nat (saved_hl_line fs)) = Some r0
               /\ saved = hl r0)
      /\ (exists fs1 E1,
             find_restore fs E = Ok (fs1, E1)
             /\ row E1 = row E0 /\ saved_hl fs1 = None)
      /\ (forall query key,
             key = KEY_ENTER \/ key = KEY_ESC ->
             exists fs' E',
               editorFindCallback query key fs E = Ok (fs', E')
               /\ row E' = row E0 /\ saved_hl fs' = None).
Proof.
  intros E0 steps Hok.
  destruct (find_session_ok E0 Hok steps find_init E0 (find_inv_init E0 Hok))
    as (fs & E & Hs & Hinv).
  exists fs, E. split; [exact Hs|]. split; [|split].
  - intros saved Hsaved. destruct Hinv as (_ & _ & _ & H).
    rewrite Hsaved in H. destruct H as (_ & r0 & h' & Hr0 & Heq & _).
    eauto.
  - destruct (find_restore_ok E0 Hok fs E Hinv)
      as (fs1 & E1 & H1 & H2 & H3 & _).
    eauto.
  - intros query key Hkey.
    destruct (editorFindCallback_ok E0 Hok query key fs E Hinv)
      as (fs' & E' & H1 & _ & H3).
    exists fs', E'. split; [exact H1|]. apply H3. exact Hkey.
Qed.

Lemma search_restores_highlight_witness :
  buffer_ok loaded_doc
  /\ exists fs E,
      find_session sample_search find_init loaded_doc = Ok (fs, E)
      /\ exists fs' E',
          editorFindCallback (s2l "com") KEY_ESC fs E = Ok (fs', E')
          /\ row E' = row loaded_doc /\ saved_hl fs' = None.
Proof.
  assert (Hb : buffer_ok loaded_doc)
    by (apply buffer_okb_sound; vm_compute; reflexivity).
  split; [exact Hb|].
  destruct (search_restores_highlight loaded_doc sample_search Hb)
    as (fs & E & Hs & _ & _ & Hend).
  exists fs, E. split; [exact Hs|].
  apply Hend. right. reflexivity.
Defined.

(** ** C9: requests out of range *)

(** C9.  [editorInsertRow] with [at < 0] or [at > numrows], [editorDelRow]
    with [at < 0] or [at >= numrows], and [editorRowDelChar] on a row of the
    buffer with [at < 0] or [at >= size] return the editor state they were
    given: the rows, their contents and the dirty counter are unchanged. *)
Theorem out_of_range_is_noop :
  (forall E at_ s len,
      at_ < 0 \/ at_ > numrows E -> editorInsertRow at_ s len E = Ok E)
  /\ (forall E at_,
         at_ < 0 \/ at_ >= numrows E -> editorDelRow at_ E = E)
  /\ (forall E p r at_,
         nth_error (row E) p = Some r -> at_ < 0 \/ at_ >= size r ->
         editorRowDelChar p at_ E = Ok E).
Proof.
  split; [|split].
  - intros E at_ s len H. unfold editorInsertRow.
    destruct (Z.ltb_spec at_ 0); [reflexivity|].
    destruct (Z.gtb_spec at_ (numrows E)); [reflexivity | lia].
  - intros E at_ H. unfold editorDelRow.
    destruct (Z.ltb_spec at_ 0); [reflexivity|].
    destruct (Z.geb_spec at_ (numrows E)); [reflexivity | lia].
  - intros E p r at_ Hr H. unfold editorRowDelChar.
    rewrite (get_row_some _ _ _ Hr). simpl.
    destruct (Z.ltb_spec at_ 0); [reflexivity|].
    destruct (Z.geb_spec at_ (size r)); [reflexivity | lia].
Qed.

Lemma out_of_range_is_noop_witness :
  (4 < 0 \/ 4 > numrows loaded_doc)
  /\ editorInsertRow 4 (s2l "x") 1 loaded_doc = Ok loaded_doc
  /\ (3 < 0 \/ 3 >= numrows loaded_doc)
  /\ editorDelRow 3 loaded_doc = loaded_doc
  /\ nth_error (row loaded_doc) 2
     = Some (mkRow 2 4 4 (s2l "code") (s2l "code") (repeat HL_NORMAL 4) false)
  /\ (4 < 0 \/ 4 >= 4)
  /\ editorRowDelChar 2 4 loaded_doc = Ok loaded_doc.
Proof.
  assert (H1 : 4 < 0 \/ 4 > numrows loaded_doc)
    by (right; vm_compute; reflexivity).
  assert (H2 : 3 < 0 \/ 3 >= numrows loaded_doc)
    by (right; vm_compute; discriminate).
  assert (H3 : nth_error (row loaded_doc) 2
               = Some (mkRow 2 4 4 (s2l "code") (s2l "code")
                         (repeat HL_NORMAL 4) false))
    by (vm_compute; reflexivity).
  assert (H4 : 4 < 0 \/ 4 >= 4) by (right; lia).
  split; [exact H1|].
  split; [exact (proj1 out_of_range_is_noop loaded_doc 4 (s2l "x") 1 H1)|].
  split; [exact H2|].
  split; [exact (proj1 (proj2 out_of_range_is_noop) loaded_doc 3 H2)|].
  split; [exact H3|]. split; [exact H4|].
  exact (proj2 (proj2 out_of_range_is_noop) loaded_doc 2%nat _ 4 H3 H4).
Defined.

(** ** C10: insertion of a character at a column out of range *)

(** The row that [editorUpdateRow] leaves at [p] after an edit of its
    characters, and what the edit leaves alone. *)
Lemma edit_row_result (E : editorConfig) (p : nat) (r : erow)
  (cs : list ascii) (sz : Z) :
  buffer_ok E -> nth_error (row E) p = Some r ->
  sz = Z.of_nat (length cs) ->
  exists E',
    editorUpdateRow (put_row E p (set_chars r cs sz)) p = Ok E'
    /\ buffer_ok E'
    /\ dirty E' = dirty E /\ numrows E' = numrows E
    /\ (exists r', nth_error (row E') p = Some r'
                   /\ chars r' = cs /\ size r' = sz /\ idx r' = idx r)
    /\ (forall q r0, q <> p -> nth_error (row E) q = Some r0 ->
                     exists r', nth_error (row E') q = Some r'
                                /\ chars r' = chars r0).
Proof.
  intros Hok Hr Hsz.
  assert (Hp : (p < length (row E))%nat) by (eapply nth_error_lt; eauto).
  destruct (edit_row_ok E p r cs sz Hok Hr Hsz) as (E' & He & Hok' & Hc & _).
  exists E'. split; [exact He|]. split; [exact Hok'|].
  destruct Hc as (_ & _ & _ & _ & _ & C6 & C7 & _ & _ & _ & C11).
  split; [exact C7|]. split; [exact C6|]. split.
  - destruct (Forall2_nth_error_l _ _ _ C11 p (set_chars r cs sz))
      as (r' & Hr' & Hi & Hs & Hch).
    { apply nth_error_put_row_same. exact Hp. }
    exists r'. auto.
  - intros q r0 Hq Hr0.
    destruct (Forall2_nth_error_l _ _ _ C11 q r0) as (r' & Hr' & _ & _ & Hch).
    { unfold put_row. simpl. rewrite nth_error_store_other; assumption. }
    exists r'. auto.
Qed.

(** C10.  On a well-formed buffer, [editorRowInsertChar] on a row of the
    buffer with [at < 0] or [at > size] returns; the row then holds its
    former characters followed by the inserted one, its [size] is one more,
    the dirty counter is one more, and the characters of the other rows are
    as they were. *)
Theorem insert_char_out_of_range_appends :
  forall E p r at_ c,
    buffer_ok E -> nth_error (row E) p = Some r ->
    at_ < 0 \/ at_ > size r ->
    exists E' r',
      editorRowInsertChar p at_ c E = Ok E'
      /\ nth_error (row E') p = Some r'
      /\ chars r' = chars r ++ [char_of_int c]
      /\ size r' = size r + 1
      /\ dirty E' = dirty E + 1
      /\ numrows E' = numrows E
      /\ (forall q r0, q <> p -> nth_error (row E) q = Some r0 ->
                       exists r1, nth_error (row E') q = Some r1
                                  /\ chars r1 = chars r0).
Proof.
  intros E p r at_ c Hok Hr Hat. unfold editorRowInsertChar.
  rewrite (get_row_some _ _ _ Hr). simpl.
  destruct (buffer_ok_row _ _ _ Hok Hr) as [Hsz _].
  assert (Hclamp : (if (at_ <? 0) || (at_ >? size r) then size r else at_)
                   = size r).
  { destruct (Z.ltb_spec at_ 0); [reflexivity|].
    destruct (Z.gtb_spec at_ (size r)); [reflexivity | lia]. }
  rewrite Hclamp.
  assert (Hcs : firstn (Z.to_nat (size r)) (chars r)
                ++ char_of_int c :: skipn (Z.to_nat (size r)) (chars r)
                = chars r ++ [char_of_int c]).
  { rewrite Hsz, Nat2Z.id, firstn_all, skipn_all. reflexivity. }
  rewrite Hcs.
  destruct (edit_row_result E p r (chars r ++ [char_of_int c]) (size r + 1)
              Hok Hr)
    as (E' & -> & Hok' & Hd & Hn & (r' & Hr' & Hch & Hs & _) & Hoth).
  { rewrite length_app. simpl. lia. }
  simpl. exists (set_dirty E' (dirty E' + 1)), r'.
  split; [reflexivity|]. simpl.
  split; [exact Hr'|]. split; [exact Hch|]. split; [exact Hs|].
  split; [lia|]. split; [exact Hn | exact Hoth].
Qed.

Lemma insert_char_out_of_range_appends_witness :
  buffer_ok loaded_doc
  /\ nth_error (row loaded_doc) 2
     = Some (mkRow 2 4 4 (s2l "code") (s2l "code") (repeat HL_NORMAL 4) false)
  /\ (9 < 0 \/ 9 > 4)
  /\ exists E' r',
      editorRowInsertChar 2 9 59 loaded_doc = Ok E'
      /\ nth_error (row E') 2 = Some r'
      /\ chars r' = s2l "code;"
      /\ size r' = 5
      /\ dirty E' = dirty loaded_doc + 1.
Proof.
  assert (Hb : buffer_ok loaded_doc)
    by (apply buffer_okb_sound; vm_compute; reflexivity).
  assert (Hr : nth_error (row loaded_doc) 2
               = Some (mkRow 2 4 4 (s2l "code") (s2l "code")
                         (repeat HL_NORMAL 4) false))
    by (vm_compute; reflexivity).
  assert (Hat : 9 < 0 \/ 9 > 4) by (right; lia).
  split; [exact Hb|]. split; [exact Hr|]. split; [exact Hat|].
  destruct (insert_char_out_of_range_appends loaded_doc 2%nat _ 9 59
              Hb Hr Hat)
    as (E' & r' & He & Hr' & Hch & Hs & Hd & _).
  exists E', r'. auto.
Defined.

(** ** C1: the cascade when a row is inserted *)

(** C1, which the code breaks when a row is inserted before the last row.
    After the highlighter recomputes a row whose carried-out comment flag
    differs from the recorded one, the following row is to be recomputed
    too.  [editorInsertRow] calls [editorUpdateRow] before [E.numrows++],
    when the array already holds one row more than [E.numrows] says, so the
    guard [row->idx + 1 < E.numrows] of the cascade stops one row short.
    Splitting the first row of [slash_doc] at column 1 makes the new row 1
    open a comment (its recorded flag was false), and row 2, the last one,
    keeps the default class; recomputing row 2 afterwards turns it into a
    comment, which shows that it had not been recomputed. *)
Theorem insert_row_cascade_stops_early :
  rows_view slash_example
  = Some [ (s2l "/", [HL_NORMAL], false);
           (s2l "/* x", repeat HL_MLCOMMENT 4, true);
           (s2l "z", [HL_NORMAL], false) ]
  /\ rows_view (E <- slash_example ;; editorUpdateSyntax E 2)
     = Some [ (s2l "/", [HL_NORMAL], false);
              (s2l "/* x", repeat HL_MLCOMMENT 4, true);
              (s2l "z", [HL_MLCOMMENT], true) ].
Proof. split; vm_compute; reflexivity. Qed.
(** * Cursor movement and scrolling *)

Lemma row_ref_some (E : editorConfig) (y : Z) (r : erow) :
  0 <= y -> nth_error (row E) (Z.to_nat y) = Some r -> row_ref E y = Ok r.
Proof.
  intros Hy Hr. unfold row_ref.
  destruct (Z.ltb_spec y 0); [lia|]. apply get_row_some. exact Hr.
Qed.

Lemma set_cursor_same (E : editorConfig) : set_cursor E (cx E) (cy E) = E.
Proof. destruct E. reflexivity. Qed.

(** The length that the clamp of [editorMoveCursor] reads is that of the
    row under the cursor, 0 on the line after the last row. *)
Lemma cursor_rowlen_ok (E : editorConfig) :
  buffer_ok E -> 0 <= cy E ->
  exists n, cursor_rowlen E = Ok n /\ 0 <= n
            /\ (numrows E <= cy E -> n = 0)
            /\ (forall r, nth_error (row E) (Z.to_nat (cy E)) = Some r ->
                          n = size r).
Proof.
  intros Hok Hcy. pose proof Hok as (Hnum & _). unfold cursor_rowlen.
  destruct (Z.geb_spec (cy E) (numrows E)) as [Hge|Hlt].
  - exists 0. split; [reflexivity|]. split; [lia|]. split; [reflexivity|].
    intros r Hr. apply nth_error_lt in Hr. lia.
  - destruct (row_at_cursor E (cy E) Hok ltac:(lia)) as [r Hr].
    rewrite (row_ref_some _ _ _ Hcy Hr). simpl.
    exists (size r). split; [reflexivity|].
    destruct (buffer_ok_row _ _ _ Hok Hr) as (Hs & _).
    split; [lia|]. split; [lia|].
    intros r' Hr'. congruence.
Qed.

(** The clamp at the end of [editorMoveCursor] makes any cursor on a line
    of the buffer, or just after the last one, a valid cursor. *)
Lemma clamp_cursor_ok (E : editorConfig) :
  buffer_ok E -> 0 <= cy E <= numrows E -> 0 <= cx E ->
  exists n, cursor_rowlen E = Ok n
            /\ cursor_ok (if cx E >? n then set_cx E n else E).
Proof.
  intros Hok Hcy Hcx.
  destruct (cursor_rowlen_ok E Hok ltac:(lia)) as (n & Hn & Hn0 & Hend & Hrow).
  exists n. split; [exact Hn|].
  rewrite Z.gtb_ltb. destruct (Z.ltb_spec n (cx E)) as [Hgt|Hle].
  - split; [exact Hcy|]. simpl. split; [exact Hn0|].
    split; [intros H; apply Hend; lia|].
    intros r Hr. rewrite (Hrow r Hr). lia.
  - split; [exact Hcy|]. split; [exact Hcx|].
    split; [intros H; specialize (Hend ltac:(lia)); lia|].
    intros r Hr. rewrite <- (Hrow r Hr). exact Hle.
Qed.

Lemma move_switch_ok (key : Z) (E : editorConfig) :
  buffer_ok E -> 0 <= cy E <= numrows E -> 0 <= cx E ->
  exists E1, move_switch key E = Ok E1
             /\ E1 = set_cursor E (cx E1) (cy E1)
             /\ 0 <= cy E1 <= numrows E /\ 0 <= cx E1.
Proof.
  intros Hok Hcy Hcx. unfold move_switch.
  destruct (key =? ARROW_LEFT).
  { destruct (Z.eqb_spec (cx E) 0) as [H0|H0]; simpl.
    - rewrite Z.gtb_ltb. destruct (Z.ltb_spec 0 (cy E)) as [Hpos|Hz].
      + destruct (row_at_cursor E (cy E - 1) Hok ltac:(lia)) as [r Hr].
        rewrite (row_ref_some E (cy E - 1) r ltac:(lia) Hr). simpl.
        destruct (buffer_ok_row _ _ _ Hok Hr) as (Hs & _).
        eexists. split; [reflexivity|]. simpl.
        split; [reflexivity|]. lia.
      + exists E. split; [reflexivity|].
        split; [symmetry; apply set_cursor_same|]. lia.
    - eexists. split; [reflexivity|]. simpl. split; [reflexivity|]. lia. }
  destruct (key =? ARROW_RIGHT).
  { destruct (Z.geb_spec (cy E) (numrows E)) as [Hge|Hlt].
    - exists E. split; [reflexivity|].
      split; [symmetry; apply set_cursor_same|]. lia.
    - destruct (row_at_cursor E (cy E) Hok ltac:(lia)) as [r Hr].
      rewrite (row_ref_some E (cy E) r ltac:(lia) Hr). simpl.
      destruct (Z.ltb_spec (cx E) (size r)).
      + eexists. split; [reflexivity|]. simpl. split; [reflexivity|]. lia.
      + destruct (Z.eqb_spec (cx E) (size r)).
        * eexists. split; [reflexivity|]. simpl. split; [reflexivity|]. lia.
        * exists E. split; [reflexivity|].
          split; [symmetry; apply set_cursor_same|]. lia. }
  destruct (key =? ARROW_UP).
  { destruct (Z.eqb_spec (cy E) 0); simpl.
    - exists E. split; [reflexivity|].
      split; [symmetry; apply set_cursor_same|]. lia.
    - eexists. split; [reflexivity|]. simpl. split; [reflexivity|]. lia. }
  destruct (key =? ARROW_DOWN).
  { destruct (Z.ltb_spec (cy E) (numrows E)).
    - eexists. split; [reflexivity|]. simpl. split; [reflexivity|]. lia.
    - exists E. split; [reflexivity|].
      split; [symmetry; apply set_cursor_same|]. lia. }
  exists E. split; [reflexivity|].
  split; [symmetry; apply set_cursor_same|]. lia.
Qed.

(** X1.  [editorMoveCursor], for any key, on a well-formed buffer whose
    cursor is on a line of the buffer or just after the last one, at a
    column that is not negative: it returns, it changes nothing but [cx] and
    [cy], and the cursor it leaves is valid: on a row and at a column of it
    (its end included), or after the last row at column 0.  The cursor need
    not be at a column of its row at the start: the clamp repairs it. *)
Theorem editorMoveCursor_keeps_cursor :
  forall key E,
    buffer_ok E -> 0 <= cy E <= numrows E -> 0 <= cx E ->
    exists E',
      editorMoveCursor key E = Ok E'
      /\ E' = set_cursor E (cx E') (cy E')
      /\ cursor_ok E'.
Proof.
  intros key E Hok Hcy Hcx. unfold editorMoveCursor.
  destruct (move_switch_ok key E Hok Hcy Hcx)
    as (E1 & -> & Hframe & Hcy1 & Hcx1).
  simpl.
  assert (Hok1 : buffer_ok E1)
    by (rewrite Hframe; apply buffer_ok_set_cursor; exact Hok).
  assert (Hn1 : numrows E1 = numrows E) by (rewrite Hframe; reflexivity).
  destruct (clamp_cursor_ok E1 Hok1 ltac:(lia) Hcx1) as (n & -> & Hc).
  simpl. rewrite Z.gtb_ltb in *.
  destruct (Z.ltb_spec n (cx E1)).
  - eexists. split; [reflexivity|]. split; [|exact Hc].
    rewrite Hframe. reflexivity.
  - exists E1. split; [reflexivity|]. split; [exact Hframe | exact Hc].
Qed.

Lemma editorMoveCursor_keeps_cursor_witness :
  buffer_ok loaded_doc /\ 0 <= cy (set_cursor loaded_doc 40 1)
  /\ exists E',
      editorMoveCursor ARROW_DOWN (set_cursor loaded_doc 40 1) = Ok E'
      /\ cursor_ok E'.
Proof.
  assert (Hb : buffer_ok loaded_doc)
    by (apply buffer_okb_sound; vm_compute; reflexivity).
  split; [exact Hb|]. split; [simpl; lia|].
  destruct (editorMoveCursor_keeps_cursor ARROW_DOWN
              (set_cursor loaded_doc 40 1))
    as (E' & He & _ & Hc).
  - apply buffer_ok_set_cursor. exact Hb.
  - vm_compute. split; discriminate.
  - simpl. lia.
  - exists E'. split; [exact He | exact Hc].
Defined.

Lemma set_cursor_set (E : editorConfig) (a b x y : Z) :
  set_cursor (set_cursor E a b) x y = set_cursor E x y.
Proof. reflexivity. Qed.

(** [editorMoveCursor] on a cursor that the switch has put at a valid
    place: the clamp changes nothing. *)
Lemma clamp_valid (E : editorConfig) :
  buffer_ok E -> cursor_ok E ->
  exists n, cursor_rowlen E = Ok n /\ (cx E >? n) = false.
Proof.
  intros Hok (Hcy & Hcx & Hend & Hrow).
  destruct (cursor_rowlen_ok E Hok ltac:(lia)) as (n & Hn & Hn0 & He & Hr).
  exists n. split; [exact Hn|]. rewrite Z.gtb_ltb. apply Z.ltb_ge.
  destruct (Z.eq_dec (cy E) (numrows E)) as [Heq|Hne].
  - rewrite (Hend Heq). exact Hn0.
  - destruct (row_at_cursor E (cy E) Hok ltac:(lia)) as [r Hrr].
    rewrite (Hr r Hrr). apply Hrow. exact Hrr.
Qed.

Lemma cursor_ok_set (E : editorConfig) (x y : Z) :
  buffer_ok E -> 0 <= y <= numrows E -> 0 <= x -> (y = numrows E -> x = 0) ->
  (forall r, nth_error (row E) (Z.to_nat y) = Some r -> x <= size r) ->
  cursor_ok (set_cursor E x y).
Proof. intros Hok Hy Hx He Hr. repeat split; simpl; auto; lia. Qed.

(** A move whose switch lands on a valid cursor. *)
Lemma move_to (key : Z) (E : editorConfig) (x y : Z) :
  buffer_ok E -> move_switch key E = Ok (set_cursor E x y) ->
  cursor_ok (set_cursor E x y) ->
  editorMoveCursor key E = Ok (set_cursor E x y).
Proof.
  intros Hok Hsw Hc. unfold editorMoveCursor. rewrite Hsw. cbn [bind].
  destruct (clamp_valid (set_cursor E x y)) as (n & -> & Hle).
  - apply buffer_ok_set_cursor. exact Hok.
  - exact Hc.
  - cbn [bind]. rewrite Hle. reflexivity.
Qed.

Lemma move_back (key : Z) (E : editorConfig) (a b : Z) :
  buffer_ok E -> cursor_ok E ->
  move_switch key (set_cursor E a b) = Ok (set_cursor E (cx E) (cy E)) ->
  editorMoveCursor key (set_cursor E a b) = Ok E.
Proof.
  intros Hok Hc Hsw.
  pose proof (move_to key (set_cursor E a b) (cx E) (cy E)) as H.
  rewrite set_cursor_set, set_cursor_same in H.
  apply H.
  - apply buffer_ok_set_cursor. exact Hok.
  - rewrite Hsw, set_cursor_same. reflexivity.
  - exact Hc.
Qed.

(** X2.  On a well-formed buffer with a valid cursor, [ARROW_LEFT] undoes
    [ARROW_RIGHT] whenever the cursor is on a row, and [ARROW_RIGHT] undoes
    [ARROW_LEFT] whenever the cursor is not at the very start of the buffer;
    moves across the end of a line included. *)
Theorem move_left_right_inverse :
  forall E,
    buffer_ok E -> cursor_ok E ->
    (cy E < numrows E ->
     exists E1, editorMoveCursor ARROW_RIGHT E = Ok E1
                /\ (cx E1 <> cx E \/ cy E1 <> cy E)
                /\ editorMoveCursor ARROW_LEFT E1 = Ok E)
    /\ (cx E <> 0 \/ cy E <> 0 ->
        exists E1, editorMoveCursor ARROW_LEFT E = Ok E1
                   /\ (cx E1 <> cx E \/ cy E1 <> cy E)
                   /\ editorMoveCursor ARROW_RIGHT E1 = Ok E).
Proof.
  intros E Hok Hc. pose proof Hc as (Hcy & Hcx & Hend & Hrow).
  pose proof Hok as (Hnum & _).
  split.
  - intros Hlt.
    destruct (row_at_cursor E (cy E) Hok ltac:(lia)) as [r Hr].
    pose proof (Hrow r Hr) as Hle.
    destruct (buffer_ok_row _ _ _ Hok Hr) as (Hs & _).
    destruct (Z.ltb_spec (cx E) (size r)) as [Hin|Hat].
    + exists (set_cursor E (cx E + 1) (cy E)).
      split; [|split; [left; simpl; lia|]].
      * apply move_to; [exact Hok| |].
        -- unfold move_switch.
           change (ARROW_RIGHT =? ARROW_LEFT) with false.
           change (ARROW_RIGHT =? ARROW_RIGHT) with true. cbv iota.
           destruct (Z.geb_spec (cy E) (numrows E)); [lia|].
           rewrite (row_ref_some E (cy E) r ltac:(lia) Hr). simpl bind.
           destruct (Z.ltb_spec (cx E) (size r)); [reflexivity | lia].
        -- apply cursor_ok_set; try lia; [exact Hok|].
           intros r' Hr'. assert (r' = r) by congruence. subst. lia.
      * apply move_back; [exact Hok | exact Hc |].
        unfold move_switch.
           change (ARROW_LEFT =? ARROW_LEFT) with true. cbv iota.
           simpl. destruct (Z.eqb_spec (cx E + 1) 0); [lia|]. simpl.
           replace (cx E + 1 - 1) with (cx E) by lia. reflexivity.
    + assert (Hx : cx E = size r) by lia.
      exists (set_cursor E 0 (cy E + 1)).
      split; [|split; [right; simpl; lia|]].
      * apply move_to; [exact Hok| |].
        -- unfold move_switch.
           change (ARROW_RIGHT =? ARROW_LEFT) with false.
           change (ARROW_RIGHT =? ARROW_RIGHT) with true. cbv iota.
           destruct (Z.geb_spec (cy E) (numrows E)); [lia|].
           rewrite (row_ref_some E (cy E) r ltac:(lia) Hr). simpl bind.
           destruct (Z.ltb_spec (cx E) (size r)); [lia|].
           destruct (Z.eqb_spec (cx E) (size r)); [reflexivity | lia].
        -- apply cursor_ok_set; try lia; [exact Hok|].
           intros r' Hr'.
           destruct (buffer_ok_row _ _ _ Hok Hr') as (Hs' & _). lia.
      * apply move_back; [exact Hok | exact Hc |].
        unfold move_switch.
           change (ARROW_LEFT =? ARROW_LEFT) with true. cbv iota.
           simpl. rewrite Z.gtb_ltb.
           destruct (Z.ltb_spec 0 (cy E + 1)); [|lia].
           replace (cy E + 1 - 1) with (cy E) by lia.
           rewrite (row_ref_some (set_cursor E 0 (cy E + 1)) (cy E) r
                      ltac:(lia) Hr). simpl.
           rewrite Hx. reflexivity.
  - intros Hnz.
    destruct (Z.eq_dec (cx E) 0) as [H0|H0].
    + assert (Hpos : 0 < cy E) by lia.
      destruct (row_at_cursor E (cy E - 1) Hok ltac:(lia)) as [r Hr].
      destruct (buffer_ok_row _ _ _ Hok Hr) as (Hs & _).
      exists (set_cursor E (size r) (cy E - 1)).
      split; [|split; [right; simpl; lia|]].
      * apply move_to; [exact Hok| |].
        -- unfold move_switch.
           change (ARROW_LEFT =? ARROW_LEFT) with true. cbv iota.
           destruct (Z.eqb_spec (cx E) 0); [|lia]. simpl.
           rewrite Z.gtb_ltb. destruct (Z.ltb_spec 0 (cy E)); [|lia].
           rewrite (row_ref_some E (cy E - 1) r ltac:(lia) Hr). reflexivity.
        -- apply cursor_ok_set; try lia; [exact Hok|].
           intros r' Hr'. assert (r' = r) by congruence. subst. lia.
      * apply move_back; [exact Hok | exact Hc |].
        unfold move_switch.
           change (ARROW_RIGHT =? ARROW_LEFT) with false.
           change (ARROW_RIGHT =? ARROW_RIGHT) with true. cbv iota.
           simpl. destruct (Z.geb_spec (cy E - 1) (numrows E)); [lia|].
           rewrite (row_ref_some (set_cursor E (size r) (cy E - 1))
                      (cy E - 1) r ltac:(lia) Hr). simpl.
           rewrite Z.ltb_irrefl, Z.eqb_refl. rewrite H0.
           replace (cy E - 1 + 1) with (cy E) by lia. reflexivity.
    + assert (Hlt : cy E < numrows E).
      { destruct (Z.eq_dec (cy E) (numrows E)) as [He|He]; [|lia].
        specialize (Hend He). lia. }
      destruct (row_at_cursor E (cy E) Hok ltac:(lia)) as [r Hr].
      pose proof (Hrow r Hr) as Hle.
      exists (set_cursor E (cx E - 1) (cy E)).
      split; [|split; [left; simpl; lia|]].
      * apply move_to; [exact Hok| |].
        -- unfold move_switch.
           change (ARROW_LEFT =? ARROW_LEFT) with true. cbv iota.
           destruct (Z.eqb_spec (cx E) 0); [lia|]. reflexivity.
        -- apply cursor_ok_set; try lia; [exact Hok|].
           intros r' Hr'. assert (r' = r) by congruence. subst. lia.
      * apply move_back; [exact Hok | exact Hc |].
        unfold move_switch.
           change (ARROW_RIGHT =? ARROW_LEFT) with false.
           change (ARROW_RIGHT =? ARROW_RIGHT) with true. cbv iota.
           simpl. destruct (Z.geb_spec (cy E) (numrows E)); [lia|].
           rewrite (row_ref_some (set_cursor E (cx E - 1) (cy E)) (cy E) r
                      ltac:(lia) Hr). simpl.
           destruct (Z.ltb_spec (cx E - 1) (size r)); [|lia].
           replace (cx E - 1 + 1) with (cx E) by lia. reflexivity.
Qed.



(** One test of [editorScroll] at a time, the innermost first. *)
Ltac scroll_step :=
  match goal with
  | |- context [if ?c then _ else _] =>
      lazymatch c with
      | context [if _ then _ else _] => fail
      | _ => idtac
      end;
      match c with
      | Z.ltb ?a ?b => destruct (Z.ltb_spec a b)
      | Z.geb ?a ?b => destruct (Z.geb_spec a b)
      end; cbn iota
  end.

Lemma scroll_rows_eq (screenrows : Z) (E : editorConfig) :
  scroll_rows screenrows E
  = set_rowoff E (scroll_rowoff screenrows (cy E) (rowoff E)).
Proof.
  destruct E as [cx0 cy0 rx0 ro co n rows d f s ts].
  unfold scroll_rows, scroll_rowoff, set_rowoff. simpl.
  destruct (cy0 <? ro); simpl; destruct (cy0 >=? _); reflexivity.
Qed.

Lemma scroll_cols_eq (screencols : Z) (E : editorConfig) :
  scroll_cols screencols E
  = set_coloff E (scroll_coloff screencols (rx E) (coloff E)).
Proof.
  destruct E as [cx0 cy0 rx0 ro co n rows d f s ts].
  unfold scroll_cols, scroll_coloff, set_coloff. simpl.
  destruct (rx0 <? co); simpl; destruct (rx0 >=? _); simpl;
    destruct (rx0 >=? _); reflexivity.
Qed.

(** The rest of [editorScroll], once [E.rx] is set: the two offsets. *)
Lemma editorScroll_offsets (screenrows screencols : Z) (E : editorConfig)
  (x : Z) :
  (if cy E <? numrows E
   then r <- row_ref E (cy E) ;; Ok (set_rx E (editorRowCxToRx E r (cx E)))
   else Ok (set_rx E 0)) = Ok (set_rx E x) ->
  editorScroll screenrows screencols E
  = Ok (set_rowoff
          (set_coloff (set_rx E x) (scroll_coloff screencols x (coloff E)))
          (scroll_rowoff screenrows (cy E) (rowoff E))).
Proof.
  intros Hx. unfold editorScroll. rewrite Hx. cbn [bind].
  rewrite scroll_cols_eq, scroll_rows_eq. reflexivity.
Qed.

Lemma scroll_rowoff_spec (screenrows y ro : Z) :
  1 <= screenrows ->
  scroll_rowoff screenrows y ro <= y < scroll_rowoff screenrows y ro + screenrows
  /\ (0 <= y -> 0 <= ro -> 0 <= scroll_rowoff screenrows y ro)
  /\ (ro <= y < ro + screenrows -> scroll_rowoff screenrows y ro = ro).
Proof.
  intros Hsr. unfold scroll_rowoff. cbv zeta.
  repeat scroll_step; lia.
Qed.

Lemma scroll_coloff_spec (screencols x co : Z) :
  6 <= screencols ->
  scroll_coloff screencols x co <= x
    < scroll_coloff screencols x co + screencols - 5
  /\ (0 <= x -> 0 <= co -> 0 <= scroll_coloff screencols x co)
  /\ (co <= x < co + screencols - 5 -> scroll_coloff screencols x co = co).
Proof.
  intros Hsc. unfold scroll_coloff, VINE_LINE_NUMBER_PADDING. cbv zeta.
  repeat scroll_step; lia.
Qed.


(** X4.  [editorScroll] is idempotent: called again on the state it
    returned, it returns that state. *)
Theorem editorScroll_idempotent :
  forall screenrows screencols E E',
    1 <= screenrows -> 6 <= screencols ->
    editorScroll screenrows screencols E = Ok E' ->
    editorScroll screenrows screencols E' = Ok E'.
Proof.
  intros sr sc E E' Hsr Hsc H.
  assert (Hx : exists x,
             (if cy E <? numrows E
              then r <- row_ref E (cy E) ;;
                   Ok (set_rx E (editorRowCxToRx E r (cx E)))
              else Ok (set_rx E 0)) = Ok (set_rx E x)).
  { unfold editorScroll in H.
    destruct (cy E <? numrows E); [|eauto].
    destruct (row_ref E (cy E)) as [r| |]; simpl in *;
      [eauto | discriminate | discriminate]. }
  destruct Hx as [x Hx].
  rewrite (editorScroll_offsets sr sc E x Hx) in H. injection H as <-.
  rewrite (editorScroll_offsets sr sc _ x).
  - destruct (scroll_rowoff_spec sr (cy E) (rowoff E) Hsr) as (R1 & _ & _).
    destruct (scroll_coloff_spec sc x (coloff E) Hsc) as (C1 & _ & _).
    destruct (scroll_rowoff_spec sr (cy E)
                (scroll_rowoff sr (cy E) (rowoff E)) Hsr) as (_ & _ & R3).
    destruct (scroll_coloff_spec sc x
                (scroll_coloff sc x (coloff E)) Hsc) as (_ & _ & C3).
    cbn [rowoff coloff rx cy set_rowoff set_coloff set_rx].
    rewrite (R3 R1), (C3 C1). reflexivity.
  - destruct E as [cx0 cy0 rx0 ro co n rows d f s ts].
    unfold set_rx, set_rowoff, set_coloff, row_ref, get_row,
      editorRowCxToRx in *.
    simpl in *.
    destruct (cy0 <? n);
      [|injection Hx as Hx; rewrite <- Hx; reflexivity].
    destruct (cy0 <? 0); [discriminate|].
    destruct (nth_error rows (Z.to_nat cy0)); [|discriminate].
    simpl in *. injection Hx as Hx. rewrite Hx. reflexivity.
Qed.

Lemma cursor_okb_sound (E : editorConfig) :
  cursor_okb E = true -> cursor_ok E.
Proof.
  unfold cursor_okb, cursor_ok. intros H.
  apply andb_prop in H. destruct H as [H H5].
  apply andb_prop in H. destruct H as [H H4].
  apply andb_prop in H. destruct H as [H H3].
  apply andb_prop in H. destruct H as [H1 H2].
  apply Z.leb_le in H1, H2, H3.
  split; [lia|]. split; [exact H3|]. split.
  - intros Heq. apply Z.eqb_eq in Heq. rewrite Heq in H4.
    apply Z.eqb_eq. exact H4.
  - intros r Hr. rewrite Hr in H5. apply Z.leb_le. exact H5.
Qed.

Lemma move_left_right_inverse_witness :
  buffer_ok (set_cursor loaded_doc 10 0)
  /\ cursor_ok (set_cursor loaded_doc 10 0)
  /\ exists E1,
      editorMoveCursor ARROW_RIGHT (set_cursor loaded_doc 10 0) = Ok E1
      /\ (cx E1 <> 10 \/ cy E1 <> 0)
      /\ editorMoveCursor ARROW_LEFT E1 = Ok (set_cursor loaded_doc 10 0).
Proof.
  assert (Hb : buffer_ok (set_cursor loaded_doc 10 0))
    by (apply buffer_okb_sound; vm_compute; reflexivity).
  assert (Hc : cursor_ok (set_cursor loaded_doc 10 0))
    by (apply cursor_okb_sound; vm_compute; reflexivity).
  split; [exact Hb|]. split; [exact Hc|].
  apply (proj1 (move_left_right_inverse (set_cursor loaded_doc 10 0) Hb Hc)).
  vm_compute. reflexivity.
Defined.


Lemma editorScroll_idempotent_witness :
  1 <= 3 /\ 6 <= 10
  /\ editorScroll 3 10 (set_cursor loaded_doc 12 1)
     = Ok (mkConfig 12 1 12 0 8 3 (row loaded_doc) 0 (Some (s2l "x.c"))
             (syntax loaded_doc) 4)
  /\ editorScroll 3 10
       (mkConfig 12 1 12 0 8 3 (row loaded_doc) 0 (Some (s2l "x.c"))
          (syntax loaded_doc) 4)
     = Ok (mkConfig 12 1 12 0 8 3 (row loaded_doc) 0 (Some (s2l "x.c"))
             (syntax loaded_doc) 4).
Proof.
  assert (H1 : 1 <= 3) by lia. assert (H2 : 6 <= 10) by lia.
  assert (H3 : editorScroll 3 10 (set_cursor loaded_doc 12 1)
     = Ok (mkConfig 12 1 12 0 8 3 (row loaded_doc) 0 (Some (s2l "x.c"))
             (syntax loaded_doc) 4)) by (vm_compute; reflexivity).
  split; [exact H1|]. split; [exact H2|]. split; [exact H3|].
  exact (editorScroll_idempotent 3 10 _ _ H1 H2 H3).
Defined.

(** * Render columns *)

Section TabColumns.

Variable ts : Z.
Hypothesis ts_pos : 0 < ts.
Variable cs : list ascii.

Local Abbreviation width k := (cx_to_rx_loop k ts cs 0 0).

Lemma width_ge (k : nat) : Z.of_nat k <= width k.
Proof.
  induction k as [|k IH]; [simpl; lia|].
  pose proof (width_increasing ts ts_pos cs k (S k) ltac:(lia)) as H.
  cbv beta zeta in H. lia.
Qed.

(** The search of [editorRowRxToCx], resumed at column [j] with [n]
    columns left and every column up to [j] at or before [rx], ends at the
    column whose character covers [rx], or at the end of the row. *)
Lemma rx_to_cx_loop_brackets (rx : Z) (n : nat) :
  forall j,
    width j <= rx ->
    exists c, rx_to_cx_loop n ts cs rx j (width j) = Z.of_nat c
              /\ (j <= c <= j + n)%nat
              /\ width c <= rx
              /\ ((c < j + n)%nat -> rx < width (S c)).
Proof.
  induction n as [|n IH]; intros j Hj; cbn [rx_to_cx_loop].
  - exists j. split; [reflexivity|]. split; [lia|]. split; [exact Hj | lia].
  - rewrite <- (width_succ ts cs j).
    destruct (Z.gtb_spec (width (S j)) rx) as [Hgt|Hle].
    + exists j. split; [reflexivity|]. split; [lia|].
      split; [exact Hj|]. intros _. lia.
    + destruct (IH (S j) Hle) as (c & -> & Hc & Hw & Hn).
      exists c. split; [reflexivity|]. split; [lia|]. split; [exact Hw|].
      intros H. apply Hn. lia.
Qed.

End TabColumns.

(** X5.  With a positive tab stop, [editorRowCxToRx] of a row is 0 at
    column 0, strictly increasing in the column, and never less than the
    column: a character takes at least one render column. *)
Theorem editorRowCxToRx_increasing :
  forall E r a b,
    0 < tab_stop E -> 0 <= a < b ->
    editorRowCxToRx E r 0 = 0
    /\ editorRowCxToRx E r a < editorRowCxToRx E r b
    /\ a <= editorRowCxToRx E r a.
Proof.
  intros E r a b Hts Hab. unfold editorRowCxToRx.
  split; [reflexivity|]. split.
  - apply width_increasing; [exact Hts | lia].
  - pose proof (width_ge (tab_stop E) Hts (chars r) (Z.to_nat a)). lia.
Qed.

Lemma editorRowCxToRx_increasing_witness :
  0 < tab_stop initEditor /\ 0 <= 1 < 2
  /\ editorRowCxToRx initEditor tab_row 1 < editorRowCxToRx initEditor tab_row 2.
Proof.
  assert (H1 : 0 < tab_stop initEditor) by (simpl; lia).
  assert (H2 : 0 <= 1 < 2) by lia.
  split; [exact H1|]. split; [exact H2|].
  exact (proj1 (proj2 (editorRowCxToRx_increasing initEditor tab_row 1 2
                         H1 H2))).
Defined.

(** X6.  For a render column [rx >= 0] of a row of size [>= 0],
    [editorRowRxToCx] returns a column [c] of the row, its
    end included, whose render column is at or before [rx]; and unless [c]
    is the end of the row, [rx] is before the render column of [c + 1]:
    [c] is the character that covers [rx]. *)
Theorem editorRowRxToCx_brackets :
  forall E r rx,
    0 <= size r -> 0 <= rx ->
    0 <= editorRowRxToCx E r rx <= size r
    /\ editorRowCxToRx E r (editorRowRxToCx E r rx) <= rx
    /\ (editorRowRxToCx E r rx < size r ->
        rx < editorRowCxToRx E r (editorRowRxToCx E r rx + 1)).
Proof.
  intros E r rx Hsz Hrx. unfold editorRowRxToCx, editorRowCxToRx.
  destruct (rx_to_cx_loop_brackets (tab_stop E) (chars r) rx
              (Z.to_nat (size r)) 0%nat) as (c & Hc & Hr & Hw & Hn).
  - simpl. exact Hrx.
  - simpl in Hc. rewrite Hc. rewrite Nat2Z.id.
    split; [lia|]. split; [exact Hw|].
    intros Hlt. replace (Z.to_nat (Z.of_nat c + 1)) with (S c) by lia.
    apply Hn. lia.
Qed.

Lemma editorRowRxToCx_brackets_witness :
  0 <= size tab_row /\ 0 <= 2
  /\ editorRowRxToCx initEditor tab_row 2 = 1
  /\ editorRowCxToRx initEditor tab_row 1 <= 2
  /\ 2 < editorRowCxToRx initEditor tab_row (1 + 1).
Proof.
  assert (H2 : 0 <= size tab_row) by (simpl; lia).
  assert (H3 : 0 <= 2) by lia.
  assert (H4 : editorRowRxToCx initEditor tab_row 2 = 1)
    by (vm_compute; reflexivity).
  split; [exact H2|]. split; [exact H3|]. split; [exact H4|].
  destruct (editorRowRxToCx_brackets initEditor tab_row 2 H2 H3)
    as (_ & Hle & Hlt).
  rewrite H4 in Hle, Hlt. split; [exact Hle|]. apply Hlt. simpl. lia.
Defined.

(** * The render string *)

Lemma rem_after (w d ts : Z) :
  0 <= w -> 0 <= d -> 0 < ts ->
  Z.rem (w + d) ts = (Z.rem w ts + d) mod ts.
Proof.
  intros Hw Hd Hts. rewrite !Z.rem_mod_nonneg by lia.
  rewrite Z.add_mod_idemp_l by lia. reflexivity.
Qed.

(** The padding loop appends spaces, and stops at the first length that is
    a multiple of the tab stop. *)
Lemma pad_tab_spec (ts : Z) (fuel : nat) :
  forall out out',
    pad_tab fuel ts out = Ok out' ->
    exists k, out' = out ++ repeat SPACE k
              /\ Z.rem (Z.of_nat (length out')) ts = 0
              /\ forall j, (j < k)%nat ->
                           Z.rem (Z.of_nat (length out + j)) ts <> 0.
Proof.
  induction fuel as [|fuel IH]; intros out out' H; simpl in H;
    destruct (Z.eqb_spec (Z.rem (Z.of_nat (length out)) ts) 0) as [Hz|Hnz].
  - injection H as <-. exists 0%nat. rewrite app_nil_r.
    split; [reflexivity|]. split; [exact Hz|]. intros j Hj. lia.
  - discriminate.
  - injection H as <-. exists 0%nat. rewrite app_nil_r.
    split; [reflexivity|]. split; [exact Hz|]. intros j Hj. lia.
  - destruct (IH _ _ H) as (k & -> & Hk & Hmin).
    exists (S k). split; [rewrite <- app_assoc; reflexivity|].
    split; [exact Hk|].
    intros j Hj. destruct j as [|j].
    + rewrite Nat.add_0_r. exact Hnz.
    + specialize (Hmin j ltac:(lia)). rewrite length_app in Hmin.
      simpl in Hmin.
      replace (length out + S j)%nat with (length out + 1 + j)%nat by lia.
      exact Hmin.
Qed.

(** What the code writes for a tab takes the render string to the length
    that [advance] computes. *)
Lemma pad_tab_advance (ts : Z) (fuel : nat) (out out1 : list ascii) :
  0 < ts ->
  pad_tab fuel ts (out ++ [SPACE]) = Ok out1 ->
  exists k, out1 = out ++ SPACE :: repeat SPACE k
            /\ Z.of_nat (length out1)
               = advance ts TAB (Z.of_nat (length out)).
Proof.
  intros Hts H. destruct (pad_tab_spec ts fuel _ _ H) as (k & -> & Hk & Hmin).
  exists k. split; [rewrite <- app_assoc; reflexivity|].
  unfold advance. replace (Ascii.eqb TAB TAB) with true by reflexivity.
  set (w := Z.of_nat (length out)) in *.
  assert (Hw : 0 <= w) by (unfold w; lia).
  rewrite !length_app, repeat_length in *. simpl length in *.
  replace (Z.of_nat (length out + 1 + k)) with (w + (1 + Z.of_nat k)) in *
    by (unfold w; lia).
  rewrite rem_after in Hk by lia.
  pose proof (Z.rem_bound_pos w ts Hw Hts) as Hb.
  set (r := Z.rem w ts) in *.
  assert (Hsum : r + (1 + Z.of_nat k) = ts).
  { destruct (Z.lt_trichotomy (r + (1 + Z.of_nat k)) ts) as [Hlt|[He|Hgt]].
    - rewrite Z.mod_small in Hk by lia. lia.
    - exact He.
    - exfalso. apply (Hmin (Z.to_nat (ts - r - 1))); [lia|].
      replace (Z.of_nat (length out + 1 + Z.to_nat (ts - r - 1)))
        with (w + (ts - r)) by (unfold w; lia).
      rewrite rem_after by lia. fold r.
      replace (r + (ts - r)) with ts by lia. apply Z.mod_same. lia. }
  lia.
Qed.

Section RenderLoop.

Variable ts : Z.
Hypothesis ts_pos : 0 < ts.
Variable cs : list ascii.

Local Abbreviation width k := (cx_to_rx_loop k ts cs 0 0).

Lemma shown_not_tab (c : ascii) : shown c <> TAB.
Proof.
  unfold shown. destruct (Ascii.eqb c TAB) eqn:Hc; [discriminate|].
  intros ->. rewrite Ascii.eqb_refl in Hc. discriminate.
Qed.

(** The second loop of [editorUpdateRow], from the character at [length
    pre] on, with the render string so far as long as the render column of
    that character: each character is written at its render column, and
    the string ends at the render column of the end of the row. *)
Lemma render_loop_cols (t : list ascii) :
  forall pre out rd,
    cs = pre ++ t -> Z.of_nat (length out) = width (length pre) ->
    render_loop ts t out = Ok rd ->
    exists tail,
      rd = out ++ tail /\ ~ In TAB tail
      /\ Z.of_nat (length rd) = width (length cs)
      /\ forall k, (length pre <= k < length cs)%nat ->
                   nth (Z.to_nat (width k)) rd NUL = shown (nth k cs NUL).
Proof.
  induction t as [|c t IH]; intros pre out rd Hcs Hout H; simpl in H.
  - injection H as <-. exists []. rewrite app_nil_r in *. subst pre.
    split; [reflexivity|]. split; [intros []|]. split; [exact Hout|].
    intros k Hk. lia.
  - assert (Hc : nth (length pre) cs NUL = c)
      by (rewrite Hcs, app_nth2, Nat.sub_diag by lia; reflexivity).
    assert (Hlen : (length pre < length cs)%nat)
      by (rewrite Hcs, length_app; simpl; lia).
    assert (Hstep : forall out1 mid,
               out1 = out ++ shown c :: mid ->
               (forall x, In x mid -> x = SPACE) ->
               Z.of_nat (length out1) = advance ts c (Z.of_nat (length out)) ->
               render_loop ts t out1 = Ok rd ->
               exists tail,
                 rd = out ++ tail /\ ~ In TAB tail
                 /\ Z.of_nat (length rd) = width (length cs)
                 /\ forall k, (length pre <= k < length cs)%nat ->
                              nth (Z.to_nat (width k)) rd NUL
                              = shown (nth k cs NUL)).
    { intros out1 mid Hout1 Hmid Hl1 Hrd.
      destruct (IH (pre ++ [c]) out1 rd) as (tail & Htail & Hnt & Hl & Hn).
      - rewrite <- app_assoc. exact Hcs.
      - rewrite length_app, Nat.add_1_r. simpl length.
        rewrite (width_succ ts cs), Hc, <- Hout. exact Hl1.
      - exact Hrd.
      - exists (shown c :: mid ++ tail).
        split; [rewrite Htail, Hout1, <- app_assoc; reflexivity|].
        split.
        { intros [Hx|Hx]; [exact (shown_not_tab c Hx)|].
          apply in_app_or in Hx. destruct Hx as [Hx|Hx]; [|exact (Hnt Hx)].
          apply Hmid in Hx. discriminate. }
        split; [exact Hl|].
        intros k Hk. destruct (Nat.eq_dec k (length pre)) as [->|Hne].
        + rewrite <- Hout, Nat2Z.id, Htail, Hout1, <- !app_assoc.
          rewrite app_nth2, Nat.sub_diag by lia. rewrite Hc. reflexivity.
        + apply Hn. rewrite length_app. simpl. lia. }
    destruct (Ascii.eqb c TAB) eqn:Htab.
    + destruct (pad_tab (Z.to_nat ts) ts (out ++ [SPACE])) as [out1| |] eqn:Hp;
        simpl in H; try discriminate.
      destruct (pad_tab_advance ts _ _ _ ts_pos Hp) as (k & Hout1 & Hl1).
      apply ascii_eqb_true in Htab. subst c.
      apply (Hstep out1 (repeat SPACE k)); auto.
      intros x Hx. apply repeat_spec in Hx. exact Hx.
    + apply (Hstep (out ++ [c]) []); auto.
      * unfold shown. rewrite Htab. reflexivity.
      * intros x [].
      * rewrite length_app. simpl. unfold advance. rewrite Htab. lia.
Qed.

(** The render string of a whole row. *)
Lemma render_loop_row (rd : list ascii) :
  render_loop ts cs [] = Ok rd ->
  ~ In TAB rd
  /\ Z.of_nat (length rd) = width (length cs)
  /\ forall k, (k < length cs)%nat ->
               nth (Z.to_nat (width k)) rd NUL = shown (nth k cs NUL).
Proof.
  intros H.
  destruct (render_loop_cols cs [] [] rd eq_refl eq_refl H)
    as (tail & Ht & Hnt & Hl & Hn).
  simpl in Ht. subst tail. split; [exact Hnt|]. split; [exact Hl|].
  intros k Hk. apply Hn. simpl. lia.
Qed.

End RenderLoop.

(** ** What the highlighter and [editorUpdateRow] leave alone *)

Lemma get_row_inv (E : editorConfig) (p : nat) (r : erow) :
  get_row E p = Ok r -> nth_error (row E) p = Some r.
Proof.
  unfold get_row. destruct (nth_error (row E) p); [|discriminate].
  intros H. injection H as ->. reflexivity.
Qed.

Lemma update_one_same_buffer (E E1 : editorConfig) (p : nat) (ch : bool) :
  update_one E p = Ok (E1, ch) -> same_buffer E E1.
Proof.
  intros H. destruct (get_row E p) as [r| |] eqn:Hr;
    try (unfold update_one in H; rewrite Hr in H; discriminate).
  apply get_row_inv in Hr.
  pose proof (update_one_inv E E1 p r ch Hr H) as Hi.
  destruct (syntax E).
  - destruct Hi as (ic & h & oc & _ & _ & -> & _).
    apply same_buffer_put_hl. exact Hr.
  - destruct Hi as (-> & _). apply same_buffer_put_hl. exact Hr.
Qed.

(** Whatever rows the cascade visits, a call of [editorUpdateSyntax] that
    returns has changed highlight and comment flags only. *)
Lemma editorUpdateSyntax_fuel_same_buffer (fuel : nat) :
  forall E p E',
    editorUpdateSyntax_fuel fuel E p = Ok E' -> same_buffer E E'.
Proof.
  induction fuel as [|fuel IH]; intros E p E' H; simpl in H; [discriminate|].
  destruct (get_row E p) as [r| |]; simpl in H; try discriminate.
  destruct (update_one E p) as [[E1 ch]| |] eqn:Hu; simpl in H;
    try discriminate.
  apply update_one_same_buffer in Hu.
  destruct (ch && (idx r + 1 <? numrows E)).
  - eapply same_buffer_trans; [exact Hu|]. eapply IH. exact H.
  - injection H as <-. exact Hu.
Qed.

Lemma editorUpdateSyntax_same_buffer (E E' : editorConfig) (p : nat) :
  editorUpdateSyntax E p = Ok E' -> same_buffer E E'.
Proof. apply editorUpdateSyntax_fuel_same_buffer. Qed.

(** A call of [editorUpdateRow] that returns: the render string it wrote
    to the row, and the state up to highlight. *)
Lemma editorUpdateRow_inv (E E' : editorConfig) (p : nat) :
  editorUpdateRow E p = Ok E' ->
  exists r rd,
    nth_error (row E) p = Some r
    /\ render_loop (tab_stop E) (firstn (Z.to_nat (size r)) (chars r)) []
       = Ok rd
    /\ same_buffer (put_row E p (set_render r rd)) E'.
Proof.
  unfold editorUpdateRow. intros H.
  destruct (get_row E p) as [r| |] eqn:Hr; simpl in H; try discriminate.
  destruct (render_loop (tab_stop E) (firstn (Z.to_nat (size r)) (chars r)) [])
    as [rd| |] eqn:Hrd; simpl in H; try discriminate.
  exists r, rd. split; [apply get_row_inv; exact Hr|].
  split; [exact Hrd|]. apply editorUpdateSyntax_same_buffer with p. exact H.
Qed.

(** The rows after a call of [editorUpdateRow] that returns: row [p] has
    its render string new, and every row has its text otherwise. *)
Lemma editorUpdateRow_rows (E E' : editorConfig) (p : nat) :
  editorUpdateRow E p = Ok E' ->
  exists r rd,
    nth_error (row E) p = Some r
    /\ render_loop (tab_stop E) (firstn (Z.to_nat (size r)) (chars r)) []
       = Ok rd
    /\ tab_stop E' = tab_stop E
    /\ (exists r', nth_error (row E') p = Some r'
                   /\ same_text (set_render r rd) r')
    /\ (forall q r1, q <> p -> nth_error (row E') q = Some r1 ->
                     exists r0, nth_error (row E) q = Some r0
                                /\ same_text r0 r1).
Proof.
  intros H. destruct (editorUpdateRow_inv E E' p H) as (r & rd & Hr & Hrd & Hs).
  exists r, rd. split; [exact Hr|]. split; [exact Hrd|].
  assert (Hp : (p < length (row E))%nat) by (eapply nth_error_lt; eauto).
  destruct Hs as (_ & _ & _ & _ & _ & _ & _ & _ & _ & Hts & Hrows).
  split; [exact Hts|]. split.
  - apply (Forall2_nth_error_l _ _ _ Hrows p).
    apply nth_error_put_row_same. exact Hp.
  - intros q r1 Hq Hr1.
    destruct (Forall2_nth_error_r _ _ _ Hrows q r1 Hr1) as (r0 & Hr0 & Hst).
    exists r0. split; [|exact Hst].
    rewrite nth_error_put_row_other in Hr0 by assumption. exact Hr0.
Qed.

(** ** The render string is always the expansion of the characters *)

Lemma rendered_same_text (ts : Z) (r r' : erow) :
  same_text r r' -> rendered ts r -> rendered ts r'.
Proof.
  intros (_ & _ & _ & Hc & Hr). unfold rendered. rewrite Hc, Hr. auto.
Qed.

Lemma rendered_shift (ts d : Z) (r : erow) :
  rendered ts r -> rendered ts (shift_idx d r).
Proof. auto. Qed.

Lemma rows_rendered_nth (E : editorConfig) :
  rows_rendered E <->
  forall q r, nth_error (row E) q = Some r -> rendered (tab_stop E) r.
Proof.
  unfold rows_rendered. rewrite Forall_forall. split.
  - intros H q r Hq. apply H. eapply nth_error_In. exact Hq.
  - intros H x Hx. apply In_nth_error in Hx. destruct Hx as [q Hq]. eauto.
Qed.

Lemma editorUpdateRow_rendered (E E' : editorConfig) (p : nat) :
  editorUpdateRow E p = Ok E' ->
  (forall r, nth_error (row E) p = Some r ->
             size r = Z.of_nat (length (chars r))) ->
  (forall q r0, q <> p -> nth_error (row E) q = Some r0 ->
                rendered (tab_stop E) r0) ->
  rows_rendered E'.
Proof.
  intros H Hsz Hoth.
  destruct (editorUpdateRow_rows E E' p H)
    as (r & rd & Hr & Hrd & Hts & (r' & Hr' & Hst) & Hrest).
  apply rows_rendered_nth. intros q x Hq. rewrite Hts.
  destruct (Nat.eq_dec q p) as [->|Hne].
  - assert (x = r') by congruence. subst x.
    apply (rendered_same_text _ _ _ Hst). unfold rendered. simpl.
    rewrite (Hsz r Hr), Nat2Z.id, firstn_all in Hrd. exact Hrd.
  - destruct (Hrest q x Hne Hq) as (r0 & Hr0 & Hs0).
    apply (rendered_same_text _ _ _ Hs0). eapply Hoth; eauto.
Qed.

(** The characters of a row are replaced and [editorUpdateRow] is called
    on it. *)
Lemma edit_row_rendered (E E' : editorConfig) (p : nat) (r : erow)
  (cs : list ascii) (sz : Z) :
  rows_rendered E -> nth_error (row E) p = Some r ->
  sz = Z.of_nat (length cs) ->
  editorUpdateRow (put_row E p (set_chars r cs sz)) p = Ok E' ->
  rows_rendered E'.
Proof.
  intros Hrn Hr Hsz H.
  assert (Hp : (p < length (row E))%nat) by (eapply nth_error_lt; eauto).
  apply (editorUpdateRow_rendered _ _ _ H).
  - intros r0 Hr0. rewrite nth_error_put_row_same in Hr0 by exact Hp.
    injection Hr0 as <-. exact Hsz.
  - intros q r0 Hq Hr0. rewrite nth_error_put_row_other in Hr0 by assumption.
    apply (proj1 (rows_rendered_nth E) Hrn q r0 Hr0).
Qed.

Lemma editorRowInsertChar_rendered (p : nat) (at_ c : Z)
  (E E' : editorConfig) :
  buffer_ok E -> rows_rendered E ->
  editorRowInsertChar p at_ c E = Ok E' -> rows_rendered E'.
Proof.
  intros Hok Hrn H. unfold editorRowInsertChar in H.
  destruct (get_row E p) as [r| |] eqn:Hr; simpl in H; try discriminate.
  apply get_row_inv in Hr.
  destruct (buffer_ok_row _ _ _ Hok Hr) as [Hsz _].
  match type of H with
  | (x <- ?m ;; _) = _ => destruct m as [E1| |] eqn:Hu
  end; simpl in H; try discriminate.
  injection H as <-.
  apply (edit_row_rendered _ _ _ _ _ _ Hrn Hr) in Hu; [exact Hu|].
  rewrite length_insert_char. lia.
Qed.

Lemma editorRowDelChar_rendered (p : nat) (at_ : Z) (E E' : editorConfig) :
  buffer_ok E -> rows_rendered E ->
  editorRowDelChar p at_ E = Ok E' -> rows_rendered E'.
Proof.
  intros Hok Hrn H. unfold editorRowDelChar in H.
  destruct (get_row E p) as [r| |] eqn:Hr; simpl in H; try discriminate.
  apply get_row_inv in Hr.
  destruct (buffer_ok_row _ _ _ Hok Hr) as [Hsz _].
  destruct (Z.ltb_spec at_ 0); simpl in H;
    [injection H as <-; exact Hrn|].
  destruct (Z.geb_spec at_ (size r)); simpl in H;
    [injection H as <-; exact Hrn|].
  match type of H with
  | (x <- ?m ;; _) = _ => destruct m as [E1| |] eqn:Hu
  end; simpl in H; try discriminate.
  injection H as <-.
  apply (edit_row_rendered _ _ _ _ _ _ Hrn Hr) in Hu; [exact Hu|].
  rewrite length_app, length_firstn, length_skipn. lia.
Qed.

Lemma editorRowAppendString_rendered (p : nat) (s : list ascii) (len : Z)
  (E E' : editorConfig) :
  buffer_ok E -> rows_rendered E -> 0 <= len <= Z.of_nat (length s) ->
  editorRowAppendString p s len E = Ok E' -> rows_rendered E'.
Proof.
  intros Hok Hrn Hlen H. unfold editorRowAppendString in H.
  destruct (get_row E p) as [r| |] eqn:Hr; simpl in H; try discriminate.
  apply get_row_inv in Hr.
  destruct (buffer_ok_row _ _ _ Hok Hr) as [Hsz _].
  match type of H with
  | (x <- ?m ;; _) = _ => destruct m as [E1| |] eqn:Hu
  end; simpl in H; try discriminate.
  injection H as <-.
  apply (edit_row_rendered _ _ _ _ _ _ Hrn Hr) in Hu; [exact Hu|].
  rewrite length_app, !length_firstn. lia.
Qed.

Lemma editorInsertRow_rendered (at_ : Z) (s : list ascii) (len : Z)
  (E E' : editorConfig) :
  buffer_ok E -> rows_rendered E -> 0 <= len <= Z.of_nat (length s) ->
  editorInsertRow at_ s len E = Ok E' -> rows_rendered E'.
Proof.
  intros Hok Hrn Hlen H. pose proof Hok as (Hnum & _).
  unfold editorInsertRow in H.
  destruct (Z.ltb_spec at_ 0); simpl in H; [injection H as <-; exact Hrn|].
  destruct (Z.gtb_spec at_ (numrows E)); simpl in H;
    [injection H as <-; exact Hrn|].
  set (a := Z.to_nat at_) in *.
  assert (Ha : (a <= length (row E))%nat) by lia.
  replace (Z.to_nat (numrows E - at_)) with (length (row E) - a)%nat in H
    by lia.
  fold (fresh_row at_ s len) in H.
  rewrite (insert_renumbered _ _ _ Ha) in H.
  match type of H with
  | (x <- ?m ;; _) = _ => destruct m as [E1| |] eqn:Hu
  end; simpl in H; try discriminate.
  injection H as <-.
  assert (Hla : length (firstn a (row E)) = a)
    by (rewrite length_firstn; lia).
  apply editorUpdateRow_rendered in Hu; [exact Hu| |]; simpl.
  - intros r Hr. rewrite nth_error_middle in Hr by exact Hla.
    injection Hr as <-. simpl. rewrite length_firstn. lia.
  - intros q r0 Hq Hr0.
    eapply (Forall_except_middle (rendered (tab_stop E)));
      [| |exact Hr0|rewrite Hla; exact Hq].
    + apply Forall_firstn_keeps. exact Hrn.
    + apply Forall_forall. intros x Hx. apply in_map_iff in Hx.
      destruct Hx as (y & <- & Hy). apply rendered_shift.
      apply (proj1 (Forall_forall _ _) (Forall_skipn_keeps _ a _ Hrn)).
      exact Hy.
Qed.

Lemma editorDelRow_rendered (at_ : Z) (E : editorConfig) :
  buffer_ok E -> rows_rendered E -> rows_rendered (editorDelRow at_ E).
Proof.
  intros Hok Hrn. pose proof Hok as (Hnum & _).
  destruct (Z_lt_dec at_ 0) as [Hlt|Hge];
    [unfold editorDelRow; destruct (Z.ltb_spec at_ 0); [exact Hrn | lia]|].
  destruct (Z_ge_dec at_ (numrows E)) as [Hg|Hl].
  { unfold editorDelRow. destruct (Z.ltb_spec at_ 0); [exact Hrn|].
    destruct (Z.geb_spec at_ (numrows E)); [exact Hrn | lia]. }
  destruct (editorDelRow_rows at_ E Hnum ltac:(lia)) as (Hrows & _).
  unfold rows_rendered. rewrite Hrows.
  replace (tab_stop (editorDelRow at_ E)) with (tab_stop E).
  - apply Forall_app. split; [apply Forall_firstn_keeps; exact Hrn|].
    apply Forall_forall. intros x Hx. apply in_map_iff in Hx.
    destruct Hx as (y & <- & Hy). apply rendered_shift.
    apply (proj1 (Forall_forall _ _)
             (Forall_skipn_keeps _ (Z.to_nat at_ + 1) _ Hrn)).
    exact Hy.
  - unfold editorDelRow. destruct (Z.ltb_spec at_ 0); [lia|].
    destruct (Z.geb_spec at_ (numrows E)); [lia|]. reflexivity.
Qed.

Lemma rows_rendered_same_buffer (E E' : editorConfig) :
  same_buffer E E' -> rows_rendered E -> rows_rendered E'.
Proof.
  intros (_ & _ & _ & _ & _ & _ & _ & _ & _ & Hts & Hrows) Hrn.
  apply rows_rendered_nth. intros q r Hq. rewrite Hts.
  destruct (Forall2_nth_error_r _ _ _ Hrows q r Hq) as (r0 & Hr0 & Hst).
  apply (rendered_same_text _ _ _ Hst).
  apply (proj1 (rows_rendered_nth E) Hrn q r0 Hr0).
Qed.

Lemma editorInsertChar_rendered (c : Z) (E E' : editorConfig) :
  buffer_ok E -> rows_rendered E -> 0 <= cy E <= numrows E ->
  editorInsertChar c E = Ok E' -> rows_rendered E'.
Proof.
  intros Hok Hrn Hcy H. unfold editorInsertChar in H.
  destruct (Z.eqb_spec (cy E) (numrows E)) as [Heq|Hne].
  - destruct (editorInsertRow_ok (numrows E) [] 0 E Hok ltac:(lia)
                ltac:(simpl; lia)) as (E1 & He1 & Hok1 & _).
    rewrite He1 in H. simpl in H.
    apply editorInsertRow_rendered in He1; [|assumption|assumption|simpl; lia].
    match type of H with
    | (x <- ?m ;; _) = _ => destruct m as [E2| |] eqn:Hu
    end; simpl in H; try discriminate.
    injection H as <-.
    apply (editorRowInsertChar_rendered _ _ _ _ _ Hok1 He1 Hu).
  - simpl in H.
    match type of H with
    | (x <- ?m ;; _) = _ => destruct m as [E2| |] eqn:Hu
    end; simpl in H; try discriminate.
    injection H as <-.
    apply (editorRowInsertChar_rendered _ _ _ _ _ Hok Hrn Hu).
Qed.

Lemma editorInsertNewline_rendered (E E' : editorConfig) :
  buffer_ok E -> rows_rendered E -> cursor_ok E ->
  editorInsertNewline E = Ok E' -> rows_rendered E'.
Proof.
  intros Hok Hrn (Hcy & Hcx & Hend & Hcol) H. unfold editorInsertNewline in H.
  destruct (Z.eqb_spec (cx E) 0) as [Hz|Hnz].
  - match type of H with
    | (x <- ?m ;; _) = _ => destruct m as [E2| |] eqn:Hu
    end; simpl in H; try discriminate.
    injection H as <-.
    apply editorInsertRow_rendered in Hu; [exact Hu| | |simpl; lia];
      assumption.
  - assert (Hin : 0 <= cy E < numrows E) by lia.
    destruct (row_at_cursor E (cy E) Hok Hin) as [r Hr].
    rewrite (get_row_some _ _ _ Hr) in H. simpl in H.
    destruct (buffer_ok_row _ _ _ Hok Hr) as [Hsz _].
    specialize (Hcol r Hr).
    destruct (editorInsertRow_ok (cy E + 1)
                (skipn (Z.to_nat (cx E)) (chars r)) (size r - cx E) E Hok
                ltac:(lia) ltac:(rewrite length_skipn; lia))
      as (E1 & He1 & Hok1 & _ & _ & _ & _ & _ & Hcx1 & Hcy1 & _ & Hb).
    rewrite He1 in H. simpl in H. rewrite Hcy1, Hcx1 in H.
    apply editorInsertRow_rendered in He1;
      [|assumption|assumption|rewrite length_skipn; lia].
    assert (Hr1 : nth_error (row E1) (Z.to_nat (cy E)) = Some r).
    { rewrite Hb by lia. exact Hr. }
    rewrite (get_row_some _ _ _ Hr1) in H. simpl in H.
    match type of H with
    | (x <- ?m ;; _) = _ => destruct m as [E2| |] eqn:Hu
    end; simpl in H; try discriminate.
    injection H as <-.
    apply (edit_row_rendered _ _ _ _ _ _ He1 Hr1) in Hu; [exact Hu|].
    rewrite length_firstn. lia.
Qed.

Lemma editorDelChar_rendered (E E' : editorConfig) :
  buffer_ok E -> rows_rendered E -> cursor_ok E ->
  editorDelChar E = Ok E' -> rows_rendered E'.
Proof.
  intros Hok Hrn (Hcy & Hcx & Hend & Hcol) H. unfold editorDelChar in H.
  destruct (Z.eqb_spec (cy E) (numrows E)) as [Heq|Hne]; simpl in H;
    [injection H as <-; exact Hrn|].
  destruct ((cx E =? 0) && (cy E =? 0)) eqn:Hstart;
    [injection H as <-; exact Hrn|].
  destruct (row_at_cursor E (cy E) Hok ltac:(lia)) as [r Hr].
  rewrite (get_row_some _ _ _ Hr) in H. simpl in H.
  destruct (Z.gtb_spec (cx E) 0) as [Hpos|Hz].
  - match type of H with
    | (x <- ?m ;; _) = _ => destruct m as [E1| |] eqn:Hu
    end; simpl in H; try discriminate.
    injection H as <-.
    apply (editorRowDelChar_rendered _ _ _ _ Hok Hrn Hu).
  - assert (Hy : cy E <> 0).
    { intros Hy. rewrite Hy in Hstart.
      replace (cx E) with 0 in Hstart by lia. discriminate. }
    destruct (row_at_cursor E (cy E - 1) Hok ltac:(lia)) as [prev Hprev].
    rewrite (get_row_some _ _ _ Hprev) in H. simpl in H.
    destruct (buffer_ok_row _ _ _ Hok Hr) as [Hsz _].
    destruct (editorRowAppendString_ok (Z.to_nat (cy E - 1)) (chars r)
                (size r) (set_cursor E (size prev) (cy E)) prev
                (buffer_ok_set_cursor _ _ _ Hok) Hprev ltac:(lia))
      as (E1 & He1 & Hok1 & _).
    rewrite He1 in H. simpl in H. injection H as <-.
    apply editorRowAppendString_rendered in He1.
    + apply (editorDelRow_rendered (cy E1) E1 Hok1 He1).
    + apply buffer_ok_set_cursor. exact Hok.
    + exact Hrn.
    + lia.
Qed.

Lemma open_loop_rendered (ls : list (list ascii)) :
  forall E E',
    buffer_ok E -> rows_rendered E ->
    open_loop ls E = Ok E' -> rows_rendered E'.
Proof.
  induction ls as [|line rest IH]; intros E E' Hok Hrn H; simpl in H.
  - injection H as <-. exact Hrn.
  - assert (Hlen : 0 <= Z.of_nat (strip_len line (length line))
                   <= Z.of_nat (length line))
      by (pose proof (strip_len_le line (length line)); lia).
    destruct (editorInsertRow_at_end line
                (Z.of_nat (strip_len line (length line))) E Hok Hlen)
      as (E1 & He1 & Hok1 & _).
    rewrite He1 in H. simpl in H.
    apply (IH E1 E' Hok1); [|exact H].
    apply (editorInsertRow_rendered _ _ _ _ _ Hok Hrn Hlen He1).
Qed.



(** X8.  In a well-formed buffer whose render strings are the expansions
    of the characters, for every row: the render string holds no tab; its
    length [rsize] is [editorRowCxToRx] of the end of the row; and the
    character of every column [k] of the row stands in the render string
    at the render column [editorRowCxToRx] of [k], a tab as a space. *)
Theorem render_column_of_char :
  forall E r,
    buffer_ok E -> rows_rendered E -> In r (row E) ->
    ~ In TAB (render r)
    /\ rsize r = editorRowCxToRx E r (size r)
    /\ forall k,
        0 <= k < size r ->
        nth (Z.to_nat (editorRowCxToRx E r k)) (render r) NUL
        = shown (nth (Z.to_nat k) (chars r) NUL).
Proof.
  intros E r Hok Hrn Hin.
  pose proof (proj1 (Forall_forall _ _) Hrn r Hin) as Hr.
  destruct Hok as (_ & _ & Hrows & Hts).
  destruct (proj1 (Forall_forall _ _) Hrows r Hin) as (Hsz & Hrs & _).
  destruct (render_loop_row (tab_stop E) Hts (chars r) (render r) Hr)
    as (Hnt & Hl & Hn).
  split; [exact Hnt|]. unfold editorRowCxToRx. split.
  - rewrite Hrs, Hl, Hsz, Nat2Z.id. reflexivity.
  - intros k Hk. apply Hn. lia.
Qed.

Lemma rows_renderedb_sound (E : editorConfig) :
  rows_renderedb E = true -> rows_rendered E.
Proof.
  unfold rows_renderedb, rows_rendered. rewrite forallb_forall, Forall_forall.
  intros H x Hx. specialize (H x Hx). unfold rendered.
  destruct (render_loop (tab_stop E) (chars x) []) as [rd| |];
    try discriminate.
  apply list_eqb_eq in H. rewrite H. reflexivity.
Qed.


Lemma render_column_of_char_witness :
  buffer_ok tab_doc /\ rows_rendered tab_doc
  /\ In (mkRow 0 3 5 (s2l "a" ++ [TAB] ++ s2l "b") (s2l "a   b")
           (repeat HL_NORMAL 5) false) (row tab_doc)
  /\ editorRowCxToRx tab_doc
       (mkRow 0 3 5 (s2l "a" ++ [TAB] ++ s2l "b") (s2l "a   b")
          (repeat HL_NORMAL 5) false) 3 = 5
  /\ editorRowCxToRx tab_doc
       (mkRow 0 3 5 (s2l "a" ++ [TAB] ++ s2l "b") (s2l "a   b")
          (repeat HL_NORMAL 5) false) 2 = 4.
Proof.
  assert (Hok : buffer_ok tab_doc)
    by (apply buffer_okb_sound; vm_compute; reflexivity).
  assert (Hrn : rows_rendered tab_doc)
    by (apply rows_renderedb_sound; vm_compute; reflexivity).
  assert (Hin : In (mkRow 0 3 5 (s2l "a" ++ [TAB] ++ s2l "b") (s2l "a   b")
                      (repeat HL_NORMAL 5) false) (row tab_doc))
    by (vm_compute; left; reflexivity).
  split; [exact Hok|]. split; [exact Hrn|]. split; [exact Hin|].
  destruct (render_column_of_char tab_doc _ Hok Hrn Hin) as (_ & Hrs & _).
  split; [symmetry; exact Hrs|]. vm_compute. reflexivity.
Defined.

(** * The document: what the edits do to the text *)

#[local] Arguments skipn : simpl nomatch.
#[local] Arguments firstn : simpl nomatch.

Lemma store_split {A : Type} (l : list A) (p : nat) (v : A) :
  store l p v = firstn p l ++ v :: skipn (S p) l.
Proof. unfold store, memset. rewrite Nat.add_1_r. reflexivity. Qed.

Lemma text_same_content (E E' : editorConfig) :
  same_content E E' -> text E' = text E.
Proof.
  intros (_ & _ & _ & _ & _ & _ & _ & _ & _ & _ & H).
  apply same_chars_maps in H. apply H.
Qed.

Lemma text_length (E : editorConfig) : length (text E) = length (row E).
Proof. apply length_map. Qed.

Lemma text_nth (E : editorConfig) (p : nat) (r : erow) :
  nth_error (row E) p = Some r -> nth p (text E) [] = chars r.
Proof.
  intros H. unfold text.
  rewrite (nth_error_nth (map chars (row E)) p [] (x := chars r));
    [reflexivity|].
  rewrite nth_error_map, H. reflexivity.
Qed.

Lemma line_at_row (E : editorConfig) (y : Z) (r : erow) :
  nth_error (row E) (Z.to_nat y) = Some r -> line_at (text E) y = chars r.
Proof. apply text_nth. Qed.

(** The cursor of a well-formed buffer is valid exactly when it is a valid
    cursor of the document. *)
Lemma cursor_ok_doc (E : editorConfig) :
  buffer_ok E -> cursor_ok E <-> doc_cursor_ok (doc_of E).
Proof.
  intros Hok. pose proof Hok as (Hnum & _).
  unfold cursor_ok, doc_cursor_ok, doc_of. simpl. rewrite text_length, <- Hnum.
  split; intros (H1 & H2 & H3 & H4); (split; [exact H1|]);
    (split; [exact H2|]); (split; [exact H3|]).
  - intros Hlt.
    destruct (row_at_cursor E (cy E) Hok ltac:(lia)) as [r Hr].
    rewrite (line_at_row _ _ _ Hr).
    destruct (buffer_ok_row _ _ _ Hok Hr) as (Hs & _).
    rewrite <- Hs. apply H4. exact Hr.
  - intros r Hr. pose proof (nth_error_lt _ _ _ Hr) as Hlt.
    specialize (H4 ltac:(lia)). rewrite (line_at_row _ _ _ Hr) in H4.
    destruct (buffer_ok_row _ _ _ Hok Hr) as (Hs & _). lia.
Qed.

(** The characters of row [p] are replaced and [editorUpdateRow] is called
    on it: the text changes in line [p] only. *)
Lemma edit_row_text (E : editorConfig) (p : nat) (r : erow) (cs : list ascii)
  (sz : Z) :
  buffer_ok E -> nth_error (row E) p = Some r ->
  sz = Z.of_nat (length cs) ->
  exists E',
    editorUpdateRow (put_row E p (set_chars r cs sz)) p = Ok E'
    /\ buffer_ok E'
    /\ text E' = firstn p (text E) ++ cs :: skipn (S p) (text E)
    /\ cx E' = cx E /\ cy E' = cy E /\ numrows E' = numrows E
    /\ dirty E' = dirty E.
Proof.
  intros Hok Hr Hsz.
  destruct (edit_row_ok E p r cs sz Hok Hr Hsz) as (E' & He & Hok' & Hc & _).
  exists E'. split; [exact He|]. split; [exact Hok'|].
  split.
  - rewrite (text_same_content _ _ Hc). unfold text.
    change (row (put_row E p (set_chars r cs sz)))
      with (store (row E) p (set_chars r cs sz)).
    rewrite store_split, map_app, firstn_map, skipn_map. reflexivity.
  - destruct Hc as (C1 & C2 & _ & _ & _ & C6 & C7 & _). simpl in *. auto.
Qed.

Lemma editorRowInsertChar_text (p : nat) (at_ c : Z) (E : editorConfig)
  (r : erow) :
  buffer_ok E -> nth_error (row E) p = Some r -> 0 <= at_ <= size r ->
  exists E',
    editorRowInsertChar p at_ c E = Ok E'
    /\ buffer_ok E'
    /\ text E' = firstn p (text E)
                 ++ insert_at (chars r) at_ (char_of_int c)
                 :: skipn (S p) (text E)
    /\ cx E' = cx E /\ cy E' = cy E /\ numrows E' = numrows E
    /\ dirty E' = dirty E + 1.
Proof.
  intros Hok Hr Hat. unfold editorRowInsertChar.
  rewrite (get_row_some _ _ _ Hr). cbn [bind].
  destruct (Z.ltb_spec at_ 0); [lia|].
  destruct (Z.gtb_spec at_ (size r)); [lia|]. cbn [orb].
  destruct (buffer_ok_row _ _ _ Hok Hr) as [Hsz _].
  destruct (edit_row_text E p r
              (firstn (Z.to_nat at_) (chars r)
               ++ char_of_int c :: skipn (Z.to_nat at_) (chars r))
              (size r + 1) Hok Hr)
    as (E' & -> & Hok' & Ht & H1 & H2 & H3 & H4).
  { rewrite length_insert_char. lia. }
  cbn [bind]. eexists. split; [reflexivity|].
  split; [apply buffer_ok_set_dirty; exact Hok'|].
  split; [exact Ht|]. simpl. repeat split; congruence.
Qed.

Lemma editorRowDelChar_text (p : nat) (at_ : Z) (E : editorConfig)
  (r : erow) :
  buffer_ok E -> nth_error (row E) p = Some r -> 0 <= at_ < size r ->
  exists E',
    editorRowDelChar p at_ E = Ok E'
    /\ buffer_ok E'
    /\ text E' = firstn p (text E) ++ delete_at (chars r) at_
                 :: skipn (S p) (text E)
    /\ cx E' = cx E /\ cy E' = cy E /\ numrows E' = numrows E
    /\ dirty E' = dirty E + 1.
Proof.
  intros Hok Hr Hat. unfold editorRowDelChar.
  rewrite (get_row_some _ _ _ Hr). cbn [bind].
  destruct (Z.ltb_spec at_ 0); [lia|].
  destruct (Z.geb_spec at_ (size r)); [lia|]. cbn [orb].
  destruct (buffer_ok_row _ _ _ Hok Hr) as [Hsz _].
  destruct (edit_row_text E p r
              (firstn (Z.to_nat at_) (chars r)
               ++ skipn (Z.to_nat at_ + 1) (chars r))
              (size r - 1) Hok Hr)
    as (E' & -> & Hok' & Ht & H1 & H2 & H3 & H4).
  { rewrite length_app, length_firstn, length_skipn. lia. }
  cbn [bind]. eexists. split; [reflexivity|].
  split; [apply buffer_ok_set_dirty; exact Hok'|].
  split; [unfold delete_at; rewrite <- Nat.add_1_r; exact Ht|].
  simpl. repeat split; congruence.
Qed.

Lemma editorRowAppendString_text (p : nat) (s : list ascii)
  (E : editorConfig) (r : erow) :
  buffer_ok E -> nth_error (row E) p = Some r ->
  exists E',
    editorRowAppendString p s (Z.of_nat (length s)) E = Ok E'
    /\ buffer_ok E'
    /\ text E' = firstn p (text E) ++ (chars r ++ s) :: skipn (S p) (text E)
    /\ cx E' = cx E /\ cy E' = cy E /\ numrows E' = numrows E
    /\ dirty E' = dirty E + 1.
Proof.
  intros Hok Hr. unfold editorRowAppendString.
  rewrite (get_row_some _ _ _ Hr). cbn [bind].
  destruct (buffer_ok_row _ _ _ Hok Hr) as [Hsz _].
  rewrite Nat2Z.id, Hsz, Nat2Z.id, !firstn_all.
  destruct (edit_row_text E p r (chars r ++ s)
              (Z.of_nat (length (chars r)) + Z.of_nat (length s)) Hok Hr)
    as (E' & -> & Hok' & Ht & H1 & H2 & H3 & H4).
  { rewrite length_app. lia. }
  cbn [bind]. eexists. split; [reflexivity|].
  split; [apply buffer_ok_set_dirty; exact Hok'|].
  split; [exact Ht|]. simpl. repeat split; congruence.
Qed.

Lemma editorInsertRow_text (at_ : Z) (s : list ascii) (len : Z)
  (E : editorConfig) :
  buffer_ok E -> 0 <= at_ <= numrows E -> 0 <= len <= Z.of_nat (length s) ->
  exists E',
    editorInsertRow at_ s len E = Ok E'
    /\ buffer_ok E'
    /\ text E' = firstn (Z.to_nat at_) (text E)
                 ++ firstn (Z.to_nat len) s :: skipn (Z.to_nat at_) (text E)
    /\ cx E' = cx E /\ cy E' = cy E /\ numrows E' = numrows E + 1
    /\ dirty E' = dirty E + 1.
Proof.
  intros Hok Hat Hlen.
  destruct (editorInsertRow_ok at_ s len E Hok Hat Hlen)
    as (E' & He & Hok' & Hn & Hd & _ & _ & _ & Hx & Hy & Hch & _).
  exists E'. split; [exact He|]. split; [exact Hok'|].
  split; [|auto].
  apply same_chars_maps in Hch. destruct Hch as (_ & _ & Hch).
  unfold text. rewrite Hch, map_app, firstn_map, skipn_map. cbn [map].
  rewrite map_map. reflexivity.
Qed.

Lemma editorDelRow_text (at_ : Z) (E : editorConfig) :
  buffer_ok E -> 0 <= at_ < numrows E ->
  text (editorDelRow at_ E)
  = firstn (Z.to_nat at_) (text E) ++ skipn (S (Z.to_nat at_)) (text E)
  /\ cx (editorDelRow at_ E) = cx E /\ cy (editorDelRow at_ E) = cy E
  /\ numrows (editorDelRow at_ E) = numrows E - 1
  /\ dirty (editorDelRow at_ E) = dirty E + 1.
Proof.
  intros Hok Hat. pose proof Hok as (Hnum & _).
  destruct (editorDelRow_rows at_ E Hnum Hat) as (Hrows & Hn & Hd).
  split.
  - unfold text. rewrite Hrows, map_app, firstn_map, map_map, skipn_map.
    rewrite Nat.add_1_r. reflexivity.
  - unfold editorDelRow.
    destruct (Z.ltb_spec at_ 0); [lia|].
    destruct (Z.geb_spec at_ (numrows E)); [lia|]. simpl. auto.
Qed.

(** ** Lists split at a position *)

Lemma split_at {A : Type} (d : A) (l : list A) (n : nat) :
  (n < length l)%nat -> l = firstn n l ++ nth n l d :: skipn (S n) l.
Proof.
  revert n. induction l as [|a l IH]; intros n Hn; simpl in Hn; [lia|].
  destruct n as [|n]; [reflexivity|].
  simpl. f_equal. apply IH. lia.
Qed.

Lemma firstn_pre {A : Type} (pre rest : list A) (n : nat) :
  length pre = n -> firstn n (pre ++ rest) = pre.
Proof.
  intros <-. rewrite firstn_app, Nat.sub_diag, firstn_all. simpl.
  apply app_nil_r.
Qed.

Lemma skipn_pre {A : Type} (pre rest : list A) (n : nat) :
  length pre = n -> skipn n (pre ++ rest) = rest.
Proof.
  intros <-. rewrite skipn_app, Nat.sub_diag, skipn_all. reflexivity.
Qed.

Lemma skipn_S_pre {A : Type} (pre rest : list A) (x : A) (n : nat) :
  length pre = n -> skipn (S n) (pre ++ x :: rest) = rest.
Proof.
  intros H. replace (pre ++ x :: rest) with ((pre ++ [x]) ++ rest)
    by (rewrite <- app_assoc; reflexivity).
  apply skipn_pre. rewrite length_app. simpl. lia.
Qed.

Lemma firstn_S_pre {A : Type} (pre rest : list A) (x : A) (n : nat) :
  length pre = n -> firstn (S n) (pre ++ x :: rest) = pre ++ [x].
Proof.
  intros H. replace (pre ++ x :: rest) with ((pre ++ [x]) ++ rest)
    by (rewrite <- app_assoc; reflexivity).
  apply firstn_pre. rewrite length_app. simpl. lia.
Qed.

Lemma nth_pre {A : Type} (pre rest : list A) (x d : A) (n : nat) :
  length pre = n -> nth n (pre ++ x :: rest) d = x.
Proof. intros <-. rewrite app_nth2, Nat.sub_diag by lia. reflexivity. Qed.

(** The text around the line of the cursor. *)
Lemma text_at_cursor (E : editorConfig) (y : Z) :
  buffer_ok E -> 0 <= y < numrows E ->
  exists pre r post,
    nth_error (row E) (Z.to_nat y) = Some r
    /\ text E = pre ++ chars r :: post
    /\ length pre = Z.to_nat y
    /\ size r = Z.of_nat (length (chars r)).
Proof.
  intros Hok Hy. pose proof Hok as (Hnum & _).
  destruct (row_at_cursor E y Hok Hy) as [r Hr].
  destruct (buffer_ok_row _ _ _ Hok Hr) as (Hs & _).
  exists (firstn (Z.to_nat y) (text E)), r, (skipn (S (Z.to_nat y)) (text E)).
  split; [exact Hr|]. split.
  - rewrite <- (text_nth _ _ _ Hr). apply split_at. rewrite text_length. lia.
  - split; [|exact Hs]. rewrite length_firstn, text_length. lia.
Qed.

(** ** The edits, on the document *)

Lemma editorInsertChar_refines (c : Z) (E : editorConfig) :
  buffer_ok E -> cursor_ok E ->
  exists E',
    editorInsertChar c E = Ok E'
    /\ buffer_ok E'
    /\ doc_of E' = type_char (char_of_int c) (doc_of E)
    /\ dirty E < dirty E'.
Proof.
  intros Hok Hc. pose proof Hc as (Hcy & Hcx & Hend & Hcol).
  pose proof Hok as (Hnum & _).
  unfold editorInsertChar.
  destruct (Z.eqb_spec (cy E) (numrows E)) as [Heq|Hne].
  - destruct (editorInsertRow_text (numrows E) [] 0 E Hok ltac:(lia)
                ltac:(simpl; lia))
      as (E1 & -> & Hok1 & Ht1 & Hx1 & Hy1 & Hn1 & Hd1).
    cbn [bind].
    assert (Hlen : length (text E) = Z.to_nat (numrows E))
      by (rewrite text_length; lia).
    rewrite <- (app_nil_r (text E)) in Ht1 at 1 2.
    rewrite (firstn_pre _ _ _ Hlen), (skipn_pre _ _ _ Hlen) in Ht1.
    simpl firstn in Ht1.
    destruct (text_at_cursor E1 (cy E1) Hok1 ltac:(lia))
      as (pre & r & post & Hr & Ht & Hpre & Hsz).
    assert (Hr0 : chars r = []).
    { rewrite <- (text_nth _ _ _ Hr), Ht1, Hy1, Heq.
      apply nth_pre. exact Hlen. }
    destruct (editorRowInsertChar_text (Z.to_nat (cy E1)) (cx E1) c E1 r
                Hok1 Hr) as (E2 & -> & Hok2 & Ht2 & Hx2 & Hy2 & Hn2 & Hd2).
    { rewrite Hsz, Hr0, Hx1, (Hend Heq). simpl. lia. }
    cbn [bind]. eexists. split; [reflexivity|].
    split; [apply buffer_ok_set_cursor; exact Hok2|].
    split; [|simpl; lia].
    unfold doc_of, type_char, set_line, line_at. simpl.
    f_equal; [|lia|lia].
    change (text (set_cursor E2 (cx E2 + 1) (cy E2))) with (text E2).
    rewrite Ht2, Ht1, Hr0, Hy1, Hx1, Heq.
    rewrite (firstn_pre _ _ _ Hlen), (skipn_S_pre _ _ _ _ Hlen).
    rewrite nth_overflow by lia.
    rewrite <- (app_nil_r (text E)) at 2 3.
    rewrite (firstn_pre _ _ _ Hlen), skipn_all2 by (rewrite app_nil_r; lia).
    reflexivity.
  - cbn [bind].
    destruct (text_at_cursor E (cy E) Hok ltac:(lia))
      as (pre & r & post & Hr & Ht & Hpre & Hsz).
    destruct (editorRowInsertChar_text (Z.to_nat (cy E)) (cx E) c E r Hok Hr)
      as (E2 & -> & Hok2 & Ht2 & Hx2 & Hy2 & Hn2 & Hd2).
    { specialize (Hcol r Hr). lia. }
    cbn [bind]. eexists. split; [reflexivity|].
    split; [apply buffer_ok_set_cursor; exact Hok2|].
    split; [|simpl; lia].
    unfold doc_of, type_char, set_line, line_at. simpl.
    f_equal; [|lia|lia].
    change (text (set_cursor E2 (cx E2 + 1) (cy E2))) with (text E2).
    rewrite Ht2, (text_nth _ _ _ Hr). reflexivity.
Qed.

Lemma editorInsertNewline_refines (E : editorConfig) :
  buffer_ok E -> cursor_ok E ->
  exists E',
    editorInsertNewline E = Ok E'
    /\ buffer_ok E'
    /\ doc_of E' = break_line (doc_of E)
    /\ dirty E < dirty E'.
Proof.
  intros Hok Hc. pose proof Hc as (Hcy & Hcx & Hend & Hcol).
  pose proof Hok as (Hnum & _).
  assert (Hlen : length (text E) = Z.to_nat (numrows E))
    by (rewrite text_length; lia).
  unfold editorInsertNewline.
  destruct (Z.eqb_spec (cx E) 0) as [Hz|Hnz].
  - destruct (editorInsertRow_text (cy E) [] 0 E Hok Hcy ltac:(simpl; lia))
      as (E1 & -> & Hok1 & Ht1 & Hx1 & Hy1 & Hn1 & Hd1).
    cbn [bind]. eexists. split; [reflexivity|].
    split; [apply buffer_ok_set_cursor; exact Hok1|].
    split; [|simpl; lia].
    unfold doc_of, break_line, set_line, line_at.
    cbn [doc_lines doc_col doc_line cx cy set_cursor].
    change (text (set_cursor E1 0 (cy E1 + 1))) with (text E1).
    rewrite Hy1, Ht1, Hz. f_equal.
    destruct (Z.ltb_spec (cy E) (Z.of_nat (length (text E)))) as [Hlt|Hge].
    + destruct (text_at_cursor E (cy E) Hok ltac:(lia))
        as (pre & r & post & Hr & Ht & Hpre & Hsz).
      rewrite Ht, (firstn_pre _ _ _ Hpre), (skipn_pre _ _ _ Hpre),
        (skipn_S_pre _ _ _ _ Hpre), (nth_pre _ _ _ _ _ Hpre).
      reflexivity.
    + assert (Hy : Z.to_nat (cy E) = length (text E)) by lia.
      rewrite Hy, firstn_all, skipn_all. reflexivity.
  - assert (Hin : 0 <= cy E < numrows E) by lia.
    destruct (text_at_cursor E (cy E) Hok Hin)
      as (pre & r & post & Hr & Ht & Hpre & Hsz).
    rewrite (get_row_some _ _ _ Hr). cbn [bind].
    specialize (Hcol r Hr).
    destruct (editorInsertRow_text (cy E + 1)
                (skipn (Z.to_nat (cx E)) (chars r)) (size r - cx E) E Hok
                ltac:(lia) ltac:(rewrite length_skipn; lia))
      as (E1 & -> & Hok1 & Ht1 & Hx1 & Hy1 & Hn1 & Hd1).
    cbn [bind].
    replace (Z.to_nat (cy E + 1)) with (S (Z.to_nat (cy E))) in Ht1 by lia.
    rewrite Ht, (firstn_S_pre _ _ _ _ Hpre), (skipn_S_pre _ _ _ _ Hpre) in Ht1.
    rewrite firstn_all2 in Ht1 by (rewrite length_skipn; lia).
    rewrite <- app_assoc in Ht1. cbn [app] in Ht1.
    destruct (text_at_cursor E1 (cy E1) Hok1 ltac:(lia))
      as (pre1 & r1 & post1 & Hr1 & Ht1' & Hpre1 & Hsz1).
    assert (Hc1 : chars r1 = chars r).
    { rewrite <- (text_nth _ _ _ Hr1), Ht1, Hy1. apply nth_pre. exact Hpre. }
    rewrite (get_row_some _ _ _ Hr1). cbn [bind].
    destruct (edit_row_text E1 (Z.to_nat (cy E1)) r1
                (firstn (Z.to_nat (cx E1)) (chars r1)) (cx E1) Hok1 Hr1)
      as (E2 & -> & Hok2 & Ht2 & Hx2 & Hy2 & Hn2 & Hd2).
    { rewrite length_firstn, Hc1, Hx1. lia. }
    cbn [bind]. eexists. split; [reflexivity|].
    split; [apply buffer_ok_set_cursor; exact Hok2|].
    split; [|simpl; lia].
    unfold doc_of, break_line, set_line, line_at.
    cbn [doc_lines doc_col doc_line cx cy set_cursor].
    change (text (set_cursor E2 0 (cy E2 + 1))) with (text E2).
    destruct (Z.ltb_spec (cy E) (Z.of_nat (length (text E)))) as [Hlt|Hge];
      [|lia].
    f_equal; [|lia].
    rewrite Ht2, Ht1, Hy1, Hx1, Hc1.
    rewrite (firstn_pre _ _ _ Hpre), (skipn_S_pre _ _ _ _ Hpre).
    rewrite Ht, (firstn_pre _ _ _ Hpre), (skipn_S_pre _ _ _ _ Hpre),
      (nth_pre _ _ _ _ _ Hpre).
    reflexivity.
Qed.

Lemma editorDelChar_refines (E : editorConfig) :
  buffer_ok E -> cursor_ok E ->
  exists E',
    editorDelChar E = Ok E'
    /\ buffer_ok E'
    /\ doc_of E' = backspace (doc_of E)
    /\ (backspace (doc_of E) = doc_of E -> E' = E)
    /\ (backspace (doc_of E) <> doc_of E -> dirty E < dirty E').
Proof.
  intros Hok Hc. pose proof Hc as (Hcy & Hcx & Hend & Hcol).
  pose proof Hok as (Hnum & _).
  assert (Hlen : Z.of_nat (length (text E)) = numrows E)
    by (rewrite text_length; lia).
  unfold editorDelChar, backspace.
  cbn [doc_of doc_lines doc_col doc_line]. rewrite Hlen.
  destruct ((cy E =? numrows E) || ((cx E =? 0) && (cy E =? 0))) eqn:Hnoop.
  { exists E. split; [reflexivity|]. split; [exact Hok|].
    split; [reflexivity|]. split; [reflexivity|].
    intros H. contradiction H. reflexivity. }
  apply orb_false_iff in Hnoop. destruct Hnoop as [Hne Hstart].
  apply Z.eqb_neq in Hne.
  destruct (text_at_cursor E (cy E) Hok ltac:(lia))
    as (pre & r & post & Hr & Ht & Hpre & Hsz).
  rewrite (get_row_some _ _ _ Hr). cbn [bind].
  specialize (Hcol r Hr).
  destruct (Z.gtb_spec (cx E) 0) as [Hpos|Hz].
  - destruct (editorRowDelChar_text (Z.to_nat (cy E)) (cx E - 1) E r Hok Hr)
      as (E1 & -> & Hok1 & Ht1 & Hx1 & Hy1 & Hn1 & Hd1); [lia|].
    cbn [bind]. eexists. split; [reflexivity|].
    split; [apply buffer_ok_set_cursor; exact Hok1|].
    assert (Hdoc : doc_of (set_cursor E1 (cx E1 - 1) (cy E1))
                   = mkDoc (set_line (text E) (cy E)
                              [delete_at (line_at (text E) (cy E)) (cx E - 1)])
                       (cx E - 1) (cy E)).
    { unfold doc_of, set_line, line_at.
      cbn [doc_lines doc_col doc_line cx cy set_cursor].
      change (text (set_cursor E1 (cx E1 - 1) (cy E1))) with (text E1).
      rewrite Ht1, Hx1, Hy1, (text_nth _ _ _ Hr). reflexivity. }
    split; [exact Hdoc|].
    split.
    + intros H. exfalso. apply (f_equal doc_col) in H. simpl in H. lia.
    + intros _. simpl. lia.
  - assert (Hx0 : cx E = 0) by lia. rewrite Hx0 in Hstart. simpl in Hstart.
    apply Z.eqb_neq in Hstart.
    destruct (text_at_cursor E (cy E - 1) Hok ltac:(lia))
      as (pre0 & prev & post0 & Hprev & Ht0 & Hpre0 & Hsz0).
    rewrite (get_row_some _ _ _ Hprev). cbn [bind].
    rewrite Hsz.
    destruct (editorRowAppendString_text (Z.to_nat (cy E - 1)) (chars r)
                (set_cursor E (size prev) (cy E)) prev
                (buffer_ok_set_cursor _ _ _ Hok) Hprev)
      as (E1 & He1 & Hok1 & Ht1 & Hx1 & Hy1 & Hn1 & Hd1).
    cbn [cy set_cursor] in *. rewrite He1. cbn [bind].
    destruct (editorDelRow_text (cy E1) E1 Hok1 ltac:(simpl in *; lia))
      as (Ht2 & Hx2 & Hy2 & Hn2 & Hd2).
    eexists. split; [reflexivity|].
    split; [apply buffer_ok_set_cursor, editorDelRow_ok; exact Hok1|].
    assert (Hdoc : doc_of (set_cursor (editorDelRow (cy E1) E1)
                             (cx (editorDelRow (cy E1) E1))
                             (cy (editorDelRow (cy E1) E1) - 1))
                   = mkDoc (firstn (Z.to_nat (cy E - 1)) (text E)
                              ++ (line_at (text E) (cy E - 1)
                                  ++ line_at (text E) (cy E))
                              :: skipn (S (Z.to_nat (cy E))) (text E))
                       (Z.of_nat (length (line_at (text E) (cy E - 1))))
                       (cy E - 1)).
    { unfold doc_of, line_at.
      cbn [doc_lines doc_col doc_line cx cy set_cursor].
      match goal with
      | |- context [text (set_cursor ?a ?b ?c)] =>
          change (text (set_cursor a b c)) with (text a)
      end.
      rewrite Ht2, Hx2, Hy2, Hx1, Hy1, Ht1.
      change (text (set_cursor E (size prev) (cy E))) with (text E).
      rewrite (text_nth _ _ _ Hr), (text_nth _ _ _ Hprev).
      simpl cx. rewrite Hsz0. f_equal.
      set (A := firstn (Z.to_nat (cy E - 1)) (text E)).
      assert (HA : length A = Z.to_nat (cy E - 1))
        by (unfold A; rewrite length_firstn, text_length; lia).
      assert (HA1 : length (A ++ [chars prev ++ chars r]) = Z.to_nat (cy E))
        by (rewrite length_app; simpl; lia).
      replace (A ++ (chars prev ++ chars r)
                 :: skipn (S (Z.to_nat (cy E - 1))) (text E))
        with ((A ++ [chars prev ++ chars r])
                ++ skipn (S (Z.to_nat (cy E - 1))) (text E))
        by (rewrite <- app_assoc; reflexivity).
      rewrite (firstn_pre _ _ _ HA1).
      replace (S (Z.to_nat (cy E - 1))) with (Z.to_nat (cy E)) by lia.
      rewrite Ht at 1. rewrite (skipn_pre _ _ _ Hpre).
      rewrite (skipn_S_pre _ _ _ _ HA1).
      rewrite Ht, (skipn_S_pre _ _ _ _ Hpre), <- app_assoc. reflexivity. }
    split; [exact Hdoc|].
    split.
    + intros H. exfalso. apply (f_equal doc_line) in H. simpl in H. lia.
    + intros _. simpl in *. lia.
Qed.

(** ** The document operations keep the cursor valid *)

Lemma doc_split (d : document) :
  0 <= doc_line d < Z.of_nat (length (doc_lines d)) ->
  exists pre l post,
    doc_lines d = pre ++ l :: post /\ length pre = Z.to_nat (doc_line d).
Proof.
  intros Hy.
  exists (firstn (Z.to_nat (doc_line d)) (doc_lines d)),
         (line_at (doc_lines d) (doc_line d)),
         (skipn (S (Z.to_nat (doc_line d))) (doc_lines d)).
  split; [apply split_at; lia|]. rewrite length_firstn. lia.
Qed.

Lemma set_line_split (pre post : list (list ascii)) (l : list ascii) (y : Z)
  (ls : list (list ascii)) :
  length pre = Z.to_nat y ->
  set_line (pre ++ l :: post) y ls = pre ++ ls ++ post.
Proof.
  intros H. unfold set_line.
  rewrite (firstn_pre _ _ _ H), (skipn_S_pre _ _ _ _ H). reflexivity.
Qed.

Lemma line_at_split (pre post : list (list ascii)) (l : list ascii) (y : Z) :
  length pre = Z.to_nat y -> line_at (pre ++ l :: post) y = l.
Proof. intros H. apply nth_pre. exact H. Qed.

Lemma length_insert_at (l : list ascii) (x : Z) (c : ascii) :
  length (insert_at l x c) = S (length l).
Proof. apply length_insert_char. Qed.

Lemma length_delete_at (l : list ascii) (x : Z) :
  0 <= x < Z.of_nat (length l) ->
  length (delete_at l x) = (length l - 1)%nat.
Proof.
  intros Hx. unfold delete_at.
  rewrite length_app, length_firstn, length_skipn. lia.
Qed.

Lemma type_char_cursor (c : ascii) (d : document) :
  doc_cursor_ok d -> doc_cursor_ok (type_char c d).
Proof.
  intros (Hy & Hx & Hend & Hcol). unfold doc_cursor_ok, type_char, set_line.
  cbn [doc_lines doc_col doc_line].
  set (t := doc_lines d) in *. set (y := doc_line d) in *.
  assert (Hpre : length (firstn (Z.to_nat y) t) = Z.to_nat y)
    by (rewrite length_firstn; lia).
  assert (Hline : line_at (firstn (Z.to_nat y) t
                           ++ [insert_at (line_at t y) (doc_col d) c]
                           ++ skipn (S (Z.to_nat y)) t) y
                  = insert_at (line_at t y) (doc_col d) c).
  { unfold line_at at 1. apply nth_pre. exact Hpre. }
  rewrite Hline, length_insert_at, !length_app, Hpre, length_skipn.
  simpl length.
  split; [lia|]. split; [lia|]. split; [lia|].
  intros _. destruct (Z.eq_dec y (Z.of_nat (length t))) as [He|Hne].
  - rewrite (Hend He). lia.
  - specialize (Hcol ltac:(lia)). lia.
Qed.

Lemma break_line_cursor (d : document) :
  doc_cursor_ok d -> doc_cursor_ok (break_line d).
Proof.
  intros (Hy & Hx & Hend & Hcol). unfold doc_cursor_ok, break_line, set_line.
  cbn [doc_lines doc_col doc_line].
  set (t := doc_lines d) in *. set (y := doc_line d) in *.
  assert (Hpre : length (firstn (Z.to_nat y) t) = Z.to_nat y)
    by (rewrite length_firstn; lia).
  destruct (Z.ltb_spec y (Z.of_nat (length t))) as [Hlt|Hge].
  - rewrite !length_app, Hpre, length_skipn. simpl length.
    split; [lia|]. split; [lia|]. split; [reflexivity|]. lia.
  - rewrite length_app. simpl length.
    split; [lia|]. split; [lia|]. split; [reflexivity|]. lia.
Qed.

Lemma backspace_cursor (d : document) :
  doc_cursor_ok d -> doc_cursor_ok (backspace d).
Proof.
  intros Hd. pose proof Hd as (Hy & Hx & Hend & Hcol).
  unfold backspace.
  destruct ((doc_line d =? Z.of_nat (length (doc_lines d)))
            || ((doc_col d =? 0) && (doc_line d =? 0))) eqn:Hnoop;
    [exact Hd|].
  apply orb_false_iff in Hnoop. destruct Hnoop as [Hne Hstart].
  apply Z.eqb_neq in Hne. specialize (Hcol ltac:(lia)).
  set (t := doc_lines d) in *. set (y := doc_line d) in *.
  destruct (Z.gtb_spec (doc_col d) 0) as [Hpos|Hz].
  - unfold doc_cursor_ok, set_line. cbn [doc_lines doc_col doc_line].
    assert (Hpre : length (firstn (Z.to_nat y) t) = Z.to_nat y)
      by (rewrite length_firstn; lia).
    assert (Hline : line_at (firstn (Z.to_nat y) t
                             ++ [delete_at (line_at t y) (doc_col d - 1)]
                             ++ skipn (S (Z.to_nat y)) t) y
                    = delete_at (line_at t y) (doc_col d - 1)).
    { unfold line_at at 1. apply nth_pre. exact Hpre. }
    rewrite Hline, length_delete_at, !length_app, Hpre, length_skipn by lia.
    simpl length. split; [lia|]. split; [lia|]. split; [lia|]. lia.
  - assert (Hx0 : doc_col d = 0) by lia. rewrite Hx0 in Hstart.
    simpl in Hstart. apply Z.eqb_neq in Hstart.
    unfold doc_cursor_ok. cbn [doc_lines doc_col doc_line].
    assert (Hpre : length (firstn (Z.to_nat (y - 1)) t) = Z.to_nat (y - 1))
      by (rewrite length_firstn; lia).
    assert (Hline : line_at (firstn (Z.to_nat (y - 1)) t
                             ++ (line_at t (y - 1) ++ line_at t y)
                             :: skipn (S (Z.to_nat y)) t) (y - 1)
                    = line_at t (y - 1) ++ line_at t y).
    { unfold line_at at 1. apply nth_pre. exact Hpre. }
    rewrite Hline, !length_app, Hpre. simpl length. rewrite length_skipn.
    split; [lia|]. split; [lia|]. split; [lia|]. lia.
Qed.

(** ** Backspace undoes typing *)

Lemma backspace_type_char (c : ascii) (d : document) :
  doc_cursor_ok d -> doc_line d < Z.of_nat (length (doc_lines d)) ->
  backspace (type_char c d) = d.
Proof.
  intros (Hy & Hx & Hend & Hcol) Hlt. specialize (Hcol Hlt).
  destruct (doc_split d ltac:(lia)) as (pre & l & post & Ht & Hpre).
  destruct d as [t x y]. cbn [doc_lines doc_col doc_line] in *. subst t.
  rewrite (line_at_split _ _ _ _ Hpre) in Hcol.
  unfold type_char. cbn [doc_lines doc_col doc_line].
  rewrite (line_at_split _ _ _ _ Hpre), (set_line_split _ _ _ _ _ Hpre).
  cbn [app]. unfold backspace. cbn [doc_lines doc_col doc_line].
  rewrite !length_app in *. cbn [length] in *.
  destruct (Z.eqb_spec y (Z.of_nat (length pre + S (length post)))); [lia|].
  destruct (Z.eqb_spec (x + 1) 0); [lia|]. cbn [orb andb].
  destruct (Z.gtb_spec (x + 1) 0); [|lia].
  rewrite (line_at_split _ _ _ _ Hpre), (set_line_split _ _ _ _ _ Hpre).
  cbn [app]. f_equal; [|lia]. do 2 f_equal.
  unfold delete_at, insert_at.
  replace (x + 1 - 1) with x by lia.
  assert (Hf : length (firstn (Z.to_nat x) l) = Z.to_nat x)
    by (rewrite length_firstn; lia).
  rewrite (firstn_pre _ _ _ Hf), (skipn_S_pre _ _ _ _ Hf).
  apply firstn_skipn.
Qed.

Lemma backspace_break_line (d : document) :
  doc_cursor_ok d -> doc_line d < Z.of_nat (length (doc_lines d)) ->
  backspace (break_line d) = d.
Proof.
  intros (Hy & Hx & Hend & Hcol) Hlt. specialize (Hcol Hlt).
  destruct (doc_split d ltac:(lia)) as (pre & l & post & Ht & Hpre).
  destruct d as [t x y]. cbn [doc_lines doc_col doc_line] in *. subst t.
  rewrite (line_at_split _ _ _ _ Hpre) in Hcol.
  unfold break_line. cbn [doc_lines doc_col doc_line].
  rewrite (line_at_split _ _ _ _ Hpre), (set_line_split _ _ _ _ _ Hpre).
  destruct (Z.ltb_spec y (Z.of_nat (length (pre ++ l :: post)))); [|lia].
  set (a := firstn (Z.to_nat x) l). set (b := skipn (Z.to_nat x) l).
  cbn [app]. unfold backspace. cbn [doc_lines doc_col doc_line].
  rewrite !length_app in *. cbn [length] in *.
  destruct (Z.eqb_spec (y + 1) (Z.of_nat (length pre + S (S (length post)))));
    [lia|].
  destruct (Z.eqb_spec (y + 1) 0); [lia|].
  rewrite andb_false_r. cbn [orb].
  change (0 >? 0) with false. cbv iota.
  replace (y + 1 - 1) with y by lia.
  assert (Hpre1 : length (pre ++ [a]) = Z.to_nat (y + 1))
    by (rewrite length_app; simpl; lia).
  rewrite (line_at_split _ _ _ _ Hpre).
  replace (pre ++ a :: b :: post) with ((pre ++ [a]) ++ b :: post)
    by (rewrite <- app_assoc; reflexivity).
  rewrite (line_at_split _ _ _ _ Hpre1).
  rewrite <- app_assoc. cbn [app]. rewrite (firstn_pre _ _ _ Hpre).
  replace (pre ++ a :: b :: post) with ((pre ++ [a]) ++ b :: post)
    by (rewrite <- app_assoc; reflexivity).
  replace (S (Z.to_nat (y + 1))) with (S (length (pre ++ [a]))) by lia.
  rewrite (skipn_S_pre _ _ _ _ eq_refl).
  f_equal.
  - unfold a, b. rewrite firstn_skipn. reflexivity.
  - unfold a. rewrite length_firstn. lia.
Qed.

(** X9.  The three edits of the editor refine the operations of the
    document (lines of text and cursor).  On a well-formed buffer with a
    valid cursor each of [editorInsertChar], [editorInsertNewline] and
    [editorDelChar] returns a well-formed buffer with a valid cursor whose
    document is that of [type_char], [break_line] and [backspace]; the two
    insertions raise [dirty]; a backspace that changes nothing returns the
    state it was given, and one that changes the document raises
    [dirty]. *)
Theorem edits_refine_document :
  forall E,
    buffer_ok E -> cursor_ok E ->
    (forall c,
        exists E',
          editorInsertChar c E = Ok E'
          /\ buffer_ok E' /\ cursor_ok E'
          /\ doc_of E' = type_char (char_of_int c) (doc_of E)
          /\ dirty E < dirty E')
    /\ (exists E',
           editorInsertNewline E = Ok E'
           /\ buffer_ok E' /\ cursor_ok E'
           /\ doc_of E' = break_line (doc_of E)
           /\ dirty E < dirty E')
    /\ (exists E',
           editorDelChar E = Ok E'
           /\ buffer_ok E' /\ cursor_ok E'
           /\ doc_of E' = backspace (doc_of E)
           /\ (backspace (doc_of E) = doc_of E -> E' = E)
           /\ (backspace (doc_of E) <> doc_of E -> dirty E < dirty E')).
Proof.
  intros E Hok Hc.
  pose proof (proj1 (cursor_ok_doc E Hok) Hc) as Hd.
  split; [|split].
  - intros c.
    destruct (editorInsertChar_refines c E Hok Hc) as (E' & He & Hok' & Hr & Hdy).
    exists E'. split; [exact He|]. split; [exact Hok'|].
    split; [|split; assumption].
    apply (cursor_ok_doc E' Hok'). rewrite Hr. apply type_char_cursor, Hd.
  - destruct (editorInsertNewline_refines E Hok Hc)
      as (E' & He & Hok' & Hr & Hdy).
    exists E'. split; [exact He|]. split; [exact Hok'|].
    split; [|split; assumption].
    apply (cursor_ok_doc E' Hok'). rewrite Hr. apply break_line_cursor, Hd.
  - destruct (editorDelChar_refines E Hok Hc)
      as (E' & He & Hok' & Hr & Hsame & Hdy).
    exists E'. split; [exact He|]. split; [exact Hok'|].
    split; [|split; [|split]; assumption].
    apply (cursor_ok_doc E' Hok'). rewrite Hr. apply backspace_cursor, Hd.
Qed.

Lemma edits_refine_document_witness :
  buffer_ok (set_cursor loaded_doc 5 1)
  /\ cursor_ok (set_cursor loaded_doc 5 1)
  /\ exists E',
      editorInsertNewline (set_cursor loaded_doc 5 1) = Ok E'
      /\ doc_of E' = break_line (doc_of (set_cursor loaded_doc 5 1)).
Proof.
  assert (Hok : buffer_ok (set_cursor loaded_doc 5 1))
    by (apply buffer_okb_sound; vm_compute; reflexivity).
  assert (Hc : cursor_ok (set_cursor loaded_doc 5 1))
    by (apply cursor_okb_sound; vm_compute; reflexivity).
  split; [exact Hok|]. split; [exact Hc|].
  destruct (proj1 (proj2 (edits_refine_document _ Hok Hc)))
    as (E' & He & _ & _ & Hr & _).
  exists E'. split; [exact He | exact Hr].
Defined.

(** X10.  Backspace undoes typing.  On a well-formed buffer with the
    cursor on a row, [editorDelChar] after [editorInsertChar], and
    [editorDelChar] after [editorInsertNewline], return a well-formed
    buffer with the text and the cursor as they were. *)
Theorem backspace_undoes_typing :
  forall E,
    buffer_ok E -> cursor_ok E -> cy E < numrows E ->
    (forall c,
        exists E1 E2,
          editorInsertChar c E = Ok E1 /\ editorDelChar E1 = Ok E2
          /\ buffer_ok E2 /\ doc_of E1 <> doc_of E /\ doc_of E2 = doc_of E)
    /\ (exists E1 E2,
           editorInsertNewline E = Ok E1 /\ editorDelChar E1 = Ok E2
           /\ buffer_ok E2 /\ doc_of E1 <> doc_of E /\ doc_of E2 = doc_of E).
Proof.
  intros E Hok Hc Hrow.
  pose proof (proj1 (cursor_ok_doc E Hok) Hc) as Hd.
  assert (Hlt : doc_line (doc_of E) < Z.of_nat (length (doc_lines (doc_of E)))).
  { destruct Hok as (Hnum & _). simpl. rewrite text_length. lia. }
  split.
  - intros c.
    destruct (editorInsertChar_refines c E Hok Hc) as (E1 & He1 & Hok1 & Hr1 & _).
    assert (Hc1 : cursor_ok E1).
    { apply (cursor_ok_doc E1 Hok1). rewrite Hr1. apply type_char_cursor, Hd. }
    destruct (editorDelChar_refines E1 Hok1 Hc1) as (E2 & He2 & Hok2 & Hr2 & _).
    exists E1, E2. split; [exact He1|]. split; [exact He2|].
    split; [exact Hok2|]. split.
    + rewrite Hr1. intros H. apply (f_equal doc_col) in H. simpl in H. lia.
    + rewrite Hr2, Hr1. apply backspace_type_char; assumption.
  - destruct (editorInsertNewline_refines E Hok Hc)
      as (E1 & He1 & Hok1 & Hr1 & _).
    assert (Hc1 : cursor_ok E1).
    { apply (cursor_ok_doc E1 Hok1). rewrite Hr1. apply break_line_cursor, Hd. }
    destruct (editorDelChar_refines E1 Hok1 Hc1) as (E2 & He2 & Hok2 & Hr2 & _).
    exists E1, E2. split; [exact He1|]. split; [exact He2|].
    split; [exact Hok2|]. split.
    + rewrite Hr1. intros H. apply (f_equal doc_line) in H. simpl in H. lia.
    + rewrite Hr2, Hr1. apply backspace_break_line; assumption.
Qed.

Lemma backspace_undoes_typing_witness :
  buffer_ok (set_cursor loaded_doc 5 1)
  /\ cursor_ok (set_cursor loaded_doc 5 1)
  /\ cy (set_cursor loaded_doc 5 1) < numrows (set_cursor loaded_doc 5 1)
  /\ exists E1 E2,
      editorInsertNewline (set_cursor loaded_doc 5 1) = Ok E1
      /\ editorDelChar E1 = Ok E2
      /\ doc_of E2 = doc_of (set_cursor loaded_doc 5 1).
Proof.
  assert (Hok : buffer_ok (set_cursor loaded_doc 5 1))
    by (apply buffer_okb_sound; vm_compute; reflexivity).
  assert (Hc : cursor_ok (set_cursor loaded_doc 5 1))
    by (apply cursor_okb_sound; vm_compute; reflexivity).
  assert (Hy : cy (set_cursor loaded_doc 5 1)
               < numrows (set_cursor loaded_doc 5 1))
    by (vm_compute; reflexivity).
  split; [exact Hok|]. split; [exact Hc|]. split; [exact Hy|].
  destruct (proj2 (backspace_undoes_typing _ Hok Hc Hy))
    as (E1 & E2 & H1 & H2 & _ & _ & H3).
  exists E1, E2. auto.
Defined.

(** ** Saving and loading again *)

Lemma split_lines_line (l : list ascii) (rest : list ascii) :
  ~ In LF l -> split_lines (l ++ LF :: rest) = l :: split_lines rest.
Proof.
  induction l as [|c t IH]; intros Hl; simpl.
  - replace (Ascii.eqb LF LF) with true by reflexivity. reflexivity.
  - destruct (Ascii.eqb c LF) eqn:Hc.
    + exfalso. apply Hl. left. symmetry. apply ascii_eqb_true. exact Hc.
    + rewrite IH; [reflexivity|]. intros H. apply Hl. right. exact H.
Qed.

Lemma split_lines_join (ls : list (list ascii)) :
  Forall (fun l => ~ In LF l) ls ->
  split_lines (flat_map (fun cs => cs ++ [LF]) ls) = ls.
Proof.
  induction 1 as [|l ls Hl _ IH]; [reflexivity|].
  simpl. rewrite <- app_assoc. simpl. rewrite split_lines_line by exact Hl.
  rewrite IH. reflexivity.
Qed.

Lemma strip_trailing_keeps (l : list ascii) :
  (forall pre, l <> pre ++ [CR]) -> strip_trailing is_cr l = l.
Proof.
  intros H. destruct l as [|a l0]; [reflexivity|].
  destruct (exists_last (l := a :: l0)) as (l' & x & Hl); [discriminate|].
  rewrite Hl in *. rewrite strip_trailing_snoc. unfold is_cr.
  destruct (Ascii.eqb x CR) eqn:Hx; [|reflexivity].
  apply ascii_eqb_true in Hx. subst x. contradiction (H l'). reflexivity.
Qed.

(** X11.  A buffer that is saved and opened again has the same text.  For
    a well-formed buffer in which no row holds a line feed or ends in a
    carriage return, [editorOpen] on the string that [editorRowsToString]
    writes returns a well-formed, clean buffer with the same lines. *)
Theorem save_then_open_same_text :
  forall E fname,
    buffer_ok E ->
    Forall (fun l => ~ In LF l /\ forall pre, l <> pre ++ [CR]) (text E) ->
    exists E',
      editorOpen fname (Some (fst (editorRowsToString E))) initEditor = Ok E'
      /\ buffer_ok E' /\ dirty E' = 0
      /\ text E' = text E.
Proof.
  intros E fname Hok Hlines.
  destruct (editorOpen_rows fname (fst (editorRowsToString E)))
    as (E' & He & Hok' & Hd & Ht).
  exists E'. split; [exact He|]. split; [exact Hok'|]. split; [exact Hd|].
  unfold text. rewrite Ht, (editorRowsToString_spec E Hok).
  fold (text E). rewrite split_lines_join.
  - rewrite <- (map_id (text E)) at 2. apply map_ext_in.
    intros l Hl. apply strip_trailing_keeps.
    apply (proj1 (Forall_forall _ _) Hlines l Hl).
  - apply Forall_forall. intros l Hl.
    apply (proj1 (Forall_forall _ _) Hlines l Hl).
Qed.

Lemma plain_lineb_sound (ls : list (list ascii)) :
  forallb plain_lineb ls = true ->
  Forall (fun l => ~ In LF l /\ forall pre, l <> pre ++ [CR]) ls.
Proof.
  rewrite forallb_forall, Forall_forall. intros Hb l Hin.
  specialize (Hb l Hin). apply andb_prop in Hb. destruct Hb as [H1 H2].
  apply negb_true_iff in H1. apply negb_true_iff in H2. split.
  - intros HLF.
    assert (Hex : existsb (Ascii.eqb LF) l = true).
    { apply existsb_exists. exists LF. split; [exact HLF | reflexivity]. }
    rewrite Hex in H1. discriminate.
  - intros pre ->. rewrite last_last in H2. discriminate.
Qed.

Lemma save_then_open_same_text_witness :
  buffer_ok loaded_doc
  /\ Forall (fun l => ~ In LF l /\ forall pre, l <> pre ++ [CR])
       (text loaded_doc)
  /\ exists E',
      editorOpen (s2l "y.c") (Some (fst (editorRowsToString loaded_doc)))
        initEditor = Ok E'
      /\ text E' = text loaded_doc.
Proof.
  assert (Hok : buffer_ok loaded_doc)
    by (apply buffer_okb_sound; vm_compute; reflexivity).
  assert (Hl : Forall (fun l => ~ In LF l /\ forall pre, l <> pre ++ [CR])
                 (text loaded_doc))
    by (apply plain_lineb_sound; vm_compute; reflexivity).
  split; [exact Hok|]. split; [exact Hl|].
  destruct (save_then_open_same_text loaded_doc (s2l "y.c") Hok Hl)
    as (E' & He & _ & _ & Ht).
  exists E'. split; [exact He | exact Ht].
Defined.

(** X12.  A row that is inserted and deleted again.  On a well-formed
    buffer, [editorInsertRow] at a position of the buffer puts the first
    [len] characters of [s] before the line at that position, and
    [editorDelRow] at the same position then gives a well-formed buffer
    with the text and the number of rows as they were. *)
Theorem insert_row_then_delete :
  forall E at_ s len,
    buffer_ok E -> 0 <= at_ <= numrows E ->
    0 <= len <= Z.of_nat (length s) ->
    exists E1,
      editorInsertRow at_ s len E = Ok E1
      /\ text E1 = firstn (Z.to_nat at_) (text E)
                   ++ firstn (Z.to_nat len) s :: skipn (Z.to_nat at_) (text E)
      /\ buffer_ok (editorDelRow at_ E1)
      /\ text (editorDelRow at_ E1) = text E
      /\ numrows (editorDelRow at_ E1) = numrows E.
Proof.
  intros E at_ s len Hok Hat Hlen.
  destruct (editorInsertRow_text at_ s len E Hok Hat Hlen)
    as (E1 & He & Hok1 & Ht1 & _ & _ & Hn1 & _).
  exists E1. split; [exact He|]. split; [exact Ht1|].
  split; [apply editorDelRow_ok; exact Hok1|].
  destruct (editorDelRow_text at_ E1 Hok1 ltac:(lia)) as (Ht2 & _ & _ & Hn2 & _).
  split; [|lia].
  rewrite Ht2, Ht1.
  assert (Hpre : length (firstn (Z.to_nat at_) (text E)) = Z.to_nat at_).
  { rewrite length_firstn, text_length. destruct Hok as (Hnum & _). lia. }
  rewrite (firstn_pre _ _ _ Hpre), (skipn_S_pre _ _ _ _ Hpre).
  apply firstn_skipn.
Qed.

Lemma insert_row_then_delete_witness :
  buffer_ok loaded_doc /\ 0 <= 1 <= numrows loaded_doc
  /\ 0 <= 2 <= Z.of_nat (length (s2l "new"))
  /\ exists E1,
      editorInsertRow 1 (s2l "new") 2 loaded_doc = Ok E1
      /\ text (editorDelRow 1 E1) = text loaded_doc.
Proof.
  assert (Hok : buffer_ok loaded_doc)
    by (apply buffer_okb_sound; vm_compute; reflexivity).
  assert (H1 : 0 <= 1 <= numrows loaded_doc) by (vm_compute; split; discriminate).
  assert (H2 : 0 <= 2 <= Z.of_nat (length (s2l "new")))
    by (vm_compute; split; discriminate).
  split; [exact Hok|]. split; [exact H1|]. split; [exact H2|].
  destruct (insert_row_then_delete loaded_doc 1 (s2l "new") 2 Hok H1 H2)
    as (E1 & He & _ & _ & Ht & _).
  exists E1. split; [exact He | exact Ht].
Defined.

(** * The search command *)

Lemma editorScroll_inv (screenrows screencols : Z) (E E' : editorConfig) :
  editorScroll screenrows screencols E = Ok E' ->
  exists x co ro, E' = set_rowoff (set_coloff (set_rx E x) co) ro.
Proof.
  intros H.
  assert (Hx : exists x,
             (if cy E <? numrows E
              then r <- row_ref E (cy E) ;;
                   Ok (set_rx E (editorRowCxToRx E r (cx E)))
              else Ok (set_rx E 0)) = Ok (set_rx E x)).
  { unfold editorScroll in H.
    destruct (cy E <? numrows E); [|eauto].
    destruct (row_ref E (cy E)) as [r| |]; simpl in *;
      [eauto | discriminate | discriminate]. }
  destruct Hx as [x Hx].
  rewrite (editorScroll_offsets _ _ E x Hx) in H. injection H as <-.
  eauto.
Qed.

(** [editorScroll] returns whenever the cursor line is not negative and
    [numrows] does not exceed the number of rows. *)
Lemma editorScroll_total (screenrows screencols : Z) (E : editorConfig) :
  numrows E <= Z.of_nat (length (row E)) -> 0 <= cy E ->
  exists E', editorScroll screenrows screencols E = Ok E'.
Proof.
  intros Hnum Hcy. unfold editorScroll.
  destruct (Z.ltb_spec (cy E) (numrows E)) as [Hlt|Hge]; [|simpl; eauto].
  destruct (nth_error_in_range (row E) (Z.to_nat (cy E)) ltac:(lia))
    as [r Hr].
  rewrite (row_ref_some E (cy E) r Hcy Hr). simpl. eauto.
Qed.

Lemma find_restore_frame (fs fs' : find_state) (E E' : editorConfig) :
  find_restore fs E = Ok (fs', E') ->
  cx E' = cx E /\ cy E' = cy E /\ rx E' = rx E /\ rowoff E' = rowoff E
  /\ coloff E' = coloff E /\ numrows E' = numrows E /\ dirty E' = dirty E
  /\ filename E' = filename E /\ syntax E' = syntax E
  /\ tab_stop E' = tab_stop E.
Proof.
  unfold find_restore. destruct (saved_hl fs).
  - destruct (get_row E (Z.to_nat (saved_hl_line fs))); simpl;
      try discriminate.
    intros H. injection H as _ <-. simpl. repeat split.
  - intros H. injection H as _ <-. repeat split.
Qed.

Lemma find_scan_nonneg (n : nat) (E : editorConfig) (query : list ascii)
  (dir : Z) :
  forall current c off,
    find_scan n E query dir current = Ok (Some (c, off)) -> 0 <= c.
Proof.
  induction n as [|n IH]; intros current c off H; simpl in H;
    [discriminate|].
  match type of H with
  | (if ?c2 <? 0 then _ else _) = _ =>
      destruct (Z.ltb_spec c2 0) as [Hneg|Hpos]; [discriminate|];
      destruct (get_row E (Z.to_nat c2)) as [r| |]; simpl in H;
      try discriminate;
      destruct (strstr (render r) query);
      [injection H as <- _; exact Hpos | exact (IH _ _ _ H)]
  end.
Qed.

(** What a call of the callback leaves alone, and where it leaves the
    cursor line and its own state. *)
Lemma editorFindCallback_frame (query : list ascii) (key : Z)
  (fs fs' : find_state) (E E' : editorConfig) :
  editorFindCallback query key fs E = Ok (fs', E') ->
  numrows E' = numrows E /\ dirty E' = dirty E
  /\ filename E' = filename E /\ syntax E' = syntax E
  /\ tab_stop E' = tab_stop E
  /\ (0 <= cy E -> 0 <= cy E')
  /\ (key = KEY_ENTER \/ key = KEY_ESC ->
      last_match fs' = -1 /\ direction fs' = 1
      /\ cx E' = cx E /\ cy E' = cy E /\ rx E' = rx E
      /\ rowoff E' = rowoff E /\ coloff E' = coloff E).
Proof.
  unfold editorFindCallback. intros H.
  destruct (find_restore fs E) as [[fs1 E1]| |] eqn:Hr; simpl in H;
    try discriminate.
  destruct (find_restore_frame _ _ _ _ Hr)
    as (F1 & F2 & F3 & F4 & F5 & F6 & F7 & F8 & F9 & F10).
  destruct ((key =? KEY_ENTER) || (key =? KEY_ESC)) eqn:Hend.
  - injection H as <- <-. simpl.
    repeat split; try congruence; lia.
  - assert (Hkey : key = KEY_ENTER \/ key = KEY_ESC -> False).
    { apply orb_false_iff in Hend. destruct Hend as [H1 H2].
      apply Z.eqb_neq in H1, H2. tauto. }
    match type of H with
    | (found <- ?m ;; _) = _ => destruct m as [found| |] eqn:Hs
    end; simpl in H; try discriminate.
    destruct found as [[current off]|].
    + apply find_scan_nonneg in Hs.
      destruct (get_row E1 (Z.to_nat current)) as [r| |]; simpl in H;
        try discriminate.
      injection H as <- <-. simpl.
      repeat split; try congruence; try lia; intros K; destruct (Hkey K).
    + injection H as <- <-.
      repeat split; try congruence; try lia; intros K; destruct (Hkey K).
Qed.

Section Prompt.

Variable E0 : editorConfig.
Hypothesis E0_ok : buffer_ok E0.
Variables screenrows screencols : Z.

Lemma find_inv_rows (fs : find_state) (E E' : editorConfig) :
  row E' = row E -> numrows E' = numrows E ->
  find_inv E0 fs E -> find_inv E0 fs E'.
Proof.
  intros Hr Hn (H1 & H2 & H3 & H4). unfold find_inv.
  rewrite Hr, Hn. auto.
Qed.

Lemma find_inv_length (fs : find_state) (E : editorConfig) :
  find_inv E0 fs E -> numrows E = Z.of_nat (length (row E)).
Proof.
  intros (H1 & _ & _ & H4). destruct E0_ok as (Hnum & _). rewrite H1, Hnum.
  destruct (saved_hl fs).
  - destruct H4 as (_ & r0 & h' & Hr0 & _ & _ & ->).
    rewrite store_length; [reflexivity|]. eapply nth_error_lt; eauto.
  - rewrite H4. reflexivity.
Qed.

(** One turn of the loop of the prompt up to the call of the callback:
    the screen is refreshed and the callback runs on the key. *)
Lemma prompt_turn (buf : list ascii) (c : Z) (fs : find_state)
  (E : editorConfig) :
  prompt_inv E0 fs E ->
  exists E1 fs' E',
    editorScroll screenrows screencols E = Ok E1
    /\ call_back (Some editorFindCallback) buf c fs E1 = Ok (fs', E')
    /\ prompt_inv E0 fs' E'
    /\ (c = KEY_ENTER \/ c = KEY_ESC ->
        row E' = row E0 /\ saved_hl fs' = None
        /\ last_match fs' = -1 /\ direction fs' = 1
        /\ cx E' = cx E /\ cy E' = cy E).
Proof.
  intros (Hinv & Hcy & Hd & Hf & Hs & Ht).
  pose proof (find_inv_length fs E Hinv) as Hlen.
  destruct (editorScroll_total screenrows screencols E ltac:(lia) Hcy)
    as [E1 He1].
  destruct (editorScroll_inv _ _ _ _ He1) as (x & co & ro & HE1).
  assert (Hinv1 : find_inv E0 fs E1)
    by (apply (find_inv_rows fs E E1); [subst E1; reflexivity ..|exact Hinv]).
  destruct (editorFindCallback_ok E0 E0_ok buf c fs E1 Hinv1)
    as (fs' & E' & Hcb & Hinv' & Hend).
  destruct (editorFindCallback_frame _ _ _ _ _ _ Hcb)
    as (G1 & G2 & G3 & G4 & G5 & G6 & G7).
  exists E1, fs', E'. split; [exact He1|]. split; [exact Hcb|].
  split.
  - split; [exact Hinv'|]. subst E1. simpl in *.
    split; [auto|]. repeat split; congruence.
  - intros K. destruct (Hend K) as (R1 & R2).
    destruct (G7 K) as (L1 & L2 & L3 & L4 & _).
    subst E1. simpl in *. repeat split; assumption.
Qed.

(** The prompt of [editorFind] on any keys: it waits for a key that does
    not come, or it ends at Enter or Escape with the rows as they were in
    [E0] and the state of the callback reset. *)
Lemma editorPrompt_find (keys : list Z) :
  forall buf fs E,
    prompt_inv E0 fs E ->
    editorPrompt screenrows screencols (Some editorFindCallback) keys buf
      fs E = OutOfFuel
    \/ exists q fs' E' rest,
        editorPrompt screenrows screencols (Some editorFindCallback) keys
          buf fs E = Ok (q, fs', E', rest)
        /\ prompt_inv E0 fs' E'
        /\ row E' = row E0 /\ saved_hl fs' = None
        /\ last_match fs' = -1 /\ direction fs' = 1.
Proof.
  induction keys as [|c rest IH]; intros buf fs E Hinv; [left; reflexivity|].
  cbn [editorPrompt].
  assert (Hturn := fun b => prompt_turn b c fs E Hinv).
  destruct ((c =? CTRL_KEY KEY_x) || (c =? BACKSPACE)).
  { destruct (Hturn (if negb (length buf =? 0)%nat then removelast buf
                     else buf)) as (E1 & fs' & E' & -> & Hcb & Hinv' & _).
    cbn [bind]. rewrite Hcb. cbn [bind fst snd]. apply IH. exact Hinv'. }
  destruct (Z.eqb_spec c KEY_ESC) as [Hesc|Hnesc].
  { destruct (Hturn buf) as (E1 & fs' & E' & -> & Hcb & Hinv' & Hend).
    cbn [bind]. rewrite Hcb. cbn [bind fst snd]. right.
    exists None, fs', E', rest. split; [reflexivity|]. split; [exact Hinv'|].
    destruct (Hend (or_intror Hesc)) as (R1 & R2 & R3 & R4 & _). auto. }
  destruct (Z.eqb_spec c KEY_ENTER) as [Hent|Hnent].
  { destruct (Hturn buf) as (E1 & fs' & E' & -> & Hcb & Hinv' & Hend).
    cbn [bind].
    destruct (negb (length buf =? 0)%nat).
    - rewrite Hcb. cbn [bind fst snd]. right.
      exists (Some buf), fs', E', rest. split; [reflexivity|].
      split; [exact Hinv'|].
      destruct (Hend (or_introl Hent)) as (R1 & R2 & R3 & R4 & _). auto.
    - rewrite Hcb. cbn [bind fst snd]. apply IH. exact Hinv'. }
  destruct (Hturn (if negb (iscntrl c) && (c <? 128)
                   then buf ++ [char_of_int c] else buf))
    as (E1 & fs' & E' & -> & Hcb & Hinv' & _).
  cbn [bind]. rewrite Hcb. cbn [bind fst snd]. apply IH. exact Hinv'.
Qed.

(** The prompt on keys that edit the query or move between matches,
    then Escape: it returns NULL. *)
Lemma editorPrompt_cancel (pre after : list Z) :
  forall buf fs E,
    Forall editing_key pre -> prompt_inv E0 fs E ->
    exists fs' E',
      editorPrompt screenrows screencols (Some editorFindCallback)
        (pre ++ KEY_ESC :: after) buf fs E = Ok (None, fs', E', after)
      /\ prompt_inv E0 fs' E'
      /\ row E' = row E0 /\ saved_hl fs' = None
      /\ last_match fs' = -1 /\ direction fs' = 1.
Proof.
  induction pre as [|c rest IH]; intros buf fs E Hpre Hinv.
  - cbn [app editorPrompt].
    change ((KEY_ESC =? CTRL_KEY KEY_x) || (KEY_ESC =? BACKSPACE)) with false.
    change (KEY_ESC =? KEY_ESC) with true. cbv iota.
    destruct (prompt_turn buf KEY_ESC fs E Hinv)
      as (E1 & fs' & E' & -> & Hcb & Hinv' & Hend).
    cbn [bind]. rewrite Hcb. cbn [bind fst snd].
    exists fs', E'. split; [reflexivity|]. split; [exact Hinv'|].
    destruct (Hend (or_intror eq_refl)) as (R1 & R2 & R3 & R4 & _). auto.
  - inversion Hpre as [|c' rest' (Hnesc & Hnent) Hrest]; subst.
    cbn [app editorPrompt].
    assert (Hturn := fun b => prompt_turn b c fs E Hinv).
    destruct ((c =? CTRL_KEY KEY_x) || (c =? BACKSPACE)).
    { destruct (Hturn (if negb (length buf =? 0)%nat then removelast buf
                       else buf)) as (E1 & fs' & E' & -> & Hcb & Hinv' & _).
      cbn [bind]. rewrite Hcb. cbn [bind fst snd].
      apply IH; assumption. }
    destruct (Z.eqb_spec c KEY_ESC); [contradiction|].
    destruct (Z.eqb_spec c KEY_ENTER); [contradiction|].
    destruct (Hturn (if negb (iscntrl c) && (c <? 128)
                     then buf ++ [char_of_int c] else buf))
      as (E1 & fs' & E' & -> & Hcb & Hinv' & _).
    cbn [bind]. rewrite Hcb. cbn [bind fst snd]. apply IH; assumption.
Qed.

End Prompt.

Lemma prompt_inv_init (E : editorConfig) :
  buffer_ok E -> 0 <= cy E -> prompt_inv E find_init E.
Proof.
  intros Hok Hcy. split; [apply find_inv_init; exact Hok|].
  repeat split; auto.
Qed.

(** X13.  [editorFind] on any sequence of keys, on a well-formed buffer
    with the cursor line not negative: either the keys run out while the
    prompt still waits (no Enter on a query that is not empty, no Escape),
    or the command returns, and then the rows of the buffer, highlight
    included, are what they were before the search, only the cursor and the
    scroll offsets can differ, and the static variables of the callback are
    reset.  No access out of the row array happens. *)
Theorem editorFind_leaves_rows :
  forall screenrows screencols keys E,
    buffer_ok E -> 0 <= cy E ->
    editorFind screenrows screencols keys find_init E = OutOfFuel
    \/ exists fs' E' rest,
        editorFind screenrows screencols keys find_init E
        = Ok (fs', E', rest)
        /\ row E' = row E /\ numrows E' = numrows E /\ dirty E' = dirty E
        /\ filename E' = filename E /\ syntax E' = syntax E
        /\ tab_stop E' = tab_stop E
        /\ saved_hl fs' = None /\ last_match fs' = -1 /\ direction fs' = 1.
Proof.
  intros sr sc keys E Hok Hcy. unfold editorFind.
  destruct (editorPrompt_find E Hok sr sc keys [] find_init E
              (prompt_inv_init E Hok Hcy))
    as [->|(q & fs' & E' & rest & -> & Hinv & Hrow & Hs & Hl & Hd)];
    [left; reflexivity|].
  right. cbn [bind].
  destruct Hinv as ((Hn & _) & _ & I1 & I2 & I3 & I4).
  destruct q as [query|]; eexists; eexists; eexists;
    (split; [reflexivity|]); simpl; repeat split; assumption.
Qed.

Lemma editorFind_leaves_rows_witness :
  buffer_ok loaded_doc /\ 0 <= cy loaded_doc
  /\ exists fs' E' rest,
      editorFind 20 80 [99; 111; 109; ARROW_DOWN; KEY_ENTER] find_init
        loaded_doc = Ok (fs', E', rest)
      /\ row E' = row loaded_doc /\ saved_hl fs' = None.
Proof.
  assert (Hok : buffer_ok loaded_doc)
    by (apply buffer_okb_sound; vm_compute; reflexivity).
  assert (Hcy : 0 <= cy loaded_doc) by (vm_compute; discriminate).
  split; [exact Hok|]. split; [exact Hcy|].
  destruct (editorFind_leaves_rows 20 80
              [99; 111; 109; ARROW_DOWN; KEY_ENTER] loaded_doc Hok Hcy)
    as [Hout|(fs' & E' & rest & He & Hr & _ & _ & _ & _ & _ & Hs & _)].
  - exfalso. revert Hout. vm_compute. discriminate.
  - exists fs', E', rest. auto.
Defined.

(** X14.  A search that is cancelled leaves no trace.  On a well-formed
    buffer with the cursor line not negative, [editorFind] on keys that
    edit the query or move between the matches and then Escape returns the
    editor state in which it was called, up to the render column [rx] that
    the refresh of the screen recomputes: cursor, scroll offsets, rows and
    their highlight are restored.  The keys after the Escape are left
    unread. *)
Theorem editorFind_cancel_restores :
  forall screenrows screencols pre after E,
    buffer_ok E -> 0 <= cy E -> Forall editing_key pre ->
    exists fs' x,
      editorFind screenrows screencols (pre ++ KEY_ESC :: after) find_init E
      = Ok (fs', set_rx E x, after)
      /\ saved_hl fs' = None /\ last_match fs' = -1 /\ direction fs' = 1.
Proof.
  intros sr sc pre after E Hok Hcy Hpre. unfold editorFind.
  destruct (editorPrompt_cancel E Hok sr sc pre after [] find_init E Hpre
              (prompt_inv_init E Hok Hcy))
    as (fs' & E' & -> & Hinv & Hrow & Hs & Hl & Hd).
  cbn [bind]. exists fs', (rx E').
  split; [|auto].
  destruct Hinv as ((Hn & _) & _ & I1 & I2 & I3 & I4).
  destruct E' as [cx1 cy1 rx1 ro1 co1 n1 rows1 d1 f1 s1 ts1].
  destruct E as [cx0 cy0 rx0 ro0 co0 n0 rows0 d0 f0 s0 ts0].
  simpl in *. subst. reflexivity.
Qed.

Lemma editorFind_cancel_restores_witness :
  buffer_ok loaded_doc /\ 0 <= cy loaded_doc
  /\ Forall editing_key [99; 111; 109; ARROW_DOWN]
  /\ exists fs' x,
      editorFind 20 80 ([99; 111; 109; ARROW_DOWN] ++ KEY_ESC :: [97])
        find_init loaded_doc = Ok (fs', set_rx loaded_doc x, [97]).
Proof.
  assert (Hok : buffer_ok loaded_doc)
    by (apply buffer_okb_sound; vm_compute; reflexivity).
  assert (Hcy : 0 <= cy loaded_doc) by (vm_compute; discriminate).
  assert (Hk : Forall editing_key [99; 111; 109; ARROW_DOWN])
    by (repeat constructor; discriminate).
  split; [exact Hok|]. split; [exact Hcy|]. split; [exact Hk|].
  destruct (editorFind_cancel_restores 20 80 [99; 111; 109; ARROW_DOWN] [97]
              loaded_doc Hok Hcy Hk) as (fs' & x & He & _).
  exists fs', x. exact He.
Defined.

(** ** Which match the search finds *)

Lemma scan_next_mod (N cur dir : Z) :
  0 < N -> -1 <= cur < N -> dir = 1 \/ dir = -1 -> (cur = -1 -> dir = 1) ->
  (if cur + dir =? -1 then N - 1
   else if cur + dir =? N then 0 else cur + dir)
  = (cur + dir) mod N.
Proof.
  intros HN Hcur Hdir Hfirst.
  destruct (Z.eqb_spec (cur + dir) (-1)) as [H1|H1].
  - rewrite H1. apply (Z.mod_unique_pos _ _ (-1)); lia.
  - destruct (Z.eqb_spec (cur + dir) N) as [H2|H2].
    + rewrite H2. symmetry. apply Z.mod_same. lia.
    + symmetry. apply Z.mod_small. lia.
Qed.

(** The [for] loop of [editorFindCallback] with [n] runs left, from the
    row [current] in the direction [dir]: it breaks at the nearest row in
    that direction, around the ends of the buffer, whose render string
    holds the query; it ends without a match when none of the [n] rows it
    visits holds it. *)
Lemma find_scan_spec (E : editorConfig) (query : list ascii) (dir : Z)
  (n : nat) :
  numrows E = Z.of_nat (length (row E)) -> dir = 1 \/ dir = -1 ->
  Z.of_nat n <= numrows E ->
  forall current,
    -1 <= current < numrows E -> (current = -1 -> dir = 1) ->
    exists res,
      find_scan n E query dir current = Ok res
      /\ match res with
         | Some (c, off) =>
             exists k r,
               1 <= k <= Z.of_nat n
               /\ c = (current + dir * k) mod numrows E
               /\ nth_error (row E) (Z.to_nat c) = Some r
               /\ strstr (render r) query = Some off
               /\ forall j r',
                   1 <= j < k ->
                   nth_error (row E)
                     (Z.to_nat ((current + dir * j) mod numrows E))
                   = Some r' ->
                   strstr (render r') query = None
         | None =>
             forall j r',
               1 <= j <= Z.of_nat n ->
               nth_error (row E)
                 (Z.to_nat ((current + dir * j) mod numrows E))
               = Some r' ->
               strstr (render r') query = None
         end.
Proof.
  intros Hnum Hdir.
  induction n as [|n IH]; intros Hn current Hc Hfirst; cbn [find_scan].
  - exists None. split; [reflexivity|]. intros j r' Hj. lia.
  - assert (HN : 0 < numrows E) by lia.
    rewrite (scan_next_mod (numrows E) current dir HN Hc Hdir Hfirst).
    set (c2 := (current + dir) mod numrows E).
    assert (Hc2 : 0 <= c2 < numrows E) by (apply Z.mod_pos_bound; exact HN).
    destruct (Z.ltb_spec c2 0); [lia|].
    destruct (nth_error_in_range (row E) (Z.to_nat c2)) as [r Hr]; [lia|].
    rewrite (get_row_some _ _ _ Hr). cbn [bind].
    assert (Hstep : forall j, (c2 + dir * j) mod numrows E
                              = (current + dir * (j + 1)) mod numrows E).
    { intros j. unfold c2. rewrite Z.add_mod_idemp_l by lia.
      f_equal. lia. }
    destruct (strstr (render r) query) as [off|] eqn:Hs.
    + exists (Some (c2, off)). split; [reflexivity|].
      exists 1, r. split; [lia|].
      split; [unfold c2; f_equal; lia|].
      split; [exact Hr|]. split; [exact Hs|].
      intros j r' Hj. lia.
    + destruct (IH ltac:(lia) c2 ltac:(lia) ltac:(lia)) as (res & -> & Hres).
      exists res. split; [reflexivity|].
      destruct res as [[c off]|].
      * destruct Hres as (k & r1 & Hk & Hck & Hr1 & Hs1 & Hbefore).
        exists (k + 1), r1. split; [lia|].
        split; [rewrite <- Hstep; exact Hck|].
        split; [exact Hr1|]. split; [exact Hs1|].
        intros j r' Hj Hr'.
        destruct (Z.eq_dec j 1) as [->|Hj1].
        -- replace (current + dir * 1) with (current + dir) in Hr' by lia.
           fold c2 in Hr'. congruence.
        -- apply (Hbefore (j - 1) r'); [lia|].
           rewrite Hstep. replace (j - 1 + 1) with j by lia. exact Hr'.
      * intros j r' Hj Hr'.
        destruct (Z.eq_dec j 1) as [->|Hj1].
        -- replace (current + dir * 1) with (current + dir) in Hr' by lia.
           fold c2 in Hr'. congruence.
        -- apply (Hres (j - 1) r'); [lia|].
           rewrite Hstep. replace (j - 1 + 1) with j by lia. exact Hr'.
Qed.

(** X15.  The loop of [editorFindCallback] finds the nearest match.  On a
    buffer whose [numrows] is the number of rows, from a row [current] of
    the buffer (or -1, before the first search) in the direction [dir],
    forward or backward, the loop over all the rows returns; it breaks at
    the row [k] steps from [current] in that direction, around the ends of
    the buffer, for the least [k >= 1] whose render string holds the
    query, with the offset that [strstr] gives; and it finds nothing only
    when no row holds the query. *)
Theorem find_scan_nearest :
  forall E query dir current,
    numrows E = Z.of_nat (length (row E)) -> dir = 1 \/ dir = -1 ->
    -1 <= current < numrows E -> (current = -1 -> dir = 1) ->
    exists res,
      find_scan (Z.to_nat (numrows E)) E query dir current = Ok res
      /\ match res with
         | Some (c, off) =>
             exists k r,
               1 <= k <= numrows E
               /\ c = (current + dir * k) mod numrows E
               /\ nth_error (row E) (Z.to_nat c) = Some r
               /\ strstr (render r) query = Some off
               /\ forall j r',
                   1 <= j < k ->
                   nth_error (row E)
                     (Z.to_nat ((current + dir * j) mod numrows E))
                   = Some r' ->
                   strstr (render r') query = None
         | None =>
             forall r', In r' (row E) -> strstr (render r') query = None
         end.
Proof.
  intros E query dir current Hnum Hdir Hc Hfirst.
  destruct (find_scan_spec E query dir (Z.to_nat (numrows E)) Hnum Hdir
              ltac:(lia) current Hc Hfirst) as (res & He & Hres).
  exists res. split; [exact He|].
  destruct res as [[c off]|].
  - destruct Hres as (k & r & Hk & Hrest). exists k, r.
    split; [lia | exact Hrest].
  - intros r' Hin. apply In_nth_error in Hin. destruct Hin as [i Hi].
    pose proof (nth_error_lt _ _ _ Hi) as Hlt.
    assert (HN : 0 < numrows E) by lia.
    (* the step that lands on row [i] *)
    set (j := if dir =? 1 then (Z.of_nat i - current) mod numrows E
              else (current - Z.of_nat i) mod numrows E).
    assert (Hj0 : 0 <= j < numrows E).
    { unfold j. destruct (dir =? 1); apply Z.mod_pos_bound; exact HN. }
    assert (Hland : forall j', j' = (if j =? 0 then numrows E else j) ->
                               (current + dir * j') mod numrows E
                               = Z.of_nat i).
    { intros j' ->.
      assert (Hmod : (current + dir * j) mod numrows E = Z.of_nat i).
      { unfold j. destruct Hdir as [-> | ->].
        - change (1 =? 1) with true. cbv iota.
          rewrite Z.mul_1_l, Z.add_mod_idemp_r by lia.
          replace (current + (Z.of_nat i - current)) with (Z.of_nat i) by lia.
          apply Z.mod_small. lia.
        - change (-1 =? 1) with false. cbv iota.
          replace (current + -1 * ((current - Z.of_nat i) mod numrows E))
            with (current - (current - Z.of_nat i) mod numrows E) by lia.
          rewrite Zminus_mod_idemp_r.
          replace (current - (current - Z.of_nat i)) with (Z.of_nat i) by lia.
          apply Z.mod_small. lia. }
      destruct (Z.eqb_spec j 0) as [Hz|Hnz]; [|exact Hmod].
      rewrite Hz, Z.mul_0_r, Z.add_0_r in Hmod.
      rewrite <- Hmod.
      rewrite Z.mod_add by lia. reflexivity. }
    apply (Hres (if j =? 0 then numrows E else j) r').
    + destruct (Z.eqb_spec j 0); lia.
    + rewrite (Hland _ eq_refl), Nat2Z.id. exact Hi.
Qed.

Lemma find_scan_nearest_witness :
  numrows loaded_doc = Z.of_nat (length (row loaded_doc))
  /\ (1 = 1 \/ 1 = -1) /\ -1 <= 0 < numrows loaded_doc
  /\ exists res,
      find_scan (Z.to_nat (numrows loaded_doc)) loaded_doc (s2l "com") 1 0
      = Ok res.
Proof.
  assert (H1 : numrows loaded_doc = Z.of_nat (length (row loaded_doc)))
    by (vm_compute; reflexivity).
  assert (H2 : 1 = 1 \/ 1 = -1) by (left; reflexivity).
  assert (H3 : -1 <= 0 < numrows loaded_doc)
    by (vm_compute; split; [discriminate | reflexivity]).
  split; [exact H1|]. split; [exact H2|]. split; [exact H3|].
  destruct (find_scan_nearest loaded_doc (s2l "com") 1 0 H1 H2 H3)
    as (res & He & _).
  - intros H. discriminate H.
  - exists res. exact He.
Defined.

(** The rest of [editorFindCallback] once the direction is set, when no
    search has found anything before. *)
Lemma first_match_tail (E : editorConfig) (query : list ascii)
  (fs2 : find_state) :
  buffer_ok E ->
  last_match fs2 = -1 -> saved_hl_line fs2 = 0 -> saved_hl fs2 = None ->
  exists fs' E',
    (found <- find_scan (Z.to_nat (numrows E)) E query
                (if last_match fs2 =? -1 then 1 else direction fs2)
                (last_match fs2) ;;
     match found with
     | None =>
         Ok (mkFind (last_match fs2)
               (if last_match fs2 =? -1 then 1 else direction fs2)
               (saved_hl_line fs2) (saved_hl fs2), E)
     | Some (current, off) =>
         r <- get_row E (Z.to_nat current) ;;
         let E2 := set_rowoff
                     (set_cursor E (editorRowRxToCx E r (Z.of_nat off))
                        current)
                     (numrows E) in
         Ok (mkFind current
               (if last_match fs2 =? -1 then 1 else direction fs2) current
               (Some (memcpy [] (hl r) (Z.to_nat (rsize r)))),
             put_row E2 (Z.to_nat current)
               (set_row_hl r
                  (memset (hl r) off (strlen query) HL_MATCH)))
     end) = Ok (fs', E')
    /\ ((forall r, In r (row E) -> strstr (render r) query = None) ->
        E' = E /\ fs' = find_init)
    /\ (forall i r off,
           nth_error (row E) i = Some r ->
           strstr (render r) query = Some off ->
           (forall j r', (j < i)%nat -> nth_error (row E) j = Some r' ->
                         strstr (render r') query = None) ->
           E' = put_row
                  (set_rowoff
                     (set_cursor E (editorRowRxToCx E r (Z.of_nat off))
                        (Z.of_nat i))
                     (numrows E))
                  i (set_row_hl r (memset (hl r) off (strlen query)
                                     HL_MATCH))
           /\ fs' = mkFind (Z.of_nat i) 1 (Z.of_nat i) (Some (hl r))).
Proof.
  intros Hok Hl2 Hsl2 Hs2. pose proof Hok as (Hnum & _).
  rewrite Hl2, Hsl2, Hs2.
  change (-1 =? -1) with true. cbv iota.
  destruct (find_scan_spec E query 1 (Z.to_nat (numrows E)) Hnum
              (or_introl eq_refl) ltac:(lia) (-1))
    as (res & -> & Hres); [lia | reflexivity |].
  cbn [bind].
  destruct res as [[c off']|].
  - destruct Hres as (k & r1 & Hk & Hc & Hr1 & Hs1 & Hbefore).
    assert (Hck : c = k - 1).
    { rewrite Hc. replace (-1 + 1 * k) with (k - 1) by lia.
      apply Z.mod_small. lia. }
    rewrite (get_row_some _ _ _ Hr1). cbn [bind].
    eexists. eexists. split; [reflexivity|]. split.
    + intros Hnone. apply nth_error_In in Hr1.
      rewrite (Hnone r1 Hr1) in Hs1. discriminate.
    + intros i r off Hr Hs Hfirst.
      assert (Hi : c = Z.of_nat i).
      { destruct (Z.lt_trichotomy c (Z.of_nat i)) as [Hlt|[He|Hgt]].
        - rewrite (Hfirst (Z.to_nat c) r1 ltac:(lia) Hr1) in Hs1.
          discriminate.
        - exact He.
        - exfalso.
          assert (Hn : strstr (render r) query = None).
          { apply (Hbefore (Z.of_nat i + 1) r); [lia|].
            replace (-1 + 1 * (Z.of_nat i + 1)) with (Z.of_nat i) by lia.
            rewrite Z.mod_small by lia. rewrite Nat2Z.id. exact Hr. }
          congruence. }
      clear Hc Hck Hbefore. subst c. rewrite Nat2Z.id in *.
      assert (r1 = r) by congruence. subst r1.
      assert (off' = off) by congruence. subst off'.
      destruct (buffer_ok_row _ _ _ Hok Hr) as (_ & Hrs & Hhl).
      assert (Hcopy : memcpy [] (hl r) (Z.to_nat (rsize r)) = hl r).
      { unfold memcpy. rewrite skipn_nil, app_nil_r.
        replace (Z.to_nat (rsize r)) with (length (hl r)) by lia.
        apply firstn_all. }
      rewrite Hcopy. split; reflexivity.
  - eexists. eexists. split; [reflexivity|]. split.
    + intros _. split; reflexivity.
    + intros i r off Hr Hs _. exfalso.
      pose proof (nth_error_lt _ _ _ Hr) as Hlt.
      assert (Hn : strstr (render r) query = None).
      { apply (Hres (Z.of_nat i + 1) r); [lia|].
        replace (-1 + 1 * (Z.of_nat i + 1)) with (Z.of_nat i) by lia.
        rewrite Z.mod_small by lia. rewrite Nat2Z.id. exact Hr. }
      congruence.
Qed.

(** X16.  The first search for a query.  On a well-formed buffer, with the
    static variables of the callback in their initial state and a key that
    is neither Enter nor Escape, [editorFindCallback] returns.  When no row
    holds the query in its render string, the editor state and the
    variables are unchanged.  Otherwise, for the first row from the top
    that holds it: the cursor goes to that row, at the column of the match;
    [rowoff] is set to [numrows]; the highlight of the row is saved, and
    [strlen query] entries of it from the offset of the match are set to
    [HL_MATCH]; nothing else changes. *)
Theorem editorFindCallback_first_match :
  forall E query key,
    buffer_ok E -> editing_key key ->
    exists fs' E',
      editorFindCallback query key find_init E = Ok (fs', E')
      /\ ((forall r, In r (row E) -> strstr (render r) query = None) ->
          E' = E /\ fs' = find_init)
      /\ (forall i r off,
             nth_error (row E) i = Some r ->
             strstr (render r) query = Some off ->
             (forall j r', (j < i)%nat -> nth_error (row E) j = Some r' ->
                           strstr (render r') query = None) ->
             E' = put_row
                    (set_rowoff
                       (set_cursor E (editorRowRxToCx E r (Z.of_nat off))
                          (Z.of_nat i))
                       (numrows E))
                    i (set_row_hl r (memset (hl r) off (strlen query)
                                       HL_MATCH))
             /\ fs' = mkFind (Z.of_nat i) 1 (Z.of_nat i) (Some (hl r))).
Proof.
  intros E query key Hok (Hnesc & Hnent).
  unfold editorFindCallback, find_restore.
  cbn [saved_hl find_init bind fst snd].
  destruct (Z.eqb_spec key KEY_ENTER); [contradiction|].
  destruct (Z.eqb_spec key KEY_ESC); [contradiction|]. cbn [orb].
  apply (first_match_tail E query
           (if (key =? ARROW_RIGHT) || (key =? ARROW_DOWN)
            then mkFind (-1) 1 0 None
            else if (key =? ARROW_LEFT) || (key =? ARROW_UP)
            then mkFind (-1) (-1) 0 None
            else mkFind (-1) 1 0 None) Hok);
    destruct ((key =? ARROW_RIGHT) || (key =? ARROW_DOWN));
    try destruct ((key =? ARROW_LEFT) || (key =? ARROW_UP)); reflexivity.
Qed.

Lemma editorFindCallback_first_match_witness :
  buffer_ok loaded_doc /\ editing_key 109
  /\ exists fs' E',
      editorFindCallback (s2l "com") 109 find_init loaded_doc = Ok (fs', E')
      /\ cy E' = 0 /\ cx E' = 3 /\ last_match fs' = 0.
Proof.
  assert (Hok : buffer_ok loaded_doc)
    by (apply buffer_okb_sound; vm_compute; reflexivity).
  assert (Hk : editing_key 109) by (split; discriminate).
  split; [exact Hok|]. split; [exact Hk|].
  destruct (editorFindCallback_first_match loaded_doc (s2l "com") 109 Hok Hk)
    as (fs' & E' & He & _ & Hfound).
  exists fs', E'. split; [exact He|].
  destruct (Hfound 0%nat
              (mkRow 0 10 10 (s2l "/* comment") (s2l "/* comment")
                 (repeat HL_MLCOMMENT 10) true) 3%nat)
    as (HE & Hfs).
  - vm_compute. reflexivity.
  - vm_compute. reflexivity.
  - intros j r' Hj. lia.
  - rewrite HE, Hfs. vm_compute. repeat split.
Defined.

(** * Consistency of the highlight *)

Lemma carried_in_seed (E : editorConfig) (p : nat) (r : erow) :
  idx_ok (row E) -> nth_error (row E) p = Some r ->
  carried_in E r = Ok (seed_of (row E) p).
Proof.
  intros Hidx Hr.
  destruct (carried_in_ok E p r Hidx Hr) as (ic & -> & H0 & Hprev).
  f_equal. destruct p as [|p']; [apply H0; reflexivity|].
  simpl. destruct (nth_error_in_range (row E) p') as [prev Hp].
  { apply nth_error_lt in Hr. lia. }
  rewrite Hp. apply Hprev; [|lia].
  replace (S p' - 1)%nat with p' by lia. exact Hp.
Qed.

Lemma seed_of_store_other (rs : list erow) (p q : nat) (v : erow) :
  (p < length rs)%nat -> q <> S p ->
  seed_of (store rs p v) q = seed_of rs q.
Proof.
  intros Hp Hq. destruct q as [|q']; [reflexivity|].
  simpl. rewrite nth_error_store_other by (auto; lia). reflexivity.
Qed.

Lemma seed_of_store_same_flag (rs : list erow) (p q : nat) (r v : erow) :
  nth_error rs p = Some r -> hl_open_comment v = hl_open_comment r ->
  seed_of (store rs p v) q = seed_of rs q.
Proof.
  intros Hr Hflag. pose proof (nth_error_lt _ _ _ Hr) as Hp.
  destruct (Nat.eq_dec q (S p)) as [->|Hne].
  - simpl. rewrite nth_error_store_same by exact Hp. rewrite Hr. exact Hflag.
  - apply seed_of_store_other; assumption.
Qed.

(** The recompute of one row: the row it writes is settled. *)
Lemma update_one_settles (E E1 : editorConfig) (p : nat) (r : erow)
  (ch : bool) :
  idx_ok (row E) -> nth_error (row E) p = Some r ->
  update_one E p = Ok (E1, ch) ->
  exists r1,
    E1 = put_row E p r1 /\ same_text r r1
    /\ row_settled (syntax E) (row E) p r1
    /\ ch = negb (Bool.eqb (hl_open_comment r) (hl_open_comment r1)).
Proof.
  intros Hidx Hr Hu. pose proof (update_one_inv E E1 p r ch Hr Hu) as Hi.
  unfold row_settled. destruct (syntax E) as [syn|].
  - destruct Hi as (ic & h & oc & Hic & Hscan & -> & ->).
    rewrite (carried_in_seed E p r Hidx Hr) in Hic. injection Hic as <-.
    exists (set_hl r h oc). split; [reflexivity|].
    split; [repeat split|]. split; [exact Hscan | reflexivity].
  - destruct Hi as (-> & ->).
    eexists. split; [reflexivity|]. split; [repeat split|].
    split; [reflexivity|]. simpl. rewrite Bool.eqb_reflx. reflexivity.
Qed.

(** Rows whose predecessor keeps its flag stay settled when a row is
    written. *)
Lemma settled_put_row (E : editorConfig) (p q : nat) (v x : erow) :
  (p < length (row E))%nat -> q <> S p ->
  row_settled (syntax E) (row E) q x ->
  row_settled (syntax (put_row E p v)) (row (put_row E p v)) q x.
Proof.
  intros Hp Hq H. unfold row_settled in *.
  change (syntax (put_row E p v)) with (syntax E).
  change (row (put_row E p v)) with (store (row E) p v).
  destruct (syntax E); [|exact H].
  rewrite seed_of_store_other by assumption. exact H.
Qed.

Lemma settled_put_row_flag (E : editorConfig) (p q : nat) (r v x : erow) :
  nth_error (row E) p = Some r -> hl_open_comment v = hl_open_comment r ->
  row_settled (syntax E) (row E) q x ->
  row_settled (syntax (put_row E p v)) (row (put_row E p v)) q x.
Proof.
  intros Hr Hflag H. unfold row_settled in *.
  change (syntax (put_row E p v)) with (syntax E).
  change (row (put_row E p v)) with (store (row E) p v).
  destruct (syntax E); [|exact H].
  rewrite (seed_of_store_same_flag _ _ _ r) by assumption. exact H.
Qed.

Lemma idx_ok_put_row (E : editorConfig) (p : nat) (r r1 : erow) :
  idx_ok (row E) -> nth_error (row E) p = Some r -> idx r1 = idx r ->
  idx_ok (row (put_row E p r1)).
Proof.
  intros Hidx Hr Hi q x Hq.
  pose proof (nth_error_lt _ _ _ Hr) as Hp.
  destruct (Nat.eq_dec q p) as [->|Hne].
  - rewrite nth_error_put_row_same in Hq by exact Hp. injection Hq as <-.
    rewrite Hi. apply Hidx. exact Hr.
  - rewrite nth_error_put_row_other in Hq by assumption. apply Hidx. exact Hq.
Qed.

(** The cascade: when every row but [p] is settled, a call of
    [editorUpdateSyntax] on row [p] that returns leaves every row settled;
    provided that [numrows] counts all the rows, or that [p] is the last
    one. *)
Lemma cascade_settles (fuel : nat) :
  forall E p E',
    idx_ok (row E) ->
    Z.of_nat (length (row E)) <= numrows E \/ S p = length (row E) ->
    editorUpdateSyntax_fuel fuel E p = Ok E' ->
    consistent_but E p ->
    highlight_consistent E'.
Proof.
  induction fuel as [|fuel IH]; intros E p E' Hidx Hnum H Hothers;
    [discriminate|].
  cbn [editorUpdateSyntax_fuel] in H.
  destruct (get_row E p) as [r| |] eqn:Hr; cbn [bind] in H; try discriminate.
  apply get_row_inv in Hr. pose proof (nth_error_lt _ _ _ Hr) as Hp.
  destruct (update_one E p) as [[E1 ch]| |] eqn:Hu; cbn [bind fst snd] in H;
    try discriminate.
  destruct (update_one_settles E E1 p r ch Hidx Hr Hu)
    as (r1 & -> & Hst & Hset & Hch).
  rewrite (Hidx p r Hr) in H.
  assert (Hidx1 : idx_ok (row (put_row E p r1))).
  { apply (idx_ok_put_row E p r r1 Hidx Hr). apply Hst. }
  assert (Hlen1 : length (row (put_row E p r1)) = length (row E))
    by (apply put_row_length; exact Hp).
  (* the rows other than [S p] are settled once row [p] is written *)
  assert (Hbut : consistent_but (put_row E p r1) (S p)).
  { intros q x Hq Hx. destruct (Nat.eq_dec q p) as [->|Hne].
    - rewrite nth_error_put_row_same in Hx by exact Hp. injection Hx as <-.
      apply settled_put_row; [exact Hp | lia | exact Hset].
    - rewrite nth_error_put_row_other in Hx by assumption.
      apply settled_put_row; [exact Hp | exact Hq |].
      apply Hothers; assumption. }
  destruct (ch && (Z.of_nat p + 1 <? numrows E)) eqn:Hgo.
  - apply andb_prop in Hgo. destruct Hgo as [_ Hlt]. apply Z.ltb_lt in Hlt.
    replace (Z.to_nat (Z.of_nat p + 1)) with (S p) in H by lia.
    destruct Hnum as [Hnum|Hlast].
    + apply (IH _ (S p) E' Hidx1); [left; rewrite Hlen1; exact Hnum| |];
        assumption.
    + exfalso. destruct fuel as [|fuel']; [discriminate|].
      cbn [editorUpdateSyntax_fuel] in H. unfold get_row in H.
      rewrite (proj2 (nth_error_None _ _)) in H by lia. discriminate.
  - injection H as <-. intros q x Hx.
    destruct (Nat.eq_dec q (S p)) as [->|Hne]; [|apply Hbut; assumption].
    (* row [S p]: the flag of row [p] did not change *)
    pose proof (nth_error_lt _ _ _ Hx) as HSp. rewrite Hlen1 in HSp.
    assert (Hflag : hl_open_comment r1 = hl_open_comment r).
    { apply andb_false_iff in Hgo. destruct Hgo as [Hc|Hn].
      - rewrite Hc in Hch. symmetry in Hch. apply negb_false_iff in Hch.
        apply Bool.eqb_prop in Hch. auto.
      - apply Z.ltb_ge in Hn. destruct Hnum; lia. }
    rewrite nth_error_put_row_other in Hx by lia.
    apply (settled_put_row_flag E p (S p) r r1 x Hr Hflag).
    apply Hothers; [lia | exact Hx].
Qed.

Lemma consistent_all_but (E : editorConfig) (p : nat) :
  highlight_consistent E -> consistent_but E p.
Proof. intros H q r _ Hr. apply H. exact Hr. Qed.

Lemma set_rows_same (E : editorConfig) : set_rows E (row E) = E.
Proof. destruct E. reflexivity. Qed.

Lemma set_hl_same (r : erow) : set_hl r (hl r) (hl_open_comment r) = r.
Proof. destruct r. reflexivity. Qed.

(** On a row that is settled, the recompute changes nothing. *)
Lemma update_one_fixed (E : editorConfig) (p : nat) (r : erow) :
  idx_ok (row E) -> nth_error (row E) p = Some r ->
  row_settled (syntax E) (row E) p r ->
  update_one E p = Ok (E, false).
Proof.
  intros Hidx Hr Hset. unfold update_one, row_settled in *.
  rewrite (get_row_some _ _ _ Hr). cbn [bind].
  assert (Hput : put_row E p r = E).
  { unfold put_row. rewrite (store_same _ _ _ Hr). apply set_rows_same. }
  destruct (syntax E) as [syn|].
  - rewrite (carried_in_seed E p r Hidx Hr). cbn [bind]. rewrite Hset.
    rewrite set_hl_same, Hput, Bool.eqb_reflx. reflexivity.
  - rewrite <- Hset, set_hl_same, Hput. reflexivity.
Qed.

(** X17.  One call repairs one stale row.  On a well-formed buffer in
    which every row but row [p] has the highlight and comment flag that a
    scan of it gives, [editorUpdateSyntax] on row [p] returns a
    well-formed buffer, with the same text, in which every row has: the
    cascade to the rows below goes as far as is needed. *)
Theorem editorUpdateSyntax_settles :
  forall E p,
    buffer_ok E -> (p < length (row E))%nat -> consistent_but E p ->
    exists E',
      editorUpdateSyntax E p = Ok E'
      /\ buffer_ok E' /\ same_buffer E E' /\ highlight_consistent E'.
Proof.
  intros E p Hok Hp Hbut.
  destruct (editorUpdateSyntax_keeps_ok E p Hok Hp) as (E' & He & Hok' & Hs).
  exists E'. split; [exact He|]. split; [exact Hok'|]. split; [exact Hs|].
  destruct Hok as (Hnum & Hidx & _).
  apply (cascade_settles (S (length (row E))) E p E' Hidx);
    [left; lia | exact He | exact Hbut].
Qed.

(** X18.  Highlighting is idempotent.  On a well-formed buffer whose
    highlight is consistent, [editorUpdateSyntax] on any row returns the
    state it was given. *)
Theorem editorUpdateSyntax_fixpoint :
  forall E p,
    buffer_ok E -> highlight_consistent E -> (p < length (row E))%nat ->
    editorUpdateSyntax E p = Ok E.
Proof.
  intros E p (Hnum & Hidx & _) Hcons Hp.
  destruct (nth_error_in_range _ _ Hp) as [r Hr].
  unfold editorUpdateSyntax.
  rewrite (editorUpdateSyntax_fuel_step _ _ _ _ Hidx Hr).
  rewrite (update_one_fixed E p r Hidx Hr (Hcons p r Hr)).
  reflexivity.
Qed.

(** ** Edits inside a row *)

Lemma consistent_but_put_row (E : editorConfig) (p : nat) (r v : erow) :
  nth_error (row E) p = Some r -> hl_open_comment v = hl_open_comment r ->
  consistent_but E p -> consistent_but (put_row E p v) p.
Proof.
  intros Hr Hflag Hbut q x Hq Hx.
  pose proof (nth_error_lt _ _ _ Hr) as Hp.
  rewrite nth_error_put_row_other in Hx by assumption.
  apply (settled_put_row_flag E p q r v x Hr Hflag).
  apply Hbut; assumption.
Qed.

(** [editorUpdateRow] on the one row that may be stale. *)
Lemma editorUpdateRow_settles (E E' : editorConfig) (p : nat) :
  idx_ok (row E) ->
  Z.of_nat (length (row E)) <= numrows E \/ S p = length (row E) ->
  editorUpdateRow E p = Ok E' ->
  consistent_but E p ->
  highlight_consistent E'.
Proof.
  intros Hidx Hnum H Hbut. unfold editorUpdateRow in H.
  destruct (get_row E p) as [r| |] eqn:Hr; cbn [bind] in H; try discriminate.
  apply get_row_inv in Hr. pose proof (nth_error_lt _ _ _ Hr) as Hp.
  destruct (render_loop (tab_stop E) (firstn (Z.to_nat (size r)) (chars r)) [])
    as [rd| |]; cbn [bind] in H; try discriminate.
  unfold editorUpdateSyntax in H.
  apply (cascade_settles _ _ p E'
           (idx_ok_put_row E p r (set_render r rd) Hidx Hr eq_refl))
    in H; [exact H| |].
  - rewrite put_row_length by exact Hp. exact Hnum.
  - apply (consistent_but_put_row E p r); [exact Hr | reflexivity | exact Hbut].
Qed.

(** The characters of a row are replaced and [editorUpdateRow] is called
    on it. *)
Lemma edit_row_settles (E E' : editorConfig) (p : nat) (r : erow)
  (cs : list ascii) (sz : Z) :
  buffer_ok E -> consistent_but E p -> nth_error (row E) p = Some r ->
  editorUpdateRow (put_row E p (set_chars r cs sz)) p = Ok E' ->
  highlight_consistent E'.
Proof.
  intros (Hnum & Hidx & _) Hbut Hr H.
  pose proof (nth_error_lt _ _ _ Hr) as Hp.
  apply (editorUpdateRow_settles _ _ _
           (idx_ok_put_row E p r (set_chars r cs sz) Hidx Hr eq_refl))
    in H; [exact H| |].
  - left. rewrite put_row_length by exact Hp. simpl. lia.
  - apply (consistent_but_put_row E p r); [exact Hr | reflexivity | exact Hbut].
Qed.

Lemma editorRowInsertChar_settles (p : nat) (at_ c : Z)
  (E E' : editorConfig) :
  buffer_ok E -> highlight_consistent E ->
  editorRowInsertChar p at_ c E = Ok E' -> highlight_consistent E'.
Proof.
  intros Hok Hc H. unfold editorRowInsertChar in H.
  destruct (get_row E p) as [r| |] eqn:Hr; cbn [bind] in H; try discriminate.
  apply get_row_inv in Hr.
  match type of H with
  | (x <- ?m ;; _) = _ => destruct m as [E1| |] eqn:Hu
  end; cbn [bind] in H; try discriminate.
  injection H as <-.
  exact (edit_row_settles _ _ _ _ _ _ Hok (consistent_all_but E p Hc) Hr Hu).
Qed.

Lemma editorRowDelChar_settles (p : nat) (at_ : Z) (E E' : editorConfig) :
  buffer_ok E -> highlight_consistent E ->
  editorRowDelChar p at_ E = Ok E' -> highlight_consistent E'.
Proof.
  intros Hok Hc H. unfold editorRowDelChar in H.
  destruct (get_row E p) as [r| |] eqn:Hr; cbn [bind] in H; try discriminate.
  apply get_row_inv in Hr.
  destruct ((at_ <? 0) || (at_ >=? size r));
    [injection H as <-; exact Hc|].
  match type of H with
  | (x <- ?m ;; _) = _ => destruct m as [E1| |] eqn:Hu
  end; cbn [bind] in H; try discriminate.
  injection H as <-.
  exact (edit_row_settles _ _ _ _ _ _ Hok (consistent_all_but E p Hc) Hr Hu).
Qed.

Lemma editorRowAppendString_settles (p : nat) (s : list ascii) (len : Z)
  (E E' : editorConfig) :
  buffer_ok E -> highlight_consistent E ->
  editorRowAppendString p s len E = Ok E' -> highlight_consistent E'.
Proof.
  intros Hok Hc H. unfold editorRowAppendString in H.
  destruct (get_row E p) as [r| |] eqn:Hr; cbn [bind] in H; try discriminate.
  apply get_row_inv in Hr.
  match type of H with
  | (x <- ?m ;; _) = _ => destruct m as [E1| |] eqn:Hu
  end; cbn [bind] in H; try discriminate.
  injection H as <-.
  exact (edit_row_settles _ _ _ _ _ _ Hok (consistent_all_but E p Hc) Hr Hu).
Qed.

(** ** A row added after the last one *)

Lemma seed_of_app (rs tl : list erow) (q : nat) :
  (q <= length rs)%nat -> seed_of (rs ++ tl) q = seed_of rs q.
Proof.
  intros Hq. destruct q as [|q']; [reflexivity|].
  simpl. rewrite nth_error_app1 by lia. reflexivity.
Qed.

Lemma editorInsertRow_at_end_settles (s : list ascii) (len : Z)
  (E E' : editorConfig) :
  buffer_ok E -> highlight_consistent E ->
  editorInsertRow (numrows E) s len E = Ok E' -> highlight_consistent E'.
Proof.
  intros (Hnum & Hidx & _) Hc H. unfold editorInsertRow in H.
  destruct (Z.ltb_spec (numrows E) 0); [lia|].
  destruct (Z.gtb_spec (numrows E) (numrows E)); [lia|]. cbn [orb] in H.
  cbv zeta in H.
  replace (Z.to_nat (numrows E)) with (length (row E)) in H by lia.
  replace (Z.to_nat (numrows E - numrows E)) with 0%nat in H by lia.
  rewrite firstn_all, skipn_all in H.
  set (fresh := mkRow (numrows E) len 0 (firstn (Z.to_nat len) s) [] [] false)
    in H.
  assert (Hrange : update_range (shift_idx 1) (row E ++ [fresh])
                     (length (row E) + 1) 0 = row E ++ [fresh]).
  { unfold update_range. simpl. rewrite firstn_all2, skipn_all2
      by (rewrite length_app; simpl; lia).
    rewrite app_nil_r. reflexivity. }
  rewrite Hrange in H.
  match type of H with
  | (x <- ?m ;; _) = _ => destruct m as [E1| |] eqn:Hu
  end; cbn [bind] in H; try discriminate.
  injection H as <-.
  apply editorUpdateRow_settles in Hu; [exact Hu| | |].
  - intros q x Hq. simpl in Hq.
    destruct (Nat.lt_ge_cases q (length (row E))) as [Hlt|Hge].
    + rewrite nth_error_app1 in Hq by exact Hlt. apply Hidx. exact Hq.
    + rewrite nth_error_app2 in Hq by exact Hge.
      destruct (q - length (row E))%nat as [|n] eqn:Hd.
      * injection Hq as <-. simpl. lia.
      * destruct n; discriminate.
  - right. simpl. rewrite length_app. simpl. lia.
  - intros q x Hq Hx. simpl in Hx |- *.
    assert (Hlt : (q < length (row E))%nat).
    { apply nth_error_lt in Hx. rewrite length_app in Hx. simpl in Hx. lia. }
    rewrite nth_error_app1 in Hx by exact Hlt.
    specialize (Hc q x Hx). unfold row_settled in *.
    destruct (syntax E); [|exact Hc].
    rewrite seed_of_app by lia. exact Hc.
Qed.

Lemma editorInsertChar_settles (c : Z) (E E' : editorConfig) :
  buffer_ok E -> highlight_consistent E -> 0 <= cy E <= numrows E ->
  editorInsertChar c E = Ok E' -> highlight_consistent E'.
Proof.
  intros Hok Hc Hcy H. unfold editorInsertChar in H.
  destruct (Z.eqb_spec (cy E) (numrows E)) as [Heq|Hne].
  - destruct (editorInsertRow_ok (numrows E) [] 0 E Hok ltac:(lia)
                ltac:(simpl; lia)) as (E1 & He1 & Hok1 & _).
    rewrite He1 in H. cbn [bind] in H.
    apply (editorInsertRow_at_end_settles _ _ _ _ Hok Hc) in He1.
    match type of H with
    | (x <- ?m ;; _) = _ => destruct m as [E2| |] eqn:Hu
    end; cbn [bind] in H; try discriminate.
    injection H as <-.
    exact (editorRowInsertChar_settles _ _ _ _ _ Hok1 He1 Hu).
  - cbn [bind] in H.
    match type of H with
    | (x <- ?m ;; _) = _ => destruct m as [E2| |] eqn:Hu
    end; cbn [bind] in H; try discriminate.
    injection H as <-.
    exact (editorRowInsertChar_settles _ _ _ _ _ Hok Hc Hu).
Qed.

(** X19.  Edits inside a row keep the highlight consistent.  On a
    well-formed buffer whose highlight is consistent, the operations that
    change one row ([editorRowInsertChar], [editorRowDelChar],
    [editorRowAppendString], [editorUpdateRow]), the addition of a row
    after the last one, and [editorInsertChar] at any cursor return
    a well-formed buffer whose highlight is consistent: the rows below
    the edited one are repainted as far as the edit reaches. *)
Theorem row_edits_keep_highlight :
  forall E,
    buffer_ok E -> highlight_consistent E ->
    (forall p at_ c,
        (p < length (row E))%nat ->
        exists E', editorRowInsertChar p at_ c E = Ok E'
                   /\ buffer_ok E' /\ highlight_consistent E')
    /\ (forall p at_,
           (p < length (row E))%nat ->
           exists E', editorRowDelChar p at_ E = Ok E'
                      /\ buffer_ok E' /\ highlight_consistent E')
    /\ (forall p s len,
           (p < length (row E))%nat -> 0 <= len <= Z.of_nat (length s) ->
           exists E', editorRowAppendString p s len E = Ok E'
                      /\ buffer_ok E' /\ highlight_consistent E')
    /\ (forall p,
           (p < length (row E))%nat ->
           exists E', editorUpdateRow E p = Ok E'
                      /\ buffer_ok E' /\ highlight_consistent E')
    /\ (forall s len,
           0 <= len <= Z.of_nat (length s) ->
           exists E', editorInsertRow (numrows E) s len E = Ok E'
                      /\ buffer_ok E' /\ highlight_consistent E')
    /\ (forall c,
           0 <= cy E <= numrows E ->
           exists E', editorInsertChar c E = Ok E'
                      /\ buffer_ok E' /\ highlight_consistent E').
Proof.
  intros E Hok Hc.
  split.
  { intros p at_ c Hp. destruct (nth_error_in_range _ _ Hp) as [r Hr].
    destruct (editorRowInsertChar_ok p at_ c E r Hok Hr) as (E' & He & Hok').
    exists E'. split; [exact He|]. split; [exact Hok'|].
    exact (editorRowInsertChar_settles _ _ _ _ _ Hok Hc He). }
  split.
  { intros p at_ Hp. destruct (nth_error_in_range _ _ Hp) as [r Hr].
    destruct (editorRowDelChar_ok p at_ E r Hok Hr) as (E' & He & Hok').
    exists E'. split; [exact He|]. split; [exact Hok'|].
    exact (editorRowDelChar_settles _ _ _ _ Hok Hc He). }
  split.
  { intros p s len Hp Hlen. destruct (nth_error_in_range _ _ Hp) as [r Hr].
    destruct (editorRowAppendString_ok p s len E r Hok Hr Hlen)
      as (E' & He & Hok' & _).
    exists E'. split; [exact He|]. split; [exact Hok'|].
    exact (editorRowAppendString_settles _ _ _ _ _ Hok Hc He). }
  split.
  { intros p Hp.
    destruct (editorUpdateRow_keeps_ok E p Hok Hp) as (E' & He & Hok').
    exists E'. split; [exact He|]. split; [exact Hok'|].
    destruct Hok as (Hnum & Hidx & _).
    apply (editorUpdateRow_settles E E' p Hidx); [left; lia | exact He |].
    apply consistent_all_but. exact Hc. }
  split.
  { intros s len Hlen.
    destruct (editorInsertRow_at_end s len E Hok Hlen) as (E' & He & Hok' & _).
    exists E'. split; [exact He|]. split; [exact Hok'|].
    exact (editorInsertRow_at_end_settles _ _ _ _ Hok Hc He). }
  intros c Hcy.
  destruct (editorInsertChar_ok c E Hok Hcy) as (E' & He & Hok').
  exists E'. split; [exact He|]. split; [exact Hok'|].
  exact (editorInsertChar_settles _ _ _ Hok Hc Hcy He).
Qed.

(** ** Highlighting all the rows from the top *)

Lemma seed_of_prefix (rs rs' : list erow) (p q : nat) :
  (forall j, (j < p)%nat -> nth_error rs' j = nth_error rs j) ->
  (q <= p)%nat -> seed_of rs' q = seed_of rs q.
Proof.
  intros Hsame Hq. destruct q as [|q']; [reflexivity|].
  simpl. rewrite Hsame by lia. reflexivity.
Qed.

(** After [editorUpdateSyntax] on row [p], the rows up to [p] are settled
    if the rows before [p] were. *)
Lemma prefix_settles (E E' : editorConfig) (p : nat) :
  buffer_ok E -> (p < length (row E))%nat ->
  editorUpdateSyntax E p = Ok E' ->
  (forall q r, (q < p)%nat -> nth_error (row E) q = Some r ->
               row_settled (syntax E) (row E) q r) ->
  forall q r, (q < S p)%nat -> nth_error (row E') q = Some r ->
              row_settled (syntax E') (row E') q r.
Proof.
  intros Hok Hp He Hbefore q x Hq Hx.
  pose proof Hok as (Hnum & Hidx & Hrows & _).
  destruct (editorUpdateSyntax_fuel_result _ E E' p Hidx Hrows
              ltac:(lia) Hp He) as (Hs & _ & Hsame).
  destruct Hs as (_ & _ & _ & _ & _ & _ & _ & _ & Hsyn & _).
  rewrite Hsyn.
  assert (Hseed : seed_of (row E') q = seed_of (row E) q)
    by (apply (seed_of_prefix _ _ p); [exact Hsame | lia]).
  assert (Hgoal : row_settled (syntax E) (row E) q x ->
                  row_settled (syntax E) (row E') q x).
  { unfold row_settled. destruct (syntax E); [|auto].
    rewrite Hseed. auto. }
  apply Hgoal.
  destruct (Nat.eq_dec q p) as [->|Hne].
  - destruct (nth_error_in_range _ _ Hp) as [r Hr].
    destruct (update_one E p) as [[E1 ch]| |] eqn:Hu.
    + rewrite (cascade_first_row _ E E1 E' p ch Hidx Hrows ltac:(lia) Hp Hu He)
        in Hx.
      destruct (update_one_settles E E1 p r ch Hidx Hr Hu)
        as (r1 & -> & _ & Hset & _).
      rewrite nth_error_put_row_same in Hx by exact Hp.
      injection Hx as <-. exact Hset.
    + unfold editorUpdateSyntax in He. cbn [editorUpdateSyntax_fuel] in He.
      rewrite (get_row_some _ _ _ Hr), Hu in He. discriminate.
    + unfold editorUpdateSyntax in He. cbn [editorUpdateSyntax_fuel] in He.
      rewrite (get_row_some _ _ _ Hr), Hu in He. discriminate.
  - rewrite Hsame in Hx by lia. apply Hbefore; [lia | exact Hx].
Qed.

Lemma update_all_settles (n : nat) :
  forall k E E',
    buffer_ok E -> (k + n <= length (row E))%nat ->
    update_all n k E = Ok E' ->
    (forall q r, (q < k)%nat -> nth_error (row E) q = Some r ->
                 row_settled (syntax E) (row E) q r) ->
    forall q r, (q < k + n)%nat -> nth_error (row E') q = Some r ->
                row_settled (syntax E') (row E') q r.
Proof.
  induction n as [|n IH]; intros k E E' Hok Hk H Hbefore; cbn [update_all] in H.
  - injection H as <-. rewrite Nat.add_0_r. exact Hbefore.
  - destruct (editorUpdateSyntax_keeps_ok E k Hok ltac:(lia))
      as (E1 & He1 & Hok1 & Hs1).
    rewrite He1 in H. cbn [bind] in H.
    assert (Hlen : length (row E1) = length (row E)).
    { destruct Hs1 as (_ & _ & _ & _ & _ & _ & _ & _ & _ & _ & Hf).
      symmetry. eapply Forall2_length; eauto. }
    replace (k + S n)%nat with (S k + n)%nat by lia.
    apply (IH (S k) E1 E' Hok1); [lia | exact H |].
    apply (prefix_settles E E1 k Hok); [lia | exact He1 | exact Hbefore].
Qed.

(** X20.  Selecting a syntax repaints the whole buffer.  On a well-formed
    buffer whose file name matches an entry of the registry,
    [editorSelectSyntaxHighlight] returns a well-formed buffer, with that
    entry selected and the text unchanged, whose highlight is consistent,
    whatever the highlight was before. *)
Theorem select_syntax_rehighlights :
  forall E fname s,
    buffer_ok E -> filename E = Some fname ->
    select_syntax HLDB fname = Some s ->
    exists E',
      editorSelectSyntaxHighlight E = Ok E'
      /\ buffer_ok E' /\ syntax E' = Some s
      /\ same_buffer (set_syntax E (Some s)) E'
      /\ highlight_consistent E'.
Proof.
  intros E fname s Hok Hf Hsel. unfold editorSelectSyntaxHighlight.
  change (filename (set_syntax E None)) with (filename E).
  rewrite Hf, Hsel. cbv zeta.
  set (E1 := set_syntax (set_syntax E None) (Some s)).
  assert (Hok1 : buffer_ok E1) by exact Hok.
  pose proof Hok1 as (Hnum & _).
  destruct (update_all_ok (Z.to_nat (numrows E1)) 0 E1 Hok1 ltac:(lia))
    as (E' & He & Hok' & Hsb).
  exists E'. split; [exact He|]. split; [exact Hok'|].
  split; [destruct Hsb as (_ & _ & _ & _ & _ & _ & _ & _ & Hsyn & _);
          exact Hsyn|].
  split; [exact Hsb|].
  intros q r Hr.
  apply (update_all_settles (Z.to_nat (numrows E1)) 0 E1 E' Hok1 ltac:(lia) He).
  - intros q' r' Hq'. lia.
  - pose proof (nth_error_lt _ _ _ Hr) as Hlt.
    destruct Hsb as (_ & _ & _ & _ & _ & _ & _ & _ & _ & _ & Hrows).
    apply Forall2_length in Hrows. lia.
  - exact Hr.
Qed.

(** ** Loading a file *)

Lemma open_loop_settles (ls : list (list ascii)) :
  forall E E',
    buffer_ok E -> highlight_consistent E ->
    open_loop ls E = Ok E' -> highlight_consistent E'.
Proof.
  induction ls as [|line rest IH]; intros E E' Hok Hc H; cbn [open_loop] in H.
  - injection H as <-. exact Hc.
  - assert (Hlen : 0 <= Z.of_nat (strip_len line (length line))
                   <= Z.of_nat (length line))
      by (pose proof (strip_len_le line (length line)); lia).
    destruct (editorInsertRow_at_end line
                (Z.of_nat (strip_len line (length line))) E Hok Hlen)
      as (E1 & He1 & Hok1 & _).
    rewrite He1 in H. cbn [bind] in H.
    apply (IH E1 E' Hok1); [|exact H].
    exact (editorInsertRow_at_end_settles _ _ _ _ Hok Hc He1).
Qed.

(** X21.  A file that was just loaded is highlighted consistently.
    [editorOpen] on the initial editor state returns, for any file name
    and content, a well-formed buffer in which every row has the highlight
    and the comment flag that a scan from the flag of the row above it
    gives. *)
Theorem loaded_file_highlight_consistent :
  forall fname content,
    exists E,
      editorOpen fname (Some content) initEditor = Ok E
      /\ buffer_ok E /\ highlight_consistent E.
Proof.
  intros fname content. unfold editorOpen.
  destruct (editorSelectSyntaxHighlight_ok
              (set_filename initEditor (Some (c_str fname))))
    as (E1 & He1 & Hok1 & Hc1).
  { apply buffer_okb_sound. reflexivity. }
  rewrite He1. cbn [bind].
  assert (Hrows1 : row E1 = []).
  { simpl in Hc1. destruct (row E1); [reflexivity | discriminate]. }
  assert (Hcons1 : highlight_consistent E1).
  { intros q r Hr. rewrite Hrows1 in Hr. destruct q; discriminate. }
  destruct (open_loop_ok (getlines content) E1 Hok1) as (E2 & He2 & Hok2 & _).
  rewrite He2. cbn [bind]. exists (set_dirty E2 0).
  split; [reflexivity|]. split; [exact Hok2|].
  exact (open_loop_settles _ _ _ Hok1 Hcons1 He2).
Qed.

(** ** Deciding consistency *)

Lemma hl_eqb_eq (a : list editorHighlight) :
  forall b, hl_eqb a b = true -> a = b.
Proof.
  induction a as [|x a IH]; intros [|y b] H; simpl in H;
    try discriminate; [reflexivity|].
  apply andb_prop in H. destruct H as [Hxy Hab].
  f_equal; [|apply IH; exact Hab].
  destruct x, y; simpl in Hxy; try discriminate; reflexivity.
Qed.

Lemma row_settledb_sound (syn : option editorSyntax) (rs : list erow)
  (q : nat) (r : erow) :
  row_settledb syn rs q r = true -> row_settled syn rs q r.
Proof.
  unfold row_settledb, row_settled. destruct syn as [s|].
  - destruct (scan_row s (render r) (Z.to_nat (rsize r)) (seed_of rs q))
      as [[h oc]|]; [|discriminate].
    intros H. apply andb_prop in H. destruct H as [Hh Ho].
    apply hl_eqb_eq in Hh. apply Bool.eqb_prop in Ho. subst. reflexivity.
  - apply hl_eqb_eq.
Qed.

Lemma settled_rowsb_sound (syn : option editorSyntax) (rs : list erow)
  (skip : nat -> bool) (l : list erow) :
  forall q,
    settled_rowsb syn rs skip q l = true ->
    forall j r, nth_error l j = Some r -> skip (q + j)%nat = false ->
                row_settled syn rs (q + j) r.
Proof.
  induction l as [|x t IH]; intros q H j r Hj Hskip;
    [destruct j; discriminate|].
  simpl in H. apply andb_prop in H. destruct H as [Hx Ht].
  destruct j as [|j].
  - simpl in Hj. injection Hj as <-. rewrite Nat.add_0_r in *.
    rewrite Hskip in Hx. apply row_settledb_sound. exact Hx.
  - simpl in Hj. replace (q + S j)%nat with (S q + j)%nat in * by lia.
    apply (IH (S q) Ht j r Hj Hskip).
Qed.

Lemma highlight_consistentb_sound (E : editorConfig) :
  highlight_consistentb E = true -> highlight_consistent E.
Proof.
  intros H q r Hr.
  apply (settled_rowsb_sound _ _ _ _ 0%nat H q r Hr). reflexivity.
Qed.

Lemma consistent_butb_sound (E : editorConfig) (p : nat) :
  consistent_butb E p = true -> consistent_but E p.
Proof.
  intros H q r Hq Hr.
  apply (settled_rowsb_sound _ _ _ _ 0%nat H q r Hr).
  apply Nat.eqb_neq. simpl. auto.
Qed.

Lemma editorUpdateSyntax_settles_witness :
  buffer_ok stale_doc /\ (1 < length (row stale_doc))%nat
  /\ consistent_but stale_doc 1
  /\ exists E', editorUpdateSyntax stale_doc 1 = Ok E'
                /\ highlight_consistent E'.
Proof.
  assert (Hok : buffer_ok stale_doc)
    by (apply buffer_okb_sound; vm_compute; reflexivity).
  assert (Hp : (1 < length (row stale_doc))%nat)
    by (vm_compute; repeat constructor).
  assert (Hb : consistent_but stale_doc 1)
    by (apply consistent_butb_sound; vm_compute; reflexivity).
  split; [exact Hok|]. split; [exact Hp|]. split; [exact Hb|].
  destruct (editorUpdateSyntax_settles stale_doc 1 Hok Hp Hb)
    as (E' & He & _ & _ & Hc).
  exists E'. split; [exact He | exact Hc].
Defined.

Lemma editorUpdateSyntax_fixpoint_witness :
  buffer_ok loaded_doc /\ highlight_consistent loaded_doc
  /\ (0 < length (row loaded_doc))%nat
  /\ editorUpdateSyntax loaded_doc 0 = Ok loaded_doc.
Proof.
  assert (Hok : buffer_ok loaded_doc)
    by (apply buffer_okb_sound; vm_compute; reflexivity).
  assert (Hc : highlight_consistent loaded_doc)
    by (apply highlight_consistentb_sound; vm_compute; reflexivity).
  assert (Hp : (0 < length (row loaded_doc))%nat)
    by (vm_compute; repeat constructor).
  split; [exact Hok|]. split; [exact Hc|]. split; [exact Hp|].
  exact (editorUpdateSyntax_fixpoint loaded_doc 0 Hok Hc Hp).
Defined.

Lemma row_edits_keep_highlight_witness :
  buffer_ok loaded_doc /\ highlight_consistent loaded_doc
  /\ (1 < length (row loaded_doc))%nat
  /\ exists E', editorRowDelChar 1 15 loaded_doc = Ok E'
                /\ buffer_ok E' /\ highlight_consistent E'.
Proof.
  assert (Hok : buffer_ok loaded_doc)
    by (apply buffer_okb_sound; vm_compute; reflexivity).
  assert (Hc : highlight_consistent loaded_doc)
    by (apply highlight_consistentb_sound; vm_compute; reflexivity).
  assert (Hp : (1 < length (row loaded_doc))%nat)
    by (vm_compute; repeat constructor).
  split; [exact Hok|]. split; [exact Hc|]. split; [exact Hp|].
  exact (proj1 (proj2 (row_edits_keep_highlight loaded_doc Hok Hc)) 1%nat 15 Hp).
Defined.

Lemma select_syntax_rehighlights_witness :
  buffer_ok (set_filename stale_doc (Some (s2l "y.go")))
  /\ filename (set_filename stale_doc (Some (s2l "y.go"))) = Some (s2l "y.go")
  /\ exists s E',
      select_syntax HLDB (s2l "y.go") = Some s
      /\ editorSelectSyntaxHighlight
           (set_filename stale_doc (Some (s2l "y.go"))) = Ok E'
      /\ syntax E' = Some s /\ highlight_consistent E'.
Proof.
  assert (Hok : buffer_ok (set_filename stale_doc (Some (s2l "y.go"))))
    by (apply buffer_okb_sound; vm_compute; reflexivity).
  split; [exact Hok|]. split; [reflexivity|].
  destruct (select_syntax HLDB (s2l "y.go")) as [s|] eqn:Hs;
    [|exfalso; revert Hs; vm_compute; discriminate].
  exists s.
  destruct (select_syntax_rehighlights
              (set_filename stale_doc (Some (s2l "y.go"))) (s2l "y.go") s
              Hok eq_refl Hs) as (E' & He & _ & Hsyn & _ & Hc).
  exists E'. auto.
Defined.

(** ** Rows that are comments *)

Lemma store_repeat {A : Type} (a b : A) (i m : nat) :
  store (repeat a i ++ repeat b (S m)) i a = repeat a (S i) ++ repeat b m.
Proof.
  rewrite store_split.
  assert (Hl : length (repeat a i) = i) by apply repeat_length.
  rewrite (firstn_pre _ _ _ Hl).
  change (repeat b (S m)) with (b :: repeat b m).
  rewrite (skipn_S_pre _ _ _ _ Hl).
  replace (S i) with (i + 1)%nat by lia.
  rewrite repeat_app, <- app_assoc. reflexivity.
Qed.

Section OpenComment.

Variable syn : editorSyntax.
Variables mcs mce : list ascii.
Hypothesis Hmcs : multiline_comment_start syn = Some mcs.
Hypothesis Hmce : multiline_comment_end syn = Some mce.
Hypothesis Hmcs_len : strlen mcs <> 0%nat.
Hypothesis Hmce_len : strlen mce <> 0%nat.
Variable rd : list ascii.
Hypothesis no_close :
  forall i, (i < length rd)%nat ->
            strncmp_eq (skipn i rd) mce (strlen mce) = false.

(** One run of the loop body inside a comment that does not end here. *)
Lemma scan_body_in_comment (i m : nat) :
  (i + S m = length rd)%nat ->
  scan_body syn rd (length rd)
    (mkScan i true NUL true
       (repeat HL_MLCOMMENT i ++ repeat HL_NORMAL (S m)))
  = Continue (mkScan (i + 1) true NUL true
                (repeat HL_MLCOMMENT (S i) ++ repeat HL_NORMAL m)).
Proof.
  intros Hi. unfold scan_body.
  assert (Hscs : scan_scs syn rd (length rd)
                   (mkScan i true NUL true
                      (repeat HL_MLCOMMENT i ++ repeat HL_NORMAL (S m)))
                 = None).
  { unfold scan_scs. cbn [sc_in_comment negb].
    rewrite andb_false_r. reflexivity. }
  rewrite Hscs. unfold scan_mlcomment. rewrite Hmcs, Hmce.
  cbn [opt_strlen opt_str sc_i sc_in_comment sc_hl sc_prev_sep sc_in_string].
  destruct (Nat.eqb_spec (strlen mcs) 0); [contradiction|].
  destruct (Nat.eqb_spec (strlen mce) 0); [contradiction|].
  unfold in_str. cbn [sc_in_string negb andb].
  replace (Ascii.eqb NUL NUL) with true by reflexivity. cbn [negb andb].
  rewrite no_close by lia. rewrite store_repeat. reflexivity.
Qed.

Lemma scan_loop_in_comment (m : nat) :
  forall fuel i,
    (i + m = length rd)%nat -> (m <= fuel)%nat ->
    scan_loop fuel syn rd (length rd)
      (mkScan i true NUL true
         (repeat HL_MLCOMMENT i ++ repeat HL_NORMAL m))
    = Some (mkScan (length rd) true NUL true
              (repeat HL_MLCOMMENT (length rd))).
Proof.
  induction m as [|m IH]; intros fuel i Hi Hfuel.
  - assert (i = length rd) by lia. subst i.
    destruct fuel; cbn [scan_loop sc_i]; rewrite Nat.ltb_irrefl;
      rewrite app_nil_r; reflexivity.
  - destruct fuel as [|fuel]; [lia|]. cbn [scan_loop sc_i].
    destruct (Nat.ltb_spec i (length rd)); [|lia].
    rewrite (scan_body_in_comment i m Hi).
    rewrite Nat.add_1_r. apply IH; lia.
Qed.

End OpenComment.

(** X22.  Rows that are comments.  For a syntax with both multi-line
    markers, a row that begins inside a comment and holds no close marker
    is highlighted as a multi-line comment throughout and leaves the
    comment open for the next row.  For a syntax with a single-line marker,
    a row that begins outside a comment with that marker is highlighted as
    a comment throughout, and leaves no comment open. *)
Theorem scan_row_comments :
  (forall syn mcs mce rd,
      multiline_comment_start syn = Some mcs ->
      multiline_comment_end syn = Some mce ->
      strlen mcs <> 0%nat -> strlen mce <> 0%nat ->
      (forall i, (i < length rd)%nat ->
                 strncmp_eq (skipn i rd) mce (strlen mce) = false) ->
      scan_row syn rd (length rd) true
      = Some (repeat HL_MLCOMMENT (length rd), true))
  /\ (forall syn scs rd,
         singleline_comment_start syn = Some scs ->
         strlen scs <> 0%nat ->
         strncmp_eq rd scs (strlen scs) = true ->
         scan_row syn rd (length rd) false
         = Some (repeat HL_COMMENT (length rd), false)).
Proof.
  split.
  - intros syn mcs mce rd Hmcs Hmce Hl1 Hl2 Hno. unfold scan_row.
    pose proof (scan_loop_in_comment syn mcs mce Hmcs Hmce Hl1 Hl2 rd Hno
                  (length rd) (scan_fuel (length rd)) 0 eq_refl) as H.
    cbn [repeat app] in H. rewrite H; [reflexivity|].
    unfold scan_fuel. lia.
  - intros syn scs rd Hscs Hlen Hm. unfold scan_row, scan_fuel.
    destruct rd as [|c rd'].
    + reflexivity.
    + replace (2 * length (c :: rd') + 1)%nat
        with (S (2 * length (c :: rd')))%nat by lia.
      cbn [scan_loop sc_i].
      replace (0 <? length (c :: rd'))%nat with true by reflexivity.
      unfold scan_body, scan_scs. rewrite Hscs.
      cbn [opt_strlen opt_str sc_i sc_in_comment sc_hl sc_prev_sep
           sc_in_string skipn].
      destruct (Nat.eqb_spec (strlen scs) 0); [contradiction|].
      unfold in_str. cbn [sc_in_string].
      replace (Ascii.eqb NUL NUL) with true by reflexivity.
      cbn [negb andb]. rewrite Hm. cbn [sc_hl sc_in_comment].
      f_equal. f_equal. unfold memset.
      rewrite Nat.sub_0_r. cbn [firstn Nat.add app].
      rewrite skipn_all2 by (rewrite repeat_length; lia).
      apply app_nil_r.
Qed.

Lemma scan_row_comments_witness :
  multiline_comment_start C_syntax = Some (s2l "/*")
  /\ multiline_comment_end C_syntax = Some (s2l "*/")
  /\ strlen (s2l "/*") <> 0%nat /\ strlen (s2l "*/") <> 0%nat
  /\ (forall i, (i < length (s2l "still /* open"))%nat ->
                strncmp_eq (skipn i (s2l "still /* open")) (s2l "*/")
                  (strlen (s2l "*/")) = false)
  /\ scan_row C_syntax (s2l "still /* open") (length (s2l "still /* open"))
       true
     = Some (repeat HL_MLCOMMENT (length (s2l "still /* open")), true).
Proof.
  assert (H1 : multiline_comment_start C_syntax = Some (s2l "/*"))
    by reflexivity.
  assert (H2 : multiline_comment_end C_syntax = Some (s2l "*/"))
    by reflexivity.
  assert (H3 : strlen (s2l "/*") <> 0%nat) by discriminate.
  assert (H4 : strlen (s2l "*/") <> 0%nat) by discriminate.
  assert (H5 : forall i, (i < length (s2l "still /* open"))%nat ->
                         strncmp_eq (skipn i (s2l "still /* open")) (s2l "*/")
                           (strlen (s2l "*/")) = false).
  { intros i Hi. simpl in Hi.
    do 13 (destruct i as [|i]; [reflexivity|]). lia. }
  split; [exact H1|]. split; [exact H2|]. split; [exact H3|].
  split; [exact H4|]. split; [exact H5|].
  exact (proj1 scan_row_comments C_syntax _ _ _ H1 H2 H3 H4 H5).
Defined.

(** * The prompt *)

Lemma printable_branch (c : Z) :
  printable c ->
  (c =? CTRL_KEY KEY_x) || (c =? BACKSPACE) = false
  /\ (c =? KEY_ESC) = false /\ (c =? KEY_ENTER) = false
  /\ negb (iscntrl c) && (c <? 128) = true.
Proof.
  unfold printable, iscntrl. change (CTRL_KEY KEY_x) with 24.
  unfold BACKSPACE, KEY_ESC, KEY_ENTER. intros Hc.
  destruct (Z.eqb_spec c 24); [lia|].
  destruct (Z.eqb_spec c 127); [lia|].
  destruct (Z.eqb_spec c 27); [lia|].
  destruct (Z.eqb_spec c 13); [lia|].
  destruct (Z.leb_spec 0 c); [|lia].
  destruct (Z.ltb_spec c 32); [lia|].
  destruct (Z.ltb_spec c 128); [|lia].
  repeat split.
Qed.

Lemma editorPrompt_typed {S : Type} (screenrows screencols : Z)
  (ks : list Z) :
  forall (buf : list ascii) (st : S) (E : editorConfig) (after : list Z),
    numrows E <= Z.of_nat (length (row E)) -> 0 <= cy E ->
    Forall printable ks -> buf ++ map char_of_int ks <> [] ->
    exists E',
      editorPrompt screenrows screencols None (ks ++ KEY_ENTER :: after) buf
        st E
      = Ok (Some (buf ++ map char_of_int ks), st, E', after)
      /\ E' = set_rowoff (set_coloff (set_rx E (rx E')) (coloff E'))
                (rowoff E').
Proof.
  induction ks as [|c rest IH]; intros buf st E after Hnum Hcy Hks Hne.
  - cbn [app editorPrompt map] in *. rewrite app_nil_r in *.
    destruct (editorScroll_total screenrows screencols E Hnum Hcy)
      as [E1 He1].
    destruct (editorScroll_inv _ _ _ _ He1) as (x & co & ro & HE1).
    rewrite He1. cbn [bind].
    change ((KEY_ENTER =? CTRL_KEY KEY_x) || (KEY_ENTER =? BACKSPACE))
      with false.
    change (KEY_ENTER =? KEY_ESC) with false.
    change (KEY_ENTER =? KEY_ENTER) with true. cbv iota.
    destruct buf as [|b buf']; [contradiction Hne; reflexivity|].
    cbn [length Nat.eqb negb call_back bind fst snd].
    exists E1. split; [reflexivity|]. subst E1. reflexivity.
  - inversion Hks as [|c' rest' Hc Hrest]; subst.
    destruct (printable_branch c Hc) as (B1 & B2 & B3 & B4).
    cbn [app editorPrompt map].
    destruct (editorScroll_total screenrows screencols E Hnum Hcy)
      as [E1 He1].
    destruct (editorScroll_inv _ _ _ _ He1) as (x & co & ro & HE1).
    rewrite He1. cbn [bind]. rewrite B1, B2, B3, B4.
    cbn [call_back bind fst snd].
    destruct (IH (buf ++ [char_of_int c]) st E1 after) as (E' & He' & Hf').
    + subst E1. exact Hnum.
    + subst E1. exact Hcy.
    + exact Hrest.
    + rewrite <- app_assoc. exact Hne.
    + exists E'. rewrite <- app_assoc in He'. split; [exact He'|].
      rewrite Hf' at 1. subst E1. reflexivity.
Qed.

(** X23.  The prompt returns what was typed.  With no callback, on an
    editor state whose cursor line is not negative and whose [numrows] does
    not exceed the number of rows, [editorPrompt] on printable characters
    (at least one) and then Enter returns those characters, in their
    order, and leaves the keys after the Enter unread; the state of the
    editor changes in [rx] and the scroll offsets at most, by the refresh
    of the screen. *)
Theorem editorPrompt_returns_typed :
  forall (S : Type) screenrows screencols ks after (st : S) E,
    numrows E <= Z.of_nat (length (row E)) -> 0 <= cy E ->
    Forall printable ks -> ks <> [] ->
    exists E',
      editorPrompt screenrows screencols None (ks ++ KEY_ENTER :: after) []
        st E
      = Ok (Some (map char_of_int ks), st, E', after)
      /\ E' = set_rowoff (set_coloff (set_rx E (rx E')) (coloff E'))
                (rowoff E').
Proof.
  intros S sr sc ks after st E Hnum Hcy Hks Hne.
  apply (editorPrompt_typed sr sc ks [] st E after Hnum Hcy Hks).
  destruct ks; [contradiction Hne; reflexivity | discriminate].
Qed.

Lemma editorPrompt_returns_typed_witness :
  numrows loaded_doc <= Z.of_nat (length (row loaded_doc))
  /\ 0 <= cy loaded_doc /\ Forall printable [97; 46; 99]
  /\ exists E',
      editorPrompt 20 80 None ([97; 46; 99] ++ KEY_ENTER :: [ARROW_UP]) []
        tt loaded_doc
      = Ok (Some (s2l "a.c"), tt, E', [ARROW_UP]).
Proof.
  assert (H1 : numrows loaded_doc <= Z.of_nat (length (row loaded_doc)))
    by (vm_compute; discriminate).
  assert (H2 : 0 <= cy loaded_doc) by (vm_compute; discriminate).
  assert (H3 : Forall printable [97; 46; 99])
    by (repeat constructor; unfold printable; lia).
  split; [exact H1|]. split; [exact H2|]. split; [exact H3|].
  destruct (editorPrompt_returns_typed unit 20 80 [97; 46; 99] [ARROW_UP] tt
              loaded_doc H1 H2 H3) as (E' & He & _); [discriminate|].
  exists E'. exact He.
Defined.

(** ** The key handler *)

Lemma same_setting_refl (E : editorConfig) : same_setting E E.
Proof. unfold same_setting. repeat split. Qed.

Lemma same_setting_trans (E1 E2 E3 : editorConfig) :
  same_setting E1 E2 -> same_setting E2 E3 -> same_setting E1 E3.
Proof.
  unfold same_setting.
  intros (A1 & A2 & A3 & A4 & A5 & A6) (B1 & B2 & B3 & B4 & B5 & B6).
  repeat split; congruence.
Qed.

Lemma same_buffer_setting (E E' : editorConfig) :
  same_buffer E E' -> same_setting E E'.
Proof.
  intros (_ & _ & H1 & H2 & H3 & _ & _ & H4 & H5 & H6 & _).
  unfold same_setting. repeat split; assumption.
Qed.

Lemma editorUpdateRow_setting (E E' : editorConfig) (p : nat) :
  editorUpdateRow E p = Ok E' -> same_setting E E'.
Proof.
  intros H. destruct (editorUpdateRow_inv E E' p H) as (r & rd & _ & _ & Hs).
  apply same_buffer_setting in Hs. exact Hs.
Qed.

(** One step of the inversion of a computation that returned. *)
Ltac ok_step H :=
  match type of H with
  | bind ?m _ = Ok _ =>
      let e := fresh "Hm" in
      destruct m eqn:e; cbn [bind] in H; [|discriminate H ..]
  | Ok _ = Ok _ => injection H as H; try subst
  end.

Lemma editorRowInsertChar_setting (p : nat) (at_ c : Z)
  (E E' : editorConfig) :
  editorRowInsertChar p at_ c E = Ok E' -> same_setting E E'.
Proof.
  unfold editorRowInsertChar. intros H. ok_step H. ok_step H. ok_step H.
  apply editorUpdateRow_setting in Hm0. exact Hm0.
Qed.

Lemma editorRowDelChar_setting (p : nat) (at_ : Z) (E E' : editorConfig) :
  editorRowDelChar p at_ E = Ok E' -> same_setting E E'.
Proof.
  unfold editorRowDelChar. intros H. ok_step H.
  destruct ((at_ <? 0) || (at_ >=? size a)).
  - ok_step H. apply same_setting_refl.
  - ok_step H. ok_step H. apply editorUpdateRow_setting in Hm0. exact Hm0.
Qed.

Lemma editorRowAppendString_setting (p : nat) (s : list ascii) (len : Z)
  (E E' : editorConfig) :
  editorRowAppendString p s len E = Ok E' -> same_setting E E'.
Proof.
  unfold editorRowAppendString. intros H. ok_step H. ok_step H. ok_step H.
  apply editorUpdateRow_setting in Hm0. exact Hm0.
Qed.

Lemma editorInsertRow_setting (at_ : Z) (s : list ascii) (len : Z)
  (E E' : editorConfig) :
  editorInsertRow at_ s len E = Ok E' -> same_setting E E'.
Proof.
  unfold editorInsertRow. intros H.
  destruct ((at_ <? 0) || (at_ >? numrows E)).
  - ok_step H. apply same_setting_refl.
  - ok_step H. ok_step H. apply editorUpdateRow_setting in Hm. exact Hm.
Qed.

Lemma editorDelRow_setting (at_ : Z) (E : editorConfig) :
  same_setting E (editorDelRow at_ E).
Proof.
  unfold editorDelRow.
  destruct ((at_ <? 0) || (at_ >=? numrows E));
    unfold same_setting; repeat split.
Qed.

Lemma editorInsertChar_setting (c : Z) (E E' : editorConfig) :
  editorInsertChar c E = Ok E' -> same_setting E E'.
Proof.
  unfold editorInsertChar. intros H. ok_step H. ok_step H. ok_step H.
  apply editorRowInsertChar_setting in Hm0.
  assert (H1 : same_setting E a).
  { destruct (cy E =? numrows E).
    - apply editorInsertRow_setting in Hm. exact Hm.
    - injection Hm as <-. apply same_setting_refl. }
  exact (same_setting_trans _ _ _ H1 Hm0).
Qed.

Lemma editorInsertNewline_setting (E E' : editorConfig) :
  editorInsertNewline E = Ok E' -> same_setting E E'.
Proof.
  unfold editorInsertNewline. intros H. ok_step H. ok_step H.
  destruct (cx E =? 0).
  - apply editorInsertRow_setting in Hm. exact Hm.
  - ok_step Hm. ok_step Hm. ok_step Hm.
    apply editorInsertRow_setting in Hm1.
    apply editorUpdateRow_setting in Hm.
    exact (same_setting_trans _ _ _ Hm1 Hm).
Qed.

Lemma editorDelChar_setting (E E' : editorConfig) :
  editorDelChar E = Ok E' -> same_setting E E'.
Proof.
  unfold editorDelChar. intros H.
  destruct ((cy E =? numrows E) || ((cx E =? 0) && (cy E =? 0))).
  - ok_step H. apply same_setting_refl.
  - ok_step H. destruct (cx E >? 0).
    + ok_step H. ok_step H. apply editorRowDelChar_setting in Hm0.
      exact Hm0.
    + ok_step H. cbv zeta in H. ok_step H. ok_step H.
      apply editorRowAppendString_setting in Hm1.
      exact (same_setting_trans _ _ _ Hm1 (editorDelRow_setting _ _)).
Qed.

Lemma same_but_view_refl (E : editorConfig) : same_but_view E E.
Proof.
  exists (rx E), (coloff E), (rowoff E). destruct E. reflexivity.
Qed.

Lemma same_but_view_trans (E1 E2 E3 : editorConfig) :
  same_but_view E1 E2 -> same_but_view E2 E3 -> same_but_view E1 E3.
Proof.
  intros (x & co & ro & ->) (x' & co' & ro' & ->).
  exists x', co', ro'. reflexivity.
Qed.

Lemma same_but_view_ok (E E' : editorConfig) :
  same_but_view E E' ->
  (buffer_ok E -> buffer_ok E')
  /\ (rows_rendered E -> rows_rendered E')
  /\ (cursor_ok E -> cursor_ok E')
  /\ row E' = row E /\ numrows E' = numrows E /\ cx E' = cx E
  /\ cy E' = cy E /\ dirty E' = dirty E /\ filename E' = filename E
  /\ syntax E' = syntax E /\ tab_stop E' = tab_stop E.
Proof.
  intros (x & co & ro & ->).
  split; [intros H; exact H|]. split; [intros H; exact H|].
  split; [intros H; exact H|]. repeat split.
Qed.

Lemma editorScroll_rowoff (screenrows screencols : Z) (E E' : editorConfig) :
  editorScroll screenrows screencols E = Ok E' ->
  same_but_view E E'
  /\ rowoff E' = scroll_rowoff screenrows (cy E) (rowoff E).
Proof.
  intros H.
  assert (Hx : exists x,
             (if cy E <? numrows E
              then r <- row_ref E (cy E) ;;
                   Ok (set_rx E (editorRowCxToRx E r (cx E)))
              else Ok (set_rx E 0)) = Ok (set_rx E x)).
  { unfold editorScroll in H.
    destruct (cy E <? numrows E); [|eauto].
    destruct (row_ref E (cy E)) as [r| |]; simpl in *;
      [eauto | discriminate | discriminate]. }
  destruct Hx as [x Hx].
  rewrite (editorScroll_offsets _ _ E x Hx) in H. injection H as <-.
  split; [|reflexivity]. unfold same_but_view. eauto.
Qed.

(** [editorMoveCursor] from a cursor that may be beyond the end of its
    row: the clamp makes it valid. *)
Lemma editorMoveCursor_clamps (key : Z) (E : editorConfig) :
  buffer_ok E -> 0 <= cy E <= numrows E -> 0 <= cx E ->
  exists x y,
    editorMoveCursor key E = Ok (set_cursor E x y)
    /\ cursor_ok (set_cursor E x y)
    /\ (key = ARROW_UP -> y = Z.max 0 (cy E - 1))
    /\ (key = ARROW_DOWN -> y = Z.min (numrows E) (cy E + 1)).
Proof.
  intros Hok Hcy Hcx.
  assert (Hy : forall E1, move_switch key E = Ok E1 ->
                 (key = ARROW_UP -> cy E1 = Z.max 0 (cy E - 1))
                 /\ (key = ARROW_DOWN ->
                     cy E1 = Z.min (numrows E) (cy E + 1))).
  { intros E1 H1. unfold move_switch in H1.
    split; intros ->; simpl in H1.
    - destruct (Z.eqb_spec (cy E) 0); simpl in H1; injection H1 as <-;
        simpl; lia.
    - destruct (Z.ltb_spec (cy E) (numrows E)); injection H1 as <-;
        simpl; lia. }
  unfold editorMoveCursor.
  destruct (move_switch_ok key E Hok Hcy Hcx)
    as (E1 & Hsw & Hframe & Hcy1 & Hcx1).
  destruct (Hy E1 Hsw) as [Hup Hdown]. rewrite Hsw. cbn [bind].
  assert (Hok1 : buffer_ok E1)
    by (rewrite Hframe; apply buffer_ok_set_cursor; exact Hok).
  assert (Hn1 : numrows E1 = numrows E) by (rewrite Hframe; reflexivity).
  destruct (clamp_cursor_ok E1 Hok1 ltac:(lia) Hcx1) as (n & -> & Hc).
  cbn [bind]. rewrite Z.gtb_ltb in *.
  destruct (Z.ltb_spec n (cx E1)).
  - exists n, (cy E1).
    assert (Heq : set_cx E1 n = set_cursor E n (cy E1))
      by (rewrite Hframe; reflexivity).
    rewrite <- Heq. split; [reflexivity|]. split; [exact Hc|].
    split; assumption.
  - exists (cx E1), (cy E1). rewrite <- Hframe.
    split; [reflexivity|]. split; [exact Hc|]. split; assumption.
Qed.

(** The loop of the page keys. *)
Lemma move_times_ok (n : nat) (key : Z) :
  forall E,
    buffer_ok E -> 0 <= cy E <= numrows E -> 0 <= cx E ->
    exists x y,
      move_times n key E = Ok (set_cursor E x y)
      /\ 0 <= y <= numrows E /\ 0 <= x
      /\ (cursor_ok E \/ n <> 0%nat -> cursor_ok (set_cursor E x y))
      /\ (key = ARROW_UP -> y = Z.max 0 (cy E - Z.of_nat n))
      /\ (key = ARROW_DOWN -> y = Z.min (numrows E) (cy E + Z.of_nat n)).
Proof.
  induction n as [|n IH]; intros E Hok Hcy Hcx; cbn [move_times].
  - exists (cx E), (cy E). rewrite set_cursor_same.
    split; [reflexivity|]. split; [exact Hcy|]. split; [exact Hcx|].
    split; [intros [H|H]; [exact H | congruence]|].
    split; intros _; lia.
  - destruct (editorMoveCursor_clamps key E Hok Hcy Hcx)
      as (x1 & y1 & -> & Hc1 & Hup1 & Hdown1).
    cbn [bind].
    assert (Hc1' := Hc1). destruct Hc1' as (B1 & B2 & _).
    destruct (IH (set_cursor E x1 y1) (buffer_ok_set_cursor E x1 y1 Hok)
                B1 B2) as (x & y & -> & Hy & Hx & Hc & Hup & Hdown).
    rewrite set_cursor_set. exists x, y.
    split; [reflexivity|]. split; [exact Hy|]. split; [exact Hx|].
    split.
    + intros _. rewrite <- (set_cursor_set E x1 y1 x y). apply Hc.
      left. exact Hc1.
    + cbn [cy numrows set_cursor] in *.
      split; intros K; [rewrite (Hup K), (Hup1 K) |
                        rewrite (Hdown K), (Hdown1 K)]; lia.
Qed.

Lemma editorRowRxToCx_range (E : editorConfig) (r : erow) (x : Z) :
  0 <= size r -> 0 <= x -> 0 <= editorRowRxToCx E r x <= size r.
Proof.
  intros Hsz Hx. unfold editorRowRxToCx.
  destruct (rx_to_cx_loop_brackets (tab_stop E) (chars r) x
              (Z.to_nat (size r)) 0%nat) as (c & Hc & Hr & _).
  - simpl. exact Hx.
  - simpl in Hc. rewrite Hc. lia.
Qed.

(** Where [editorFindCallback] leaves the cursor: where it was, or on a
    row of the buffer at a column of it, with [rowoff] at [numrows]. *)
Lemma editorFindCallback_cursor (E0 : editorConfig) (query : list ascii)
  (key : Z) (fs fs' : find_state) (E E' : editorConfig) :
  buffer_ok E0 -> find_inv E0 fs E ->
  editorFindCallback query key fs E = Ok (fs', E') ->
  (cx E' = cx E /\ cy E' = cy E /\ rowoff E' = rowoff E)
  \/ (rowoff E' = numrows E0 /\ 0 <= cy E' < numrows E0
      /\ exists r, nth_error (row E0) (Z.to_nat (cy E')) = Some r
                   /\ 0 <= cx E' <= size r).
Proof.
  intros Hok Hinv H. unfold editorFindCallback in H.
  destruct (find_restore_ok E0 Hok fs E Hinv)
    as (fs1 & E1 & Hr & Hrows & _ & _ & _ & Hinv1).
  rewrite Hr in H. cbn [bind fst snd] in H.
  destruct (find_restore_frame _ _ _ _ Hr)
    as (F1 & F2 & _ & F4 & _ & F6 & _).
  destruct ((key =? KEY_ENTER) || (key =? KEY_ESC)).
  { injection H as _ <-. left. auto. }
  match type of H with
  | (found <- ?m ;; _) = _ => destruct m as [found| |] eqn:Hs
  end; cbn [bind] in H; try discriminate.
  destruct found as [[current off]|].
  - pose proof (find_scan_nonneg _ _ _ _ _ _ _ Hs) as Hc0.
    destruct (get_row E1 (Z.to_nat current)) as [r| |] eqn:Hg;
      cbn [bind] in H; try discriminate.
    apply get_row_inv in Hg. rewrite Hrows in Hg.
    injection H as _ <-. right.
    cbn [rowoff cx cy put_row set_rows set_rowoff set_cursor].
    destruct Hinv1 as (Hn1 & _). pose proof Hok as (Hlen & _).
    pose proof (nth_error_lt _ _ _ Hg) as Hlt.
    split; [exact Hn1|]. split; [lia|].
    exists r. split; [exact Hg|].
    apply editorRowRxToCx_range; [|lia].
    destruct (buffer_ok_row E0 _ r Hok Hg) as [Hsz _]. lia.
  - injection H as _ <-. left. auto.
Qed.

(** The prompt on a state in which the scroll and the callback return
    and which they keep: it returns in such a state with a key read at
    least, unless the keys run out. *)
Lemma editorPrompt_runs {S : Type} (screenrows screencols : Z)
  (callback : option (list ascii -> Z -> S -> editorConfig
                      -> result (S * editorConfig)))
  (P : S -> editorConfig -> Prop) :
  (forall st E,
      P st E ->
      exists E1, editorScroll screenrows screencols E = Ok E1 /\ P st E1) ->
  (forall buf c st E,
      P st E ->
      exists st' E', call_back callback buf c st E = Ok (st', E')
                     /\ P st' E') ->
  forall keys buf st E,
    P st E ->
    editorPrompt screenrows screencols callback keys buf st E = OutOfFuel
    \/ exists q st' E' rest,
        editorPrompt screenrows screencols callback keys buf st E
        = Ok (q, st', E', rest)
        /\ P st' E' /\ exists c used, keys = c :: used ++ rest.
Proof.
  intros Hscroll Hcb.
  induction keys as [|c ks IH]; intros buf st E HP; [left; reflexivity|].
  cbn [editorPrompt].
  destruct (Hscroll st E HP) as (E1 & -> & HP1). cbn [bind].
  assert (Hturn := fun b => Hcb b c st E1 HP1).
  assert (Hloop : forall b st1 E2,
             P st1 E2 ->
             editorPrompt screenrows screencols callback ks b st1 E2
             = OutOfFuel
             \/ exists q st' E' rest,
                 editorPrompt screenrows screencols callback ks b st1 E2
                 = Ok (q, st', E', rest)
                 /\ P st' E' /\ exists c' used, c :: ks = c' :: used ++ rest).
  { intros b st1 E2 H2.
    destruct (IH b st1 E2 H2)
      as [Hout|(q & st' & E' & rest & He & H1 & c1 & used & ->)];
      [left; exact Hout|].
    right. exists q, st', E', rest. split; [exact He|].
    split; [exact H1|]. exists c, (c1 :: used). reflexivity. }
  destruct ((c =? CTRL_KEY KEY_x) || (c =? BACKSPACE)).
  { destruct (Hturn (if negb (length buf =? 0)%nat then removelast buf
                     else buf)) as (st1 & E2 & -> & H2).
    cbn [bind fst snd]. apply Hloop. exact H2. }
  destruct (c =? KEY_ESC).
  { destruct (Hturn buf) as (st1 & E2 & -> & H2). cbn [bind fst snd].
    right. exists None, st1, E2, ks. split; [reflexivity|].
    split; [exact H2|]. exists c, []. reflexivity. }
  destruct (c =? KEY_ENTER).
  { destruct (Hturn buf) as (st1 & E2 & Hc & H2).
    destruct (negb (length buf =? 0)%nat); rewrite Hc; cbn [bind fst snd].
    - right. exists (Some buf), st1, E2, ks. split; [reflexivity|].
      split; [exact H2|]. exists c, []. reflexivity.
    - apply Hloop. exact H2. }
  destruct (Hturn (if negb (iscntrl c) && (c <? 128)
                   then buf ++ [char_of_int c] else buf))
    as (st1 & E2 & -> & H2).
  cbn [bind fst snd]. apply Hloop. exact H2.
Qed.

Lemma prompt_inv_idle (E : editorConfig) (fs : find_state) :
  buffer_ok E -> 0 <= cy E -> find_idle fs -> prompt_inv E fs E.
Proof.
  intros Hok Hcy (H1 & H2 & H3).
  split; [|repeat split; auto].
  unfold find_inv. rewrite H1, H2, H3.
  destruct Hok as (Hn & _).
  split; [reflexivity|]. split; [lia|]. split; [left|]; reflexivity.
Qed.

Lemma search_inv_scroll (E0 : editorConfig) (screenrows screencols : Z)
  (fs : find_state) (E : editorConfig) :
  buffer_ok E0 -> 1 <= screenrows ->
  search_inv E0 fs E ->
  exists E1, editorScroll screenrows screencols E = Ok E1
             /\ search_inv E0 fs E1.
Proof.
  intros Hok Hsr ((Hinv & Hcy & Hd & Hf & Hs & Ht) & Hc & Hro).
  pose proof (find_inv_length E0 Hok fs E Hinv) as Hlen.
  destruct (editorScroll_total screenrows screencols E ltac:(lia) Hcy)
    as [E1 H].
  exists E1. split; [exact H|].
  destruct (editorScroll_rowoff _ _ _ _ H) as [Hv Hr].
  destruct (scroll_rowoff_spec screenrows (cy E) (rowoff E) Hsr)
    as (_ & R2 & _).
  destruct (same_but_view_ok _ _ Hv)
    as (_ & _ & _ & V1 & V2 & V3 & V4 & V5 & V6 & V7 & V8).
  split; [split|].
  - unfold find_inv in *. rewrite V1, V2. exact Hinv.
  - repeat split; congruence.
  - rewrite V3, V4, Hr. auto.
Qed.

Lemma search_inv_callback (E0 : editorConfig) (query : list ascii) (c : Z)
  (fs : find_state) (E : editorConfig) :
  buffer_ok E0 ->
  search_inv E0 fs E ->
  exists fs' E',
    call_back (Some editorFindCallback) query c fs E = Ok (fs', E')
    /\ search_inv E0 fs' E'.
Proof.
  intros Hok ((Hinv & Hcy & Hd & Hf & Hs & Ht) & Hc & Hro).
  cbn [call_back].
  destruct (editorFindCallback_ok E0 Hok query c fs E Hinv)
    as (fs' & E' & H & Hinv' & _).
  exists fs', E'. split; [exact H|].
  destruct (editorFindCallback_frame _ _ _ _ _ _ H)
    as (G1 & G2 & G3 & G4 & G5 & G6 & _).
  split; [split; [exact Hinv'|repeat split; auto; congruence]|].
  destruct (editorFindCallback_cursor E0 _ _ _ _ _ _ Hok Hinv H)
    as [(C1 & C2 & C3)|(C1 & C2 & r & Hr & Hx)].
  - rewrite C1, C2, C3. auto.
  - split; [|destruct Hok as (Hn & _); lia].
    apply cursor_ok_set; [exact Hok | lia | lia | lia |].
    intros r' Hr'. rewrite Hr in Hr'. injection Hr' as <-. lia.
Qed.

Lemma cursor_ok_same_rows (E E' : editorConfig) :
  row E' = row E -> numrows E' = numrows E -> cx E' = cx E ->
  cy E' = cy E -> cursor_ok E -> cursor_ok E'.
Proof.
  unfold cursor_ok. intros -> -> -> ->. auto.
Qed.

Lemma buffer_ok_same_rows (E E' : editorConfig) :
  row E' = row E -> numrows E' = numrows E -> tab_stop E' = tab_stop E ->
  buffer_ok E -> buffer_ok E'.
Proof.
  unfold buffer_ok. intros -> -> ->. auto.
Qed.

Lemma rows_rendered_same_rows (E E' : editorConfig) :
  row E' = row E -> tab_stop E' = tab_stop E ->
  rows_rendered E -> rows_rendered E'.
Proof.
  unfold rows_rendered. intros -> ->. auto.
Qed.

(** [editorFind] from a state between two keys returns to such a
    state, unless the keys run out. *)
Lemma editorFind_session (screenrows screencols : Z) (keys : list Z)
  (fs : find_state) (E : editorConfig) :
  1 <= screenrows -> editor_ok E -> find_idle fs ->
  editorFind screenrows screencols keys fs E = OutOfFuel
  \/ exists fs' E' rest,
      editorFind screenrows screencols keys fs E = Ok (fs', E', rest)
      /\ editor_ok E' /\ find_idle fs'
      /\ (exists used, keys = used ++ rest)
      /\ row E' = row E /\ dirty E' = dirty E /\ filename E' = filename E
      /\ syntax E' = syntax E.
Proof.
  intros Hsr (Hok & Hrd & Hc & Hro) Hidle. unfold editorFind.
  assert (Hcy : 0 <= cy E) by (destruct Hc; lia).
  pose proof (prompt_inv_idle E fs Hok Hcy Hidle) as Hinv.
  assert (Hs : search_inv E fs E).
  { split; [exact Hinv|]. rewrite set_cursor_same. auto. }
  destruct (editorPrompt_find E Hok screenrows screencols keys [] fs E Hinv)
    as [Hout|(q & fs1 & E1 & rest1 & He & Hinv1 & Hrow & I1 & I2 & I3)].
  { rewrite Hout. left. reflexivity. }
  destruct (editorPrompt_runs screenrows screencols
              (Some editorFindCallback) (search_inv E)
              (fun st Ea => search_inv_scroll E _ _ st Ea Hok Hsr)
              (fun b c st Ea => search_inv_callback E b c st Ea Hok)
              keys [] fs E Hs)
    as [Hout|(q' & fs1' & E1' & rest1' & He' & (_ & Hc1 & Hro1)
              & c1 & used & Hused)].
  { rewrite Hout in He. discriminate. }
  assert (Hlen : exists used', keys = used' ++ rest1')
    by (exists (c1 :: used); exact Hused).
  clear Hused.
  rewrite He in He'. injection He' as <- <- <- <-.
  rewrite He. cbn [bind]. right.
  destruct Hinv1 as ((Hn1 & _) & _ & Hd1 & Hf1 & Hs1 & Ht1).
  assert (Hidle1 : find_idle fs1) by (repeat split; assumption).
  destruct q as [query|]; eexists; eexists; eexists;
    (split; [reflexivity|]).
  - split; [|repeat split; assumption].
    split; [exact (buffer_ok_same_rows E E1 Hrow Hn1 Ht1 Hok)|].
    split; [exact (rows_rendered_same_rows E E1 Hrow Ht1 Hrd)|].
    split; [|exact Hro1].
    apply (cursor_ok_same_rows (set_cursor E (cx E1) (cy E1)) E1);
      auto.
  - cbn [row dirty filename syntax set_rowoff set_coloff set_cursor].
    split; [|repeat split; assumption].
    split; [apply (buffer_ok_same_rows E); auto|].
    split; [apply (rows_rendered_same_rows E); auto|].
    split; [apply (cursor_ok_same_rows E); auto|exact Hro].
Qed.

Lemma cursor_ok_same_buffer (E E' : editorConfig) :
  same_buffer E E' -> cursor_ok E -> cursor_ok E'.
Proof.
  intros (H1 & H2 & _ & _ & _ & H3 & _ & _ & _ & _ & Hrows)
         (C1 & C2 & C3 & C4).
  unfold cursor_ok. rewrite H1, H2, H3.
  split; [exact C1|]. split; [exact C2|]. split; [exact C3|].
  intros r' Hr'.
  destruct (Forall2_nth_error_r _ _ _ Hrows _ _ Hr')
    as (r & Hr & _ & Hsz & _).
  rewrite Hsz. apply C4. exact Hr.
Qed.

Lemma editor_ok_same_buffer (E E' : editorConfig) :
  same_buffer E E' -> buffer_ok E' -> editor_ok E -> editor_ok E'.
Proof.
  intros Hs Hok' (Hok & Hrd & Hc & Hro).
  split; [exact Hok'|].
  split; [exact (rows_rendered_same_buffer _ _ Hs Hrd)|].
  split; [exact (cursor_ok_same_buffer _ _ Hs Hc)|].
  destruct Hs as (_ & _ & _ & -> & _). exact Hro.
Qed.

(** [editorSelectSyntaxHighlight] selects the first entry of the registry
    that matches the file name, and repaints the buffer when there is
    one; the text, the cursor and the offsets stay. *)
Lemma editorSelectSyntaxHighlight_session (E : editorConfig) :
  buffer_ok E ->
  exists E',
    editorSelectSyntaxHighlight E = Ok E'
    /\ buffer_ok E'
    /\ same_buffer (set_syntax E (syntax E')) E'
    /\ syntax E' = match filename E with
                   | Some f => select_syntax HLDB f
                   | None => None
                   end
    /\ (syntax E' <> None -> highlight_consistent E').
Proof.
  intros Hok. unfold editorSelectSyntaxHighlight.
  change (filename (set_syntax E None)) with (filename E).
  assert (Hnone : exists E',
             Ok (set_syntax E None) = Ok E' /\ buffer_ok E'
             /\ same_buffer (set_syntax E (syntax E')) E'
             /\ syntax E' = None
             /\ (syntax E' <> None -> highlight_consistent E')).
  { exists (set_syntax E None). split; [reflexivity|].
    split; [exact Hok|]. split; [apply same_buffer_refl|].
    split; [reflexivity|]. intros H. contradiction H. reflexivity. }
  destruct (filename E) as [fname|]; [|exact Hnone].
  destruct (select_syntax HLDB fname) as [s|]; [|exact Hnone].
  cbv zeta.
  set (E1 := set_syntax (set_syntax E None) (Some s)).
  assert (Hok1 : buffer_ok E1) by exact Hok.
  pose proof Hok1 as (Hnum & _).
  destruct (update_all_ok (Z.to_nat (numrows E1)) 0 E1 Hok1 ltac:(lia))
    as (E' & He & Hok' & Hsb).
  assert (Hsyn : syntax E' = Some s)
    by (destruct Hsb as (_ & _ & _ & _ & _ & _ & _ & _ & Hsyn & _);
        exact Hsyn).
  exists E'. split; [exact He|]. split; [exact Hok'|].
  split; [rewrite Hsyn; exact Hsb|]. split; [exact Hsyn|].
  intros _ q r Hr.
  apply (update_all_settles (Z.to_nat (numrows E1)) 0 E1 E' Hok1 ltac:(lia)
           He).
  - intros q' r' Hq'. lia.
  - pose proof (nth_error_lt _ _ _ Hr) as Hlt.
    destruct Hsb as (_ & _ & _ & _ & _ & _ & _ & _ & _ & _ & Hrows).
    apply Forall2_length in Hrows. lia.
  - exact Hr.
Qed.

(** The prompt without a callback. *)
Lemma editorPrompt_plain (screenrows screencols : Z) (keys : list Z)
  (buf : list ascii) (E : editorConfig) :
  1 <= screenrows -> editor_ok E ->
  editorPrompt screenrows screencols None keys buf tt E = OutOfFuel
  \/ exists q E' rest,
      editorPrompt screenrows screencols None keys buf tt E
      = Ok (q, tt, E', rest)
      /\ same_but_view E E' /\ editor_ok E'
      /\ exists used, keys = used ++ rest.
Proof.
  intros Hsr (Hok & Hrd & Hc & Hro).
  destruct (editorPrompt_runs screenrows screencols None
              (fun (_ : unit) E1 => same_but_view E E1 /\ 0 <= rowoff E1))
    with (keys := keys) (buf := buf) (st := tt) (E := E)
    as [Hout|(q & [] & E' & rest & He & (Hv & Hro') & c1 & used & Hlen)].
  - intros st E1 (Hv & Hro1).
    destruct (same_but_view_ok _ _ Hv)
      as (_ & _ & Hc1 & V1 & V2 & V3 & V4 & _).
    destruct Hok as (Hn & _). destruct (Hc1 Hc) as (Hcy1 & _).
    destruct (editorScroll_total screenrows screencols E1) as [E2 H2];
      [rewrite V1, V2; lia | lia |].
    exists E2. split; [exact H2|].
    destruct (editorScroll_rowoff _ _ _ _ H2) as [Hv2 Hr2].
    split; [exact (same_but_view_trans _ _ _ Hv Hv2)|].
    destruct (scroll_rowoff_spec screenrows (cy E1) (rowoff E1) Hsr)
      as (_ & R2 & _).
    rewrite Hr2. apply R2; lia.
  - intros b c st E1 HP. exists st, E1. split; [reflexivity | exact HP].
  - split; [apply same_but_view_refl | exact Hro].
  - left. exact Hout.
  - right. exists q, E', rest. split; [exact He|]. split; [exact Hv|].
    split; [|exists (c1 :: used); exact Hlen].
    destruct (same_but_view_ok _ _ Hv) as (V1 & V2 & V3 & _).
    split; [auto|]. split; [auto|]. split; [auto | exact Hro'].
Qed.

(** [editorSave] from a state between two keys returns to such a state,
    unless the keys run out in the prompt for the file name. *)
Lemma editorSave_session (screenrows screencols : Z) (keys : list Z)
  (s : session) :
  1 <= screenrows -> editor_ok (editor s) ->
  (editorSave screenrows screencols keys s = OutOfFuel
   /\ filename (editor s) = None)
  \/ exists s' rest,
      editorSave screenrows screencols keys s = Ok (s', rest)
      /\ editor_ok (editor s')
      /\ find_vars s' = find_vars s
      /\ (exists used, keys = used ++ rest)
      /\ text (editor s') = text (editor s).
Proof.
  intros Hsr He. unfold editorSave.
  assert (Hwrite : forall (n : list ascii) (E1 : editorConfig)
                     (rest : list Z),
             editor_ok E1 -> text E1 = text (editor s) ->
             (exists used, keys = used ++ rest) ->
             exists s' rest',
               (let buf := fst (editorRowsToString E1) in
                let len := snd (editorRowsToString E1) in
                let io := match answers s with
                          | a :: _ => a
                          | [] => WriteReturns len
                          end in
                let s1 := mkSession E1 (quit_times s) (find_vars s)
                            (sys_save io (files s) n buf len)
                            (tl (answers s)) in
                match io with
                | WriteReturns k =>
                    if k =? len then Ok (set_editor s1 (set_dirty E1 0), rest)
                    else Ok (s1, rest)
                | _ => Ok (s1, rest)
                end) = Ok (s', rest')
               /\ editor_ok (editor s')
               /\ find_vars s' = find_vars s
               /\ (exists used, keys = used ++ rest')
               /\ text (editor s') = text (editor s)).
  { intros n E1 rest H1 Ht Hl. cbv zeta.
    destruct (match answers s with
              | a :: _ => a
              | [] => WriteReturns (snd (editorRowsToString E1))
              end) as [| |k];
      [| |destruct (k =? snd (editorRowsToString E1))];
      eexists; eexists; (split; [reflexivity|]);
      cbn [editor find_vars set_editor]; repeat split; auto;
      apply H1. }
  destruct (filename (editor s)) as [n|] eqn:Hf.
  - right. cbn [bind].
    apply Hwrite; [exact He | reflexivity | exists []; reflexivity].
  - destruct (editorPrompt_plain screenrows screencols keys [] (editor s)
                Hsr He)
      as [->|(q & E1 & rest & -> & Hv & He1 & Hlen)];
      [left; split; reflexivity|].
    right. cbn [bind].
    assert (Ht1 : text E1 = text (editor s)).
    { destruct (same_but_view_ok _ _ Hv) as (_ & _ & _ & V1 & _).
      unfold text. rewrite V1. reflexivity. }
    destruct q as [name|].
    + destruct (editorSelectSyntaxHighlight_session
                  (set_filename E1 (Some (c_str name))))
        as (E2 & -> & Hok2 & Hsb & _); [apply He1|].
      cbn [bind]. apply Hwrite; [| |exact Hlen].
      * apply (editor_ok_same_buffer _ _ Hsb Hok2). exact He1.
      * rewrite <- Ht1.
        apply (text_same_content
                 (set_syntax (set_filename E1 (Some (c_str name)))
                    (syntax E2))).
        apply same_buffer_content. exact Hsb.
    + cbn [bind]. eexists; eexists. split; [reflexivity|].
      cbn [editor find_vars set_editor].
      split; [exact He1|]. split; [reflexivity|].
      split; [exact Hlen | exact Ht1].
Qed.

Lemma editor_ok_set_cursor (E : editorConfig) (x y : Z) :
  editor_ok E -> cursor_ok (set_cursor E x y) ->
  editor_ok (set_cursor E x y).
Proof.
  intros (Hok & Hrd & _ & Hro) Hc.
  split; [apply buffer_ok_set_cursor; exact Hok|].
  split; [exact Hrd|]. split; [exact Hc | exact Hro].
Qed.

(** The three edits between two keys, and what they do to the
    document. *)
Lemma edits_keep_editor (E : editorConfig) :
  editor_ok E ->
  (forall c,
      exists E', editorInsertChar c E = Ok E' /\ editor_ok E'
                 /\ doc_of E' = type_char (char_of_int c) (doc_of E))
  /\ (exists E', editorInsertNewline E = Ok E' /\ editor_ok E'
                  /\ doc_of E' = break_line (doc_of E))
  /\ (exists E', editorDelChar E = Ok E' /\ editor_ok E'
                  /\ doc_of E' = backspace (doc_of E)).
Proof.
  intros (Hok & Hrd & Hc & Hro).
  pose proof (proj1 (cursor_ok_doc E Hok) Hc) as Hd.
  split; [|split].
  - intros c.
    destruct (editorInsertChar_refines c E Hok Hc)
      as (E' & He & Hok' & Hr & _).
    exists E'. split; [exact He|]. split; [|exact Hr]. split; [exact Hok'|].
    split; [apply (editorInsertChar_rendered c E E' Hok Hrd);
            [destruct Hc; lia | exact He]|].
    split; [apply (cursor_ok_doc E' Hok'); rewrite Hr;
            apply type_char_cursor, Hd|].
    destruct (editorInsertChar_setting _ _ _ He) as (_ & -> & _). exact Hro.
  - destruct (editorInsertNewline_refines E Hok Hc)
      as (E' & He & Hok' & Hr & _).
    exists E'. split; [exact He|]. split; [|exact Hr]. split; [exact Hok'|].
    split; [exact (editorInsertNewline_rendered E E' Hok Hrd Hc He)|].
    split; [apply (cursor_ok_doc E' Hok'); rewrite Hr;
            apply break_line_cursor, Hd|].
    destruct (editorInsertNewline_setting _ _ He) as (_ & -> & _). exact Hro.
  - destruct (editorDelChar_refines E Hok Hc)
      as (E' & He & Hok' & Hr & _).
    exists E'. split; [exact He|]. split; [|exact Hr]. split; [exact Hok'|].
    split; [exact (editorDelChar_rendered E E' Hok Hrd Hc He)|].
    split; [apply (cursor_ok_doc E' Hok'); rewrite Hr;
            apply backspace_cursor, Hd|].
    destruct (editorDelChar_setting _ _ He) as (_ & -> & _). exact Hro.
Qed.

Lemma editorDelRow_cursor (at_ : Z) (E : editorConfig) :
  cx (editorDelRow at_ E) = cx E /\ cy (editorDelRow at_ E) = cy E
  /\ numrows (editorDelRow at_ E)
     = (if (at_ <? 0) || (at_ >=? numrows E) then numrows E
        else numrows E - 1).
Proof.
  unfold editorDelRow.
  destruct ((at_ <? 0) || (at_ >=? numrows E)); repeat split.
Qed.

Lemma after_key_ok_intro (c : Z) (s : session) :
  editor_ok (editor s) -> find_idle (find_vars s) -> after_key_ok c s.
Proof.
  intros (Hok & Hrd & Hc & Hro) Hidle. pose proof Hc as (C1 & C2 & _).
  unfold after_key_ok.
  split; [exact Hok|]. split; [exact Hrd|]. split; [exact Hro|].
  split; [exact C1|]. split; [exact C2|]. split; [exact Hidle|].
  intros _. exact Hc.
Qed.

(** [editorProcessKeypress] on a state between two keys in which the
    window holds the cursor line: no access out of the row array; it
    waits for a key only in a prompt; it exits only on Ctrl-Q; and it
    returns to the loop in a state that is well formed. *)
Lemma editorProcessKeypress_session (screenrows screencols qt c : Z)
  (rest : list Z) (s : session) :
  1 <= screenrows -> session_ok s -> rowoff (editor s) <= cy (editor s) ->
  match editorProcessKeypress screenrows screencols qt (c :: rest) s with
  | OutOfBounds => False
  | OutOfFuel =>
      c = CTRL_KEY KEY_f
      \/ (c = CTRL_KEY KEY_s /\ filename (editor s) = None)
  | Ok None =>
      c = CTRL_KEY KEY_q /\ (dirty (editor s) = 0 \/ quit_times s <= 0)
  | Ok (Some (s', rest')) =>
      (exists used, rest = used ++ rest') /\ after_key_ok c s'
      /\ (c <> CTRL_KEY KEY_q -> quit_times s' = qt)
  end.
Proof.
  intros Hsr (He & Hidle) Hvis.
  assert (Hbreak : forall E',
             editor_ok E' ->
             (exists used, rest = used ++ rest)
             /\ after_key_ok c
                  (mkSession E' qt (find_vars s) (files s) (answers s))
             /\ (c <> CTRL_KEY KEY_q ->
                 quit_times
                   (mkSession E' qt (find_vars s) (files s) (answers s))
                 = qt)).
  { intros E' He'. split; [exists []; reflexivity|]. split; [|reflexivity].
    apply after_key_ok_intro; assumption. }
  pose proof He as (Hok & Hrd & Hc & Hro).
  pose proof Hc as (Hcy & Hcx & Hend & Hrow).
  destruct (edits_keep_editor (editor s) He) as (Hins & Hnl & Hdel).
  unfold editorProcessKeypress. cbv zeta.
  destruct (Z.eqb_spec c KEY_ENTER) as [_|_].
  { destruct Hnl as (E' & -> & He' & _). cbn [bind]. apply Hbreak, He'. }
  destruct (Z.eqb_spec c (CTRL_KEY KEY_q)) as [Hq|Hnq].
  { destruct (Z.eqb_spec (dirty (editor s)) 0) as [Hd|Hd]; cbn [negb andb].
    - split; [exact Hq | left; exact Hd].
    - destruct (Z.gtb_spec (quit_times s) 0) as [Hg|Hg].
      + split; [exists []; reflexivity|].
        split; [|intros K; contradiction].
        apply after_key_ok_intro; assumption.
      + split; [exact Hq | right; exact Hg]. }
  destruct (Z.eqb_spec c (CTRL_KEY KEY_s)) as [Hs|_].
  { destruct (editorSave_session screenrows screencols rest s Hsr He)
      as [[-> Hf]|(s' & rest' & -> & He' & Hfv & Hl & _)]; cbn [bind].
    - right. split; [exact Hs | exact Hf].
    - cbn [fst snd]. split; [exact Hl|]. split; [|reflexivity].
      apply after_key_ok_intro; [exact He'|].
      cbn [find_vars set_quit_times]. rewrite Hfv. exact Hidle. }
  destruct (Z.eqb_spec c (CTRL_KEY KEY_j)) as [_|_].
  { apply Hbreak. apply editor_ok_set_cursor; [exact He|].
    apply cursor_ok_set; auto; try lia.
    intros r Hr. destruct (buffer_ok_row _ _ r Hok Hr) as [Hsz _]. lia. }
  destruct (Z.eqb_spec c (CTRL_KEY KEY_k)) as [_|_].
  { destruct (Z.ltb_spec (cy (editor s)) (numrows (editor s))) as [Hlt|Hge];
      [|apply Hbreak, He].
    pose proof Hok as (Hn & _).
    destruct (nth_error_in_range (row (editor s)) (Z.to_nat (cy (editor s)))
                ltac:(lia)) as [r Hr].
    rewrite (row_ref_some (editor s) (cy (editor s)) r ltac:(lia) Hr).
    cbn [bind]. apply Hbreak. apply editor_ok_set_cursor; [exact He|].
    destruct (buffer_ok_row _ _ r Hok Hr) as [Hsz _].
    apply cursor_ok_set; auto; try lia.
    intros r' Hr'. rewrite Hr in Hr'. injection Hr' as <-. lia. }
  destruct (Z.eqb_spec c (CTRL_KEY KEY_d)) as [Hd|_].
  { split; [exists []; reflexivity|]. split; [|reflexivity].
    destruct (editorDelRow_cursor (cy (editor s)) (editor s))
      as (D1 & D2 & D3).
    unfold after_key_ok. cbn [editor find_vars].
    split; [apply editorDelRow_ok; exact Hok|].
    split; [apply editorDelRow_rendered; assumption|].
    split; [destruct (editorDelRow_setting (cy (editor s)) (editor s))
              as (_ & -> & _); exact Hro|].
    rewrite D1, D2, D3.
    split; [|split; [exact Hcx|split; [exact Hidle|]]].
    - destruct (Z.ltb_spec (cy (editor s)) 0); [lia|]. cbn [orb].
      destruct (Z.geb_spec (cy (editor s)) (numrows (editor s))); lia.
    - intros K. contradiction. }
  destruct (Z.eqb_spec c (CTRL_KEY KEY_f)) as [Hf|_].
  { destruct (editorFind_session screenrows screencols rest (find_vars s)
                (editor s) Hsr He Hidle)
      as [->|(fs' & E' & rest' & -> & He' & Hidle' & Hl & _)]; cbn [bind].
    - left. exact Hf.
    - split; [exact Hl|]. split; [|reflexivity].
      apply after_key_ok_intro; assumption. }
  destruct ((c =? BACKSPACE) || (c =? CTRL_KEY KEY_x)).
  { assert (H1 : exists E1,
               (if c =? CTRL_KEY KEY_x
                then editorMoveCursor ARROW_RIGHT (editor s)
                else Ok (editor s)) = Ok E1 /\ editor_ok E1).
    { destruct (c =? CTRL_KEY KEY_x); [|exists (editor s); auto].
      destruct (editorMoveCursor_clamps ARROW_RIGHT (editor s) Hok Hcy Hcx)
        as (x & y & -> & Hc1 & _).
      eexists. split; [reflexivity|].
      apply editor_ok_set_cursor; assumption. }
    destruct H1 as (E1 & -> & He1). cbn [bind].
    destruct (edits_keep_editor E1 He1) as (_ & _ & E' & -> & He' & _).
    cbn [bind]. apply Hbreak, He'. }
  destruct ((c =? PAGE_UP) || (c =? PAGE_DOWN)).
  { destruct (Z.ltb_spec screenrows 0); [lia|].
    match goal with
    | |- context [move_times ?n ?k ?E1] =>
        destruct (move_times_ok n k E1) as (x & y & -> & _ & _ & Hc1 & _)
    end.
    - destruct (c =? PAGE_UP); [exact Hok|].
      cbv zeta. cbn [cy numrows set_cy set_cursor].
      destruct (_ >? _); exact Hok.
    - destruct (c =? PAGE_UP);
        [cbn [cy numrows set_cy set_cursor]; lia|].
      cbv zeta. cbn [cy numrows set_cy set_cursor].
      destruct (Z.gtb_spec (rowoff (editor s) + screenrows - 1)
                  (numrows (editor s)));
        cbn [cy numrows set_cy set_cursor]; lia.
    - destruct (c =? PAGE_UP); [exact Hcx|].
      cbv zeta. cbn [cy numrows set_cy set_cursor].
      destruct (_ >? _); exact Hcx.
    - cbn [bind]. apply Hbreak.
      assert (Hnz : Z.to_nat screenrows <> 0%nat) by lia.
      pose proof (Hc1 (or_intror Hnz)) as Hc2. clear Hc1.
      destruct (c =? PAGE_UP);
        [|cbv zeta in *;
          destruct (cy (set_cy (editor s)
                          (rowoff (editor s) + screenrows - 1))
                    >? numrows (set_cy (editor s)
                                  (rowoff (editor s) + screenrows - 1)))];
        unfold set_cy in *; rewrite !set_cursor_set in *;
        apply editor_ok_set_cursor; assumption. }
  destruct ((c =? ARROW_UP) || (c =? ARROW_DOWN) || (c =? ARROW_LEFT)
            || (c =? ARROW_RIGHT)).
  { destruct (editorMoveCursor_clamps c (editor s) Hok Hcy Hcx)
      as (x & y & -> & Hc1 & _).
    cbn [bind]. apply Hbreak. apply editor_ok_set_cursor; assumption. }
  destruct ((c =? CTRL_KEY KEY_l) || (c =? KEY_ESC)).
  { apply Hbreak, He. }
  destruct (Hins c) as (E' & -> & He' & _). cbn [bind]. apply Hbreak, He'.
Qed.

Lemma editorInsertRow_cursor (at_ : Z) (s : list ascii) (len : Z)
  (E E' : editorConfig) :
  editorInsertRow at_ s len E = Ok E' -> cx E' = cx E /\ cy E' = cy E.
Proof.
  unfold editorInsertRow. intros H.
  destruct ((at_ <? 0) || (at_ >? numrows E)).
  - ok_step H. split; reflexivity.
  - ok_step H. ok_step H.
    destruct (editorUpdateRow_inv _ _ _ Hm) as (r & rd & _ & _ & Hs).
    destruct Hs as (H1 & H2 & _). split; assumption.
Qed.

Lemma open_loop_cursor (ls : list (list ascii)) :
  forall E E',
    open_loop ls E = Ok E' ->
    cx E' = cx E /\ cy E' = cy E /\ rowoff E' = rowoff E.
Proof.
  induction ls as [|l ls IH]; intros E E' H; cbn [open_loop] in H.
  - ok_step H. repeat split.
  - ok_step H. destruct (IH _ _ H) as (-> & -> & ->).
    destruct (editorInsertRow_cursor _ _ _ _ _ Hm) as (-> & ->).
    destruct (editorInsertRow_setting _ _ _ _ _ Hm) as (_ & -> & _).
    repeat split.
Qed.

Lemma cursor_ok_origin (E : editorConfig) :
  buffer_ok E -> cx E = 0 -> cy E = 0 -> cursor_ok E.
Proof.
  intros Hok Hx Hy. pose proof Hok as (Hn & _).
  unfold cursor_ok. rewrite Hx, Hy.
  split; [lia|]. split; [lia|]. split; [reflexivity|].
  intros r Hr. destruct (buffer_ok_row _ _ r Hok Hr) as [Hsz _]. lia.
Qed.

(** The state in which [main] enters its loop. *)
Lemma editorOpen_editor_ok (fname : list ascii) (file : option (list ascii)) :
  exists E, editorOpen fname file initEditor = Ok E /\ editor_ok E.
Proof.
  unfold editorOpen.
  assert (Hok0 : buffer_ok (set_filename initEditor (Some (c_str fname)))).
  { split; [reflexivity|]. split; [intros [|i] r Hr; discriminate|].
    split; [constructor | reflexivity]. }
  destruct (editorSelectSyntaxHighlight_session _ Hok0)
    as (E1 & -> & Hok1 & Hsb & _).
  cbn [bind].
  assert (He1 : editor_ok E1).
  { apply (editor_ok_same_buffer _ _ Hsb Hok1).
    split; [exact Hok0|]. split; [constructor|].
    split; [apply cursor_ok_origin; [exact Hok0 | reflexivity ..]|].
    reflexivity. }
  destruct file as [content|]; [|exists E1; split; [reflexivity | exact He1]].
  destruct (open_loop_ok (getlines content) E1 Hok1) as (E2 & He & Hok2 & _).
  rewrite He. cbn [bind]. eexists. split; [reflexivity|].
  destruct He1 as (_ & Hrd1 & (_ & _ & _) & Hro1).
  destruct (open_loop_cursor _ _ _ He) as (Hx & Hy & Hro).
  destruct Hsb as (Sx & Sy & _).
  split; [apply buffer_ok_set_dirty; exact Hok2|].
  split; [exact (open_loop_rendered _ _ _ Hok1 Hrd1 He)|].
  split; [|cbn [rowoff set_dirty]; rewrite Hro; exact Hro1].
  apply (cursor_ok_origin (set_dirty E2 0)).
  - apply buffer_ok_set_dirty; exact Hok2.
  - cbn [cx set_dirty]. rewrite Hx, Sx. reflexivity.
  - cbn [cy set_dirty]. rewrite Hy, Sy. reflexivity.
Qed.

(** The refresh of the screen between two keys: the row offset is at or
    before the cursor line afterwards. *)
Lemma refresh_session (screenrows screencols : Z) (s : session) :
  1 <= screenrows -> session_ok s ->
  exists E1,
    editorScroll screenrows screencols (editor s) = Ok E1
    /\ same_but_view (editor s) E1
    /\ session_ok (set_editor s E1)
    /\ rowoff E1 <= cy E1.
Proof.
  intros Hsr ((Hok & Hrd & Hc & Hro) & Hidle).
  pose proof Hok as (Hn & _). pose proof Hc as (Hcy & _).
  destruct (editorScroll_total screenrows screencols (editor s))
    as [E1 H1]; [lia | lia |].
  exists E1. split; [exact H1|].
  destruct (editorScroll_rowoff _ _ _ _ H1) as [Hv Hr].
  destruct (scroll_rowoff_spec screenrows (cy (editor s))
              (rowoff (editor s)) Hsr) as (R1 & R2 & _).
  destruct (same_but_view_ok _ _ Hv)
    as (V1 & V2 & V3 & _ & _ & _ & V4 & _).
  split; [exact Hv|]. split; [|rewrite Hr, V4; lia].
  split; [|exact Hidle]. cbn [editor set_editor].
  split; [auto|]. split; [auto|]. split; [auto|]. rewrite Hr. apply R2; lia.
Qed.

(** The loop on keys that do not delete a line: no access out of the row
    array, and it stops, unless the keys end inside a prompt, in a state
    that is well formed. *)
Lemma main_loop_session (screenrows screencols qt : Z) :
  1 <= screenrows ->
  forall fuel keys s,
    (length keys < fuel)%nat -> session_ok s ->
    Forall (fun k => k <> CTRL_KEY KEY_d) keys ->
    match main_loop fuel screenrows screencols qt keys s with
    | OutOfBounds => False
    | OutOfFuel =>
        exists k, In k keys /\ (k = CTRL_KEY KEY_f \/ k = CTRL_KEY KEY_s)
    | Ok st => session_ok (state_of st)
    end.
Proof.
  intros Hsr. induction fuel as [|n IH]; intros keys s Hlen Hs Hkeys;
    [lia|].
  cbn [main_loop].
  destruct (refresh_session screenrows screencols s Hsr Hs)
    as (E1 & -> & _ & Hs1 & Hvis).
  cbn [bind].
  destruct keys as [|c rest]; [exact Hs1|].
  inversion Hkeys as [|c' rest' Hc Hrest]; subst.
  pose proof (editorProcessKeypress_session screenrows screencols qt c rest
                (set_editor s E1) Hsr Hs1 Hvis) as Hkey.
  destruct (editorProcessKeypress screenrows screencols qt (c :: rest)
              (set_editor s E1)) as [[[s' rest']|]| |]; cbn [bind].
  - destruct Hkey as ((used & ->) & Hafter & _).
    apply Forall_app in Hrest. destruct Hrest as [_ Hrest'].
    assert (Hs' : session_ok s').
    { destruct Hafter as (A1 & A2 & A3 & _ & _ & A6 & A7).
      split; [|exact A6]. split; [exact A1|]. split; [exact A2|].
      split; [exact (A7 Hc) | exact A3]. }
    assert (Hlen' : (length rest' < n)%nat).
    { cbn [length] in Hlen. rewrite length_app in Hlen. lia. }
    specialize (IH rest' s' Hlen' Hs' Hrest').
    destruct (main_loop n screenrows screencols qt rest' s');
      [exact IH | | exact IH].
    destruct IH as (k & Hin & Hk). exists k. split; [|exact Hk].
    right. apply in_or_app. right. exact Hin.
  - exact Hs1.
  - exists c. split; [left; reflexivity|].
    destruct Hkey as [->|[-> _]]; [left | right]; reflexivity.
  - exact Hkey.
Qed.

Lemma editor_okb_sound (E : editorConfig) :
  editor_okb E = true -> editor_ok E.
Proof.
  unfold editor_okb. intros H.
  apply andb_prop in H. destruct H as [H H4].
  apply andb_prop in H. destruct H as [H H3].
  apply andb_prop in H. destruct H as [H1 H2].
  split; [apply buffer_okb_sound; exact H1|].
  split; [apply rows_renderedb_sound; exact H2|].
  split; [apply cursor_okb_sound; exact H3|].
  apply Z.leb_le. exact H4.
Qed.

Lemma find_idle_init : find_idle find_init.
Proof. repeat split. Qed.

(** X24.  The editor run from [main] on keys that do not delete a line
    (no Ctrl-D), with a text window of one line at least, whatever the
    file and whatever the system calls of the saves do: no row is ever
    accessed out of the row array; the loop stops, when [exit] is called
    or when the keys are read, in a state with a well-formed buffer,
    render strings that follow the characters, a valid cursor, a row
    offset that is not negative and no search pending; the keys can end
    inside a prompt only when one of them is Ctrl-F or Ctrl-S. *)
Theorem main_stays_well_formed :
  forall screenrows screencols argv1 d ans keys,
    1 <= screenrows ->
    Forall (fun k => k <> CTRL_KEY KEY_d) keys ->
    match main screenrows screencols argv1 d ans keys with
    | OutOfBounds => False
    | OutOfFuel =>
        exists k, In k keys /\ (k = CTRL_KEY KEY_f \/ k = CTRL_KEY KEY_s)
    | Ok st => session_ok (state_of st)
    end.
Proof.
  intros sr sc argv1 d ans keys Hsr Hkeys. unfold main.
  assert (Hopen : exists E,
             match argv1 with
             | Some f => editorOpen f (d f) initEditor
             | None => Ok initEditor
             end = Ok E /\ editor_ok E).
  { destruct argv1 as [f|]; [apply editorOpen_editor_ok|].
    exists initEditor. split; [reflexivity|].
    apply editor_okb_sound. reflexivity. }
  destruct Hopen as (E & -> & He). cbn [bind].
  apply main_loop_session; [exact Hsr | lia | | exact Hkeys].
  split; [exact He | exact find_idle_init].
Qed.

Lemma main_stays_well_formed_witness :
  1 <= 20
  /\ Forall (fun k => k <> CTRL_KEY KEY_d)
       [104; 9; 105; KEY_ENTER; BACKSPACE; ARROW_UP; PAGE_DOWN;
        CTRL_KEY KEY_q; CTRL_KEY KEY_q]
  /\ exists st,
      main 20 80 (Some (s2l "x.c")) (fun _ => None) []
        [104; 9; 105; KEY_ENTER; BACKSPACE; ARROW_UP; PAGE_DOWN;
         CTRL_KEY KEY_q; CTRL_KEY KEY_q]
      = Ok st
      /\ session_ok (state_of st).
Proof.
  assert (H1 : 1 <= 20) by lia.
  assert (H2 : Forall (fun k => k <> CTRL_KEY KEY_d)
                 [104; 9; 105; KEY_ENTER; BACKSPACE; ARROW_UP; PAGE_DOWN;
                  CTRL_KEY KEY_q; CTRL_KEY KEY_q])
    by (repeat constructor; discriminate).
  split; [exact H1|]. split; [exact H2|].
  pose proof (main_stays_well_formed 20 80 (Some (s2l "x.c"))
                (fun _ => None) [] _ H1 H2) as H.
  destruct (main 20 80 (Some (s2l "x.c")) (fun _ => None) []
              [104; 9; 105; KEY_ENTER; BACKSPACE; ARROW_UP; PAGE_DOWN;
               CTRL_KEY KEY_q; CTRL_KEY KEY_q]) as [st| |].
  - exists st. split; [reflexivity | exact H].
  - exfalso. destruct H as (k & Hin & Hk).
    repeat (destruct Hin as [<-|Hin];
            [destruct Hk as [Hk|Hk]; discriminate Hk|]).
    destruct Hin.
  - destruct H.
Defined.

(** X25.  One run of the loop, from a state between two keys, on any
    key, with a text window of one line at least.  The refresh returns
    and writes [rx] and the scroll offsets only.  The key handler
    accesses no row out of the row array; it waits for a key that does
    not come only in the prompt of Ctrl-F, or of Ctrl-S when the buffer
    has no file name; it exits only on Ctrl-Q, with a clean buffer or an
    exhausted counter; and otherwise it returns to the loop, with keys
    that were after the one it read, in a state with a well-formed
    buffer, render strings that follow the characters, a cursor on a line
    of the buffer or just after the last one, valid unless the key was
    Ctrl-D, and the counter of Ctrl-Q reset unless the key was Ctrl-Q. *)
Theorem key_turn_keeps_buffer :
  forall screenrows screencols qt c rest s,
    1 <= screenrows -> session_ok s ->
    exists E1,
      editorScroll screenrows screencols (editor s) = Ok E1
      /\ same_but_view (editor s) E1
      /\ match editorProcessKeypress screenrows screencols qt (c :: rest)
                 (set_editor s E1) with
         | OutOfBounds => False
         | OutOfFuel =>
             c = CTRL_KEY KEY_f
             \/ (c = CTRL_KEY KEY_s /\ filename (editor s) = None)
         | Ok None =>
             c = CTRL_KEY KEY_q
             /\ (dirty (editor s) = 0 \/ quit_times s <= 0)
         | Ok (Some (s', rest')) =>
             (exists used, rest = used ++ rest') /\ after_key_ok c s'
             /\ (c <> CTRL_KEY KEY_q -> quit_times s' = qt)
         end.
Proof.
  intros sr sc qt c rest s Hsr Hs.
  destruct (refresh_session sr sc s Hsr Hs) as (E1 & H1 & Hv & Hs1 & Hvis).
  exists E1. split; [exact H1|]. split; [exact Hv|].
  pose proof (editorProcessKeypress_session sr sc qt c rest (set_editor s E1)
                Hsr Hs1 Hvis) as Hkey.
  destruct (same_but_view_ok _ _ Hv)
    as (_ & _ & _ & _ & _ & _ & _ & Vd & Vf & _).
  cbn [editor quit_times set_editor] in Hkey. rewrite Vd, Vf in Hkey.
  exact Hkey.
Qed.

Lemma key_turn_keeps_buffer_witness :
  1 <= 20
  /\ session_ok (session_on loaded_doc)
  /\ exists E1 s',
      editorScroll 20 80 (editor (session_on loaded_doc)) = Ok E1
      /\ editorProcessKeypress 20 80 3 [CTRL_KEY KEY_d]
           (set_editor (session_on loaded_doc) E1)
         = Ok (Some (s', []))
      /\ after_key_ok (CTRL_KEY KEY_d) s'.
Proof.
  assert (H1 : 1 <= 20) by lia.
  assert (H2 : session_ok (session_on loaded_doc)).
  { split; [|exact find_idle_init].
    apply editor_okb_sound. vm_compute. reflexivity. }
  split; [exact H1|]. split; [exact H2|].
  destruct (key_turn_keeps_buffer 20 80 3 (CTRL_KEY KEY_d) [] _ H1 H2)
    as (E1 & He1 & _ & Hkey).
  exists E1.
  destruct (editorProcessKeypress 20 80 3 [CTRL_KEY KEY_d]
              (set_editor (session_on loaded_doc) E1))
    as [[[s' rest']|]| |].
  - destruct Hkey as ((used & Hu) & Ha & _).
    destruct used; [|discriminate]. cbn [app] in Hu. subst rest'.
    exists s'. split; [exact He1|]. split; [reflexivity | exact Ha].
  - exfalso. destruct Hkey as [Hk _]. discriminate Hk.
  - exfalso. destruct Hkey as [Hk|[Hk _]]; discriminate Hk.
  - destruct Hkey.
Defined.

(** Ctrl-Q in [editorProcessKeypress]. *)
Lemma ctrl_q_key (screenrows screencols qt : Z) (rest : list Z)
  (s : session) :
  editorProcessKeypress screenrows screencols qt (CTRL_KEY KEY_q :: rest) s
  = if negb (dirty (editor s) =? 0) && (quit_times s >? 0)
    then Ok (Some (set_quit_times s (quit_times s - 1), rest))
    else Ok None.
Proof. reflexivity. Qed.

Lemma refreshed_refl (s : session) : refreshed s s.
Proof. split; [apply same_but_view_refl|]. repeat split. Qed.

(** The refresh of the screen, on a buffer whose cursor line is not
    negative. *)
Lemma refresh_returns (screenrows screencols : Z) (s : session) :
  buffer_ok (editor s) -> 0 <= cy (editor s) ->
  exists E1,
    editorScroll screenrows screencols (editor s) = Ok E1
    /\ refreshed s (set_editor s E1)
    /\ buffer_ok E1 /\ 0 <= cy E1 /\ dirty E1 = dirty (editor s).
Proof.
  intros Hok Hcy. pose proof Hok as (Hn & _).
  destruct (editorScroll_total screenrows screencols (editor s))
    as [E1 H1]; [lia | exact Hcy |].
  exists E1. split; [exact H1|].
  destruct (editorScroll_rowoff _ _ _ _ H1) as [Hv _].
  destruct (same_but_view_ok _ _ Hv)
    as (V1 & _ & _ & _ & _ & _ & V4 & V5 & _).
  split; [split; [exact Hv | repeat split]|].
  split; [auto|]. split; [lia | exact V5].
Qed.

(** Ctrl-Q pressed [k] times on a buffer with unsaved changes, while the
    counter lasts: the loop goes on, and the counter goes down by [k]. *)
Lemma quit_presses (screenrows screencols qt : Z) (k : nat) :
  forall s fuel rest,
    buffer_ok (editor s) -> 0 <= cy (editor s) -> dirty (editor s) <> 0 ->
    Z.of_nat k <= quit_times s ->
    exists s',
      main_loop (k + fuel) screenrows screencols qt
        (repeat (CTRL_KEY KEY_q) k ++ rest) s
      = main_loop fuel screenrows screencols qt rest s'
      /\ refreshed s s' /\ quit_times s' = quit_times s - Z.of_nat k
      /\ buffer_ok (editor s') /\ 0 <= cy (editor s')
      /\ dirty (editor s') = dirty (editor s).
Proof.
  induction k as [|k IH]; intros s fuel rest Hok Hcy Hd Hq.
  - exists s. split; [reflexivity|]. split; [apply refreshed_refl|].
    split; [lia|]. auto.
  - cbn [Nat.add repeat app main_loop].
    destruct (refresh_returns screenrows screencols s Hok Hcy)
      as (E1 & -> & (Hv & Hf & Hfi & Ha) & Hok1 & Hcy1 & Hd1).
    cbn [bind]. rewrite ctrl_q_key. cbn [editor quit_times set_editor].
    destruct (Z.eqb_spec (dirty E1) 0) as [K|_]; [congruence|].
    destruct (Z.gtb_spec (quit_times s) 0) as [_|K]; [|lia].
    cbn [negb andb bind].
    destruct (IH (set_quit_times (set_editor s E1) (quit_times s - 1))
                fuel rest Hok1 Hcy1 ltac:(cbn; congruence)
                ltac:(cbn; lia))
      as (s' & -> & (Hv' & Hf' & Hfi' & Ha') & Hq' & Hok' & Hcy' & Hd').
    exists s'. split; [reflexivity|].
    cbn [editor quit_times find_vars files answers set_editor
           set_quit_times] in *.
    split; [split; [exact (same_but_view_trans _ _ _ Hv Hv')|
                    repeat split; congruence]|].
    split; [lia|]. split; [exact Hok'|]. split; [exact Hcy' | congruence].
Qed.

(** X26.  The confirmation of Ctrl-Q.  On a well-formed buffer whose
    cursor line is not negative: with no unsaved change, or with the
    counter at or below 0, Ctrl-Q exits at once.  With unsaved changes
    and the counter at [n >= 0], the loop goes on after each of [n]
    presses of Ctrl-Q, the counter going down by one at each, and the
    next press exits; the presses change no more of the state than the
    refresh of the screen does.  Any other key after which the handler
    returns to the loop sets the counter back to [E.quit_times]. *)
Theorem quit_needs_confirmation :
  forall screenrows screencols qt s,
    buffer_ok (editor s) -> 0 <= cy (editor s) ->
    (dirty (editor s) = 0 \/ quit_times s <= 0 ->
     forall fuel rest,
       exists s',
         main_loop (S fuel) screenrows screencols qt
           (CTRL_KEY KEY_q :: rest) s = Ok (Exit s')
         /\ refreshed s s' /\ quit_times s' = quit_times s)
    /\ (dirty (editor s) <> 0 ->
        forall n,
          quit_times s = Z.of_nat n ->
          (forall k fuel,
              (k <= n)%nat ->
              exists s',
                main_loop (k + S fuel) screenrows screencols qt
                  (repeat (CTRL_KEY KEY_q) k) s = Ok (Wait s')
                /\ refreshed s s' /\ quit_times s' = Z.of_nat (n - k))
          /\ (forall fuel rest,
                 exists s',
                   main_loop (n + S fuel) screenrows screencols qt
                     (repeat (CTRL_KEY KEY_q) n ++ CTRL_KEY KEY_q :: rest) s
                   = Ok (Exit s')
                   /\ refreshed s s' /\ quit_times s' = 0))
    /\ (forall c rest s' rest',
           c <> CTRL_KEY KEY_q ->
           editorProcessKeypress screenrows screencols qt (c :: rest) s
           = Ok (Some (s', rest')) ->
           quit_times s' = qt).
Proof.
  intros sr sc qt s Hok Hcy. split; [|split].
  - intros Hclean fuel rest. cbn [main_loop].
    destruct (refresh_returns sr sc s Hok Hcy)
      as (E1 & -> & Hr & _ & _ & Hd1).
    cbn [bind]. rewrite ctrl_q_key. cbn [editor quit_times set_editor].
    assert (Hb : negb (dirty E1 =? 0) && (quit_times s >? 0) = false).
    { destruct Hclean as [Hd|Hq].
      - rewrite Hd1, Hd. reflexivity.
      - destruct (Z.gtb_spec (quit_times s) 0); [lia|].
        apply andb_false_r. }
    rewrite Hb. cbn [bind]. eexists. split; [reflexivity|].
    split; [exact Hr | reflexivity].
  - intros Hd n Hn. split.
    + intros k fuel Hk.
      destruct (quit_presses sr sc qt k s (S fuel) [] Hok Hcy Hd
                  ltac:(lia))
        as (s1 & He & Hr1 & Hq1 & Hok1 & Hcy1 & _).
      rewrite app_nil_r in He. rewrite He. cbn [main_loop].
      destruct (refresh_returns sr sc s1 Hok1 Hcy1)
        as (E2 & -> & Hr2 & _).
      cbn [bind]. eexists. split; [reflexivity|].
      destruct Hr1 as (V1 & F1 & D1 & A1). destruct Hr2 as (V2 & F2 & D2 & A2).
      split; [split; [exact (same_but_view_trans _ _ _ V1 V2)|
                      repeat split; congruence]|].
      cbn [quit_times set_editor]. lia.
    + intros fuel rest.
      destruct (quit_presses sr sc qt n s (S fuel) (CTRL_KEY KEY_q :: rest)
                  Hok Hcy Hd ltac:(lia))
        as (s1 & -> & Hr1 & Hq1 & Hok1 & Hcy1 & Hd1).
      cbn [main_loop].
      destruct (refresh_returns sr sc s1 Hok1 Hcy1)
        as (E2 & -> & Hr2 & _ & _ & Hd2).
      cbn [bind]. rewrite ctrl_q_key. cbn [editor quit_times set_editor].
      destruct (Z.gtb_spec (quit_times s1) 0) as [K|_]; [lia|].
      rewrite andb_false_r. cbn [bind]. eexists. split; [reflexivity|].
      destruct Hr1 as (V1 & F1 & D1 & A1). destruct Hr2 as (V2 & F2 & D2 & A2).
      split; [split; [exact (same_but_view_trans _ _ _ V1 V2)|
                      repeat split; congruence]|].
      cbn [quit_times set_editor]. lia.
  - intros c rest s' rest' Hc H. unfold editorProcessKeypress in H.
    cbv zeta in H.
    destruct (Z.eqb_spec c (CTRL_KEY KEY_q)) as [K|_]; [contradiction|].
    repeat match type of H with
           | (if ?b then _ else _) = Ok _ => destruct b
           | bind ?m _ = Ok _ =>
               destruct m as [?| |]; cbn [bind] in H; try discriminate H
           | _ => match goal with
                  | p : (_ * _)%type |- _ => destruct p
                  end
           end;
      first [discriminate H | injection H as <- _; reflexivity].
Qed.

Lemma quit_needs_confirmation_witness :
  buffer_ok (editor (session_on (set_dirty loaded_doc 1)))
  /\ 0 <= cy (editor (session_on (set_dirty loaded_doc 1)))
  /\ dirty (editor (session_on (set_dirty loaded_doc 1))) <> 0
  /\ quit_times (session_on (set_dirty loaded_doc 1)) = Z.of_nat 3
  /\ (exists s',
         main_loop (3 + 1) 20 80 3 (repeat (CTRL_KEY KEY_q) 3)
           (session_on (set_dirty loaded_doc 1)) = Ok (Wait s')
         /\ quit_times s' = Z.of_nat (3 - 3))
  /\ (exists s',
         main_loop (3 + 1) 20 80 3
           (repeat (CTRL_KEY KEY_q) 3 ++ CTRL_KEY KEY_q :: [104])
           (session_on (set_dirty loaded_doc 1)) = Ok (Exit s')).
Proof.
  assert (Hok : buffer_ok (editor (session_on (set_dirty loaded_doc 1))))
    by (apply buffer_okb_sound; vm_compute; reflexivity).
  assert (Hcy : 0 <= cy (editor (session_on (set_dirty loaded_doc 1))))
    by (vm_compute; discriminate).
  assert (Hd : dirty (editor (session_on (set_dirty loaded_doc 1))) <> 0)
    by discriminate.
  assert (Hq : quit_times (session_on (set_dirty loaded_doc 1))
               = Z.of_nat 3) by reflexivity.
  split; [exact Hok|]. split; [exact Hcy|]. split; [exact Hd|].
  split; [exact Hq|].
  destruct (quit_needs_confirmation 20 80 3 _ Hok Hcy) as (_ & Hdirty & _).
  destruct (Hdirty Hd 3%nat Hq) as (Hwait & Hexit).
  split.
  - destruct (Hwait 3%nat 0%nat (le_n 3)) as (s' & He & _ & Hq').
    exists s'. split; [exact He | exact Hq'].
  - destruct (Hexit 0%nat [104]) as (s' & He & _).
    exists s'. exact He.
Defined.

Lemma printable_not_nul (c : Z) : printable c -> char_of_int c <> NUL.
Proof.
  unfold printable, char_of_int. intros Hc H.
  rewrite Z.mod_small in H by lia.
  apply (f_equal N_of_ascii) in H.
  rewrite N_ascii_embedding in H by lia.
  change (N_of_ascii NUL) with 0%N in H. lia.
Qed.

Lemma printable_nul_free (ks : list Z) :
  Forall printable ks -> nul_free (map char_of_int ks).
Proof.
  unfold nul_free. induction 1 as [|c ks Hc _ IH]; [reflexivity|].
  cbn [map strlen length].
  destruct (Ascii.eqb_spec (char_of_int c) NUL) as [K|_];
    [destruct (printable_not_nul c Hc K)|].
  rewrite IH. reflexivity.
Qed.

Lemma resize_length (len : nat) (old : list ascii) :
  length (resize len old) = len.
Proof.
  unfold resize. rewrite length_firstn, length_app, repeat_length. lia.
Qed.

(** The disk after the three system calls of a save that succeed. *)
Lemma sys_save_done (d : disk) (name buf : list ascii) :
  sys_save (WriteReturns (Z.of_nat (length buf))) d name buf
    (Z.of_nat (length buf)) name = Some buf
  /\ forall other,
      other <> name ->
      sys_save (WriteReturns (Z.of_nat (length buf))) d name buf
        (Z.of_nat (length buf)) other = d other.
Proof.
  unfold sys_save, disk_put. rewrite Nat2Z.id. split.
  - rewrite (proj2 (list_eqb_eq name name) eq_refl).
    rewrite firstn_all, skipn_all2 by (rewrite resize_length; lia).
    rewrite app_nil_r. reflexivity.
  - intros other Hne.
    destruct (list_eqb other name) eqn:He; [|reflexivity].
    apply list_eqb_eq in He. contradiction.
Qed.

(** What [editorSave] does once the file name is known. *)
Lemma save_named (s : session) (E1 : editorConfig) (name : list ascii)
  (rest : list Z) :
  buffer_ok E1 ->
  let out := fst (editorRowsToString E1) in
  let len := snd (editorRowsToString E1) in
  let io := match answers s with
            | a :: _ => a
            | [] => WriteReturns len
            end in
  let s1 := mkSession E1 (quit_times s) (find_vars s)
              (sys_save io (files s) name out len) (tl (answers s)) in
  (io = WriteReturns (Z.of_nat (length out)) ->
   match io with
   | WriteReturns k =>
       if k =? len then Ok (set_editor s1 (set_dirty E1 0), rest)
       else Ok (s1, rest)
   | _ => Ok (s1, rest)
   end = Ok (set_editor s1 (set_dirty E1 0), rest)
   /\ files s1 name = Some out
   /\ forall other, other <> name -> files s1 other = files s other)
  /\ (io <> WriteReturns (Z.of_nat (length out)) ->
      match io with
      | WriteReturns k =>
          if k =? len then Ok (set_editor s1 (set_dirty E1 0), rest)
          else Ok (s1, rest)
      | _ => Ok (s1, rest)
      end = Ok (s1, rest)).
Proof.
  intros Hok out len io s1.
  assert (Hlen : len = Z.of_nat (length out))
    by (apply editorRowsToString_length; exact Hok).
  split.
  - intros Hio. subst s1. rewrite Hio, <- Hlen, Z.eqb_refl.
    split; [reflexivity|]. cbn [files]. rewrite Hlen.
    apply sys_save_done.
  - intros Hio. destruct io as [| |k]; try reflexivity.
    destruct (Z.eqb_spec k len) as [K|_]; [|reflexivity].
    contradiction Hio. rewrite K, Hlen. reflexivity.
Qed.

(** X27.  Ctrl-S on a buffer that has a file name.  On a well-formed
    buffer, [editorSave] returns without reading a key.  When the system
    calls succeed, the file of that name holds the rows of the buffer,
    each followed by a line feed, the other files are as they were, and
    [dirty] is 0; if moreover no row holds a line feed or ends in a
    carriage return, [editorOpen] on that file gives a buffer with the
    same text.  When a system call fails, the editor state is as it was,
    [dirty] included. *)
Theorem editorSave_writes_buffer :
  forall screenrows screencols keys s name,
    buffer_ok (editor s) -> filename (editor s) = Some name ->
    (answers s = []
     \/ (exists more,
            answers s
            = WriteReturns
                (Z.of_nat (length (fst (editorRowsToString (editor s)))))
              :: more) ->
     exists s',
       editorSave screenrows screencols keys s = Ok (s', keys)
       /\ editor s' = set_dirty (editor s) 0
       /\ files s' name = Some (fst (editorRowsToString (editor s)))
       /\ (forall other, other <> name -> files s' other = files s other)
       /\ (Forall (fun l => ~ In LF l /\ forall pre, l <> pre ++ [CR])
             (text (editor s)) ->
           exists E',
             editorOpen name (files s' name) initEditor = Ok E'
             /\ buffer_ok E' /\ text E' = text (editor s)))
    /\ (forall a more,
           answers s = a :: more ->
           a <> WriteReturns
                  (Z.of_nat (length (fst (editorRowsToString (editor s))))) ->
           exists s',
             editorSave screenrows screencols keys s = Ok (s', keys)
             /\ editor s' = editor s /\ answers s' = more).
Proof.
  intros sr sc keys s name Hok Hf.
  pose proof (save_named s (editor s) name keys Hok) as Hsave.
  cbv zeta in Hsave. destruct Hsave as [Hdone Hfail].
  pose proof (editorRowsToString_length (editor s) Hok) as Hlen.
  unfold editorSave. rewrite Hf. cbn [bind]. cbv zeta.
  split.
  - intros Hans.
    assert (Hio : match answers s with
                  | a :: _ => a
                  | [] => WriteReturns (snd (editorRowsToString (editor s)))
                  end
                  = WriteReturns
                      (Z.of_nat
                         (length (fst (editorRowsToString (editor s)))))).
    { destruct Hans as [->|[more ->]]; [rewrite Hlen|]; reflexivity. }
    destruct (Hdone Hio) as (He & Hfile & Hother).
    rewrite He. eexists. split; [reflexivity|].
    cbn [editor files set_editor] in *.
    split; [reflexivity|]. split; [exact Hfile|]. split; [exact Hother|].
    intros Hlines. rewrite Hfile.
    destruct (editorOpen_rows name (fst (editorRowsToString (editor s))))
      as (E' & Ho & Hok' & _ & Ht).
    exists E'. split; [exact Ho|]. split; [exact Hok'|].
    unfold text. rewrite Ht, (editorRowsToString_spec _ Hok).
    fold (text (editor s)). rewrite split_lines_join.
    + rewrite <- (map_id (text (editor s))) at 2. apply map_ext_in.
      intros l Hl. apply strip_trailing_keeps.
      apply (proj1 (Forall_forall _ _) Hlines l Hl).
    + apply Forall_forall. intros l Hl.
      apply (proj1 (Forall_forall _ _) Hlines l Hl).
  - intros a more Ha Hne. rewrite Ha in *.
    rewrite (Hfail Hne). eexists. split; [reflexivity|].
    split; reflexivity.
Qed.

Lemma editorSave_writes_buffer_witness :
  buffer_ok (editor (session_on loaded_doc))
  /\ filename (editor (session_on loaded_doc)) = Some (s2l "x.c")
  /\ Forall (fun l => ~ In LF l /\ forall pre, l <> pre ++ [CR])
       (text (editor (session_on loaded_doc)))
  /\ exists s' E',
      editorSave 20 80 [104] (session_on loaded_doc) = Ok (s', [104])
      /\ files s' (s2l "x.c")
         = Some (fst (editorRowsToString (editor (session_on loaded_doc))))
      /\ editorOpen (s2l "x.c") (files s' (s2l "x.c")) initEditor = Ok E'
      /\ text E' = text (editor (session_on loaded_doc)).
Proof.
  assert (Hok : buffer_ok (editor (session_on loaded_doc)))
    by (apply buffer_okb_sound; vm_compute; reflexivity).
  assert (Hf : filename (editor (session_on loaded_doc)) = Some (s2l "x.c"))
    by (vm_compute; reflexivity).
  assert (Hl : Forall (fun l => ~ In LF l /\ forall pre, l <> pre ++ [CR])
                 (text (editor (session_on loaded_doc))))
    by (apply plain_lineb_sound; vm_compute; reflexivity).
  split; [exact Hok|]. split; [exact Hf|]. split; [exact Hl|].
  destruct (editorSave_writes_buffer 20 80 [104] _ _ Hok Hf) as [Hdone _].
  destruct (Hdone (or_introl eq_refl))
    as (s' & He & _ & Hfile & _ & Hopen).
  destruct (Hopen Hl) as (E' & Ho & _ & Ht).
  exists s', E'. split; [exact He|]. split; [exact Hfile|].
  split; [exact Ho | exact Ht].
Defined.

(** The prompt without a callback, on keys that end in Escape. *)
Lemma editorPrompt_aborted {S : Type} (screenrows screencols : Z)
  (pre after : list Z) :
  forall (buf : list ascii) (st : S) (E : editorConfig),
    numrows E <= Z.of_nat (length (row E)) -> 0 <= cy E ->
    Forall editing_key pre ->
    exists E',
      editorPrompt screenrows screencols None (pre ++ KEY_ESC :: after) buf
        st E
      = Ok (None, st, E', after)
      /\ same_but_view E E'.
Proof.
  induction pre as [|c pre IH]; intros buf st E Hnum Hcy Hpre;
    cbn [app editorPrompt];
    destruct (editorScroll_total screenrows screencols E Hnum Hcy)
      as [E1 He1];
    destruct (editorScroll_rowoff _ _ _ _ He1) as [Hv _];
    destruct (same_but_view_ok _ _ Hv)
      as (_ & _ & _ & V1 & V2 & _ & V4 & _);
    rewrite He1; cbn [bind].
  - change ((KEY_ESC =? CTRL_KEY KEY_x) || (KEY_ESC =? BACKSPACE)) with false.
    change (KEY_ESC =? KEY_ESC) with true. cbv iota.
    cbn [call_back bind fst snd].
    exists E1. split; [reflexivity | exact Hv].
  - inversion Hpre as [|c' pre' (Hnesc & Hnent) Hrest]; subst.
    assert (Hnext : forall b,
               exists E',
                 editorPrompt screenrows screencols None
                   (pre ++ KEY_ESC :: after) b st E1
                 = Ok (None, st, E', after)
                 /\ same_but_view E E').
    { intros b.
      destruct (IH b st E1) as (E' & He' & Hv');
        [rewrite V1, V2; exact Hnum | rewrite V4; exact Hcy | exact Hrest |].
      exists E'. split; [exact He'|].
      exact (same_but_view_trans _ _ _ Hv Hv'). }
    destruct ((c =? CTRL_KEY KEY_x) || (c =? BACKSPACE));
      [cbn [call_back bind fst snd]; apply Hnext|].
    destruct (Z.eqb_spec c KEY_ESC); [contradiction|].
    destruct (Z.eqb_spec c KEY_ENTER); [contradiction|].
    cbn [call_back bind fst snd]. apply Hnext.
Qed.

(** X28.  Ctrl-S on a buffer that has no file name.  On a well-formed
    buffer whose cursor line is not negative, [editorSave] asks for the
    name.  On printable characters (at least one) and Enter, with system
    calls that succeed, it returns with the keys after the Enter unread:
    the characters are the file name, the syntax is the first entry of
    the registry that matches the name, the highlight is consistent when
    there is one, the text is as it was, [dirty] is 0, and the file of
    that name holds the rows of the buffer.  On keys other than Enter and
    Escape and then Escape the save is aborted: no more of the state than
    [rx] and the scroll offsets has changed, and the disk is as it
    was. *)
Theorem save_as_names_buffer :
  forall screenrows screencols s,
    buffer_ok (editor s) -> 0 <= cy (editor s) ->
    filename (editor s) = None ->
    (forall ks after,
        Forall printable ks -> ks <> [] -> answers s = [] ->
        exists s',
          editorSave screenrows screencols (ks ++ KEY_ENTER :: after) s
          = Ok (s', after)
          /\ buffer_ok (editor s')
          /\ filename (editor s') = Some (map char_of_int ks)
          /\ syntax (editor s') = select_syntax HLDB (map char_of_int ks)
          /\ (syntax (editor s') <> None ->
              highlight_consistent (editor s'))
          /\ text (editor s') = text (editor s)
          /\ dirty (editor s') = 0
          /\ files s' (map char_of_int ks)
             = Some (fst (editorRowsToString (editor s))))
    /\ (forall pre after,
           Forall editing_key pre ->
           exists s',
             editorSave screenrows screencols (pre ++ KEY_ESC :: after) s
             = Ok (s', after)
             /\ refreshed s s' /\ quit_times s' = quit_times s).
Proof.
  intros sr sc s Hok Hcy Hf. pose proof Hok as (Hn & _).
  unfold editorSave. rewrite Hf. split.
  - intros ks after Hks Hne Hans.
    destruct (editorPrompt_typed sr sc ks [] tt (editor s) after)
      as (E1 & -> & HE1); [lia | exact Hcy | exact Hks | |].
    { destruct ks; [contradiction Hne; reflexivity | discriminate]. }
    cbn [bind app].
    rewrite (nul_free_c_str _ (printable_nul_free ks Hks)).
    set (name := map char_of_int ks).
    assert (Hv : same_but_view (editor s) E1)
      by (rewrite HE1; unfold same_but_view; eauto).
    destruct (same_but_view_ok _ _ Hv) as (V1 & _ & _ & Vr & _).
    destruct (editorSelectSyntaxHighlight_session
                (set_filename E1 (Some name)) (V1 Hok))
      as (E2 & -> & Hok2 & Hsb & Hsyn & Hhl).
    cbn [bind].
    pose proof (save_named s E2 name after Hok2) as Hsave.
    cbv zeta in Hsave. destruct Hsave as [Hdone _].
    pose proof (editorRowsToString_length E2 Hok2) as Hlen.
    cbv zeta. rewrite Hans in *.
    destruct (Hdone ltac:(rewrite Hlen; reflexivity)) as (He & Hfile & _).
    rewrite He. eexists. split; [reflexivity|].
    cbn [editor files set_editor] in *.
    assert (Ht : text E2 = text (editor s)).
    { rewrite (text_same_content _ _ (same_buffer_content _ _ Hsb)).
      unfold text. cbn [row set_syntax set_filename]. rewrite Vr.
      reflexivity. }
    split; [apply buffer_ok_set_dirty; exact Hok2|].
    destruct Hsb as (_ & _ & _ & _ & _ & _ & _ & Hfn & _).
    split; [exact Hfn|]. split; [exact Hsyn|]. split; [exact Hhl|].
    split; [exact Ht|]. split; [reflexivity|].
    rewrite Hfile. f_equal.
    rewrite (editorRowsToString_spec _ Hok2), (editorRowsToString_spec _ Hok).
    fold (text E2) (text (editor s)). rewrite Ht. reflexivity.
  - intros pre after Hpre.
    destruct (editorPrompt_aborted sr sc pre after [] tt (editor s))
      as (E1 & -> & Hv); [lia | exact Hcy | exact Hpre |].
    cbn [bind]. eexists. split; [reflexivity|].
    split; [|reflexivity]. split; [exact Hv|]. repeat split.
Qed.

Lemma save_as_names_buffer_witness :
  buffer_ok (editor (session_on (set_filename loaded_doc None)))
  /\ 0 <= cy (editor (session_on (set_filename loaded_doc None)))
  /\ filename (editor (session_on (set_filename loaded_doc None))) = None
  /\ Forall printable [104; 46; 99]
  /\ exists s',
      editorSave 20 80 ([104; 46; 99] ++ KEY_ENTER :: [ARROW_UP])
        (session_on (set_filename loaded_doc None))
      = Ok (s', [ARROW_UP])
      /\ filename (editor s') = Some (map char_of_int [104; 46; 99])
      /\ dirty (editor s') = 0.
Proof.
  assert (Hok : buffer_ok (editor (session_on (set_filename loaded_doc
                                                  None))))
    by (apply buffer_okb_sound; vm_compute; reflexivity).
  assert (Hcy : 0 <= cy (editor (session_on (set_filename loaded_doc None))))
    by (vm_compute; discriminate).
  assert (Hf : filename (editor (session_on (set_filename loaded_doc None)))
               = None) by reflexivity.
  assert (Hks : Forall printable [104; 46; 99])
    by (repeat constructor; unfold printable; lia).
  split; [exact Hok|]. split; [exact Hcy|]. split; [exact Hf|].
  split; [exact Hks|].
  destruct (save_as_names_buffer 20 80 _ Hok Hcy Hf) as [Hnamed _].
  destruct (Hnamed [104; 46; 99] [ARROW_UP] Hks ltac:(discriminate)
              eq_refl)
    as (s' & He & _ & Hname & _ & _ & _ & Hd & _).
  exists s'. split; [exact He|]. split; [exact Hname | exact Hd].
Defined.

(** [ARROW_RIGHT] between two keys, and what it does to the document. *)
Lemma move_right_refines (E : editorConfig) :
  editor_ok E ->
  exists E',
    editorMoveCursor ARROW_RIGHT E = Ok E' /\ editor_ok E'
    /\ doc_of E' = doc_right (doc_of E).
Proof.
  intros He. pose proof He as (Hok & Hrd & Hc & Hro).
  pose proof Hc as (Hcy & Hcx & Hend & Hrow). pose proof Hok as (Hnum & _).
  assert (Hsw : forall x y,
             move_switch ARROW_RIGHT E = Ok (set_cursor E x y) ->
             cursor_ok (set_cursor E x y) ->
             doc_right (doc_of E) = mkDoc (text E) x y ->
             exists E',
               editorMoveCursor ARROW_RIGHT E = Ok E' /\ editor_ok E'
               /\ doc_of E' = doc_right (doc_of E)).
  { intros x y Hm Hcur Hdoc. exists (set_cursor E x y).
    split; [exact (move_to _ _ _ _ Hok Hm Hcur)|].
    split; [exact (editor_ok_set_cursor _ _ _ He Hcur)|].
    rewrite Hdoc. reflexivity. }
  unfold move_switch in Hsw.
  change (ARROW_RIGHT =? ARROW_LEFT) with false in Hsw.
  change (ARROW_RIGHT =? ARROW_RIGHT) with true in Hsw. cbv iota in Hsw.
  unfold doc_right, doc_of in Hsw |- *.
  cbn [doc_lines doc_col doc_line] in Hsw |- *.
  rewrite text_length, <- Hnum in Hsw |- *.
  destruct (Z.geb_spec (cy E) (numrows E)) as [Hge|Hlt].
  - apply (Hsw (cx E) (cy E)).
    + rewrite set_cursor_same. reflexivity.
    + rewrite set_cursor_same. exact Hc.
    + destruct (Z.ltb_spec (cy E) (numrows E)); [lia | reflexivity].
  - destruct (row_at_cursor E (cy E) Hok ltac:(lia)) as [r Hr].
    pose proof (Hrow r Hr) as Hle.
    destruct (buffer_ok_row _ _ _ Hok Hr) as (Hs & _).
    rewrite (row_ref_some E (cy E) r ltac:(lia) Hr) in Hsw.
    cbn [bind] in Hsw.
    rewrite (line_at_row E (cy E) r Hr), <- Hs in Hsw |- *.
    destruct (Z.ltb_spec (cy E) (numrows E)) as [_|K]; [|lia].
    destruct (Z.ltb_spec (cx E) (size r)) as [Hin|Hat].
    + apply (Hsw (cx E + 1) (cy E)); [reflexivity | | reflexivity].
      apply cursor_ok_set; try lia; [exact Hok|].
      intros r' Hr'. assert (r' = r) by congruence. subst. lia.
    + destruct (Z.eqb_spec (cx E) (size r)) as [_|K]; [|lia].
      apply (Hsw 0 (cy E + 1)); [reflexivity | | reflexivity].
      apply cursor_ok_set; try lia; [exact Hok|].
      intros r' Hr'.
      destruct (buffer_ok_row _ _ _ Hok Hr') as (Hs' & _). lia.
Qed.

(** What [editorProcessKeypress] calls for a key that changes the
    text. *)
Lemma text_key_handler (screenrows screencols qt c : Z) (rest : list Z)
  (s : session) :
  text_key c ->
  editorProcessKeypress screenrows screencols qt (c :: rest) s
  = (E' <- (if c =? KEY_ENTER then editorInsertNewline (editor s)
            else if c =? BACKSPACE then editorDelChar (editor s)
            else if c =? CTRL_KEY KEY_x then
              E1 <- editorMoveCursor ARROW_RIGHT (editor s) ;;
              editorDelChar E1
            else editorInsertChar c (editor s)) ;;
     Ok (Some (mkSession E' qt (find_vars s) (files s) (answers s), rest))).
Proof.
  intros [Hc|[->|[->| ->]]]; [|reflexivity | reflexivity |].
  - unfold editorProcessKeypress, printable in *. cbv zeta.
    change (CTRL_KEY KEY_q) with 17. change (CTRL_KEY KEY_s) with 19.
    change (CTRL_KEY KEY_j) with 10. change (CTRL_KEY KEY_k) with 11.
    change (CTRL_KEY KEY_d) with 4. change (CTRL_KEY KEY_f) with 6.
    change (CTRL_KEY KEY_x) with 24. change (CTRL_KEY KEY_l) with 12.
    unfold KEY_ENTER, BACKSPACE, PAGE_UP, PAGE_DOWN, ARROW_UP, ARROW_DOWN,
      ARROW_LEFT, ARROW_RIGHT, KEY_ESC.
    repeat match goal with
           | |- context [?a =? ?b] =>
               destruct (Z.eqb_spec a b); [lia|]
           end.
    reflexivity.
  - change (editorProcessKeypress screenrows screencols qt
              (CTRL_KEY KEY_x :: rest) s)
      with (E1 <- editorMoveCursor ARROW_RIGHT (editor s) ;;
            E' <- editorDelChar E1 ;;
            Ok (Some (mkSession E' qt (find_vars s) (files s) (answers s),
                      rest))).
    change (CTRL_KEY KEY_x =? KEY_ENTER) with false.
    change (CTRL_KEY KEY_x =? BACKSPACE) with false.
    change (CTRL_KEY KEY_x =? CTRL_KEY KEY_x) with true. cbv iota.
    destruct (editorMoveCursor ARROW_RIGHT (editor s)); reflexivity.
Qed.

Lemma main_loop_step (fuel : nat) (screenrows screencols qt : Z)
  (keys : list Z) (s : session) :
  main_loop (S fuel) screenrows screencols qt keys s
  = (E1 <- editorScroll screenrows screencols (editor s) ;;
     match keys with
     | [] => Ok (Wait (set_editor s E1))
     | _ :: _ =>
         r <- editorProcessKeypress screenrows screencols qt keys
                (set_editor s E1) ;;
         match r with
         | None => Ok (Exit (set_editor s E1))
         | Some (s', rest) => main_loop fuel screenrows screencols qt rest s'
         end
     end).
Proof. reflexivity. Qed.

Lemma doc_of_same_but_view (E E' : editorConfig) :
  same_but_view E E' -> doc_of E' = doc_of E.
Proof.
  intros (x & co & ro & ->). reflexivity.
Qed.

(** X29.  The keys that change the text refine the operations of the
    document.  From a state between two keys, with a text window of one
    line at least, on keys that are printable characters, Enter,
    Backspace or Ctrl-X, the loop of [main] reads every key and waits for
    the next one, in a state between two keys: the lines and the cursor
    of the buffer are those that the operations of the document give,
    applied key after key: [type_char], [break_line], [backspace], and
    for Ctrl-X [backspace] after a step of the cursor to the right; the
    disk is as it was. *)
Theorem typing_refines_document :
  forall screenrows screencols qt keys s,
    1 <= screenrows -> session_ok s -> Forall text_key keys ->
    exists s',
      main_loop (S (length keys)) screenrows screencols qt keys s
      = Ok (Wait s')
      /\ session_ok s'
      /\ doc_of (editor s') = fold_left doc_key keys (doc_of (editor s))
      /\ files s' = files s.
Proof.
  intros sr sc qt keys. induction keys as [|c rest IH];
    intros s Hsr Hs Hkeys; rewrite main_loop_step;
    destruct (refresh_session sr sc s Hsr Hs) as (E1 & -> & Hv & Hs1 & _);
    cbn [bind].
  - eexists. split; [reflexivity|]. split; [exact Hs1|].
    split; [exact (doc_of_same_but_view _ _ Hv) | reflexivity].
  - inversion Hkeys as [|c' rest' Hc Hrest]; subst.
    rewrite (text_key_handler sr sc qt c rest _ Hc).
    cbn [editor find_vars files answers set_editor].
    destruct Hs1 as (He1 & Hidle).
    destruct (edits_keep_editor E1 He1) as (Hins & Hnl & Hdel).
    assert (Hedit : exists E',
               (if c =? KEY_ENTER then editorInsertNewline E1
                else if c =? BACKSPACE then editorDelChar E1
                else if c =? CTRL_KEY KEY_x then
                  E2 <- editorMoveCursor ARROW_RIGHT E1 ;; editorDelChar E2
                else editorInsertChar c E1) = Ok E'
               /\ editor_ok E' /\ doc_of E' = doc_key (doc_of E1) c).
    { unfold doc_key. destruct (c =? KEY_ENTER); [exact Hnl|].
      destruct (c =? BACKSPACE); [exact Hdel|].
      destruct (c =? CTRL_KEY KEY_x); [|apply Hins].
      destruct (move_right_refines E1 He1) as (E2 & -> & He2 & Hd2).
      cbn [bind].
      destruct (edits_keep_editor E2 He2) as (_ & _ & E' & He' & Hok' & Hd').
      exists E'. split; [exact He'|]. split; [exact Hok'|].
      rewrite Hd', Hd2. reflexivity. }
    destruct Hedit as (E' & -> & He' & Hdoc). cbn [bind].
    change (length (c :: rest)) with (S (length rest)).
    destruct (IH (mkSession E' qt (find_vars s) (files s) (answers s)) Hsr
                (conj He' Hidle) Hrest)
      as (s' & -> & Hs' & Hd' & Hf').
    exists s'. split; [reflexivity|]. split; [exact Hs'|].
    cbn [editor files] in *. split; [|exact Hf'].
    rewrite Hd', Hdoc, (doc_of_same_but_view _ _ Hv). reflexivity.
Qed.

Lemma typing_refines_document_witness :
  1 <= 20 /\ session_ok (session_on loaded_doc)
  /\ Forall text_key [104; KEY_ENTER; 105; BACKSPACE; CTRL_KEY KEY_x]
  /\ exists s',
      main_loop (S (length [104; KEY_ENTER; 105; BACKSPACE; CTRL_KEY KEY_x]))
        20 80 3 [104; KEY_ENTER; 105; BACKSPACE; CTRL_KEY KEY_x]
        (session_on loaded_doc)
      = Ok (Wait s')
      /\ doc_of (editor s')
         = fold_left doc_key
             [104; KEY_ENTER; 105; BACKSPACE; CTRL_KEY KEY_x]
             (doc_of (editor (session_on loaded_doc))).
Proof.
  assert (H1 : 1 <= 20) by lia.
  assert (H2 : session_ok (session_on loaded_doc)).
  { split; [|exact find_idle_init].
    apply editor_okb_sound. vm_compute. reflexivity. }
  assert (H3 : Forall text_key
                 [104; KEY_ENTER; 105; BACKSPACE; CTRL_KEY KEY_x]).
  { apply Forall_cons; [left; unfold printable; lia|].
    apply Forall_cons; [right; left; reflexivity|].
    apply Forall_cons; [left; unfold printable; lia|].
    apply Forall_cons; [right; right; left; reflexivity|].
    apply Forall_cons; [right; right; right; reflexivity|].
    apply Forall_nil. }
  split; [exact H1|]. split; [exact H2|]. split; [exact H3|].
  destruct (typing_refines_document 20 80 3 _ _ H1 H2 H3)
    as (s' & He & _ & Hd & _).
  exists s'. split; [exact He | exact Hd].
Defined.

(** X30.  The page keys move the cursor by a screen from the window.
    On a well-formed buffer, with a text window of [screenrows >= 1]
    lines, a cursor column that is not negative and a row offset between
    0 and [numrows]: Page Up leaves the cursor [screenrows] lines above
    the first line of the window, or on line 0; Page Down leaves it
    [screenrows] lines below the last line of the window, or after the
    last row; nothing but the cursor changes, and the cursor is valid
    afterwards, whatever its column was. *)
Theorem page_keys_move_by_screen :
  forall screenrows screencols qt rest s,
    1 <= screenrows -> buffer_ok (editor s) -> 0 <= cx (editor s) ->
    0 <= rowoff (editor s) <= numrows (editor s) ->
    (exists x,
        editorProcessKeypress screenrows screencols qt (PAGE_UP :: rest) s
        = Ok (Some (mkSession
                      (set_cursor (editor s) x
                         (Z.max 0 (rowoff (editor s) - screenrows)))
                      qt (find_vars s) (files s) (answers s), rest))
        /\ cursor_ok (set_cursor (editor s) x
                        (Z.max 0 (rowoff (editor s) - screenrows))))
    /\ (exists x,
           editorProcessKeypress screenrows screencols qt
             (PAGE_DOWN :: rest) s
           = Ok (Some (mkSession
                         (set_cursor (editor s) x
                            (Z.min (numrows (editor s))
                               (rowoff (editor s) + 2 * screenrows - 1)))
                         qt (find_vars s) (files s) (answers s), rest))
           /\ cursor_ok (set_cursor (editor s) x
                           (Z.min (numrows (editor s))
                              (rowoff (editor s) + 2 * screenrows - 1)))).
Proof.
  intros sr sc qt rest s Hsr Hok Hcx Hro.
  assert (Hnz : Z.to_nat sr <> 0%nat) by lia.
  split.
  - change (editorProcessKeypress sr sc qt (PAGE_UP :: rest) s)
      with (if sr <? 0 then OutOfFuel
            else E' <- move_times (Z.to_nat sr) ARROW_UP
                         (set_cy (editor s) (rowoff (editor s))) ;;
                 Ok (Some (mkSession E' qt (find_vars s) (files s)
                             (answers s), rest))).
    destruct (Z.ltb_spec sr 0); [lia|].
    destruct (move_times_ok (Z.to_nat sr) ARROW_UP
                (set_cy (editor s) (rowoff (editor s)))
                (buffer_ok_set_cursor _ _ _ Hok) Hro Hcx)
      as (x & y & -> & _ & _ & Hc & Hup & _).
    cbn [bind]. unfold set_cy in *. rewrite set_cursor_set in *.
    rewrite (Hup eq_refl) in *. cbn [cy set_cursor] in *.
    rewrite Z2Nat.id in * by lia.
    exists x. split; [reflexivity|]. apply Hc. right. exact Hnz.
  - change (editorProcessKeypress sr sc qt (PAGE_DOWN :: rest) s)
      with (if sr <? 0 then OutOfFuel
            else E' <- move_times (Z.to_nat sr) ARROW_DOWN
                         (if rowoff (editor s) + sr - 1 >? numrows (editor s)
                          then set_cy
                                 (set_cy (editor s)
                                    (rowoff (editor s) + sr - 1))
                                 (numrows (editor s))
                          else set_cy (editor s)
                                 (rowoff (editor s) + sr - 1)) ;;
                 Ok (Some (mkSession E' qt (find_vars s) (files s)
                             (answers s), rest))).
    destruct (Z.ltb_spec sr 0); [lia|].
    destruct (Z.gtb_spec (rowoff (editor s) + sr - 1) (numrows (editor s)))
      as [Hgt|Hle].
    + destruct (move_times_ok (Z.to_nat sr) ARROW_DOWN
                  (set_cy (set_cy (editor s) (rowoff (editor s) + sr - 1))
                     (numrows (editor s))))
        as (x & y & -> & _ & _ & Hc & _ & Hdown);
        [exact Hok | cbn [cy numrows set_cy set_cursor]; lia | exact Hcx |].
      cbn [bind]. unfold set_cy in *. rewrite !set_cursor_set in *.
      rewrite (Hdown eq_refl) in *. cbn [cy numrows set_cursor] in *.
      rewrite Z2Nat.id in * by lia.
      replace (Z.min (numrows (editor s)) (numrows (editor s) + sr))
        with (Z.min (numrows (editor s)) (rowoff (editor s) + 2 * sr - 1))
        in * by lia.
      exists x. split; [reflexivity|]. apply Hc. right. exact Hnz.
    + destruct (move_times_ok (Z.to_nat sr) ARROW_DOWN
                  (set_cy (editor s) (rowoff (editor s) + sr - 1)))
        as (x & y & -> & _ & _ & Hc & _ & Hdown);
        [exact Hok | cbn [cy numrows set_cy set_cursor]; lia | exact Hcx |].
      cbn [bind]. unfold set_cy in *. rewrite !set_cursor_set in *.
      rewrite (Hdown eq_refl) in *. cbn [cy numrows set_cursor] in *.
      rewrite Z2Nat.id in * by lia.
      replace (rowoff (editor s) + sr - 1 + sr)
        with (rowoff (editor s) + 2 * sr - 1) in * by lia.
      exists x. split; [reflexivity|]. apply Hc. right. exact Hnz.
Qed.

Lemma page_keys_move_by_screen_witness :
  1 <= 2
  /\ buffer_ok (editor (session_on (set_cursor loaded_doc 40 1)))
  /\ 0 <= cx (editor (session_on (set_cursor loaded_doc 40 1)))
  /\ 0 <= rowoff (editor (session_on (set_cursor loaded_doc 40 1)))
     <= numrows (editor (session_on (set_cursor loaded_doc 40 1)))
  /\ exists x,
      editorProcessKeypress 2 80 3 [PAGE_DOWN]
        (session_on (set_cursor loaded_doc 40 1))
      = Ok (Some (mkSession
                    (set_cursor
                       (editor (session_on (set_cursor loaded_doc 40 1))) x
                       (Z.min
                          (numrows
                             (editor
                                (session_on (set_cursor loaded_doc 40 1))))
                          (rowoff
                             (editor
                                (session_on (set_cursor loaded_doc 40 1)))
                           + 2 * 2 - 1)))
                    3 (find_vars (session_on (set_cursor loaded_doc 40 1)))
                    (files (session_on (set_cursor loaded_doc 40 1)))
                    (answers (session_on (set_cursor loaded_doc 40 1))),
                  [])).
Proof.
  assert (H1 : 1 <= 2) by lia.
  assert (H2 : buffer_ok (editor (session_on (set_cursor loaded_doc 40 1))))
    by (apply buffer_okb_sound; vm_compute; reflexivity).
  assert (H3 : 0 <= cx (editor (session_on (set_cursor loaded_doc 40 1))))
    by discriminate.
  assert (H4 : 0 <= rowoff (editor (session_on (set_cursor loaded_doc 40 1)))
               <= numrows (editor (session_on (set_cursor loaded_doc 40 1))))
    by (vm_compute; split; discriminate).
  split; [exact H1|]. split; [exact H2|]. split; [exact H3|].
  split; [exact H4|].
  destruct (page_keys_move_by_screen 2 80 3 [] _ H1 H2 H3 H4)
    as (_ & x & He & _).
  exists x. exact He.
Defined.
